(** * auTOols / MapMod: the Google Maps edit bot ([src/MapMod/main.py])

    A shallow embedding of the UI-resolution engine of [GoogleMapsEditBot]:
    the in-page JavaScript queries (over a small DOM model), the frame
    evaluator, the coordinate click dispatcher with its suppression flag,
    and the Python orchestration ([open_suggest_edit], [submit_name_change],
    [submit_address_change], [suggest_general_edit], [main_async]) written
    in a state-and-exception monad over an abstract browser session. *)

From Stdlib Require Import String Ascii List ZArith QArith Bool Lia.
From stdpp Require Import base option list gmap strings pretty.
Import ListNotations.
Local Open Scope string_scope.
Local Open Scope list_scope.

(** ** Unicode character data

    Page texts are Unicode strings. The tables below are those of the
    Unicode Character Database, version 14.0.0, as CPython 3.11 carries
    them: ranges of code points are inclusive, and a case mapping lists
    the code points that replace a character (every character that is
    not listed maps to itself). *)

Module Unicode.

(** [c.isspace()]: the characters that [str.strip] removes. *)
Definition whitespace : list (N * N) :=
  [ (9, 13); (28, 32); (133, 133); (160, 160); (5760, 5760); (8192, 8202); (8232, 8233);
    (8239, 8239); (8287, 8287); (12288, 12288) ]%N.

(** [c.isprintable()]: every character outside the categories Other and
    Separator, and the blank. *)
Definition printable : list (N * N) :=
  [ (32, 126); (161, 172); (174, 887); (890, 895); (900, 906); (908, 908); (910, 929);
    (931, 1327); (1329, 1366); (1369, 1418); (1421, 1423); (1425, 1479); (1488, 1514);
    (1519, 1524); (1542, 1563); (1565, 1756); (1758, 1805); (1808, 1866); (1869, 1969);
    (1984, 2042); (2045, 2093); (2096, 2110); (2112, 2139); (2142, 2142); (2144, 2154);
    (2160, 2190); (2200, 2273); (2275, 2435); (2437, 2444); (2447, 2448); (2451, 2472);
    (2474, 2480); (2482, 2482); (2486, 2489); (2492, 2500); (2503, 2504); (2507, 2510);
    (2519, 2519); (2524, 2525); (2527, 2531); (2534, 2558); (2561, 2563); (2565, 2570);
    (2575, 2576); (2579, 2600); (2602, 2608); (2610, 2611); (2613, 2614); (2616, 2617);
    (2620, 2620); (2622, 2626); (2631, 2632); (2635, 2637); (2641, 2641); (2649, 2652);
    (2654, 2654); (2662, 2678); (2689, 2691); (2693, 2701); (2703, 2705); (2707, 2728);
    (2730, 2736); (2738, 2739); (2741, 2745); (2748, 2757); (2759, 2761); (2763, 2765);
    (2768, 2768); (2784, 2787); (2790, 2801); (2809, 2815); (2817, 2819); (2821, 2828);
    (2831, 2832); (2835, 2856); (2858, 2864); (2866, 2867); (2869, 2873); (2876, 2884);
    (2887, 2888); (2891, 2893); (2901, 2903); (2908, 2909); (2911, 2915); (2918, 2935);
    (2946, 2947); (2949, 2954); (2958, 2960); (2962, 2965); (2969, 2970); (2972, 2972);
    (2974, 2975); (2979, 2980); (2984, 2986); (2990, 3001); (3006, 3010); (3014, 3016);
    (3018, 3021); (3024, 3024); (3031, 3031); (3046, 3066); (3072, 3084); (3086, 3088);
    (3090, 3112); (3114, 3129); (3132, 3140); (3142, 3144); (3146, 3149); (3157, 3158);
    (3160, 3162); (3165, 3165); (3168, 3171); (3174, 3183); (3191, 3212); (3214, 3216);
    (3218, 3240); (3242, 3251); (3253, 3257); (3260, 3268); (3270, 3272); (3274, 3277);
    (3285, 3286); (3293, 3294); (3296, 3299); (3302, 3311); (3313, 3314); (3328, 3340);
    (3342, 3344); (3346, 3396); (3398, 3400); (3402, 3407); (3412, 3427); (3430, 3455);
    (3457, 3459); (3461, 3478); (3482, 3505); (3507, 3515); (3517, 3517); (3520, 3526);
    (3530, 3530); (3535, 3540); (3542, 3542); (3544, 3551); (3558, 3567); (3570, 3572);
    (3585, 3642); (3647, 3675); (3713, 3714); (3716, 3716); (3718, 3722); (3724, 3747);
    (3749, 3749); (3751, 3773); (3776, 3780); (3782, 3782); (3784, 3789); (3792, 3801);
    (3804, 3807); (3840, 3911); (3913, 3948); (3953, 3991); (3993, 4028); (4030, 4044);
    (4046, 4058); (4096, 4293); (4295, 4295); (4301, 4301); (4304, 4680); (4682, 4685);
    (4688, 4694); (4696, 4696); (4698, 4701); (4704, 4744); (4746, 4749); (4752, 4784);
    (4786, 4789); (4792, 4798); (4800, 4800); (4802, 4805); (4808, 4822); (4824, 4880);
    (4882, 4885); (4888, 4954); (4957, 4988); (4992, 5017); (5024, 5109); (5112, 5117);
    (5120, 5759); (5761, 5788); (5792, 5880); (5888, 5909); (5919, 5942); (5952, 5971);
    (5984, 5996); (5998, 6000); (6002, 6003); (6016, 6109); (6112, 6121); (6128, 6137);
    (6144, 6157); (6159, 6169); (6176, 6264); (6272, 6314); (6320, 6389); (6400, 6430);
    (6432, 6443); (6448, 6459); (6464, 6464); (6468, 6509); (6512, 6516); (6528, 6571);
    (6576, 6601); (6608, 6618); (6622, 6683); (6686, 6750); (6752, 6780); (6783, 6793);
    (6800, 6809); (6816, 6829); (6832, 6862); (6912, 6988); (6992, 7038); (7040, 7155);
    (7164, 7223); (7227, 7241); (7245, 7304); (7312, 7354); (7357, 7367); (7376, 7418);
    (7424, 7957); (7960, 7965); (7968, 8005); (8008, 8013); (8016, 8023); (8025, 8025);
    (8027, 8027); (8029, 8029); (8031, 8061); (8064, 8116); (8118, 8132); (8134, 8147);
    (8150, 8155); (8157, 8175); (8178, 8180); (8182, 8190); (8208, 8231); (8240, 8286);
    (8304, 8305); (8308, 8334); (8336, 8348); (8352, 8384); (8400, 8432); (8448, 8587);
    (8592, 9254); (9280, 9290); (9312, 11123); (11126, 11157); (11159, 11507); (11513, 11557);
    (11559, 11559); (11565, 11565); (11568, 11623); (11631, 11632); (11647, 11670);
    (11680, 11686); (11688, 11694); (11696, 11702); (11704, 11710); (11712, 11718);
    (11720, 11726); (11728, 11734); (11736, 11742); (11744, 11869); (11904, 11929);
    (11931, 12019); (12032, 12245); (12272, 12283); (12289, 12351); (12353, 12438);
    (12441, 12543); (12549, 12591); (12593, 12686); (12688, 12771); (12784, 12830);
    (12832, 42124); (42128, 42182); (42192, 42539); (42560, 42743); (42752, 42954);
    (42960, 42961); (42963, 42963); (42965, 42969); (42994, 43052); (43056, 43065);
    (43072, 43127); (43136, 43205); (43214, 43225); (43232, 43347); (43359, 43388);
    (43392, 43469); (43471, 43481); (43486, 43518); (43520, 43574); (43584, 43597);
    (43600, 43609); (43612, 43714); (43739, 43766); (43777, 43782); (43785, 43790);
    (43793, 43798); (43808, 43814); (43816, 43822); (43824, 43883); (43888, 44013);
    (44016, 44025); (44032, 55203); (55216, 55238); (55243, 55291); (63744, 64109);
    (64112, 64217); (64256, 64262); (64275, 64279); (64285, 64310); (64312, 64316);
    (64318, 64318); (64320, 64321); (64323, 64324); (64326, 64450); (64467, 64911);
    (64914, 64967); (64975, 64975); (65008, 65049); (65056, 65106); (65108, 65126);
    (65128, 65131); (65136, 65140); (65142, 65276); (65281, 65470); (65474, 65479);
    (65482, 65487); (65490, 65495); (65498, 65500); (65504, 65510); (65512, 65518);
    (65532, 65533); (65536, 65547); (65549, 65574); (65576, 65594); (65596, 65597);
    (65599, 65613); (65616, 65629); (65664, 65786); (65792, 65794); (65799, 65843);
    (65847, 65934); (65936, 65948); (65952, 65952); (66000, 66045); (66176, 66204);
    (66208, 66256); (66272, 66299); (66304, 66339); (66349, 66378); (66384, 66426);
    (66432, 66461); (66463, 66499); (66504, 66517); (66560, 66717); (66720, 66729);
    (66736, 66771); (66776, 66811); (66816, 66855); (66864, 66915); (66927, 66938);
    (66940, 66954); (66956, 66962); (66964, 66965); (66967, 66977); (66979, 66993);
    (66995, 67001); (67003, 67004); (67072, 67382); (67392, 67413); (67424, 67431);
    (67456, 67461); (67463, 67504); (67506, 67514); (67584, 67589); (67592, 67592);
    (67594, 67637); (67639, 67640); (67644, 67644); (67647, 67669); (67671, 67742);
    (67751, 67759); (67808, 67826); (67828, 67829); (67835, 67867); (67871, 67897);
    (67903, 67903); (67968, 68023); (68028, 68047); (68050, 68099); (68101, 68102);
    (68108, 68115); (68117, 68119); (68121, 68149); (68152, 68154); (68159, 68168);
    (68176, 68184); (68192, 68255); (68288, 68326); (68331, 68342); (68352, 68405);
    (68409, 68437); (68440, 68466); (68472, 68497); (68505, 68508); (68521, 68527);
    (68608, 68680); (68736, 68786); (68800, 68850); (68858, 68903); (68912, 68921);
    (69216, 69246); (69248, 69289); (69291, 69293); (69296, 69297); (69376, 69415);
    (69424, 69465); (69488, 69513); (69552, 69579); (69600, 69622); (69632, 69709);
    (69714, 69749); (69759, 69820); (69822, 69826); (69840, 69864); (69872, 69881);
    (69888, 69940); (69942, 69959); (69968, 70006); (70016, 70111); (70113, 70132);
    (70144, 70161); (70163, 70206); (70272, 70278); (70280, 70280); (70282, 70285);
    (70287, 70301); (70303, 70313); (70320, 70378); (70384, 70393); (70400, 70403);
    (70405, 70412); (70415, 70416); (70419, 70440); (70442, 70448); (70450, 70451);
    (70453, 70457); (70459, 70468); (70471, 70472); (70475, 70477); (70480, 70480);
    (70487, 70487); (70493, 70499); (70502, 70508); (70512, 70516); (70656, 70747);
    (70749, 70753); (70784, 70855); (70864, 70873); (71040, 71093); (71096, 71133);
    (71168, 71236); (71248, 71257); (71264, 71276); (71296, 71353); (71360, 71369);
    (71424, 71450); (71453, 71467); (71472, 71494); (71680, 71739); (71840, 71922);
    (71935, 71942); (71945, 71945); (71948, 71955); (71957, 71958); (71960, 71989);
    (71991, 71992); (71995, 72006); (72016, 72025); (72096, 72103); (72106, 72151);
    (72154, 72164); (72192, 72263); (72272, 72354); (72368, 72440); (72704, 72712);
    (72714, 72758); (72760, 72773); (72784, 72812); (72816, 72847); (72850, 72871);
    (72873, 72886); (72960, 72966); (72968, 72969); (72971, 73014); (73018, 73018);
    (73020, 73021); (73023, 73031); (73040, 73049); (73056, 73061); (73063, 73064);
    (73066, 73102); (73104, 73105); (73107, 73112); (73120, 73129); (73440, 73464);
    (73648, 73648); (73664, 73713); (73727, 74649); (74752, 74862); (74864, 74868);
    (74880, 75075); (77712, 77810); (77824, 78894); (82944, 83526); (92160, 92728);
    (92736, 92766); (92768, 92777); (92782, 92862); (92864, 92873); (92880, 92909);
    (92912, 92917); (92928, 92997); (93008, 93017); (93019, 93025); (93027, 93047);
    (93053, 93071); (93760, 93850); (93952, 94026); (94031, 94087); (94095, 94111);
    (94176, 94180); (94192, 94193); (94208, 100343); (100352, 101589); (101632, 101640);
    (110576, 110579); (110581, 110587); (110589, 110590); (110592, 110882); (110928, 110930);
    (110948, 110951); (110960, 111355); (113664, 113770); (113776, 113788); (113792, 113800);
    (113808, 113817); (113820, 113823); (118528, 118573); (118576, 118598); (118608, 118723);
    (118784, 119029); (119040, 119078); (119081, 119154); (119163, 119274); (119296, 119365);
    (119520, 119539); (119552, 119638); (119648, 119672); (119808, 119892); (119894, 119964);
    (119966, 119967); (119970, 119970); (119973, 119974); (119977, 119980); (119982, 119993);
    (119995, 119995); (119997, 120003); (120005, 120069); (120071, 120074); (120077, 120084);
    (120086, 120092); (120094, 120121); (120123, 120126); (120128, 120132); (120134, 120134);
    (120138, 120144); (120146, 120485); (120488, 120779); (120782, 121483); (121499, 121503);
    (121505, 121519); (122624, 122654); (122880, 122886); (122888, 122904); (122907, 122913);
    (122915, 122916); (122918, 122922); (123136, 123180); (123184, 123197); (123200, 123209);
    (123214, 123215); (123536, 123566); (123584, 123641); (123647, 123647); (124896, 124902);
    (124904, 124907); (124909, 124910); (124912, 124926); (124928, 125124); (125127, 125142);
    (125184, 125259); (125264, 125273); (125278, 125279); (126065, 126132); (126209, 126269);
    (126464, 126467); (126469, 126495); (126497, 126498); (126500, 126500); (126503, 126503);
    (126505, 126514); (126516, 126519); (126521, 126521); (126523, 126523); (126530, 126530);
    (126535, 126535); (126537, 126537); (126539, 126539); (126541, 126543); (126545, 126546);
    (126548, 126548); (126551, 126551); (126553, 126553); (126555, 126555); (126557, 126557);
    (126559, 126559); (126561, 126562); (126564, 126564); (126567, 126570); (126572, 126578);
    (126580, 126583); (126585, 126588); (126590, 126590); (126592, 126601); (126603, 126619);
    (126625, 126627); (126629, 126633); (126635, 126651); (126704, 126705); (126976, 127019);
    (127024, 127123); (127136, 127150); (127153, 127167); (127169, 127183); (127185, 127221);
    (127232, 127405); (127462, 127490); (127504, 127547); (127552, 127560); (127568, 127569);
    (127584, 127589); (127744, 128727); (128733, 128748); (128752, 128764); (128768, 128883);
    (128896, 128984); (128992, 129003); (129008, 129008); (129024, 129035); (129040, 129095);
    (129104, 129113); (129120, 129159); (129168, 129197); (129200, 129201); (129280, 129619);
    (129632, 129645); (129648, 129652); (129656, 129660); (129664, 129670); (129680, 129708);
    (129712, 129722); (129728, 129733); (129744, 129753); (129760, 129767); (129776, 129782);
    (129792, 129938); (129940, 129994); (130032, 130041); (131072, 173791); (173824, 177976);
    (177984, 178205); (178208, 183969); (183984, 191456); (194560, 195101); (196608, 201546);
    (917760, 917999) ]%N.

(** The characters with the property Cased. *)
Definition cased : list (N * N) :=
  [ (65, 90); (97, 122); (170, 170); (181, 181); (186, 186); (192, 214); (216, 246); (248, 442);
    (444, 447); (452, 659); (661, 696); (704, 705); (736, 740); (837, 837); (880, 883);
    (886, 887); (890, 893); (895, 895); (902, 902); (904, 906); (908, 908); (910, 929);
    (931, 1013); (1015, 1153); (1162, 1327); (1329, 1366); (1376, 1416); (4256, 4293);
    (4295, 4295); (4301, 4301); (4304, 4346); (4349, 4351); (5024, 5109); (5112, 5117);
    (7296, 7304); (7312, 7354); (7357, 7359); (7424, 7615); (7680, 7957); (7960, 7965);
    (7968, 8005); (8008, 8013); (8016, 8023); (8025, 8025); (8027, 8027); (8029, 8029);
    (8031, 8061); (8064, 8116); (8118, 8124); (8126, 8126); (8130, 8132); (8134, 8140);
    (8144, 8147); (8150, 8155); (8160, 8172); (8178, 8180); (8182, 8188); (8305, 8305);
    (8319, 8319); (8336, 8348); (8450, 8450); (8455, 8455); (8458, 8467); (8469, 8469);
    (8473, 8477); (8484, 8484); (8486, 8486); (8488, 8488); (8490, 8493); (8495, 8500);
    (8505, 8505); (8508, 8511); (8517, 8521); (8526, 8526); (8544, 8575); (8579, 8580);
    (9398, 9449); (11264, 11492); (11499, 11502); (11506, 11507); (11520, 11557);
    (11559, 11559); (11565, 11565); (42560, 42605); (42624, 42653); (42786, 42887);
    (42891, 42894); (42896, 42954); (42960, 42961); (42963, 42963); (42965, 42969);
    (42997, 42998); (43000, 43002); (43824, 43866); (43868, 43880); (43888, 43967);
    (64256, 64262); (64275, 64279); (65313, 65338); (65345, 65370); (66560, 66639);
    (66736, 66771); (66776, 66811); (66928, 66938); (66940, 66954); (66956, 66962);
    (66964, 66965); (66967, 66977); (66979, 66993); (66995, 67001); (67003, 67004);
    (67456, 67456); (67459, 67461); (67463, 67504); (67506, 67514); (68736, 68786);
    (68800, 68850); (71840, 71903); (93760, 93823); (119808, 119892); (119894, 119964);
    (119966, 119967); (119970, 119970); (119973, 119974); (119977, 119980); (119982, 119993);
    (119995, 119995); (119997, 120003); (120005, 120069); (120071, 120074); (120077, 120084);
    (120086, 120092); (120094, 120121); (120123, 120126); (120128, 120132); (120134, 120134);
    (120138, 120144); (120146, 120485); (120488, 120512); (120514, 120538); (120540, 120570);
    (120572, 120596); (120598, 120628); (120630, 120654); (120656, 120686); (120688, 120712);
    (120714, 120744); (120746, 120770); (120772, 120779); (122624, 122633); (122635, 122654);
    (125184, 125251); (127280, 127305); (127312, 127337); (127344, 127369) ]%N.

(** The characters with the property Case_Ignorable. *)
Definition case_ignorable : list (N * N) :=
  [ (39, 39); (46, 46); (58, 58); (94, 94); (96, 96); (168, 168); (173, 173); (175, 175);
    (180, 180); (183, 184); (688, 879); (884, 885); (890, 890); (900, 901); (903, 903);
    (1155, 1161); (1369, 1369); (1375, 1375); (1425, 1469); (1471, 1471); (1473, 1474);
    (1476, 1477); (1479, 1479); (1524, 1524); (1536, 1541); (1552, 1562); (1564, 1564);
    (1600, 1600); (1611, 1631); (1648, 1648); (1750, 1757); (1759, 1768); (1770, 1773);
    (1807, 1807); (1809, 1809); (1840, 1866); (1958, 1968); (2027, 2037); (2042, 2042);
    (2045, 2045); (2070, 2093); (2137, 2139); (2184, 2184); (2192, 2193); (2200, 2207);
    (2249, 2306); (2362, 2362); (2364, 2364); (2369, 2376); (2381, 2381); (2385, 2391);
    (2402, 2403); (2417, 2417); (2433, 2433); (2492, 2492); (2497, 2500); (2509, 2509);
    (2530, 2531); (2558, 2558); (2561, 2562); (2620, 2620); (2625, 2626); (2631, 2632);
    (2635, 2637); (2641, 2641); (2672, 2673); (2677, 2677); (2689, 2690); (2748, 2748);
    (2753, 2757); (2759, 2760); (2765, 2765); (2786, 2787); (2810, 2815); (2817, 2817);
    (2876, 2876); (2879, 2879); (2881, 2884); (2893, 2893); (2901, 2902); (2914, 2915);
    (2946, 2946); (3008, 3008); (3021, 3021); (3072, 3072); (3076, 3076); (3132, 3132);
    (3134, 3136); (3142, 3144); (3146, 3149); (3157, 3158); (3170, 3171); (3201, 3201);
    (3260, 3260); (3263, 3263); (3270, 3270); (3276, 3277); (3298, 3299); (3328, 3329);
    (3387, 3388); (3393, 3396); (3405, 3405); (3426, 3427); (3457, 3457); (3530, 3530);
    (3538, 3540); (3542, 3542); (3633, 3633); (3636, 3642); (3654, 3662); (3761, 3761);
    (3764, 3772); (3782, 3782); (3784, 3789); (3864, 3865); (3893, 3893); (3895, 3895);
    (3897, 3897); (3953, 3966); (3968, 3972); (3974, 3975); (3981, 3991); (3993, 4028);
    (4038, 4038); (4141, 4144); (4146, 4151); (4153, 4154); (4157, 4158); (4184, 4185);
    (4190, 4192); (4209, 4212); (4226, 4226); (4229, 4230); (4237, 4237); (4253, 4253);
    (4348, 4348); (4957, 4959); (5906, 5908); (5938, 5939); (5970, 5971); (6002, 6003);
    (6068, 6069); (6071, 6077); (6086, 6086); (6089, 6099); (6103, 6103); (6109, 6109);
    (6155, 6159); (6211, 6211); (6277, 6278); (6313, 6313); (6432, 6434); (6439, 6440);
    (6450, 6450); (6457, 6459); (6679, 6680); (6683, 6683); (6742, 6742); (6744, 6750);
    (6752, 6752); (6754, 6754); (6757, 6764); (6771, 6780); (6783, 6783); (6823, 6823);
    (6832, 6862); (6912, 6915); (6964, 6964); (6966, 6970); (6972, 6972); (6978, 6978);
    (7019, 7027); (7040, 7041); (7074, 7077); (7080, 7081); (7083, 7085); (7142, 7142);
    (7144, 7145); (7149, 7149); (7151, 7153); (7212, 7219); (7222, 7223); (7288, 7293);
    (7376, 7378); (7380, 7392); (7394, 7400); (7405, 7405); (7412, 7412); (7416, 7417);
    (7468, 7530); (7544, 7544); (7579, 7679); (8125, 8125); (8127, 8129); (8141, 8143);
    (8157, 8159); (8173, 8175); (8189, 8190); (8203, 8207); (8216, 8217); (8228, 8228);
    (8231, 8231); (8234, 8238); (8288, 8292); (8294, 8303); (8305, 8305); (8319, 8319);
    (8336, 8348); (8400, 8432); (11388, 11389); (11503, 11505); (11631, 11631); (11647, 11647);
    (11744, 11775); (11823, 11823); (12293, 12293); (12330, 12333); (12337, 12341);
    (12347, 12347); (12441, 12446); (12540, 12542); (40981, 40981); (42232, 42237);
    (42508, 42508); (42607, 42610); (42612, 42621); (42623, 42623); (42652, 42655);
    (42736, 42737); (42752, 42785); (42864, 42864); (42888, 42890); (42994, 42996);
    (43000, 43001); (43010, 43010); (43014, 43014); (43019, 43019); (43045, 43046);
    (43052, 43052); (43204, 43205); (43232, 43249); (43263, 43263); (43302, 43309);
    (43335, 43345); (43392, 43394); (43443, 43443); (43446, 43449); (43452, 43453);
    (43471, 43471); (43493, 43494); (43561, 43566); (43569, 43570); (43573, 43574);
    (43587, 43587); (43596, 43596); (43632, 43632); (43644, 43644); (43696, 43696);
    (43698, 43700); (43703, 43704); (43710, 43711); (43713, 43713); (43741, 43741);
    (43756, 43757); (43763, 43764); (43766, 43766); (43867, 43871); (43881, 43883);
    (44005, 44005); (44008, 44008); (44013, 44013); (64286, 64286); (64434, 64450);
    (65024, 65039); (65043, 65043); (65056, 65071); (65106, 65106); (65109, 65109);
    (65279, 65279); (65287, 65287); (65294, 65294); (65306, 65306); (65342, 65342);
    (65344, 65344); (65392, 65392); (65438, 65439); (65507, 65507); (65529, 65531);
    (66045, 66045); (66272, 66272); (66422, 66426); (67456, 67461); (67463, 67504);
    (67506, 67514); (68097, 68099); (68101, 68102); (68108, 68111); (68152, 68154);
    (68159, 68159); (68325, 68326); (68900, 68903); (69291, 69292); (69446, 69456);
    (69506, 69509); (69633, 69633); (69688, 69702); (69744, 69744); (69747, 69748);
    (69759, 69761); (69811, 69814); (69817, 69818); (69821, 69821); (69826, 69826);
    (69837, 69837); (69888, 69890); (69927, 69931); (69933, 69940); (70003, 70003);
    (70016, 70017); (70070, 70078); (70089, 70092); (70095, 70095); (70191, 70193);
    (70196, 70196); (70198, 70199); (70206, 70206); (70367, 70367); (70371, 70378);
    (70400, 70401); (70459, 70460); (70464, 70464); (70502, 70508); (70512, 70516);
    (70712, 70719); (70722, 70724); (70726, 70726); (70750, 70750); (70835, 70840);
    (70842, 70842); (70847, 70848); (70850, 70851); (71090, 71093); (71100, 71101);
    (71103, 71104); (71132, 71133); (71219, 71226); (71229, 71229); (71231, 71232);
    (71339, 71339); (71341, 71341); (71344, 71349); (71351, 71351); (71453, 71455);
    (71458, 71461); (71463, 71467); (71727, 71735); (71737, 71738); (71995, 71996);
    (71998, 71998); (72003, 72003); (72148, 72151); (72154, 72155); (72160, 72160);
    (72193, 72202); (72243, 72248); (72251, 72254); (72263, 72263); (72273, 72278);
    (72281, 72283); (72330, 72342); (72344, 72345); (72752, 72758); (72760, 72765);
    (72767, 72767); (72850, 72871); (72874, 72880); (72882, 72883); (72885, 72886);
    (73009, 73014); (73018, 73018); (73020, 73021); (73023, 73029); (73031, 73031);
    (73104, 73105); (73109, 73109); (73111, 73111); (73459, 73460); (78896, 78904);
    (92912, 92916); (92976, 92982); (92992, 92995); (94031, 94031); (94095, 94111);
    (94176, 94177); (94179, 94180); (110576, 110579); (110581, 110587); (110589, 110590);
    (113821, 113822); (113824, 113827); (118528, 118573); (118576, 118598); (119143, 119145);
    (119155, 119170); (119173, 119179); (119210, 119213); (119362, 119364); (121344, 121398);
    (121403, 121452); (121461, 121461); (121476, 121476); (121499, 121503); (121505, 121519);
    (122880, 122886); (122888, 122904); (122907, 122913); (122915, 122916); (122918, 122922);
    (123184, 123197); (123566, 123566); (123628, 123631); (125136, 125142); (125252, 125259);
    (127995, 127999); (917505, 917505); (917536, 917631); (917760, 917999) ]%N.

(** The full upper-case mapping, [c.upper()]. *)
Definition uppercase : list (N * list N) :=
  [ (97, [65]); (98, [66]); (99, [67]); (100, [68]); (101, [69]); (102, [70]); (103, [71]);
    (104, [72]); (105, [73]); (106, [74]); (107, [75]); (108, [76]); (109, [77]); (110, [78]);
    (111, [79]); (112, [80]); (113, [81]); (114, [82]); (115, [83]); (116, [84]); (117, [85]);
    (118, [86]); (119, [87]); (120, [88]); (121, [89]); (122, [90]); (181, [924]);
    (223, [83; 83]); (224, [192]); (225, [193]); (226, [194]); (227, [195]); (228, [196]);
    (229, [197]); (230, [198]); (231, [199]); (232, [200]); (233, [201]); (234, [202]);
    (235, [203]); (236, [204]); (237, [205]); (238, [206]); (239, [207]); (240, [208]);
    (241, [209]); (242, [210]); (243, [211]); (244, [212]); (245, [213]); (246, [214]);
    (248, [216]); (249, [217]); (250, [218]); (251, [219]); (252, [220]); (253, [221]);
    (254, [222]); (255, [376]); (257, [256]); (259, [258]); (261, [260]); (263, [262]);
    (265, [264]); (267, [266]); (269, [268]); (271, [270]); (273, [272]); (275, [274]);
    (277, [276]); (279, [278]); (281, [280]); (283, [282]); (285, [284]); (287, [286]);
    (289, [288]); (291, [290]); (293, [292]); (295, [294]); (297, [296]); (299, [298]);
    (301, [300]); (303, [302]); (305, [73]); (307, [306]); (309, [308]); (311, [310]);
    (314, [313]); (316, [315]); (318, [317]); (320, [319]); (322, [321]); (324, [323]);
    (326, [325]); (328, [327]); (329, [700; 78]); (331, [330]); (333, [332]); (335, [334]);
    (337, [336]); (339, [338]); (341, [340]); (343, [342]); (345, [344]); (347, [346]);
    (349, [348]); (351, [350]); (353, [352]); (355, [354]); (357, [356]); (359, [358]);
    (361, [360]); (363, [362]); (365, [364]); (367, [366]); (369, [368]); (371, [370]);
    (373, [372]); (375, [374]); (378, [377]); (380, [379]); (382, [381]); (383, [83]);
    (384, [579]); (387, [386]); (389, [388]); (392, [391]); (396, [395]); (402, [401]);
    (405, [502]); (409, [408]); (410, [573]); (414, [544]); (417, [416]); (419, [418]);
    (421, [420]); (424, [423]); (429, [428]); (432, [431]); (436, [435]); (438, [437]);
    (441, [440]); (445, [444]); (447, [503]); (453, [452]); (454, [452]); (456, [455]);
    (457, [455]); (459, [458]); (460, [458]); (462, [461]); (464, [463]); (466, [465]);
    (468, [467]); (470, [469]); (472, [471]); (474, [473]); (476, [475]); (477, [398]);
    (479, [478]); (481, [480]); (483, [482]); (485, [484]); (487, [486]); (489, [488]);
    (491, [490]); (493, [492]); (495, [494]); (496, [74; 780]); (498, [497]); (499, [497]);
    (501, [500]); (505, [504]); (507, [506]); (509, [508]); (511, [510]); (513, [512]);
    (515, [514]); (517, [516]); (519, [518]); (521, [520]); (523, [522]); (525, [524]);
    (527, [526]); (529, [528]); (531, [530]); (533, [532]); (535, [534]); (537, [536]);
    (539, [538]); (541, [540]); (543, [542]); (547, [546]); (549, [548]); (551, [550]);
    (553, [552]); (555, [554]); (557, [556]); (559, [558]); (561, [560]); (563, [562]);
    (572, [571]); (575, [11390]); (576, [11391]); (578, [577]); (583, [582]); (585, [584]);
    (587, [586]); (589, [588]); (591, [590]); (592, [11375]); (593, [11373]); (594, [11376]);
    (595, [385]); (596, [390]); (598, [393]); (599, [394]); (601, [399]); (603, [400]);
    (604, [42923]); (608, [403]); (609, [42924]); (611, [404]); (613, [42893]); (614, [42922]);
    (616, [407]); (617, [406]); (618, [42926]); (619, [11362]); (620, [42925]); (623, [412]);
    (625, [11374]); (626, [413]); (629, [415]); (637, [11364]); (640, [422]); (642, [42949]);
    (643, [425]); (647, [42929]); (648, [430]); (649, [580]); (650, [433]); (651, [434]);
    (652, [581]); (658, [439]); (669, [42930]); (670, [42928]); (837, [921]); (881, [880]);
    (883, [882]); (887, [886]); (891, [1021]); (892, [1022]); (893, [1023]);
    (912, [921; 776; 769]); (940, [902]); (941, [904]); (942, [905]); (943, [906]);
    (944, [933; 776; 769]); (945, [913]); (946, [914]); (947, [915]); (948, [916]);
    (949, [917]); (950, [918]); (951, [919]); (952, [920]); (953, [921]); (954, [922]);
    (955, [923]); (956, [924]); (957, [925]); (958, [926]); (959, [927]); (960, [928]);
    (961, [929]); (962, [931]); (963, [931]); (964, [932]); (965, [933]); (966, [934]);
    (967, [935]); (968, [936]); (969, [937]); (970, [938]); (971, [939]); (972, [908]);
    (973, [910]); (974, [911]); (976, [914]); (977, [920]); (981, [934]); (982, [928]);
    (983, [975]); (985, [984]); (987, [986]); (989, [988]); (991, [990]); (993, [992]);
    (995, [994]); (997, [996]); (999, [998]); (1001, [1000]); (1003, [1002]); (1005, [1004]);
    (1007, [1006]); (1008, [922]); (1009, [929]); (1010, [1017]); (1011, [895]); (1013, [917]);
    (1016, [1015]); (1019, [1018]); (1072, [1040]); (1073, [1041]); (1074, [1042]);
    (1075, [1043]); (1076, [1044]); (1077, [1045]); (1078, [1046]); (1079, [1047]);
    (1080, [1048]); (1081, [1049]); (1082, [1050]); (1083, [1051]); (1084, [1052]);
    (1085, [1053]); (1086, [1054]); (1087, [1055]); (1088, [1056]); (1089, [1057]);
    (1090, [1058]); (1091, [1059]); (1092, [1060]); (1093, [1061]); (1094, [1062]);
    (1095, [1063]); (1096, [1064]); (1097, [1065]); (1098, [1066]); (1099, [1067]);
    (1100, [1068]); (1101, [1069]); (1102, [1070]); (1103, [1071]); (1104, [1024]);
    (1105, [1025]); (1106, [1026]); (1107, [1027]); (1108, [1028]); (1109, [1029]);
    (1110, [1030]); (1111, [1031]); (1112, [1032]); (1113, [1033]); (1114, [1034]);
    (1115, [1035]); (1116, [1036]); (1117, [1037]); (1118, [1038]); (1119, [1039]);
    (1121, [1120]); (1123, [1122]); (1125, [1124]); (1127, [1126]); (1129, [1128]);
    (1131, [1130]); (1133, [1132]); (1135, [1134]); (1137, [1136]); (1139, [1138]);
    (1141, [1140]); (1143, [1142]); (1145, [1144]); (1147, [1146]); (1149, [1148]);
    (1151, [1150]); (1153, [1152]); (1163, [1162]); (1165, [1164]); (1167, [1166]);
    (1169, [1168]); (1171, [1170]); (1173, [1172]); (1175, [1174]); (1177, [1176]);
    (1179, [1178]); (1181, [1180]); (1183, [1182]); (1185, [1184]); (1187, [1186]);
    (1189, [1188]); (1191, [1190]); (1193, [1192]); (1195, [1194]); (1197, [1196]);
    (1199, [1198]); (1201, [1200]); (1203, [1202]); (1205, [1204]); (1207, [1206]);
    (1209, [1208]); (1211, [1210]); (1213, [1212]); (1215, [1214]); (1218, [1217]);
    (1220, [1219]); (1222, [1221]); (1224, [1223]); (1226, [1225]); (1228, [1227]);
    (1230, [1229]); (1231, [1216]); (1233, [1232]); (1235, [1234]); (1237, [1236]);
    (1239, [1238]); (1241, [1240]); (1243, [1242]); (1245, [1244]); (1247, [1246]);
    (1249, [1248]); (1251, [1250]); (1253, [1252]); (1255, [1254]); (1257, [1256]);
    (1259, [1258]); (1261, [1260]); (1263, [1262]); (1265, [1264]); (1267, [1266]);
    (1269, [1268]); (1271, [1270]); (1273, [1272]); (1275, [1274]); (1277, [1276]);
    (1279, [1278]); (1281, [1280]); (1283, [1282]); (1285, [1284]); (1287, [1286]);
    (1289, [1288]); (1291, [1290]); (1293, [1292]); (1295, [1294]); (1297, [1296]);
    (1299, [1298]); (1301, [1300]); (1303, [1302]); (1305, [1304]); (1307, [1306]);
    (1309, [1308]); (1311, [1310]); (1313, [1312]); (1315, [1314]); (1317, [1316]);
    (1319, [1318]); (1321, [1320]); (1323, [1322]); (1325, [1324]); (1327, [1326]);
    (1377, [1329]); (1378, [1330]); (1379, [1331]); (1380, [1332]); (1381, [1333]);
    (1382, [1334]); (1383, [1335]); (1384, [1336]); (1385, [1337]); (1386, [1338]);
    (1387, [1339]); (1388, [1340]); (1389, [1341]); (1390, [1342]); (1391, [1343]);
    (1392, [1344]); (1393, [1345]); (1394, [1346]); (1395, [1347]); (1396, [1348]);
    (1397, [1349]); (1398, [1350]); (1399, [1351]); (1400, [1352]); (1401, [1353]);
    (1402, [1354]); (1403, [1355]); (1404, [1356]); (1405, [1357]); (1406, [1358]);
    (1407, [1359]); (1408, [1360]); (1409, [1361]); (1410, [1362]); (1411, [1363]);
    (1412, [1364]); (1413, [1365]); (1414, [1366]); (1415, [1333; 1362]); (4304, [7312]);
    (4305, [7313]); (4306, [7314]); (4307, [7315]); (4308, [7316]); (4309, [7317]);
    (4310, [7318]); (4311, [7319]); (4312, [7320]); (4313, [7321]); (4314, [7322]);
    (4315, [7323]); (4316, [7324]); (4317, [7325]); (4318, [7326]); (4319, [7327]);
    (4320, [7328]); (4321, [7329]); (4322, [7330]); (4323, [7331]); (4324, [7332]);
    (4325, [7333]); (4326, [7334]); (4327, [7335]); (4328, [7336]); (4329, [7337]);
    (4330, [7338]); (4331, [7339]); (4332, [7340]); (4333, [7341]); (4334, [7342]);
    (4335, [7343]); (4336, [7344]); (4337, [7345]); (4338, [7346]); (4339, [7347]);
    (4340, [7348]); (4341, [7349]); (4342, [7350]); (4343, [7351]); (4344, [7352]);
    (4345, [7353]); (4346, [7354]); (4349, [7357]); (4350, [7358]); (4351, [7359]);
    (5112, [5104]); (5113, [5105]); (5114, [5106]); (5115, [5107]); (5116, [5108]);
    (5117, [5109]); (7296, [1042]); (7297, [1044]); (7298, [1054]); (7299, [1057]);
    (7300, [1058]); (7301, [1058]); (7302, [1066]); (7303, [1122]); (7304, [42570]);
    (7545, [42877]); (7549, [11363]); (7566, [42950]); (7681, [7680]); (7683, [7682]);
    (7685, [7684]); (7687, [7686]); (7689, [7688]); (7691, [7690]); (7693, [7692]);
    (7695, [7694]); (7697, [7696]); (7699, [7698]); (7701, [7700]); (7703, [7702]);
    (7705, [7704]); (7707, [7706]); (7709, [7708]); (7711, [7710]); (7713, [7712]);
    (7715, [7714]); (7717, [7716]); (7719, [7718]); (7721, [7720]); (7723, [7722]);
    (7725, [7724]); (7727, [7726]); (7729, [7728]); (7731, [7730]); (7733, [7732]);
    (7735, [7734]); (7737, [7736]); (7739, [7738]); (7741, [7740]); (7743, [7742]);
    (7745, [7744]); (7747, [7746]); (7749, [7748]); (7751, [7750]); (7753, [7752]);
    (7755, [7754]); (7757, [7756]); (7759, [7758]); (7761, [7760]); (7763, [7762]);
    (7765, [7764]); (7767, [7766]); (7769, [7768]); (7771, [7770]); (7773, [7772]);
    (7775, [7774]); (7777, [7776]); (7779, [7778]); (7781, [7780]); (7783, [7782]);
    (7785, [7784]); (7787, [7786]); (7789, [7788]); (7791, [7790]); (7793, [7792]);
    (7795, [7794]); (7797, [7796]); (7799, [7798]); (7801, [7800]); (7803, [7802]);
    (7805, [7804]); (7807, [7806]); (7809, [7808]); (7811, [7810]); (7813, [7812]);
    (7815, [7814]); (7817, [7816]); (7819, [7818]); (7821, [7820]); (7823, [7822]);
    (7825, [7824]); (7827, [7826]); (7829, [7828]); (7830, [72; 817]); (7831, [84; 776]);
    (7832, [87; 778]); (7833, [89; 778]); (7834, [65; 702]); (7835, [7776]); (7841, [7840]);
    (7843, [7842]); (7845, [7844]); (7847, [7846]); (7849, [7848]); (7851, [7850]);
    (7853, [7852]); (7855, [7854]); (7857, [7856]); (7859, [7858]); (7861, [7860]);
    (7863, [7862]); (7865, [7864]); (7867, [7866]); (7869, [7868]); (7871, [7870]);
    (7873, [7872]); (7875, [7874]); (7877, [7876]); (7879, [7878]); (7881, [7880]);
    (7883, [7882]); (7885, [7884]); (7887, [7886]); (7889, [7888]); (7891, [7890]);
    (7893, [7892]); (7895, [7894]); (7897, [7896]); (7899, [7898]); (7901, [7900]);
    (7903, [7902]); (7905, [7904]); (7907, [7906]); (7909, [7908]); (7911, [7910]);
    (7913, [7912]); (7915, [7914]); (7917, [7916]); (7919, [7918]); (7921, [7920]);
    (7923, [7922]); (7925, [7924]); (7927, [7926]); (7929, [7928]); (7931, [7930]);
    (7933, [7932]); (7935, [7934]); (7936, [7944]); (7937, [7945]); (7938, [7946]);
    (7939, [7947]); (7940, [7948]); (7941, [7949]); (7942, [7950]); (7943, [7951]);
    (7952, [7960]); (7953, [7961]); (7954, [7962]); (7955, [7963]); (7956, [7964]);
    (7957, [7965]); (7968, [7976]); (7969, [7977]); (7970, [7978]); (7971, [7979]);
    (7972, [7980]); (7973, [7981]); (7974, [7982]); (7975, [7983]); (7984, [7992]);
    (7985, [7993]); (7986, [7994]); (7987, [7995]); (7988, [7996]); (7989, [7997]);
    (7990, [7998]); (7991, [7999]); (8000, [8008]); (8001, [8009]); (8002, [8010]);
    (8003, [8011]); (8004, [8012]); (8005, [8013]); (8016, [933; 787]); (8017, [8025]);
    (8018, [933; 787; 768]); (8019, [8027]); (8020, [933; 787; 769]); (8021, [8029]);
    (8022, [933; 787; 834]); (8023, [8031]); (8032, [8040]); (8033, [8041]); (8034, [8042]);
    (8035, [8043]); (8036, [8044]); (8037, [8045]); (8038, [8046]); (8039, [8047]);
    (8048, [8122]); (8049, [8123]); (8050, [8136]); (8051, [8137]); (8052, [8138]);
    (8053, [8139]); (8054, [8154]); (8055, [8155]); (8056, [8184]); (8057, [8185]);
    (8058, [8170]); (8059, [8171]); (8060, [8186]); (8061, [8187]); (8064, [7944; 921]);
    (8065, [7945; 921]); (8066, [7946; 921]); (8067, [7947; 921]); (8068, [7948; 921]);
    (8069, [7949; 921]); (8070, [7950; 921]); (8071, [7951; 921]); (8072, [7944; 921]);
    (8073, [7945; 921]); (8074, [7946; 921]); (8075, [7947; 921]); (8076, [7948; 921]);
    (8077, [7949; 921]); (8078, [7950; 921]); (8079, [7951; 921]); (8080, [7976; 921]);
    (8081, [7977; 921]); (8082, [7978; 921]); (8083, [7979; 921]); (8084, [7980; 921]);
    (8085, [7981; 921]); (8086, [7982; 921]); (8087, [7983; 921]); (8088, [7976; 921]);
    (8089, [7977; 921]); (8090, [7978; 921]); (8091, [7979; 921]); (8092, [7980; 921]);
    (8093, [7981; 921]); (8094, [7982; 921]); (8095, [7983; 921]); (8096, [8040; 921]);
    (8097, [8041; 921]); (8098, [8042; 921]); (8099, [8043; 921]); (8100, [8044; 921]);
    (8101, [8045; 921]); (8102, [8046; 921]); (8103, [8047; 921]); (8104, [8040; 921]);
    (8105, [8041; 921]); (8106, [8042; 921]); (8107, [8043; 921]); (8108, [8044; 921]);
    (8109, [8045; 921]); (8110, [8046; 921]); (8111, [8047; 921]); (8112, [8120]);
    (8113, [8121]); (8114, [8122; 921]); (8115, [913; 921]); (8116, [902; 921]);
    (8118, [913; 834]); (8119, [913; 834; 921]); (8124, [913; 921]); (8126, [921]);
    (8130, [8138; 921]); (8131, [919; 921]); (8132, [905; 921]); (8134, [919; 834]);
    (8135, [919; 834; 921]); (8140, [919; 921]); (8144, [8152]); (8145, [8153]);
    (8146, [921; 776; 768]); (8147, [921; 776; 769]); (8150, [921; 834]);
    (8151, [921; 776; 834]); (8160, [8168]); (8161, [8169]); (8162, [933; 776; 768]);
    (8163, [933; 776; 769]); (8164, [929; 787]); (8165, [8172]); (8166, [933; 834]);
    (8167, [933; 776; 834]); (8178, [8186; 921]); (8179, [937; 921]); (8180, [911; 921]);
    (8182, [937; 834]); (8183, [937; 834; 921]); (8188, [937; 921]); (8526, [8498]);
    (8560, [8544]); (8561, [8545]); (8562, [8546]); (8563, [8547]); (8564, [8548]);
    (8565, [8549]); (8566, [8550]); (8567, [8551]); (8568, [8552]); (8569, [8553]);
    (8570, [8554]); (8571, [8555]); (8572, [8556]); (8573, [8557]); (8574, [8558]);
    (8575, [8559]); (8580, [8579]); (9424, [9398]); (9425, [9399]); (9426, [9400]);
    (9427, [9401]); (9428, [9402]); (9429, [9403]); (9430, [9404]); (9431, [9405]);
    (9432, [9406]); (9433, [9407]); (9434, [9408]); (9435, [9409]); (9436, [9410]);
    (9437, [9411]); (9438, [9412]); (9439, [9413]); (9440, [9414]); (9441, [9415]);
    (9442, [9416]); (9443, [9417]); (9444, [9418]); (9445, [9419]); (9446, [9420]);
    (9447, [9421]); (9448, [9422]); (9449, [9423]); (11312, [11264]); (11313, [11265]);
    (11314, [11266]); (11315, [11267]); (11316, [11268]); (11317, [11269]); (11318, [11270]);
    (11319, [11271]); (11320, [11272]); (11321, [11273]); (11322, [11274]); (11323, [11275]);
    (11324, [11276]); (11325, [11277]); (11326, [11278]); (11327, [11279]); (11328, [11280]);
    (11329, [11281]); (11330, [11282]); (11331, [11283]); (11332, [11284]); (11333, [11285]);
    (11334, [11286]); (11335, [11287]); (11336, [11288]); (11337, [11289]); (11338, [11290]);
    (11339, [11291]); (11340, [11292]); (11341, [11293]); (11342, [11294]); (11343, [11295]);
    (11344, [11296]); (11345, [11297]); (11346, [11298]); (11347, [11299]); (11348, [11300]);
    (11349, [11301]); (11350, [11302]); (11351, [11303]); (11352, [11304]); (11353, [11305]);
    (11354, [11306]); (11355, [11307]); (11356, [11308]); (11357, [11309]); (11358, [11310]);
    (11359, [11311]); (11361, [11360]); (11365, [570]); (11366, [574]); (11368, [11367]);
    (11370, [11369]); (11372, [11371]); (11379, [11378]); (11382, [11381]); (11393, [11392]);
    (11395, [11394]); (11397, [11396]); (11399, [11398]); (11401, [11400]); (11403, [11402]);
    (11405, [11404]); (11407, [11406]); (11409, [11408]); (11411, [11410]); (11413, [11412]);
    (11415, [11414]); (11417, [11416]); (11419, [11418]); (11421, [11420]); (11423, [11422]);
    (11425, [11424]); (11427, [11426]); (11429, [11428]); (11431, [11430]); (11433, [11432]);
    (11435, [11434]); (11437, [11436]); (11439, [11438]); (11441, [11440]); (11443, [11442]);
    (11445, [11444]); (11447, [11446]); (11449, [11448]); (11451, [11450]); (11453, [11452]);
    (11455, [11454]); (11457, [11456]); (11459, [11458]); (11461, [11460]); (11463, [11462]);
    (11465, [11464]); (11467, [11466]); (11469, [11468]); (11471, [11470]); (11473, [11472]);
    (11475, [11474]); (11477, [11476]); (11479, [11478]); (11481, [11480]); (11483, [11482]);
    (11485, [11484]); (11487, [11486]); (11489, [11488]); (11491, [11490]); (11500, [11499]);
    (11502, [11501]); (11507, [11506]); (11520, [4256]); (11521, [4257]); (11522, [4258]);
    (11523, [4259]); (11524, [4260]); (11525, [4261]); (11526, [4262]); (11527, [4263]);
    (11528, [4264]); (11529, [4265]); (11530, [4266]); (11531, [4267]); (11532, [4268]);
    (11533, [4269]); (11534, [4270]); (11535, [4271]); (11536, [4272]); (11537, [4273]);
    (11538, [4274]); (11539, [4275]); (11540, [4276]); (11541, [4277]); (11542, [4278]);
    (11543, [4279]); (11544, [4280]); (11545, [4281]); (11546, [4282]); (11547, [4283]);
    (11548, [4284]); (11549, [4285]); (11550, [4286]); (11551, [4287]); (11552, [4288]);
    (11553, [4289]); (11554, [4290]); (11555, [4291]); (11556, [4292]); (11557, [4293]);
    (11559, [4295]); (11565, [4301]); (42561, [42560]); (42563, [42562]); (42565, [42564]);
    (42567, [42566]); (42569, [42568]); (42571, [42570]); (42573, [42572]); (42575, [42574]);
    (42577, [42576]); (42579, [42578]); (42581, [42580]); (42583, [42582]); (42585, [42584]);
    (42587, [42586]); (42589, [42588]); (42591, [42590]); (42593, [42592]); (42595, [42594]);
    (42597, [42596]); (42599, [42598]); (42601, [42600]); (42603, [42602]); (42605, [42604]);
    (42625, [42624]); (42627, [42626]); (42629, [42628]); (42631, [42630]); (42633, [42632]);
    (42635, [42634]); (42637, [42636]); (42639, [42638]); (42641, [42640]); (42643, [42642]);
    (42645, [42644]); (42647, [42646]); (42649, [42648]); (42651, [42650]); (42787, [42786]);
    (42789, [42788]); (42791, [42790]); (42793, [42792]); (42795, [42794]); (42797, [42796]);
    (42799, [42798]); (42803, [42802]); (42805, [42804]); (42807, [42806]); (42809, [42808]);
    (42811, [42810]); (42813, [42812]); (42815, [42814]); (42817, [42816]); (42819, [42818]);
    (42821, [42820]); (42823, [42822]); (42825, [42824]); (42827, [42826]); (42829, [42828]);
    (42831, [42830]); (42833, [42832]); (42835, [42834]); (42837, [42836]); (42839, [42838]);
    (42841, [42840]); (42843, [42842]); (42845, [42844]); (42847, [42846]); (42849, [42848]);
    (42851, [42850]); (42853, [42852]); (42855, [42854]); (42857, [42856]); (42859, [42858]);
    (42861, [42860]); (42863, [42862]); (42874, [42873]); (42876, [42875]); (42879, [42878]);
    (42881, [42880]); (42883, [42882]); (42885, [42884]); (42887, [42886]); (42892, [42891]);
    (42897, [42896]); (42899, [42898]); (42900, [42948]); (42903, [42902]); (42905, [42904]);
    (42907, [42906]); (42909, [42908]); (42911, [42910]); (42913, [42912]); (42915, [42914]);
    (42917, [42916]); (42919, [42918]); (42921, [42920]); (42933, [42932]); (42935, [42934]);
    (42937, [42936]); (42939, [42938]); (42941, [42940]); (42943, [42942]); (42945, [42944]);
    (42947, [42946]); (42952, [42951]); (42954, [42953]); (42961, [42960]); (42967, [42966]);
    (42969, [42968]); (42998, [42997]); (43859, [42931]); (43888, [5024]); (43889, [5025]);
    (43890, [5026]); (43891, [5027]); (43892, [5028]); (43893, [5029]); (43894, [5030]);
    (43895, [5031]); (43896, [5032]); (43897, [5033]); (43898, [5034]); (43899, [5035]);
    (43900, [5036]); (43901, [5037]); (43902, [5038]); (43903, [5039]); (43904, [5040]);
    (43905, [5041]); (43906, [5042]); (43907, [5043]); (43908, [5044]); (43909, [5045]);
    (43910, [5046]); (43911, [5047]); (43912, [5048]); (43913, [5049]); (43914, [5050]);
    (43915, [5051]); (43916, [5052]); (43917, [5053]); (43918, [5054]); (43919, [5055]);
    (43920, [5056]); (43921, [5057]); (43922, [5058]); (43923, [5059]); (43924, [5060]);
    (43925, [5061]); (43926, [5062]); (43927, [5063]); (43928, [5064]); (43929, [5065]);
    (43930, [5066]); (43931, [5067]); (43932, [5068]); (43933, [5069]); (43934, [5070]);
    (43935, [5071]); (43936, [5072]); (43937, [5073]); (43938, [5074]); (43939, [5075]);
    (43940, [5076]); (43941, [5077]); (43942, [5078]); (43943, [5079]); (43944, [5080]);
    (43945, [5081]); (43946, [5082]); (43947, [5083]); (43948, [5084]); (43949, [5085]);
    (43950, [5086]); (43951, [5087]); (43952, [5088]); (43953, [5089]); (43954, [5090]);
    (43955, [5091]); (43956, [5092]); (43957, [5093]); (43958, [5094]); (43959, [5095]);
    (43960, [5096]); (43961, [5097]); (43962, [5098]); (43963, [5099]); (43964, [5100]);
    (43965, [5101]); (43966, [5102]); (43967, [5103]); (64256, [70; 70]); (64257, [70; 73]);
    (64258, [70; 76]); (64259, [70; 70; 73]); (64260, [70; 70; 76]); (64261, [83; 84]);
    (64262, [83; 84]); (64275, [1348; 1350]); (64276, [1348; 1333]); (64277, [1348; 1339]);
    (64278, [1358; 1350]); (64279, [1348; 1341]); (65345, [65313]); (65346, [65314]);
    (65347, [65315]); (65348, [65316]); (65349, [65317]); (65350, [65318]); (65351, [65319]);
    (65352, [65320]); (65353, [65321]); (65354, [65322]); (65355, [65323]); (65356, [65324]);
    (65357, [65325]); (65358, [65326]); (65359, [65327]); (65360, [65328]); (65361, [65329]);
    (65362, [65330]); (65363, [65331]); (65364, [65332]); (65365, [65333]); (65366, [65334]);
    (65367, [65335]); (65368, [65336]); (65369, [65337]); (65370, [65338]); (66600, [66560]);
    (66601, [66561]); (66602, [66562]); (66603, [66563]); (66604, [66564]); (66605, [66565]);
    (66606, [66566]); (66607, [66567]); (66608, [66568]); (66609, [66569]); (66610, [66570]);
    (66611, [66571]); (66612, [66572]); (66613, [66573]); (66614, [66574]); (66615, [66575]);
    (66616, [66576]); (66617, [66577]); (66618, [66578]); (66619, [66579]); (66620, [66580]);
    (66621, [66581]); (66622, [66582]); (66623, [66583]); (66624, [66584]); (66625, [66585]);
    (66626, [66586]); (66627, [66587]); (66628, [66588]); (66629, [66589]); (66630, [66590]);
    (66631, [66591]); (66632, [66592]); (66633, [66593]); (66634, [66594]); (66635, [66595]);
    (66636, [66596]); (66637, [66597]); (66638, [66598]); (66639, [66599]); (66776, [66736]);
    (66777, [66737]); (66778, [66738]); (66779, [66739]); (66780, [66740]); (66781, [66741]);
    (66782, [66742]); (66783, [66743]); (66784, [66744]); (66785, [66745]); (66786, [66746]);
    (66787, [66747]); (66788, [66748]); (66789, [66749]); (66790, [66750]); (66791, [66751]);
    (66792, [66752]); (66793, [66753]); (66794, [66754]); (66795, [66755]); (66796, [66756]);
    (66797, [66757]); (66798, [66758]); (66799, [66759]); (66800, [66760]); (66801, [66761]);
    (66802, [66762]); (66803, [66763]); (66804, [66764]); (66805, [66765]); (66806, [66766]);
    (66807, [66767]); (66808, [66768]); (66809, [66769]); (66810, [66770]); (66811, [66771]);
    (66967, [66928]); (66968, [66929]); (66969, [66930]); (66970, [66931]); (66971, [66932]);
    (66972, [66933]); (66973, [66934]); (66974, [66935]); (66975, [66936]); (66976, [66937]);
    (66977, [66938]); (66979, [66940]); (66980, [66941]); (66981, [66942]); (66982, [66943]);
    (66983, [66944]); (66984, [66945]); (66985, [66946]); (66986, [66947]); (66987, [66948]);
    (66988, [66949]); (66989, [66950]); (66990, [66951]); (66991, [66952]); (66992, [66953]);
    (66993, [66954]); (66995, [66956]); (66996, [66957]); (66997, [66958]); (66998, [66959]);
    (66999, [66960]); (67000, [66961]); (67001, [66962]); (67003, [66964]); (67004, [66965]);
    (68800, [68736]); (68801, [68737]); (68802, [68738]); (68803, [68739]); (68804, [68740]);
    (68805, [68741]); (68806, [68742]); (68807, [68743]); (68808, [68744]); (68809, [68745]);
    (68810, [68746]); (68811, [68747]); (68812, [68748]); (68813, [68749]); (68814, [68750]);
    (68815, [68751]); (68816, [68752]); (68817, [68753]); (68818, [68754]); (68819, [68755]);
    (68820, [68756]); (68821, [68757]); (68822, [68758]); (68823, [68759]); (68824, [68760]);
    (68825, [68761]); (68826, [68762]); (68827, [68763]); (68828, [68764]); (68829, [68765]);
    (68830, [68766]); (68831, [68767]); (68832, [68768]); (68833, [68769]); (68834, [68770]);
    (68835, [68771]); (68836, [68772]); (68837, [68773]); (68838, [68774]); (68839, [68775]);
    (68840, [68776]); (68841, [68777]); (68842, [68778]); (68843, [68779]); (68844, [68780]);
    (68845, [68781]); (68846, [68782]); (68847, [68783]); (68848, [68784]); (68849, [68785]);
    (68850, [68786]); (71872, [71840]); (71873, [71841]); (71874, [71842]); (71875, [71843]);
    (71876, [71844]); (71877, [71845]); (71878, [71846]); (71879, [71847]); (71880, [71848]);
    (71881, [71849]); (71882, [71850]); (71883, [71851]); (71884, [71852]); (71885, [71853]);
    (71886, [71854]); (71887, [71855]); (71888, [71856]); (71889, [71857]); (71890, [71858]);
    (71891, [71859]); (71892, [71860]); (71893, [71861]); (71894, [71862]); (71895, [71863]);
    (71896, [71864]); (71897, [71865]); (71898, [71866]); (71899, [71867]); (71900, [71868]);
    (71901, [71869]); (71902, [71870]); (71903, [71871]); (93792, [93760]); (93793, [93761]);
    (93794, [93762]); (93795, [93763]); (93796, [93764]); (93797, [93765]); (93798, [93766]);
    (93799, [93767]); (93800, [93768]); (93801, [93769]); (93802, [93770]); (93803, [93771]);
    (93804, [93772]); (93805, [93773]); (93806, [93774]); (93807, [93775]); (93808, [93776]);
    (93809, [93777]); (93810, [93778]); (93811, [93779]); (93812, [93780]); (93813, [93781]);
    (93814, [93782]); (93815, [93783]); (93816, [93784]); (93817, [93785]); (93818, [93786]);
    (93819, [93787]); (93820, [93788]); (93821, [93789]); (93822, [93790]); (93823, [93791]);
    (125218, [125184]); (125219, [125185]); (125220, [125186]); (125221, [125187]);
    (125222, [125188]); (125223, [125189]); (125224, [125190]); (125225, [125191]);
    (125226, [125192]); (125227, [125193]); (125228, [125194]); (125229, [125195]);
    (125230, [125196]); (125231, [125197]); (125232, [125198]); (125233, [125199]);
    (125234, [125200]); (125235, [125201]); (125236, [125202]); (125237, [125203]);
    (125238, [125204]); (125239, [125205]); (125240, [125206]); (125241, [125207]);
    (125242, [125208]); (125243, [125209]); (125244, [125210]); (125245, [125211]);
    (125246, [125212]); (125247, [125213]); (125248, [125214]); (125249, [125215]);
    (125250, [125216]); (125251, [125217]) ]%N.

(** The full lower-case mapping, [c.lower()] and [c.toLowerCase()], of a
    character on its own. *)
Definition lowercase : list (N * list N) :=
  [ (65, [97]); (66, [98]); (67, [99]); (68, [100]); (69, [101]); (70, [102]); (71, [103]);
    (72, [104]); (73, [105]); (74, [106]); (75, [107]); (76, [108]); (77, [109]); (78, [110]);
    (79, [111]); (80, [112]); (81, [113]); (82, [114]); (83, [115]); (84, [116]); (85, [117]);
    (86, [118]); (87, [119]); (88, [120]); (89, [121]); (90, [122]); (192, [224]); (193, [225]);
    (194, [226]); (195, [227]); (196, [228]); (197, [229]); (198, [230]); (199, [231]);
    (200, [232]); (201, [233]); (202, [234]); (203, [235]); (204, [236]); (205, [237]);
    (206, [238]); (207, [239]); (208, [240]); (209, [241]); (210, [242]); (211, [243]);
    (212, [244]); (213, [245]); (214, [246]); (216, [248]); (217, [249]); (218, [250]);
    (219, [251]); (220, [252]); (221, [253]); (222, [254]); (256, [257]); (258, [259]);
    (260, [261]); (262, [263]); (264, [265]); (266, [267]); (268, [269]); (270, [271]);
    (272, [273]); (274, [275]); (276, [277]); (278, [279]); (280, [281]); (282, [283]);
    (284, [285]); (286, [287]); (288, [289]); (290, [291]); (292, [293]); (294, [295]);
    (296, [297]); (298, [299]); (300, [301]); (302, [303]); (304, [105; 775]); (306, [307]);
    (308, [309]); (310, [311]); (313, [314]); (315, [316]); (317, [318]); (319, [320]);
    (321, [322]); (323, [324]); (325, [326]); (327, [328]); (330, [331]); (332, [333]);
    (334, [335]); (336, [337]); (338, [339]); (340, [341]); (342, [343]); (344, [345]);
    (346, [347]); (348, [349]); (350, [351]); (352, [353]); (354, [355]); (356, [357]);
    (358, [359]); (360, [361]); (362, [363]); (364, [365]); (366, [367]); (368, [369]);
    (370, [371]); (372, [373]); (374, [375]); (376, [255]); (377, [378]); (379, [380]);
    (381, [382]); (385, [595]); (386, [387]); (388, [389]); (390, [596]); (391, [392]);
    (393, [598]); (394, [599]); (395, [396]); (398, [477]); (399, [601]); (400, [603]);
    (401, [402]); (403, [608]); (404, [611]); (406, [617]); (407, [616]); (408, [409]);
    (412, [623]); (413, [626]); (415, [629]); (416, [417]); (418, [419]); (420, [421]);
    (422, [640]); (423, [424]); (425, [643]); (428, [429]); (430, [648]); (431, [432]);
    (433, [650]); (434, [651]); (435, [436]); (437, [438]); (439, [658]); (440, [441]);
    (444, [445]); (452, [454]); (453, [454]); (455, [457]); (456, [457]); (458, [460]);
    (459, [460]); (461, [462]); (463, [464]); (465, [466]); (467, [468]); (469, [470]);
    (471, [472]); (473, [474]); (475, [476]); (478, [479]); (480, [481]); (482, [483]);
    (484, [485]); (486, [487]); (488, [489]); (490, [491]); (492, [493]); (494, [495]);
    (497, [499]); (498, [499]); (500, [501]); (502, [405]); (503, [447]); (504, [505]);
    (506, [507]); (508, [509]); (510, [511]); (512, [513]); (514, [515]); (516, [517]);
    (518, [519]); (520, [521]); (522, [523]); (524, [525]); (526, [527]); (528, [529]);
    (530, [531]); (532, [533]); (534, [535]); (536, [537]); (538, [539]); (540, [541]);
    (542, [543]); (544, [414]); (546, [547]); (548, [549]); (550, [551]); (552, [553]);
    (554, [555]); (556, [557]); (558, [559]); (560, [561]); (562, [563]); (570, [11365]);
    (571, [572]); (573, [410]); (574, [11366]); (577, [578]); (579, [384]); (580, [649]);
    (581, [652]); (582, [583]); (584, [585]); (586, [587]); (588, [589]); (590, [591]);
    (880, [881]); (882, [883]); (886, [887]); (895, [1011]); (902, [940]); (904, [941]);
    (905, [942]); (906, [943]); (908, [972]); (910, [973]); (911, [974]); (913, [945]);
    (914, [946]); (915, [947]); (916, [948]); (917, [949]); (918, [950]); (919, [951]);
    (920, [952]); (921, [953]); (922, [954]); (923, [955]); (924, [956]); (925, [957]);
    (926, [958]); (927, [959]); (928, [960]); (929, [961]); (931, [963]); (932, [964]);
    (933, [965]); (934, [966]); (935, [967]); (936, [968]); (937, [969]); (938, [970]);
    (939, [971]); (975, [983]); (984, [985]); (986, [987]); (988, [989]); (990, [991]);
    (992, [993]); (994, [995]); (996, [997]); (998, [999]); (1000, [1001]); (1002, [1003]);
    (1004, [1005]); (1006, [1007]); (1012, [952]); (1015, [1016]); (1017, [1010]);
    (1018, [1019]); (1021, [891]); (1022, [892]); (1023, [893]); (1024, [1104]); (1025, [1105]);
    (1026, [1106]); (1027, [1107]); (1028, [1108]); (1029, [1109]); (1030, [1110]);
    (1031, [1111]); (1032, [1112]); (1033, [1113]); (1034, [1114]); (1035, [1115]);
    (1036, [1116]); (1037, [1117]); (1038, [1118]); (1039, [1119]); (1040, [1072]);
    (1041, [1073]); (1042, [1074]); (1043, [1075]); (1044, [1076]); (1045, [1077]);
    (1046, [1078]); (1047, [1079]); (1048, [1080]); (1049, [1081]); (1050, [1082]);
    (1051, [1083]); (1052, [1084]); (1053, [1085]); (1054, [1086]); (1055, [1087]);
    (1056, [1088]); (1057, [1089]); (1058, [1090]); (1059, [1091]); (1060, [1092]);
    (1061, [1093]); (1062, [1094]); (1063, [1095]); (1064, [1096]); (1065, [1097]);
    (1066, [1098]); (1067, [1099]); (1068, [1100]); (1069, [1101]); (1070, [1102]);
    (1071, [1103]); (1120, [1121]); (1122, [1123]); (1124, [1125]); (1126, [1127]);
    (1128, [1129]); (1130, [1131]); (1132, [1133]); (1134, [1135]); (1136, [1137]);
    (1138, [1139]); (1140, [1141]); (1142, [1143]); (1144, [1145]); (1146, [1147]);
    (1148, [1149]); (1150, [1151]); (1152, [1153]); (1162, [1163]); (1164, [1165]);
    (1166, [1167]); (1168, [1169]); (1170, [1171]); (1172, [1173]); (1174, [1175]);
    (1176, [1177]); (1178, [1179]); (1180, [1181]); (1182, [1183]); (1184, [1185]);
    (1186, [1187]); (1188, [1189]); (1190, [1191]); (1192, [1193]); (1194, [1195]);
    (1196, [1197]); (1198, [1199]); (1200, [1201]); (1202, [1203]); (1204, [1205]);
    (1206, [1207]); (1208, [1209]); (1210, [1211]); (1212, [1213]); (1214, [1215]);
    (1216, [1231]); (1217, [1218]); (1219, [1220]); (1221, [1222]); (1223, [1224]);
    (1225, [1226]); (1227, [1228]); (1229, [1230]); (1232, [1233]); (1234, [1235]);
    (1236, [1237]); (1238, [1239]); (1240, [1241]); (1242, [1243]); (1244, [1245]);
    (1246, [1247]); (1248, [1249]); (1250, [1251]); (1252, [1253]); (1254, [1255]);
    (1256, [1257]); (1258, [1259]); (1260, [1261]); (1262, [1263]); (1264, [1265]);
    (1266, [1267]); (1268, [1269]); (1270, [1271]); (1272, [1273]); (1274, [1275]);
    (1276, [1277]); (1278, [1279]); (1280, [1281]); (1282, [1283]); (1284, [1285]);
    (1286, [1287]); (1288, [1289]); (1290, [1291]); (1292, [1293]); (1294, [1295]);
    (1296, [1297]); (1298, [1299]); (1300, [1301]); (1302, [1303]); (1304, [1305]);
    (1306, [1307]); (1308, [1309]); (1310, [1311]); (1312, [1313]); (1314, [1315]);
    (1316, [1317]); (1318, [1319]); (1320, [1321]); (1322, [1323]); (1324, [1325]);
    (1326, [1327]); (1329, [1377]); (1330, [1378]); (1331, [1379]); (1332, [1380]);
    (1333, [1381]); (1334, [1382]); (1335, [1383]); (1336, [1384]); (1337, [1385]);
    (1338, [1386]); (1339, [1387]); (1340, [1388]); (1341, [1389]); (1342, [1390]);
    (1343, [1391]); (1344, [1392]); (1345, [1393]); (1346, [1394]); (1347, [1395]);
    (1348, [1396]); (1349, [1397]); (1350, [1398]); (1351, [1399]); (1352, [1400]);
    (1353, [1401]); (1354, [1402]); (1355, [1403]); (1356, [1404]); (1357, [1405]);
    (1358, [1406]); (1359, [1407]); (1360, [1408]); (1361, [1409]); (1362, [1410]);
    (1363, [1411]); (1364, [1412]); (1365, [1413]); (1366, [1414]); (4256, [11520]);
    (4257, [11521]); (4258, [11522]); (4259, [11523]); (4260, [11524]); (4261, [11525]);
    (4262, [11526]); (4263, [11527]); (4264, [11528]); (4265, [11529]); (4266, [11530]);
    (4267, [11531]); (4268, [11532]); (4269, [11533]); (4270, [11534]); (4271, [11535]);
    (4272, [11536]); (4273, [11537]); (4274, [11538]); (4275, [11539]); (4276, [11540]);
    (4277, [11541]); (4278, [11542]); (4279, [11543]); (4280, [11544]); (4281, [11545]);
    (4282, [11546]); (4283, [11547]); (4284, [11548]); (4285, [11549]); (4286, [11550]);
    (4287, [11551]); (4288, [11552]); (4289, [11553]); (4290, [11554]); (4291, [11555]);
    (4292, [11556]); (4293, [11557]); (4295, [11559]); (4301, [11565]); (5024, [43888]);
    (5025, [43889]); (5026, [43890]); (5027, [43891]); (5028, [43892]); (5029, [43893]);
    (5030, [43894]); (5031, [43895]); (5032, [43896]); (5033, [43897]); (5034, [43898]);
    (5035, [43899]); (5036, [43900]); (5037, [43901]); (5038, [43902]); (5039, [43903]);
    (5040, [43904]); (5041, [43905]); (5042, [43906]); (5043, [43907]); (5044, [43908]);
    (5045, [43909]); (5046, [43910]); (5047, [43911]); (5048, [43912]); (5049, [43913]);
    (5050, [43914]); (5051, [43915]); (5052, [43916]); (5053, [43917]); (5054, [43918]);
    (5055, [43919]); (5056, [43920]); (5057, [43921]); (5058, [43922]); (5059, [43923]);
    (5060, [43924]); (5061, [43925]); (5062, [43926]); (5063, [43927]); (5064, [43928]);
    (5065, [43929]); (5066, [43930]); (5067, [43931]); (5068, [43932]); (5069, [43933]);
    (5070, [43934]); (5071, [43935]); (5072, [43936]); (5073, [43937]); (5074, [43938]);
    (5075, [43939]); (5076, [43940]); (5077, [43941]); (5078, [43942]); (5079, [43943]);
    (5080, [43944]); (5081, [43945]); (5082, [43946]); (5083, [43947]); (5084, [43948]);
    (5085, [43949]); (5086, [43950]); (5087, [43951]); (5088, [43952]); (5089, [43953]);
    (5090, [43954]); (5091, [43955]); (5092, [43956]); (5093, [43957]); (5094, [43958]);
    (5095, [43959]); (5096, [43960]); (5097, [43961]); (5098, [43962]); (5099, [43963]);
    (5100, [43964]); (5101, [43965]); (5102, [43966]); (5103, [43967]); (5104, [5112]);
    (5105, [5113]); (5106, [5114]); (5107, [5115]); (5108, [5116]); (5109, [5117]);
    (7312, [4304]); (7313, [4305]); (7314, [4306]); (7315, [4307]); (7316, [4308]);
    (7317, [4309]); (7318, [4310]); (7319, [4311]); (7320, [4312]); (7321, [4313]);
    (7322, [4314]); (7323, [4315]); (7324, [4316]); (7325, [4317]); (7326, [4318]);
    (7327, [4319]); (7328, [4320]); (7329, [4321]); (7330, [4322]); (7331, [4323]);
    (7332, [4324]); (7333, [4325]); (7334, [4326]); (7335, [4327]); (7336, [4328]);
    (7337, [4329]); (7338, [4330]); (7339, [4331]); (7340, [4332]); (7341, [4333]);
    (7342, [4334]); (7343, [4335]); (7344, [4336]); (7345, [4337]); (7346, [4338]);
    (7347, [4339]); (7348, [4340]); (7349, [4341]); (7350, [4342]); (7351, [4343]);
    (7352, [4344]); (7353, [4345]); (7354, [4346]); (7357, [4349]); (7358, [4350]);
    (7359, [4351]); (7680, [7681]); (7682, [7683]); (7684, [7685]); (7686, [7687]);
    (7688, [7689]); (7690, [7691]); (7692, [7693]); (7694, [7695]); (7696, [7697]);
    (7698, [7699]); (7700, [7701]); (7702, [7703]); (7704, [7705]); (7706, [7707]);
    (7708, [7709]); (7710, [7711]); (7712, [7713]); (7714, [7715]); (7716, [7717]);
    (7718, [7719]); (7720, [7721]); (7722, [7723]); (7724, [7725]); (7726, [7727]);
    (7728, [7729]); (7730, [7731]); (7732, [7733]); (7734, [7735]); (7736, [7737]);
    (7738, [7739]); (7740, [7741]); (7742, [7743]); (7744, [7745]); (7746, [7747]);
    (7748, [7749]); (7750, [7751]); (7752, [7753]); (7754, [7755]); (7756, [7757]);
    (7758, [7759]); (7760, [7761]); (7762, [7763]); (7764, [7765]); (7766, [7767]);
    (7768, [7769]); (7770, [7771]); (7772, [7773]); (7774, [7775]); (7776, [7777]);
    (7778, [7779]); (7780, [7781]); (7782, [7783]); (7784, [7785]); (7786, [7787]);
    (7788, [7789]); (7790, [7791]); (7792, [7793]); (7794, [7795]); (7796, [7797]);
    (7798, [7799]); (7800, [7801]); (7802, [7803]); (7804, [7805]); (7806, [7807]);
    (7808, [7809]); (7810, [7811]); (7812, [7813]); (7814, [7815]); (7816, [7817]);
    (7818, [7819]); (7820, [7821]); (7822, [7823]); (7824, [7825]); (7826, [7827]);
    (7828, [7829]); (7838, [223]); (7840, [7841]); (7842, [7843]); (7844, [7845]);
    (7846, [7847]); (7848, [7849]); (7850, [7851]); (7852, [7853]); (7854, [7855]);
    (7856, [7857]); (7858, [7859]); (7860, [7861]); (7862, [7863]); (7864, [7865]);
    (7866, [7867]); (7868, [7869]); (7870, [7871]); (7872, [7873]); (7874, [7875]);
    (7876, [7877]); (7878, [7879]); (7880, [7881]); (7882, [7883]); (7884, [7885]);
    (7886, [7887]); (7888, [7889]); (7890, [7891]); (7892, [7893]); (7894, [7895]);
    (7896, [7897]); (7898, [7899]); (7900, [7901]); (7902, [7903]); (7904, [7905]);
    (7906, [7907]); (7908, [7909]); (7910, [7911]); (7912, [7913]); (7914, [7915]);
    (7916, [7917]); (7918, [7919]); (7920, [7921]); (7922, [7923]); (7924, [7925]);
    (7926, [7927]); (7928, [7929]); (7930, [7931]); (7932, [7933]); (7934, [7935]);
    (7944, [7936]); (7945, [7937]); (7946, [7938]); (7947, [7939]); (7948, [7940]);
    (7949, [7941]); (7950, [7942]); (7951, [7943]); (7960, [7952]); (7961, [7953]);
    (7962, [7954]); (7963, [7955]); (7964, [7956]); (7965, [7957]); (7976, [7968]);
    (7977, [7969]); (7978, [7970]); (7979, [7971]); (7980, [7972]); (7981, [7973]);
    (7982, [7974]); (7983, [7975]); (7992, [7984]); (7993, [7985]); (7994, [7986]);
    (7995, [7987]); (7996, [7988]); (7997, [7989]); (7998, [7990]); (7999, [7991]);
    (8008, [8000]); (8009, [8001]); (8010, [8002]); (8011, [8003]); (8012, [8004]);
    (8013, [8005]); (8025, [8017]); (8027, [8019]); (8029, [8021]); (8031, [8023]);
    (8040, [8032]); (8041, [8033]); (8042, [8034]); (8043, [8035]); (8044, [8036]);
    (8045, [8037]); (8046, [8038]); (8047, [8039]); (8072, [8064]); (8073, [8065]);
    (8074, [8066]); (8075, [8067]); (8076, [8068]); (8077, [8069]); (8078, [8070]);
    (8079, [8071]); (8088, [8080]); (8089, [8081]); (8090, [8082]); (8091, [8083]);
    (8092, [8084]); (8093, [8085]); (8094, [8086]); (8095, [8087]); (8104, [8096]);
    (8105, [8097]); (8106, [8098]); (8107, [8099]); (8108, [8100]); (8109, [8101]);
    (8110, [8102]); (8111, [8103]); (8120, [8112]); (8121, [8113]); (8122, [8048]);
    (8123, [8049]); (8124, [8115]); (8136, [8050]); (8137, [8051]); (8138, [8052]);
    (8139, [8053]); (8140, [8131]); (8152, [8144]); (8153, [8145]); (8154, [8054]);
    (8155, [8055]); (8168, [8160]); (8169, [8161]); (8170, [8058]); (8171, [8059]);
    (8172, [8165]); (8184, [8056]); (8185, [8057]); (8186, [8060]); (8187, [8061]);
    (8188, [8179]); (8486, [969]); (8490, [107]); (8491, [229]); (8498, [8526]); (8544, [8560]);
    (8545, [8561]); (8546, [8562]); (8547, [8563]); (8548, [8564]); (8549, [8565]);
    (8550, [8566]); (8551, [8567]); (8552, [8568]); (8553, [8569]); (8554, [8570]);
    (8555, [8571]); (8556, [8572]); (8557, [8573]); (8558, [8574]); (8559, [8575]);
    (8579, [8580]); (9398, [9424]); (9399, [9425]); (9400, [9426]); (9401, [9427]);
    (9402, [9428]); (9403, [9429]); (9404, [9430]); (9405, [9431]); (9406, [9432]);
    (9407, [9433]); (9408, [9434]); (9409, [9435]); (9410, [9436]); (9411, [9437]);
    (9412, [9438]); (9413, [9439]); (9414, [9440]); (9415, [9441]); (9416, [9442]);
    (9417, [9443]); (9418, [9444]); (9419, [9445]); (9420, [9446]); (9421, [9447]);
    (9422, [9448]); (9423, [9449]); (11264, [11312]); (11265, [11313]); (11266, [11314]);
    (11267, [11315]); (11268, [11316]); (11269, [11317]); (11270, [11318]); (11271, [11319]);
    (11272, [11320]); (11273, [11321]); (11274, [11322]); (11275, [11323]); (11276, [11324]);
    (11277, [11325]); (11278, [11326]); (11279, [11327]); (11280, [11328]); (11281, [11329]);
    (11282, [11330]); (11283, [11331]); (11284, [11332]); (11285, [11333]); (11286, [11334]);
    (11287, [11335]); (11288, [11336]); (11289, [11337]); (11290, [11338]); (11291, [11339]);
    (11292, [11340]); (11293, [11341]); (11294, [11342]); (11295, [11343]); (11296, [11344]);
    (11297, [11345]); (11298, [11346]); (11299, [11347]); (11300, [11348]); (11301, [11349]);
    (11302, [11350]); (11303, [11351]); (11304, [11352]); (11305, [11353]); (11306, [11354]);
    (11307, [11355]); (11308, [11356]); (11309, [11357]); (11310, [11358]); (11311, [11359]);
    (11360, [11361]); (11362, [619]); (11363, [7549]); (11364, [637]); (11367, [11368]);
    (11369, [11370]); (11371, [11372]); (11373, [593]); (11374, [625]); (11375, [592]);
    (11376, [594]); (11378, [11379]); (11381, [11382]); (11390, [575]); (11391, [576]);
    (11392, [11393]); (11394, [11395]); (11396, [11397]); (11398, [11399]); (11400, [11401]);
    (11402, [11403]); (11404, [11405]); (11406, [11407]); (11408, [11409]); (11410, [11411]);
    (11412, [11413]); (11414, [11415]); (11416, [11417]); (11418, [11419]); (11420, [11421]);
    (11422, [11423]); (11424, [11425]); (11426, [11427]); (11428, [11429]); (11430, [11431]);
    (11432, [11433]); (11434, [11435]); (11436, [11437]); (11438, [11439]); (11440, [11441]);
    (11442, [11443]); (11444, [11445]); (11446, [11447]); (11448, [11449]); (11450, [11451]);
    (11452, [11453]); (11454, [11455]); (11456, [11457]); (11458, [11459]); (11460, [11461]);
    (11462, [11463]); (11464, [11465]); (11466, [11467]); (11468, [11469]); (11470, [11471]);
    (11472, [11473]); (11474, [11475]); (11476, [11477]); (11478, [11479]); (11480, [11481]);
    (11482, [11483]); (11484, [11485]); (11486, [11487]); (11488, [11489]); (11490, [11491]);
    (11499, [11500]); (11501, [11502]); (11506, [11507]); (42560, [42561]); (42562, [42563]);
    (42564, [42565]); (42566, [42567]); (42568, [42569]); (42570, [42571]); (42572, [42573]);
    (42574, [42575]); (42576, [42577]); (42578, [42579]); (42580, [42581]); (42582, [42583]);
    (42584, [42585]); (42586, [42587]); (42588, [42589]); (42590, [42591]); (42592, [42593]);
    (42594, [42595]); (42596, [42597]); (42598, [42599]); (42600, [42601]); (42602, [42603]);
    (42604, [42605]); (42624, [42625]); (42626, [42627]); (42628, [42629]); (42630, [42631]);
    (42632, [42633]); (42634, [42635]); (42636, [42637]); (42638, [42639]); (42640, [42641]);
    (42642, [42643]); (42644, [42645]); (42646, [42647]); (42648, [42649]); (42650, [42651]);
    (42786, [42787]); (42788, [42789]); (42790, [42791]); (42792, [42793]); (42794, [42795]);
    (42796, [42797]); (42798, [42799]); (42802, [42803]); (42804, [42805]); (42806, [42807]);
    (42808, [42809]); (42810, [42811]); (42812, [42813]); (42814, [42815]); (42816, [42817]);
    (42818, [42819]); (42820, [42821]); (42822, [42823]); (42824, [42825]); (42826, [42827]);
    (42828, [42829]); (42830, [42831]); (42832, [42833]); (42834, [42835]); (42836, [42837]);
    (42838, [42839]); (42840, [42841]); (42842, [42843]); (42844, [42845]); (42846, [42847]);
    (42848, [42849]); (42850, [42851]); (42852, [42853]); (42854, [42855]); (42856, [42857]);
    (42858, [42859]); (42860, [42861]); (42862, [42863]); (42873, [42874]); (42875, [42876]);
    (42877, [7545]); (42878, [42879]); (42880, [42881]); (42882, [42883]); (42884, [42885]);
    (42886, [42887]); (42891, [42892]); (42893, [613]); (42896, [42897]); (42898, [42899]);
    (42902, [42903]); (42904, [42905]); (42906, [42907]); (42908, [42909]); (42910, [42911]);
    (42912, [42913]); (42914, [42915]); (42916, [42917]); (42918, [42919]); (42920, [42921]);
    (42922, [614]); (42923, [604]); (42924, [609]); (42925, [620]); (42926, [618]);
    (42928, [670]); (42929, [647]); (42930, [669]); (42931, [43859]); (42932, [42933]);
    (42934, [42935]); (42936, [42937]); (42938, [42939]); (42940, [42941]); (42942, [42943]);
    (42944, [42945]); (42946, [42947]); (42948, [42900]); (42949, [642]); (42950, [7566]);
    (42951, [42952]); (42953, [42954]); (42960, [42961]); (42966, [42967]); (42968, [42969]);
    (42997, [42998]); (65313, [65345]); (65314, [65346]); (65315, [65347]); (65316, [65348]);
    (65317, [65349]); (65318, [65350]); (65319, [65351]); (65320, [65352]); (65321, [65353]);
    (65322, [65354]); (65323, [65355]); (65324, [65356]); (65325, [65357]); (65326, [65358]);
    (65327, [65359]); (65328, [65360]); (65329, [65361]); (65330, [65362]); (65331, [65363]);
    (65332, [65364]); (65333, [65365]); (65334, [65366]); (65335, [65367]); (65336, [65368]);
    (65337, [65369]); (65338, [65370]); (66560, [66600]); (66561, [66601]); (66562, [66602]);
    (66563, [66603]); (66564, [66604]); (66565, [66605]); (66566, [66606]); (66567, [66607]);
    (66568, [66608]); (66569, [66609]); (66570, [66610]); (66571, [66611]); (66572, [66612]);
    (66573, [66613]); (66574, [66614]); (66575, [66615]); (66576, [66616]); (66577, [66617]);
    (66578, [66618]); (66579, [66619]); (66580, [66620]); (66581, [66621]); (66582, [66622]);
    (66583, [66623]); (66584, [66624]); (66585, [66625]); (66586, [66626]); (66587, [66627]);
    (66588, [66628]); (66589, [66629]); (66590, [66630]); (66591, [66631]); (66592, [66632]);
    (66593, [66633]); (66594, [66634]); (66595, [66635]); (66596, [66636]); (66597, [66637]);
    (66598, [66638]); (66599, [66639]); (66736, [66776]); (66737, [66777]); (66738, [66778]);
    (66739, [66779]); (66740, [66780]); (66741, [66781]); (66742, [66782]); (66743, [66783]);
    (66744, [66784]); (66745, [66785]); (66746, [66786]); (66747, [66787]); (66748, [66788]);
    (66749, [66789]); (66750, [66790]); (66751, [66791]); (66752, [66792]); (66753, [66793]);
    (66754, [66794]); (66755, [66795]); (66756, [66796]); (66757, [66797]); (66758, [66798]);
    (66759, [66799]); (66760, [66800]); (66761, [66801]); (66762, [66802]); (66763, [66803]);
    (66764, [66804]); (66765, [66805]); (66766, [66806]); (66767, [66807]); (66768, [66808]);
    (66769, [66809]); (66770, [66810]); (66771, [66811]); (66928, [66967]); (66929, [66968]);
    (66930, [66969]); (66931, [66970]); (66932, [66971]); (66933, [66972]); (66934, [66973]);
    (66935, [66974]); (66936, [66975]); (66937, [66976]); (66938, [66977]); (66940, [66979]);
    (66941, [66980]); (66942, [66981]); (66943, [66982]); (66944, [66983]); (66945, [66984]);
    (66946, [66985]); (66947, [66986]); (66948, [66987]); (66949, [66988]); (66950, [66989]);
    (66951, [66990]); (66952, [66991]); (66953, [66992]); (66954, [66993]); (66956, [66995]);
    (66957, [66996]); (66958, [66997]); (66959, [66998]); (66960, [66999]); (66961, [67000]);
    (66962, [67001]); (66964, [67003]); (66965, [67004]); (68736, [68800]); (68737, [68801]);
    (68738, [68802]); (68739, [68803]); (68740, [68804]); (68741, [68805]); (68742, [68806]);
    (68743, [68807]); (68744, [68808]); (68745, [68809]); (68746, [68810]); (68747, [68811]);
    (68748, [68812]); (68749, [68813]); (68750, [68814]); (68751, [68815]); (68752, [68816]);
    (68753, [68817]); (68754, [68818]); (68755, [68819]); (68756, [68820]); (68757, [68821]);
    (68758, [68822]); (68759, [68823]); (68760, [68824]); (68761, [68825]); (68762, [68826]);
    (68763, [68827]); (68764, [68828]); (68765, [68829]); (68766, [68830]); (68767, [68831]);
    (68768, [68832]); (68769, [68833]); (68770, [68834]); (68771, [68835]); (68772, [68836]);
    (68773, [68837]); (68774, [68838]); (68775, [68839]); (68776, [68840]); (68777, [68841]);
    (68778, [68842]); (68779, [68843]); (68780, [68844]); (68781, [68845]); (68782, [68846]);
    (68783, [68847]); (68784, [68848]); (68785, [68849]); (68786, [68850]); (71840, [71872]);
    (71841, [71873]); (71842, [71874]); (71843, [71875]); (71844, [71876]); (71845, [71877]);
    (71846, [71878]); (71847, [71879]); (71848, [71880]); (71849, [71881]); (71850, [71882]);
    (71851, [71883]); (71852, [71884]); (71853, [71885]); (71854, [71886]); (71855, [71887]);
    (71856, [71888]); (71857, [71889]); (71858, [71890]); (71859, [71891]); (71860, [71892]);
    (71861, [71893]); (71862, [71894]); (71863, [71895]); (71864, [71896]); (71865, [71897]);
    (71866, [71898]); (71867, [71899]); (71868, [71900]); (71869, [71901]); (71870, [71902]);
    (71871, [71903]); (93760, [93792]); (93761, [93793]); (93762, [93794]); (93763, [93795]);
    (93764, [93796]); (93765, [93797]); (93766, [93798]); (93767, [93799]); (93768, [93800]);
    (93769, [93801]); (93770, [93802]); (93771, [93803]); (93772, [93804]); (93773, [93805]);
    (93774, [93806]); (93775, [93807]); (93776, [93808]); (93777, [93809]); (93778, [93810]);
    (93779, [93811]); (93780, [93812]); (93781, [93813]); (93782, [93814]); (93783, [93815]);
    (93784, [93816]); (93785, [93817]); (93786, [93818]); (93787, [93819]); (93788, [93820]);
    (93789, [93821]); (93790, [93822]); (93791, [93823]); (125184, [125218]);
    (125185, [125219]); (125186, [125220]); (125187, [125221]); (125188, [125222]);
    (125189, [125223]); (125190, [125224]); (125191, [125225]); (125192, [125226]);
    (125193, [125227]); (125194, [125228]); (125195, [125229]); (125196, [125230]);
    (125197, [125231]); (125198, [125232]); (125199, [125233]); (125200, [125234]);
    (125201, [125235]); (125202, [125236]); (125203, [125237]); (125204, [125238]);
    (125205, [125239]); (125206, [125240]); (125207, [125241]); (125208, [125242]);
    (125209, [125243]); (125210, [125244]); (125211, [125245]); (125212, [125246]);
    (125213, [125247]); (125214, [125248]); (125215, [125249]); (125216, [125250]);
    (125217, [125251]) ]%N.

End Unicode.

(** ** Text

    A text is a Unicode string held in UTF-8. This is where the model of
    [String.prototype.trim], [toLowerCase] and [includes], and of
    Python's [str.strip], [str.upper], [str.lower], [str.isprintable],
    [str.isspace], [len] and [in] lives. *)

Module Text.

(** *** Characters

    [points] reads the code points of a text and [of_points] writes them
    back; a byte [10xxxxxx] continues the character before it. *)

Definition lead (b : N) : N :=
  (if b <? 128 then b
   else if b <? 224 then b - 192
   else if b <? 240 then b - 224
   else b - 240)%N.

Fixpoint points_from (acc : N) (s : string) : list N :=
  match s with
  | EmptyString => [acc]
  | String c s' =>
      let b := N_of_ascii c in
      if ((128 <=? b) && (b <? 192))%N
      then points_from (acc * 64 + (b - 128))%N s'
      else acc :: points_from (lead b) s'
  end.

Definition points (s : string) : list N :=
  match s with
  | EmptyString => []
  | String c s' => points_from (lead (N_of_ascii c)) s'
  end.

Definition byte (b : N) : string := String (ascii_of_N b) EmptyString.

(** [chr(cp)] / [String.fromCodePoint(cp)] *)
Definition chr (cp : N) : string :=
  let tail (n : N) := byte (128 + n mod 64)%N in
  if (cp <? 128)%N then byte cp
  else if (cp <? 2048)%N then byte (192 + cp / 64)%N ++ tail cp
  else if (cp <? 65536)%N then
    byte (224 + cp / 4096)%N ++ tail (cp / 64)%N ++ tail cp
  else
    byte (240 + cp / 262144)%N ++ tail (cp / 4096)%N ++ tail (cp / 64)%N ++ tail cp.

Definition of_points (l : list N) : string :=
  fold_right (fun cp rest => (chr cp ++ rest)%string) EmptyString l.

(** [len(s)]: the number of characters. *)
Definition len (s : string) : nat := List.length (points s).

(** Membership in a table of ranges, which are in increasing order. *)
Fixpoint in_ranges (ranges : list (N * N)) (cp : N) : bool :=
  match ranges with
  | [] => false
  | (lo, hi) :: rest =>
      if (cp <? lo)%N then false else (cp <=? hi)%N || in_ranges rest cp
  end.

(** Python's [c.isspace()] and [c.isprintable()]. *)
Definition is_space (cp : N) : bool := in_ranges Unicode.whitespace cp.
Definition is_printable (cp : N) : bool := in_ranges Unicode.printable cp.

(** The white space and the line terminators of ECMAScript, which
    [String.prototype.trim] removes: TAB, LF, VT, FF, CR, SP, NBSP, the
    space separators, LS, PS and the byte order mark. *)
Definition js_whitespace : list (N * N) :=
  [ (9, 13); (32, 32); (160, 160); (5760, 5760); (8192, 8202); (8232, 8233);
    (8239, 8239); (8287, 8287); (12288, 12288); (65279, 65279) ]%N.

Definition is_js_space (cp : N) : bool := in_ranges js_whitespace cp.

(** *** Case

    The replacement of a character in a case mapping, whose entries are
    in increasing order. *)
Fixpoint mapping (table : list (N * list N)) (cp : N) : list N :=
  match table with
  | [] => [cp]
  | (c, to) :: rest =>
      if (cp <? c)%N then [cp] else if (c =? cp)%N then to else mapping rest cp
  end.

(** [s.upper()] *)
Definition upper (s : string) : string :=
  of_points (flat_map (mapping Unicode.uppercase) (points s)).

Fixpoint skip_ignorable (l : list N) : list N :=
  match l with
  | [] => []
  | c :: rest => if in_ranges Unicode.case_ignorable c then skip_ignorable rest else l
  end.

(** A capital sigma stands in final position when a cased letter comes
    before it and none after it, case-ignorable characters aside;
    [before] has the nearest character first. *)
Definition final_sigma (before after : list N) : bool :=
  match skip_ignorable before with
  | [] => false
  | c :: _ =>
      in_ranges Unicode.cased c &&
      match skip_ignorable after with
      | [] => true
      | c' :: _ => negb (in_ranges Unicode.cased c')
      end
  end.

Fixpoint lower_points (before l : list N) : list N :=
  match l with
  | [] => []
  | c :: rest =>
      (if (c =? 931)%N then [if final_sigma before rest then 962 else 963]%N
       else mapping Unicode.lowercase c)
      ++ lower_points (c :: before) rest
  end.

(** [s.lower()] and [s.toLowerCase()] *)
Definition lower (s : string) : string := of_points (lower_points [] (points s)).

(** Case on the ASCII range alone, as the DOM has it for tag names and
    CSS for the [i] flag of an attribute selector. *)
Definition lower_char (c : ascii) : ascii :=
  let n := nat_of_ascii c in
  if ((65 <=? n) && (n <=? 90))%nat then ascii_of_nat (n + 32) else c.

Definition upper_char (c : ascii) : ascii :=
  let n := nat_of_ascii c in
  if ((97 <=? n) && (n <=? 122))%nat then ascii_of_nat (n - 32) else c.

Fixpoint smap (f : ascii -> ascii) (s : string) : string :=
  match s with
  | EmptyString => EmptyString
  | String c s' => String (f c) (smap f s')
  end.

Definition ascii_lower (s : string) : string := smap lower_char s.
Definition ascii_upper (s : string) : string := smap upper_char s.

(** *** White space at the ends *)

Fixpoint drop_while (ws : N -> bool) (l : list N) : list N :=
  match l with
  | [] => []
  | c :: rest => if ws c then drop_while ws rest else l
  end.

Definition strip_points (ws : N -> bool) (l : list N) : list N :=
  rev (drop_while ws (rev (drop_while ws l))).

(** [s.trim()] in JavaScript and [s.strip()] in Python. *)
Definition trim (s : string) : string := of_points (strip_points is_js_space (points s)).
Definition strip (s : string) : string := of_points (strip_points is_space (points s)).

(** *** Containment *)

Fixpoint is_prefix (p s : string) : bool :=
  match p, s with
  | EmptyString, _ => true
  | String a p', String b s' => Ascii.eqb a b && is_prefix p' s'
  | String _ _, EmptyString => false
  end.

(** [needle in hay] / [hay.includes(needle)]. *)
Fixpoint contains (needle hay : string) : bool :=
  is_prefix needle hay ||
  match hay with
  | EmptyString => false
  | String _ hay' => contains needle hay'
  end.

Definition nonempty (s : string) : bool :=
  match s with EmptyString => false | String _ _ => true end.

(** [a || b] on JavaScript strings: the empty string is falsy. *)
Definition or_else (a b : string) : string := if nonempty a then a else b.

(** ASCII white space, which separates the tokens of a [class]
    attribute: TAB, LF, FF, CR and SP. *)
Definition is_ascii_space (c : ascii) : bool :=
  let n := nat_of_ascii c in
  ((n =? 9) || (n =? 10) || (n =? 12) || (n =? 13) || (n =? 32))%nat.

Fixpoint words_aux (cur : string) (s : string) : list string :=
  match s with
  | EmptyString => if nonempty cur then [cur] else []
  | String c s' =>
      if is_ascii_space c
      then (if nonempty cur then [cur] else []) ++ words_aux EmptyString s'
      else words_aux (cur ++ String c EmptyString) s'
  end.

Definition words (s : string) : list string := words_aux EmptyString s.

(** [s.substring(0, n)], counted in code units, which are bytes here. *)
Definition take (n : nat) (s : string) : string := String.substring 0 n s.

(** [s[:n]]: the first [n] characters. *)
Definition prefix (n : nat) (s : string) : string := of_points (firstn n (points s)).

End Text.

(** ** The DOM as the in-page scripts see it *)

Module Dom.

Record Rect := mkRect { rx : Q; ry : Q; rw : Q; rh : Q }.

(** [rect.width > 0 && rect.height > 0] *)
Definition has_area (r : Rect) : bool :=
  negb (Qle_bool (rw r) 0) && negb (Qle_bool (rh r) 0).

Definition center_x (r : Rect) : Q := rx r + rw r / 2.
Definition center_y (r : Rect) : Q := ry r + rh r / 2.

Record Element := mkElement {
  tag : string;                      (* lower-case tag name *)
  attrs : list (string * string);    (* id, class, role, jsname, ... *)
  innerText : string;
  textContent : string;
  value : string;
  rect : Rect                        (* getBoundingClientRect() *)
}.

#[warnings="-register-all"]
Inductive Node := mkNode (e : Element) (kids : list Node).

Definition elem (n : Node) : Element := match n with mkNode e _ => e end.
Definition children (n : Node) : list Node := match n with mkNode _ ks => ks end.

(** A node together with its ancestors, nearest first. *)
Definition Entry : Type := Node * list Node.

(** Document order: a node, then its subtrees left to right. *)
Fixpoint walk (anc : list Node) (n : Node) : list Entry :=
  match n with
  | mkNode e ks =>
      (n, anc) ::
      (fix go (l : list Node) : list Entry :=
         match l with
         | [] => []
         | k :: l' => walk (n :: anc) k ++ go l'
         end) ks
  end.

Definition walk_all (anc : list Node) (ns : list Node) : list Entry :=
  flat_map (walk anc) ns.

(** Descendants of an entry, in document order (the entry excluded). *)
Definition descendants (en : Entry) : list Entry :=
  walk_all (fst en :: snd en) (children (fst en)).

Fixpoint assoc (k : string) (l : list (string * string)) : option string :=
  match l with
  | [] => None
  | (k', v) :: l' => if String.eqb k k' then Some v else assoc k l'
  end.

Definition getAttribute (e : Element) (name : string) : option string :=
  assoc name (attrs e).

(** [el.getAttribute(name) || ''] *)
Definition attr_or_empty (e : Element) (name : string) : string :=
  match getAttribute e name with Some v => v | None => "" end.

Definition className (e : Element) : string := attr_or_empty e "class".
Definition elem_id (e : Element) : string := attr_or_empty e "id".
Definition placeholder (e : Element) : string := attr_or_empty e "placeholder".
Definition tagName (e : Element) : string := Text.ascii_upper (tag e).

(** [(el.innerText || el.textContent || '')] *)
Definition shown_text (e : Element) : string :=
  Text.or_else (innerText e) (textContent e).

Definition visible (en : Entry) : bool := has_area (rect (elem (fst en))).

(** *** Selectors

    The subset of CSS the scripts use: comma lists of descendant chains
    of compound selectors. [:has-text(...)] is a Playwright extension;
    [document.querySelector(All)] rejects it with a [SyntaxError]. *)

Inductive AttrTest :=
| AttrPresent (name : string)
| AttrEquals (name v : string)
| AttrContains (name v : string)
| AttrContainsI (name v : string).

Record Compound := mkCompound {
  c_tag : option string;
  c_id : option string;
  c_classes : list string;
  c_attrs : list AttrTest;
  c_has_text : option string
}.

Record Complex := mkComplex {
  subject : Compound;
  within : list Compound            (* enclosing compounds, nearest first *)
}.

Definition Selector : Type := list Complex.

Definition attr_test (e : Element) (t : AttrTest) : bool :=
  match t with
  | AttrPresent n => match getAttribute e n with Some _ => true | None => false end
  | AttrEquals n v =>
      match getAttribute e n with Some w => String.eqb w v | None => false end
  | AttrContains n v =>
      match getAttribute e n with
      | Some w => Text.nonempty v && Text.contains v w
      | None => false
      end
  | AttrContainsI n v =>
      match getAttribute e n with
      | Some w =>
          Text.nonempty v && Text.contains (Text.ascii_lower v) (Text.ascii_lower w)
      | None => false
      end
  end.

Definition opt_test {A} (o : option A) (f : A -> bool) : bool :=
  match o with None => true | Some a => f a end.

Definition matches_compound (c : Compound) (n : Node) : bool :=
  let e := elem n in
  opt_test (c_tag c) (fun t => String.eqb t (tag e)) &&
  opt_test (c_id c) (fun i => String.eqb i (elem_id e) && Text.nonempty i) &&
  forallb (fun k => existsb (String.eqb k) (Text.words (className e))) (c_classes c) &&
  forallb (attr_test e) (c_attrs c).

(** Descendant combinator: each enclosing compound is looked for among
    the ancestors above the previous one, nearest first. *)
Fixpoint chain_ok (cs : list Compound) (anc : list Node) : bool :=
  match cs with
  | [] => true
  | c :: cs' =>
      (fix find (l : list Node) : bool :=
         match l with
         | [] => false
         | a :: l' => if matches_compound c a then chain_ok cs' l' else find l'
         end) anc
  end.

Definition matches_complex (x : Complex) (en : Entry) : bool :=
  matches_compound (subject x) (fst en) && chain_ok (within x) (snd en).

Definition matches (s : Selector) (en : Entry) : bool :=
  existsb (fun x => matches_complex x en) s.

Definition compound_valid (c : Compound) : bool :=
  match c_has_text c with None => true | Some _ => false end.

Definition sel_valid (s : Selector) : bool :=
  match s with
  | [] => false
  | _ => forallb (fun x => compound_valid (subject x) && forallb compound_valid (within x)) s
  end.

(** *** Exceptions and outcomes, shared by the scripts and by Python *)

Inductive Exn :=
| SyntaxError        (* DOMException: not a valid selector *)
| TypeError          (* subscript of None *)
| DriverFault.       (* any error raised by the browser driver *)

Inductive Outcome (A : Type) :=
| Ok (a : A)
| Raise (e : Exn).
Arguments Ok {A} a.
Arguments Raise {A} e.

(** *** Query API *)

Definition querySelectorAll (scope : list Entry) (s : Selector)
  : Outcome (list Entry) :=
  if sel_valid s then Ok (List.filter (matches s) scope) else Raise SyntaxError.

Definition querySelector (scope : list Entry) (s : Selector)
  : Outcome (option Entry) :=
  if sel_valid s then Ok (head (List.filter (matches s) scope)) else Raise SyntaxError.

Fixpoint ancestor_entries (anc : list Node) : list Entry :=
  match anc with
  | [] => []
  | a :: anc' => (a, anc') :: ancestor_entries anc'
  end.

(** [el.closest(s)]: the element itself or its nearest matching ancestor. *)
Definition closest (s : Selector) (en : Entry) : option Entry :=
  List.find (matches s) (en :: ancestor_entries (snd en)).

(** A document is its root element; [document.querySelectorAll] ranges
    over all its elements in document order. *)
Definition Doc : Type := Node.
Definition all_elements (d : Doc) : list Entry := walk [] d.

End Dom.

(** ** The in-page scripts of [submit_name_change]

    Each script is the JavaScript function passed to [evaluate], as a
    function of the document it runs in. Selector lists that Python
    interpolates with [json.dumps] are arguments. *)

Module Js.
Import Dom.

Definition sel1 (c : Compound) : Selector := [mkComplex c []].
Definition by_tag (t : string) : Compound := mkCompound (Some t) None [] [] None.
Definition by_attr (t : option string) (a : AttrTest) : Compound :=
  mkCompound t None [] [a] None.
Definition by_class (t : option string) (ks : list string) : Compound :=
  mkCompound t None ks [] None.
Definition has_text (t : string) (txt : string) : Compound :=
  mkCompound (Some t) None [] [] (Some txt).
Definition any_of (cs : list Compound) : Selector :=
  map (fun c => mkComplex c []) cs.
(** [outer inner], a descendant chain of two compounds. *)
Definition inside (outer inner : Compound) : Complex := mkComplex inner [outer].

(** [self.place_name_selectors] as set in [__init__]. *)
Definition place_name_selectors : list Selector :=
  [ sel1 (mkCompound (Some "input") (Some "i7") [] [] None);
    sel1 (by_attr (Some "input") (AttrEquals "jsname" "YPqjbf"));
    sel1 (by_attr (Some "input") (AttrEquals "aria-label" "Place name in English"));
    sel1 (by_attr (Some "input") (AttrEquals "placeholder" "Add place name in English"));
    sel1 (by_class (Some "input") ["VfPpkd-fmcmS-wGMbrd"]);
    sel1 (mkCompound (Some "input") None []
            [AttrEquals "type" "text"; AttrContainsI "aria-label" "Place name"] None);
    sel1 (by_attr (Some "input") (AttrContainsI "placeholder" "place name")) ].

(** [self.submit_selectors] as set in [__init__]. *)
Definition submit_selectors : list Selector :=
  [ sel1 (by_attr (Some "span") (AttrEquals "jsname" "V67aGc"));
    sel1 (by_class (Some "span") ["VfPpkd-vQzf8d"]);
    sel1 (by_class (Some "div") ["VfPpkd-RLmnJb"]);
    sel1 (has_text "span" "Submit");
    sel1 (has_text "button" "Submit");
    sel1 (has_text "button" "Send");
    sel1 (mkCompound None None [] [AttrEquals "role" "button"] (Some "Submit"));
    sel1 (by_attr None (AttrContainsI "aria-label" "Submit"));
    sel1 (by_attr None (AttrContainsI "aria-label" "Send")) ].

(** *** The place-name query (lines 888-935) *)

Record InputHit := mkInputHit {
  ih_x : Q;
  ih_y : Q;
  ih_placeholder : string;
  ih_ariaLabel : string;
  ih_tag : string;
  ih_className : string;
  ih_id : option string;          (* key present only for captured selectors *)
  ih_jsname : option string;
  ih_foundBy : string
}.

Definition captured_hit (en : Entry) : InputHit :=
  let e := elem (fst en) in
  {| ih_x := center_x (rect e); ih_y := center_y (rect e);
     ih_placeholder := placeholder e;
     ih_ariaLabel := attr_or_empty e "aria-label";
     ih_tag := tagName e;
     ih_className := className e;
     ih_id := Some (elem_id e);
     ih_jsname := Some (attr_or_empty e "jsname");
     ih_foundBy := "captured-selectors" |}.

Definition label_hit (en : Entry) : InputHit :=
  let e := elem (fst en) in
  {| ih_x := center_x (rect e); ih_y := center_y (rect e);
     ih_placeholder := placeholder e;
     ih_ariaLabel := attr_or_empty e "aria-label";
     ih_tag := tagName e;
     ih_className := className e;
     ih_id := None;
     ih_jsname := None;
     ih_foundBy := "label-proximity" |}.

(** [for (let selector of selectors) { const input = document.querySelector(selector); ... }] *)
Fixpoint by_captured_selectors (scope : list Entry) (sels : list Selector)
  : Outcome (option InputHit) :=
  match sels with
  | [] => Ok None
  | s :: rest =>
      match querySelector scope s with
      | Raise e => Raise e
      | Ok (Some en) =>
          if visible en then Ok (Some (captured_hit en))
          else by_captured_selectors scope rest
      | Ok None => by_captured_selectors scope rest
      end
  end.

Definition label_sel : Selector := any_of [by_tag "span"; by_tag "label"].
Definition container_sel : Selector :=
  any_of [by_tag "div"; by_tag "form"; by_tag "section"].
Definition editable_sel : Selector :=
  any_of [by_tag "input"; by_tag "textarea";
          by_attr None (AttrPresent "contenteditable")].

Definition is_place_name_label (en : Entry) : bool :=
  Text.contains "place name" (Text.lower (innerText (elem (fst en)))).

(** [for (let lab of labels) { ... }] *)
Fixpoint by_label_proximity (labels : list Entry) : option InputHit :=
  match labels with
  | [] => None
  | lab :: rest =>
      match closest container_sel lab with
      | None => by_label_proximity rest
      | Some container =>
          match head (List.filter (matches editable_sel) (descendants container)) with
          | Some input =>
              if visible input then Some (label_hit input)
              else by_label_proximity rest
          | None => by_label_proximity rest
          end
      end
  end.

Definition place_name_script (sels : list Selector) (d : Doc)
  : Outcome (option InputHit) :=
  let scope := all_elements d in
  match by_captured_selectors scope sels with
  | Raise e => Raise e
  | Ok (Some hit) => Ok (Some hit)
  | Ok None =>
      let labels :=
        List.filter is_place_name_label
          (List.filter (matches label_sel) scope) in
      Ok (by_label_proximity labels)
  end.

(** *** The submit query (lines 975-1014) *)

Record ButtonHit := mkButtonHit {
  bh_x : Q;
  bh_y : Q;
  bh_text : string;
  bh_className : string;
  bh_jsname : option string;
  bh_clickedVia : option string
}.

(** [(btn.innerText || btn.textContent || '').trim().toLowerCase()] *)
Definition button_text (en : Entry) : string :=
  Text.lower (Text.trim (shown_text (elem (fst en)))).

Definition is_exact_submit (en : Entry) : bool :=
  visible en && String.eqb (button_text en) "submit".

Definition is_submit_like (en : Entry) : bool :=
  visible en &&
  (Text.contains "submit" (button_text en) || Text.contains "send" (button_text en)).

Definition clickable_sel : Selector :=
  [ mkComplex (by_tag "button") [];
    mkComplex (by_attr None (AttrEquals "role" "button")) [];
    mkComplex (by_attr (Some "div") (AttrPresent "role")) [];
    mkComplex (by_tag "div") [] ].

Definition exact_hit (en : Entry) : ButtonHit :=
  let e := elem (fst en) in
  {| bh_x := center_x (rect e); bh_y := center_y (rect e);
     bh_text := button_text en;
     bh_className := className e;
     bh_jsname := Some (attr_or_empty e "jsname");
     bh_clickedVia := Some "exact-match" |}.

(** [const r = (clickable ? clickable.getBoundingClientRect() : rect)] *)
Definition click_rect (en : Entry) : Rect :=
  match closest clickable_sel en with
  | Some c => rect (elem (fst c))
  | None => rect (elem (fst en))
  end.

Definition ancestor_hit (en : Entry) : ButtonHit :=
  {| bh_x := center_x (click_rect en); bh_y := center_y (click_rect en);
     bh_text := button_text en;
     bh_className := className (elem (fst en));
     bh_jsname := None;
     bh_clickedVia := Some "ancestor" |}.

(** [for (let btn of nodes) { ... }] *)
Fixpoint scan_buttons (nodes : list Entry) : option ButtonHit :=
  match nodes with
  | [] => None
  | btn :: rest =>
      if is_exact_submit btn then Some (exact_hit btn)
      else if is_submit_like btn then Some (ancestor_hit btn)
      else scan_buttons rest
  end.

Fixpoint submit_script_loop (scope : list Entry) (sels : list Selector)
  : Outcome (option ButtonHit) :=
  match sels with
  | [] => Ok None
  | s :: rest =>
      match querySelectorAll scope s with
      | Raise e => Raise e
      | Ok nodes =>
          match scan_buttons nodes with
          | Some hit => Ok (Some hit)
          | None => submit_script_loop scope rest
          end
      end
  end.

Definition submit_script (sels : list Selector) (d : Doc)
  : Outcome (option ButtonHit) :=
  submit_script_loop (all_elements d) sels.

(** *** The menu listing (lines 750-774) *)

Record MenuItem := mkMenuItem {
  mi_index : nat;
  mi_text : string;
  mi_visible : bool;
  mi_x : Q;
  mi_y : Q;
  mi_className : string
}.

Definition menu_sel : Selector :=
  any_of [by_attr None (AttrEquals "role" "menuitem");
          by_attr None (AttrEquals "role" "button");
          by_attr (Some "div") (AttrPresent "data-value");
          by_tag "button"].

Definition menu_item (i : nat) (en : Entry) : MenuItem :=
  let e := elem (fst en) in
  {| mi_index := i;
     mi_text := Text.trim (shown_text e);
     mi_visible := visible en;
     mi_x := center_x (rect e); mi_y := center_y (rect e);
     mi_className := className e |}.

(** [for (let i = 0; i < Math.min(allClickable.length, 10); i++)] *)
Definition menu_script (d : Doc) : Outcome (list MenuItem) :=
  match querySelectorAll (all_elements d) menu_sel with
  | Raise e => Raise e
  | Ok all => Ok (imap menu_item (firstn 10 all))
  end.

(** *** The scan for any editable element (lines 1129-1168) *)

Record Editable := mkEditable {
  ed_x : Q;
  ed_y : Q;
  ed_value : string;
  ed_placeholder : string;
  ed_tag : string
}.

Definition is_search_box (e : Element) : bool :=
  Text.contains "searchboxinput" (className e) ||
  Text.contains "omnibox" (className e) ||
  Text.contains "search" (Text.lower (placeholder e)).

(** [el.contentEditable === 'true'] *)
Definition content_editable (e : Element) : bool :=
  match getAttribute e "contenteditable" with
  | Some v => String.eqb v "true" || String.eqb v ""
  | None => false
  end.

Definition editable_value (e : Element) : string :=
  if String.eqb (tagName e) "INPUT" || String.eqb (tagName e) "TEXTAREA"
  then value e
  else if content_editable e then shown_text e
  else "".

Definition editable_of (en : Entry) : Editable :=
  let e := elem (fst en) in
  {| ed_x := center_x (rect e); ed_y := center_y (rect e);
     ed_value := Text.take 50 (editable_value e);
     ed_placeholder := Text.take 50 (placeholder e);
     ed_tag := tagName e |}.

Definition editable_script (d : Doc) : Outcome (list Editable) :=
  match querySelectorAll (all_elements d) editable_sel with
  | Raise e => Raise e
  | Ok all =>
      Ok (map editable_of
            (List.filter (fun en => visible en && negb (is_search_box (elem (fst en)))) all))
  end.

(** *** The submit query of the fallback path (lines 1190-1248) *)

Definition fallback_submit_selectors : list Selector :=
  [ sel1 (by_attr (Some "span") (AttrEquals "jsname" "V67aGc"));
    sel1 (by_class (Some "span") ["VfPpkd-vQzf8d"]);
    sel1 (by_class (Some "div") ["VfPpkd-RLmnJb"]);
    sel1 (has_text "button" "Submit");
    sel1 (has_text "button" "Send");
    sel1 (mkCompound None None [] [AttrEquals "role" "button"] (Some "Submit"));
    sel1 (by_attr None (AttrContainsI "aria-label" "Submit"));
    sel1 (by_attr None (AttrContainsI "aria-label" "Send")) ].

Definition own_hit (with_jsname : bool) (en : Entry) : ButtonHit :=
  let e := elem (fst en) in
  {| bh_x := center_x (rect e); bh_y := center_y (rect e);
     bh_text := button_text en;
     bh_className := className e;
     bh_jsname := if with_jsname then Some (attr_or_empty e "jsname") else None;
     bh_clickedVia := None |}.

(** One selector of the first loop; a [SyntaxError] is caught and the
    loop goes on ([catch (e) { continue; }]). *)
Fixpoint fallback_by_selectors (scope : list Entry) (sels : list Selector)
  : option ButtonHit :=
  match sels with
  | [] => None
  | s :: rest =>
      match querySelectorAll scope s with
      | Raise _ => fallback_by_selectors scope rest
      | Ok nodes =>
          match List.find is_submit_like nodes with
          | Some btn => Some (own_hit true btn)
          | None => fallback_by_selectors scope rest
          end
      end
  end.

Definition generic_clickable_sel : Selector :=
  any_of [by_tag "button"; by_attr None (AttrEquals "role" "button");
          by_tag "div"; by_tag "span"].

Definition is_exact_submit_or_send (en : Entry) : bool :=
  visible en &&
  (String.eqb (button_text en) "submit" || String.eqb (button_text en) "send").

Definition fallback_submit_script (d : Doc) : Outcome (option ButtonHit) :=
  let scope := all_elements d in
  match fallback_by_selectors scope fallback_submit_selectors with
  | Some hit => Ok (Some hit)
  | None =>
      match querySelectorAll scope generic_clickable_sel with
      | Raise e => Raise e
      | Ok nodes => Ok (option_map (own_hit false) (List.find is_exact_submit_or_send nodes))
      end
  end.

(** *** The confirmation-dialog query (lines 1026-1098) *)

Record Point := mkPoint { pt_x : Q; pt_y : Q }.

Definition center_of (en : Entry) : Point :=
  let e := elem (fst en) in
  {| pt_x := center_x (rect e); pt_y := center_y (rect e) |}.

Definition dialog_div : Compound := by_attr (Some "div") (AttrEquals "role" "dialog").
Definition modal_div : Compound := by_attr (Some "div") (AttrEquals "aria-modal" "true").
Definition role_button : Compound := by_attr None (AttrEquals "role" "button").
Definition ok_classes : Selector :=
  sel1 (mkCompound None None []
          [AttrContains "class" "okDpye"; AttrContains "class" "PpaGLb"] None).

Definition dialogSelectors : list Selector :=
  [ [inside dialog_div (by_tag "button")];
    [inside modal_div (by_tag "button")];
    [inside dialog_div role_button];
    sel1 (by_class None ["VfPpkd-LgbsSe"]);
    sel1 (by_class None ["VfPpkd-vQzf8d"]);
    sel1 (by_class (Some "button") ["okDpye"; "PpaGLb"]);
    sel1 (by_class (Some "button") ["okDpye"]);
    sel1 (by_class (Some "button") ["PpaGLb"]);
    ok_classes ].

Definition labelTexts : list string := ["ok"; "done"; "got it"; "close"].

(** [labelTexts.some(x => t === x || t.includes(x))] *)
Definition has_ok_label (en : Entry) : bool :=
  visible en &&
  existsb (fun x => String.eqb (button_text en) x || Text.contains x (button_text en))
    labelTexts.

Fixpoint ok_by_dialog_text (scope : list Entry) (sels : list Selector)
  : Outcome (option Point) :=
  match sels with
  | [] => Ok None
  | s :: rest =>
      match querySelectorAll scope s with
      | Raise e => Raise e
      | Ok nodes =>
          match List.find has_ok_label nodes with
          | Some el => Ok (Some (center_of el))
          | None => ok_by_dialog_text scope rest
          end
      end
  end.

Definition okSelectors : list Selector :=
  [ sel1 (has_text "button" "OK");
    sel1 (mkCompound None None [] [AttrEquals "role" "button"] (Some "OK"));
    sel1 (has_text "button" "Got it");
    sel1 (mkCompound None None [] [AttrEquals "role" "button"] (Some "Got it"));
    sel1 (has_text "button" "Done");
    sel1 (mkCompound None None [] [AttrEquals "role" "button"] (Some "Done"));
    sel1 (has_text "button" "Close");
    sel1 (mkCompound None None [] [AttrEquals "role" "button"] (Some "Close"));
    sel1 (by_attr None (AttrEquals "aria-label" "OK"));
    sel1 (by_attr None (AttrEquals "aria-label" "Done"));
    sel1 (by_attr None (AttrEquals "aria-label" "Close"));
    sel1 (by_class (Some "button") ["okDpye"; "PpaGLb"]);
    sel1 (by_class (Some "button") ["okDpye"]);
    sel1 (by_class (Some "button") ["PpaGLb"]);
    ok_classes ].

(** [try { ... } catch(e) {}] around each selector. *)
Fixpoint ok_by_selectors (scope : list Entry) (sels : list Selector) : option Point :=
  match sels with
  | [] => None
  | s :: rest =>
      match querySelectorAll scope s with
      | Raise _ => ok_by_selectors scope rest
      | Ok els =>
          match List.find visible els with
          | Some el => Some (center_of el)
          | None => ok_by_selectors scope rest
          end
      end
  end.

Definition any_dialog : Selector := any_of [dialog_div; modal_div].
Definition dialog_button : Selector := any_of [by_tag "button"; role_button].

Definition labelled_button (en : Entry) : bool :=
  visible en && Text.nonempty (button_text en).

Fixpoint ok_in_dialogs (dialogs : list Entry) : option Point :=
  match dialogs with
  | [] => None
  | dlg :: rest =>
      match List.find labelled_button
              (List.filter (matches dialog_button) (descendants dlg)) with
      | Some el => Some (center_of el)
      | None => ok_in_dialogs rest
      end
  end.

Definition ok_script (d : Doc) : Outcome (option Point) :=
  let scope := all_elements d in
  match ok_by_dialog_text scope dialogSelectors with
  | Raise e => Raise e
  | Ok (Some p) => Ok (Some p)
  | Ok None =>
      match ok_by_selectors scope okSelectors with
      | Some p => Ok (Some p)
      | None => Ok (ok_in_dialogs (List.filter (matches any_dialog) scope))
      end
  end.

End Js.

(** ** The browser session and the monad of the Python code *)

Module Session.
Import Dom.

(** A frame handle of [page.frames]. *)
Definition Frame : Type := nat.

(** [page.locator(selector)], possibly narrowed by [.first] / [.nth(i)].
    Selector strings are kept as the driver receives them, with single
    quotes where the source text has double quotes. *)
Record Locator := mkLocator { loc_selector : string; loc_nth : option nat }.

Definition locator (sel : string) : Locator := mkLocator sel None.
Definition first (l : Locator) : Locator := mkLocator (loc_selector l) (Some 0%nat).
Definition nth (l : Locator) (i : nat) : Locator := mkLocator (loc_selector l) (Some i).

(** Read-only driver queries. *)
Inductive Query : Type -> Type :=
| QCount (l : Locator) : Query nat
| QIsVisible (l : Locator) : Query bool
| QIsEnabled (l : Locator) : Query bool
| QInnerText (l : Locator) : Query string
| QAllInnerTexts (l : Locator) : Query (list string)
| QBoundingBox (l : Locator) : Query (option Rect)
| QContent : Query string
| QContextPages : Query nat
| QPathExists (path : string) : Query bool
| QTime : Query Z.

(** Driver calls that act on the page or on the file system. *)
Inductive Action :=
| MouseClick (x y : Q)
| KeyPress (key : string)
| KeyType (text : string)
| LocClick (l : Locator)
| LocFill (l : Locator) (text : string)
| LocPress (l : Locator) (key : string)
| LocClear (l : Locator)
| LocScrollIntoView (l : Locator)
| LocWaitVisible (l : Locator)
| Screenshot (path : string) (full_page : bool)
| WriteFile (path : string) (content : string)
| MakeDirs (path : string)
| StartPlaywright
| LaunchContext (user_data_dir : string) (headless : bool) (channel : option string)
| NewPage
| AddInitScript (name : string)
| ExposeFunction (name : string)
| Goto (url : string)
| RunScript (name : string)            (* evaluate of a script that acts on the page *)
| CloseContext
| StopPlaywright.

(** What the engine needs from the browser driver. [W] is the state of
    the browser and of the remote page, which the engine does not
    control: every call may fail, and actions and elapsed time change
    it arbitrarily. *)
Class Browser (W : Type) := {
  page_frames : W -> list Frame;          (* page.frames *)
  main_frame : W -> Frame;                (* page.main_frame *)
  frame_doc : W -> Frame -> option Doc;   (* None: evaluate raises *)
  window_top : W -> Frame -> option Frame;     (* None: access denied *)
  window_parent : W -> Frame -> option Frame;
  query : forall A, Query A -> W -> Outcome A;
  perform : Action -> W -> Outcome unit * W;
  elapse : Q -> W -> W                    (* asyncio.sleep *)
}.

Inductive Event :=
| EvPrint (text : string)
| EvPrintWith (text : string) (detail : string)
| EvSleep (seconds : Q)
| EvAct (a : Action)
| EvFlag (fr : Frame) (v : bool).     (* window.__botClicking = v *)

Record State (W : Type) := mkState {
  world : W;
  environ : gmap string string;           (* os.environ *)
  trace : list Event;                     (* everything done so far *)
  playwright : bool;                      (* self.playwright is set *)
  context : bool                          (* self.context is set *)
}.
Arguments mkState {W} _ _ _ _ _.
Arguments world {W} _.
Arguments environ {W} _.
Arguments trace {W} _.
Arguments playwright {W} _.
Arguments context {W} _.

Definition set_world {W} (w : W) (s : State W) : State W :=
  mkState w (environ s) (trace s) (playwright s) (context s).
Definition add_trace {W} (evs : list Event) (s : State W) : State W :=
  mkState (world s) (environ s) (trace s ++ evs) (playwright s) (context s).
Definition set_environ {W} (k v : string) (s : State W) : State W :=
  mkState (world s) (<[k := v]> (environ s)) (trace s) (playwright s) (context s).
Definition set_playwright {W} (b : bool) (s : State W) : State W :=
  mkState (world s) (environ s) (trace s) b (context s).
Definition set_context {W} (b : bool) (s : State W) : State W :=
  mkState (world s) (environ s) (trace s) (playwright s) b.

Definition M (W A : Type) : Type := State W -> Outcome A * State W.

Definition ret {W A} (a : A) : M W A := fun s => (Ok a, s).
Definition raise {W A} (e : Exn) : M W A := fun s => (Raise e, s).

Definition bind {W A B} (m : M W A) (k : A -> M W B) : M W B :=
  fun s =>
    match m s with
    | (Ok a, s') => k a s'
    | (Raise e, s') => (Raise e, s')
    end.

(** [try: m / except Exception: h] *)
Definition try_except {W A} (m : M W A) (h : Exn -> M W A) : M W A :=
  fun s =>
    match m s with
    | (Ok a, s') => (Ok a, s')
    | (Raise e, s') => h e s'
    end.

(** [try: m / finally: f] *)
Definition try_finally {W A} (m : M W A) (f : M W unit) : M W A :=
  fun s =>
    match m s with
    | (r, s') =>
        match f s' with
        | (Ok _, s'') => (r, s'')
        | (Raise e, s'') => (Raise e, s'')
        end
    end.

Definition emit {W} (evs : list Event) : M W unit :=
  fun s => (Ok tt, add_trace evs s).

Definition print {W} (text : string) : M W unit := emit [EvPrint text].
(** Consecutive [print] calls. *)
Definition prints {W} (texts : list string) : M W unit := emit (map EvPrint texts).
Definition print_with {W} (text detail : string) : M W unit :=
  emit [EvPrintWith text detail].

Definition getenv {W} (name : string) (default : string) : M W string :=
  fun s => (Ok (match environ s !! name with Some v => v | None => default end), s).

End Session.

(** ** The bot: primitives *)

Module Bot.
Import Dom Js Session.

Declare Scope bot_scope.
Delimit Scope bot_scope with bot.
Notation "'do' x <- m ; k" := (bind m (fun x => k))
  (at level 10, x name, m at level 100, k at level 200) : bot_scope.
Local Open Scope bot_scope.

(** The attributes of [GoogleMapsEditBot] that the engine reads. *)
Record Bot := mkBot {
  headless : bool;
  user_data_dir : string;
  auto_click : bool;
  capture_clicks : bool;
  click_delay : Q;
  panel_wait_seconds : Z;
  post_ok_click : bool;
  place_name_selectors : list Selector;
  submit_selectors : list Selector
}.

(** [GoogleMapsEditBot(headless, user_data_dir=...)] *)
Definition new_bot (headless : bool) (user_data_dir : option string) : Bot :=
  {| headless := headless;
     user_data_dir := match user_data_dir with
                      | Some d => if Text.nonempty d then d else "./browser_data"
                      | None => "./browser_data"
                      end;
     auto_click := false;
     capture_clicks := false;
     click_delay := 1 # 2;
     panel_wait_seconds := 3;
     post_ok_click := true;
     place_name_selectors := Js.place_name_selectors;
     submit_selectors := Js.submit_selectors |}.

(** [self.click_delay and self.click_delay > 0] *)
Definition positive (d : Q) : bool := negb (Qle_bool d 0).

(** The replay of the flag writes of a trace: the value of
    [window.__botClicking] in each frame ([None]: never written). *)
Definition flag_step (m : gmap Frame bool) (ev : Event) : gmap Frame bool :=
  match ev with
  | EvFlag f v => <[f := v]> m
  | _ => m
  end.

Definition flags_of (t : list Event) : gmap Frame bool :=
  fold_left flag_step t ∅.

Section WithBrowser.
Context {W : Type} `{Browser W}.

Definition sleep (seconds : Q) : M W unit :=
  fun s => (Ok tt, add_trace [EvSleep seconds] (set_world (elapse seconds (world s)) s)).

Definition act (a : Action) : M W unit :=
  fun s =>
    let '(r, w') := perform a (world s) in
    (r, add_trace [EvAct a] (set_world w' s)).

Definition ask {A} (q : Query A) : M W A :=
  fun s => (query A q (world s), s).

(** [frame.evaluate(js)] for a script that only reads the document. *)
Definition evaluate {A} (fr : Frame) (js : Doc -> Outcome A) : M W A :=
  fun s =>
    match frame_doc (world s) fr with
    | Some d => (js d, s)
    | None => (Raise DriverFault, s)
    end.

(** [self.page.evaluate(js)] runs in the main frame. *)
Definition page_evaluate {A} (js : Doc -> Outcome A) : M W A :=
  fun s => evaluate (main_frame (world s)) js s.

Definition frames : M W (list Frame) := fun s => (Ok (page_frames (world s)), s).
Definition the_main_frame : M W Frame := fun s => (Ok (main_frame (world s)), s).

Definition click_pause (self : Bot) : M W unit :=
  if positive (click_delay self) then sleep (click_delay self) else ret tt.

(** *** [_evaluate_in_all_frames] (lines 68-87)

    The scripts passed here return an object or [null]; an object
    with keys is truthy in Python. *)

Fixpoint evaluate_in_child_frames {X} (js : Doc -> Outcome (option X))
    (main : Frame) (frs : list Frame) : M W (option X * option Frame) :=
  match frs with
  | [] => ret (None, None)
  | frame :: rest =>
      if Nat.eqb frame main then evaluate_in_child_frames js main rest
      else
        do r <- try_except (evaluate frame js) (fun _ => ret None);
        match r with
        | Some result => ret (Some result, Some frame)
        | None => evaluate_in_child_frames js main rest
        end
  end.

Definition _evaluate_in_all_frames {X} (js : Doc -> Outcome (option X))
  : M W (option X * option Frame) :=
  do main <- the_main_frame;
  do r <- try_except (page_evaluate js) (fun _ => ret None);
  match r with
  | Some result => ret (Some result, Some main)
  | None =>
      do frs <- frames;
      evaluate_in_child_frames js main frs
  end.

(** *** [_set_bot_clicking_for_all_frames] (lines 105-121)

    The script writes the flag of its own window, of [window.top] and
    of [window.parent]; the last two are guarded by [try/catch]. *)

Definition flag_writes (w : W) (fr : Frame) (v : bool) : list Event :=
  EvFlag fr v ::
  match window_top w fr with Some t => [EvFlag t v] | None => [] end ++
  match window_parent w fr with Some p => [EvFlag p v] | None => [] end.

Definition evaluate_flag_js (fr : Frame) (v : bool) : M W unit :=
  fun s =>
    match frame_doc (world s) fr with
    | Some _ => emit (flag_writes (world s) fr v) s
    | None => (Raise DriverFault, s)
    end.

Fixpoint set_flag_in_frames (v : bool) (frs : list Frame) : M W unit :=
  match frs with
  | [] => ret tt
  | fr :: rest =>
      do _ <- try_except (evaluate_flag_js fr v) (fun _ => ret tt);
      set_flag_in_frames v rest
  end.

Definition _set_bot_clicking_for_all_frames (value : bool) : M W unit :=
  do main <- the_main_frame;
  do _ <- try_except (evaluate_flag_js main value) (fun _ => ret tt);
  do frs <- frames;
  set_flag_in_frames value frs.

(** *** [_click_xy_in_frame] (lines 89-103)

    [target_page] is the page that owns the frame, which is the one
    page of the session. *)

Definition guarded_click (x y : Q) : M W unit :=
  try_finally
    (do _ <- _set_bot_clicking_for_all_frames true;
     act (MouseClick x y))
    (_set_bot_clicking_for_all_frames false).

Definition _click_xy_in_frame (self : Bot) (frame : Frame) (x y : Q) : M W unit :=
  do _ <- guarded_click x y;
  try_except (click_pause self) (fun _ => ret tt).

(** ** The bot: orchestration *)

(** [try: m / except: pass] *)
Definition attempt (m : M W unit) : M W unit := try_except m (fun _ => ret tt).

(** [try: m / except: continue], for a loop body that reports whether
    it reached its [break]. *)
Definition guarded (m : M W bool) : M W bool := try_except m (fun _ => ret false).

Definition set_handle_playwright (b : bool) : M W unit :=
  fun s => (Ok tt, set_playwright b s).
Definition set_handle_context (b : bool) : M W unit :=
  fun s => (Ok tt, set_context b s).
Definition putenv (k v : string) : M W unit := fun s => (Ok tt, set_environ k v s).

(** *** Sign-in checks (lines 145-212) *)

Definition check_and_wait_for_signin (timeout : Z) : M W bool :=
  try_except
    (do _ <- sleep 2;
     let sign_in_button := first (locator "text='Sign in'") in
     do c <- ask (QCount sign_in_button);
     if (0 <? c)%nat then
       do _ <- print "Not signed in to Google";
       do _ <- print_with "Waiting for you to sign in, seconds:" (pretty timeout);
       do _ <- prints ["Steps to sign in:";
                       "1. Look for 'Sign in' button (top right)";
                       "2. Click it and complete sign-in";
                       "3. Wait for Google Maps to load"];
       do _ <- print_with "You have, seconds:" (pretty timeout);
       do _ <- sleep (inject_Z timeout);
       do _ <- print "Resuming...";
       ret true
     else
       do _ <- print "Already signed in!";
       ret true)
    (fun _ =>
       do _ <- print "Could not check sign-in status";
       do _ <- print "Assuming signed in, continuing...";
       ret true).

Definition check_if_signed_in : M W bool :=
  try_except
    (do _ <- sleep 2;
     do count <- ask (QCount (first (locator "text='Sign in'")));
     do profile_count <- ask (QCount (first (locator "[aria-label*='Account' i]")));
     let is_signed_in := (count =? 0)%nat && (0 <? profile_count)%nat in
     do _ <- print (if is_signed_in then "Signed in!"
                    else "Not signed in (found 'Sign in' button)");
     ret is_signed_in)
    (fun _ =>
       do _ <- print "Could not determine sign-in status";
       ret false).

(** *** [_init_browser], [_enable_click_logging], [close] (lines 214-410) *)

Definition _enable_click_logging : M W unit :=
  do _ <- act (MakeDirs "captured_clicks");
  do _ <- act (ExposeFunction "pyOnClick");
  act (AddInitScript "click-listener").

Definition _init_browser (self : Bot) : M W unit :=
  fun s =>
    if playwright s then (Ok tt, s)
    else
      (do _ <- act StartPlaywright;
       do _ <- set_handle_playwright true;
       do _ <- act (MakeDirs (user_data_dir self));
       do _ <- try_except
                 (act (LaunchContext (user_data_dir self) (headless self) (Some "chrome")))
                 (fun _ =>
                    do _ <- print "Using Playwright Chromium...";
                    act (LaunchContext (user_data_dir self) (headless self) None));
       do _ <- set_handle_context true;
       do pages <- ask QContextPages;
       do _ <- (if (0 <? pages)%nat then ret tt else act NewPage);
       do _ <- act (AddInitScript "stealth");
       if capture_clicks self then _enable_click_logging else ret tt) s.

Definition close : M W unit :=
  do _ <- attempt (ret tt);
  do _ <- attempt (fun s => if context s then act CloseContext s else (Ok tt, s));
  attempt (fun s => if playwright s then act StopPlaywright s else (Ok tt, s)).

(** *** [search_location] (lines 412-464) *)

Definition search_selectors : list string :=
  [ "input#searchboxinput";
    "#searchboxinput";
    "input[placeholder*='Search']";
    "input[aria-label*='Search']";
    "input.maps-sprite-searchbox-input" ].

(** The [for selector in selectors] loop; the result is the value of
    [search_box] when the loop ends. *)
Fixpoint find_search_box (search_box : option Locator) (sels : list string)
  : M W (option Locator) :=
  match sels with
  | [] => ret search_box
  | selector :: rest =>
      let box := first (locator selector) in
      do stop <- guarded
                   (do c <- ask (QCount box);
                    if (0 <? c)%nat then
                      do _ <- act (LocWaitVisible box); ret true
                    else ret false);
      if stop then ret (Some box) else find_search_box (Some box) rest
  end.

Definition search_location (query_text : string) (wait_time : Z) : M W bool :=
  try_except
    (do _ <- print_with "Searching for:" query_text;
     do search_box <- find_search_box None search_selectors;
     do missing <- match search_box with
                   | None => ret true
                   | Some box => do c <- ask (QCount box); ret (c =? 0)%nat
                   end;
     do _ <- match search_box, missing with
             | Some box, false =>
                 do _ <- act (LocFill box query_text);
                 act (LocPress box "Enter")
             | _, _ =>
                 do _ <- print "Could not find search box. Trying direct input method...";
                 do _ <- act (KeyType query_text);
                 act (KeyPress "Enter")
             end;
     do _ <- sleep (inject_Z (wait_time + 2));
     do _ <- print "Location found!";
     ret true)
    (fun _ =>
       do _ <- print "Error searching location";
       do _ <- print "Tip: Try running without --headless to see what's happening";
       ret false).

(** *** [open_suggest_edit] (lines 466-671) *)

(** [max_attempts = max(0, int(self.panel_wait_seconds))];
    the loop runs over [range(max_attempts or 1)]. *)
Definition panel_attempts (self : Bot) : nat :=
  let max_attempts := Z.max 0 (panel_wait_seconds self) in
  Z.to_nat (if (max_attempts =? 0)%Z then 1 else max_attempts).

Definition panel_locator : Locator :=
  first (locator "[data-container-id], [role='complementary']").

Definition panel_is_up (attempt_no : nat) : M W bool :=
  guarded
    (do c <- ask (QCount panel_locator);
     if (0 <? c)%nat then
       do v <- ask (QIsVisible panel_locator);
       if v then
         do _ <- print_with "Location panel loaded, attempt" (pretty (attempt_no + 1)%nat);
         ret true
       else ret false
     else ret false).

Fixpoint wait_for_panel (attempts : list nat) : M W bool :=
  match attempts with
  | [] => ret false
  | attempt_no :: rest =>
      do loaded <- panel_is_up attempt_no;
      if loaded then ret true
      else do _ <- sleep 1; wait_for_panel rest
  end.

Definition suggest_edit_selectors : list string :=
  [ "button:has-text('Suggest an edit')";
    "button[aria-label*='Suggest an edit' i]";
    "button[title*='Suggest an edit' i]";
    "button:has-text('Suggest')";
    "button:has-text('Edit')";
    "[role='button']:has-text('Suggest an edit')";
    "[role='button']:has-text('Suggest')";
    "[aria-label='Suggest an edit']";
    "[aria-label*='Suggest an edit']";
    "[title='Suggest an edit']";
    "[data-value='suggest']";
    "[jsaction*='suggest']";
    "[id*='suggest']";
    "[class*='suggest']";
    "[data-container-id] button:has-text('Suggest')";
    "[data-container-id] button:has-text('Edit')";
    "div[role='button']:has-text('Suggest')";
    "div[role='button']:has-text('Edit')";
    "div[role='menuitem']:has-text('Suggest an edit')";
    "div[role='menuitem']:has-text('Edit')";
    "div[role='menuitem']:has-text('Suggest')";
    "a:has-text('Suggest an edit')";
    "a:has-text('Suggest')";
    "text='Suggest an edit'";
    "text='Edit'";
    "text='Suggest'" ].

(** Method 1, inner loop: [for idx in range(min(count, 3))]. *)
Fixpoint click_first_usable (self : Bot) (all_matches : Locator) (idxs : list nat)
  : M W bool :=
  match idxs with
  | [] => ret false
  | idx :: rest =>
      let element := nth all_matches idx in
      do found <- guarded
                    (do is_visible <- ask (QIsVisible element);
                     do is_enabled <- ask (QIsEnabled element);
                     if is_visible && is_enabled then
                       do _ <- act (LocScrollIntoView element);
                       do _ <- sleep (3 # 10);
                       do _ <- act (LocClick element);
                       do _ <- click_pause self;
                       do _ <- print_with "Found and clicked element #" (pretty idx);
                       ret true
                     else ret false);
      if found then ret true else click_first_usable self all_matches rest
  end.

(** Method 1, outer loop: [for i, selector in enumerate(selectors)]. *)
Fixpoint click_by_selectors (self : Bot) (sels : list string) : M W bool :=
  match sels with
  | [] => ret false
  | selector :: rest =>
      let all_matches := locator selector in
      do found <- guarded
                    (do count <- ask (QCount all_matches);
                     if (0 <? count)%nat
                     then click_first_usable self all_matches (seq 0 (Nat.min count 3))
                     else ret false);
      if found then ret true else click_by_selectors self rest
  end.

(** Method 2: a click at a fixed offset inside the panel. *)
Definition click_in_panel (self : Bot) : M W bool :=
  do _ <- print "Trying to click in location info panel area...";
  guarded
    (let panel := first (locator "[data-container-id], [role='complementary'], .location-panel") in
     do c <- ask (QCount panel);
     if (0 <? c)%nat then
       do box <- ask (QBoundingBox panel);
       match box with
       | Some b =>
           do _ <- act (MouseClick (rx b + rw b - 100) (ry b + 100));
           do _ <- click_pause self;
           do _ <- print "Clicked in panel area";
           ret true
       | None => ret false
       end
     else ret false).

Fixpoint press_tabs (n : nat) : M W unit :=
  match n with
  | O => ret tt
  | S n' =>
      do _ <- act (KeyPress "Tab");
      do _ <- sleep (3 # 10);
      press_tabs n'
  end.

(** Method 3: five Tabs, then Enter. *)
Definition keyboard_navigation (self : Bot) : M W bool :=
  do _ <- print "Trying keyboard navigation...";
  guarded
    (do _ <- press_tabs 5;
     do _ <- act (KeyPress "Enter");
     do _ <- click_pause self;
     do _ <- print "Tried keyboard navigation";
     ret true).

Definition mentions_edit (text : string) : bool :=
  Text.contains "suggest" (Text.lower text) || Text.contains "edit" (Text.lower text).

Fixpoint click_by_text (self : Bot) (texts : list string) : M W bool :=
  match texts with
  | [] => ret false
  | text :: rest =>
      if mentions_edit text then
        do found <- guarded
                      (let element := first (locator ("text='" ++ Text.strip text ++ "'")) in
                       do c <- ask (QCount element);
                       if (0 <? c)%nat then
                         do _ <- act (LocClick element);
                         do _ <- click_pause self;
                         do _ <- sleep 2;
                         do _ <- print "Found text-based clickable";
                         ret true
                       else ret false);
        if found then ret true else click_by_text self rest
      else click_by_text self rest
  end.

(** The last resort: any element whose text mentions the edit. *)
Definition page_text_scan (self : Bot) : M W bool :=
  do _ <- print "Could not automatically find 'Suggest an edit' button";
  do _ <- print "Trying one more time with different approach...";
  guarded
    (do all_text <- ask (QAllInnerTexts (locator "*"));
     click_by_text self all_text).

(** The four discovery methods, each tried [if not found]. *)
Definition discover_suggest_edit (self : Bot) : M W bool :=
  do found <- click_by_selectors self suggest_edit_selectors;
  do found <- (if found then ret true else click_in_panel self);
  do found <- (if found then ret true else keyboard_navigation self);
  if found then ret true else page_text_scan self.

Definition save_debug_files : M W unit :=
  attempt
    (do _ <- act (Screenshot "debug_maps.png" true);
     do html <- ask QContent;
     do _ <- act (WriteFile "debug_html.html" html);
     do _ <- print "Debug files saved:";
     do _ <- print "  - debug_maps.png (screenshot)";
     print "  - debug_html.html (page source)").

Definition give_up_and_wait : M W bool :=
  do _ <- save_debug_files;
  do _ <- print "Could not find 'Suggest an edit' button automatically.";
  do _ <- print "The location info panel may not have loaded yet.";
  do _ <- print "Please manually click 'Suggest an edit' in the browser.";
  do _ <- print "Waiting 45 seconds...";
  do _ <- sleep 45;
  ret true.

(** From the start of the function to the first discovery method. *)
Definition await_panel (self : Bot) : M W unit :=
  do _ <- print "Waiting for location info panel to load...";
  do panel_loaded <- wait_for_panel (seq 0 (panel_attempts self));
  do _ <- (if panel_loaded then ret tt
           else print "Location panel may not have loaded yet, continuing anyway...");
  do _ <- click_pause self;
  print "Looking for 'Suggest an edit' button in location panel...".

Definition open_suggest_edit (self : Bot) : M W bool :=
  try_except
    (do _ <- await_panel self;
     do found <- discover_suggest_edit self;
     if found then ret true else give_up_and_wait)
    (fun _ =>
       do _ <- print "Error opening edit dialog";
       do _ <- print "Please manually click 'Suggest an edit' if the button appears";
       do _ <- sleep 30;
       ret false).

(** *** [submit_name_change]: choosing the menu entry (lines 689-874) *)

Definition menu_option_selectors : list string :=
  [ "div:has-text('AIQ')";
    "div:has-text('name' i)";
    "*[role='menuitem']:has-text('name' i)";
    "*[role='button']:has-text('name' i)";
    "div[data-value]:has-text('AIQ')";
    "button:has-text('AIQ')";
    "[jsaction]:has-text('AIQ')";
    "[role='menuitem']";
    "div[role='menuitem']";
    "[data-value]";
    "div[data-value]";
    "div[class*='menu-item']";
    "div[class*='MenuItem']";
    "button[class*='edit']";
    "*[role='button']";
    "*[role='menuitem']" ].

(** The listing of the first ten clickables, for the narration only. *)
Fixpoint describe_elements (all_clickables : Locator) (idxs : list nat) : M W unit :=
  match idxs with
  | [] => ret tt
  | idx :: rest =>
      let element := nth all_clickables idx in
      do _ <- attempt
                (try_except
                   (do is_visible <- ask (QIsVisible element);
                    if is_visible then
                      do text <- ask (QInnerText element);
                      print_with ("Element " ++ pretty idx)
                        (if Text.nonempty text then Text.prefix 40 (Text.strip text)
                         else "(no text)")
                    else print_with ("Element " ++ pretty idx) "(not visible)")
                   (fun _ => print_with ("Element " ++ pretty idx) "(could not get text)"));
      describe_elements all_clickables rest
  end.

(** [item['visible'] and item['text']] *)
Definition shown (item : MenuItem) : bool :=
  mi_visible item && Text.nonempty (mi_text item).

(** [''.join(c for c in text if c.isprintable() and not c.isspace() or c == ' ')]
    of [item['text'].strip().upper()] *)
Definition text_clean (text : string) : string :=
  Text.of_points
    (List.filter
       (fun c => Text.is_printable c && negb (Text.is_space c) || (c =? 32)%N)
       (Text.points (Text.upper (Text.strip text)))).

(** [business_name and business_name in text_clean] *)
Definition names_business (business_name : string) (item : MenuItem) : bool :=
  Text.nonempty business_name &&
  Text.contains business_name (text_clean (mi_text item)).

(** [len(text_clean) > 1 and not 'http' in text_clean.lower()] *)
Definition meaningful (item : MenuItem) : bool :=
  let text_clean := Text.strip (mi_text item) in
  (1 <? Text.len text_clean)%nat &&
  negb (Text.contains "http" (Text.lower text_clean)).

Definition click_item (self : Bot) (item : MenuItem) (done_msg : string) : M W unit :=
  do _ <- act (MouseClick (mi_x item) (mi_y item));
  do _ <- click_pause self;
  do _ <- sleep 2;
  print done_msg.

(** First pass: the entries that contain the business name. *)
Fixpoint click_business_name (self : Bot) (business_name : string)
    (items : list MenuItem) : M W bool :=
  match items with
  | [] => ret false
  | item :: rest =>
      if shown item && names_business business_name item then
        do _ <- print_with "Found business name - clicking:"
                  (Text.prefix 40 (Text.strip (mi_text item)));
        do clicked <- try_except
                        (do _ <- click_item self item "Clicked on business name!";
                         ret true)
                        (fun _ => do _ <- print "Could not click"; ret false);
        if clicked then ret true else click_business_name self business_name rest
      else click_business_name self business_name rest
  end.

(** Second pass: the entries with more than one character of text. *)
Fixpoint click_meaningful (self : Bot) (items : list MenuItem) : M W bool :=
  match items with
  | [] => ret false
  | item :: rest =>
      if shown item && meaningful item then
        do _ <- print_with "Trying, clicking via JavaScript:"
                  (Text.prefix 40 (Text.strip (mi_text item)));
        do clicked <- try_except
                        (do _ <- click_item self item "Clicked via coordinates";
                         ret true)
                        (fun _ => do _ <- print "Could not click"; ret false);
        if clicked then ret true else click_meaningful self rest
      else click_meaningful self rest
  end.

(** Third pass: the first visible entry with any text. *)
Definition click_first_shown (self : Bot) (items : list MenuItem) : M W bool :=
  match List.find shown items with
  | Some first_visible =>
      do _ <- print_with "Fallback: clicking" (Text.prefix 40 (mi_text first_visible));
      guarded
        (do _ <- click_item self first_visible "Clicked first visible element";
         ret true)
  | None => ret false
  end.

(** The three passes over [js_result]; the result is [clicked_menu_option]. *)
Definition choose_menu_entry (self : Bot) (business_name : string)
    (js_result : list MenuItem) : M W bool :=
  do clicked_via_js <- click_business_name self business_name js_result;
  do clicked_via_js <- (if clicked_via_js then ret true
                        else click_meaningful self js_result);
  if clicked_via_js then ret true else click_first_shown self js_result.

(** [self.page.locator('[role="menuitem"], [role="button"], div[data-value]')] *)
Definition all_clickables : Locator :=
  locator "[role='menuitem'], [role='button'], div[data-value]".

Definition click_menu_via_js (self : Bot) : M W bool :=
  try_except
    (do count <- ask (QCount all_clickables);
     do _ <- describe_elements all_clickables (seq 0 (Nat.min count 10));
     do js_result <- page_evaluate menu_script;
     do query_text <- getenv "GMAPS_SEARCH_QUERY" "";
     choose_menu_entry self (Text.upper query_text) js_result)
    (fun _ => do _ <- print "Error trying to click elements"; ret false).

Fixpoint click_first_visible_option (self : Bot) (options : Locator) (idxs : list nat)
  : M W bool :=
  match idxs with
  | [] => ret false
  | idx :: rest =>
      let option := nth options idx in
      do clicked <- guarded
                      (do v <- ask (QIsVisible option);
                       if v then
                         do _ <- act (LocClick option);
                         do _ <- click_pause self;
                         do _ <- sleep 2;
                         do _ <- print_with "Clicked menu option" (pretty idx);
                         ret true
                       else ret false);
      if clicked then ret true else click_first_visible_option self options rest
  end.

Fixpoint click_menu_by_selectors (self : Bot) (sels : list string) : M W bool :=
  match sels with
  | [] => ret false
  | selector :: rest =>
      let options := locator selector in
      do clicked <- guarded
                      (do count <- ask (QCount options);
                       if (0 <? count)%nat
                       then click_first_visible_option self options (seq 0 (Nat.min count 5))
                       else ret false);
      if clicked then ret true else click_menu_by_selectors self rest
  end.

Definition click_menu_option (self : Bot) : M W bool :=
  do clicked_menu_option <- click_menu_via_js self;
  if clicked_menu_option then ret true
  else click_menu_by_selectors self menu_option_selectors.

(** *** [submit_name_change]: the place-name field (lines 876-1123) *)

(** [frame or self.page.main_frame] *)
Definition frame_or_main (fr : option Frame) : M W Frame :=
  match fr with
  | Some f => ret f
  | None => the_main_frame
  end.

(** The post-submit confirmation: [for _ in range(6)]. *)
Fixpoint poll_ok_button (self : Bot) (n : nat) : M W unit :=
  match n with
  | O => ret tt
  | S n' =>
      do r <- _evaluate_in_all_frames ok_script;
      match fst r with
      | Some ok_btn =>
          do fr <- frame_or_main (snd r);
          do _ <- _click_xy_in_frame self fr (pt_x ok_btn) (pt_y ok_btn);
          click_pause self
      | None =>
          do _ <- sleep (1 # 2);
          poll_ok_button self n'
      end
  end.

Definition click_submit (self : Bot) : M W bool :=
  do _ <- print "Looking for submit button...";
  do _ <- sleep 2;
  do r <- _evaluate_in_all_frames (submit_script (submit_selectors self));
  match fst r with
  | Some submit_button =>
      do _ <- print_with "Found submit button:" (bh_text submit_button);
      do fr <- frame_or_main (snd r);
      do _ <- _click_xy_in_frame self fr (bh_x submit_button) (bh_y submit_button);
      do _ <- click_pause self;
      do _ <- (if post_ok_click self then attempt (poll_ok_button self 6) else ret tt);
      do _ <- print "Submitted successfully!";
      ret true
  | None =>
      do pressed <- guarded
                      (do _ <- act (KeyPress "Enter");
                       do _ <- sleep 2;
                       do _ <- print "Pressed Enter as submit fallback";
                       ret true);
      if pressed then ret true
      else do _ <- print "Submit button not found"; ret true
  end.

Definition fill_place_name (self : Bot) (new_name : string)
    (place_name_input : InputHit) (owner_frame : option Frame) : M W bool :=
  do _ <- print "Found 'Place name' input field!";
  do _ <- print_with "Placeholder:" (ih_placeholder place_name_input);
  do _ <- print_with "Aria-label:" (ih_ariaLabel place_name_input);
  do _ <- print_with "Found by:" (ih_foundBy place_name_input);
  do fr <- frame_or_main owner_frame;
  do _ <- _click_xy_in_frame self fr (ih_x place_name_input) (ih_y place_name_input);
  do _ <- sleep (1 # 2);
  do _ <- act (KeyPress "Control+a");
  do _ <- sleep (3 # 10);
  do _ <- act (KeyType new_name);
  do _ <- sleep 1;
  do _ <- print_with "Filled place name:" new_name;
  do _ <- (if String.eqb (ih_foundBy place_name_input) "material-design" then
             try_except
               (do _ <- act (RunScript "click-place-name-label");
                print "Also clicked Material Design label")
               (fun _ => print "Could not click label")
           else ret tt);
  click_submit self.

(** [for attempt in range(20)]; [Some b]: the function returned [b]. *)
Fixpoint poll_place_name (self : Bot) (new_name : string) (attempts : list nat)
  : M W (option bool) :=
  match attempts with
  | [] => ret None
  | attempt_no :: rest =>
      do _ <- sleep 1;
      do r <- _evaluate_in_all_frames (place_name_script (place_name_selectors self));
      match fst r with
      | Some place_name_input =>
          do b <- fill_place_name self new_name place_name_input (snd r);
          ret (Some b)
      | None =>
          do _ <- (if (attempt_no <? 14)%nat
                   then print_with "Still looking... attempt" (pretty (attempt_no + 1)%nat)
                   else ret tt);
          poll_place_name self new_name rest
      end
  end.

(** *** [submit_name_change]: any editable element (lines 1124-1273) *)

(** [d[key]]: a [TypeError] when [d] is [None]. *)
Definition subscript {R A} (d : option R) (key : R -> A) : M W A :=
  match d with
  | Some r => ret (key r)
  | None => raise TypeError
  end.

Definition fill_fallback_input (self : Bot) (new_name : string) (idx : nat)
    (inp : Editable) : M W unit :=
  do _ <- print_with "Trying fallback input" (pretty idx);
  do _ <- act (MouseClick (ed_x inp) (ed_y inp));
  do _ <- click_pause self;
  do _ <- sleep (1 # 2);
  do _ <- act (KeyPress "Control+a");
  do _ <- sleep (3 # 10);
  do _ <- act (KeyType new_name);
  do _ <- sleep 1;
  print_with "Filled fallback input:" new_name.

(** Lines 1250-1260, as they are indented. *)
Definition click_fallback_submit (self : Bot) (submit_button : option ButtonHit)
  : M W bool :=
  do _ <- match submit_button with
          | Some b => print_with "Found submit button:" (bh_text b)
          | None => ret tt
          end;
  do x <- subscript submit_button bh_x;
  do y <- subscript submit_button bh_y;
  do _ <- act (MouseClick x y);
  if positive (click_delay self) then
    do _ <- sleep (click_delay self);
    do _ <- sleep 2;
    do _ <- print "Submitted successfully!";
    ret true
  else
    do _ <- print "Submit button not found";
    ret true.

Definition fallback_submit_search : M W (option ButtonHit) :=
  page_evaluate fallback_submit_script.

(** One turn of [for idx, inp in enumerate(editable_elements)];
    [None]: the handler ran and the loop goes on. *)
Definition try_fallback_input (self : Bot) (new_name : string) (idx : nat)
    (inp : Editable) : M W (option bool) :=
  try_except
    (do _ <- fill_fallback_input self new_name idx inp;
     do submit_button <- fallback_submit_search;
     do b <- click_fallback_submit self submit_button;
     ret (Some b))
    (fun _ => do _ <- print_with "Failed to fill input" (pretty idx); ret None).

Fixpoint try_fallback_inputs (self : Bot) (new_name : string)
    (inputs : list (nat * Editable)) : M W (option bool) :=
  match inputs with
  | [] => ret None
  | (idx, inp) :: rest =>
      do r <- try_fallback_input self new_name idx inp;
      match r with
      | Some b => ret (Some b)
      | None => try_fallback_inputs self new_name rest
      end
  end.

Fixpoint describe_inputs (inputs : list (nat * Editable)) : M W unit :=
  match inputs with
  | [] => ret tt
  | (idx, inp) :: rest =>
      do _ <- print_with ("Input " ++ pretty idx ++ ": " ++ ed_tag inp)
                (Text.prefix 30 (ed_value inp) ++ " / " ++ Text.prefix 30 (ed_placeholder inp));
      describe_inputs rest
  end.

Definition enumerate {A} (l : list A) : list (nat * A) := imap pair l.

(** The scan that follows an exhausted poll. *)
Definition scan_editables : M W (list Editable) :=
  do _ <- print "Could not find 'Place name' input field after 15 seconds";
  do _ <- print "The edit form may not have loaded properly";
  do _ <- print "Trying fallback: looking for any input field...";
  page_evaluate editable_script.

Definition fallback_any_input (self : Bot) (new_name : string) : M W (option bool) :=
  do editable_elements <- scan_editables;
  match editable_elements with
  | _ :: _ =>
      do _ <- print_with "Found fallback input(s):" (pretty (length editable_elements));
      do _ <- describe_inputs (enumerate editable_elements);
      try_fallback_inputs self new_name (enumerate editable_elements)
  | [] =>
      do _ <- print "No input fields found at all";
      do _ <- print "The edit form may not have loaded or may be in an iframe";
      do _ <- act (Screenshot "debug_no_inputs.png" false);
      do _ <- print "Screenshot saved: debug_no_inputs.png";
      ret (Some false)
  end.

(** The wait for the place-name field, up to 20 seconds. *)
Definition look_for_place_name (self : Bot) (new_name : string) : M W (option bool) :=
  do _ <- print "Finding input field...";
  do _ <- print "Looking for 'Place name' input field...";
  poll_place_name self new_name (seq 0 20).

(** The body of [if clicked_menu_option:]. *)
Definition fill_name (self : Bot) (new_name : string) : M W (option bool) :=
  do r <- look_for_place_name self new_name;
  match r with
  | Some b => ret (Some b)
  | None => fallback_any_input self new_name
  end.

(** From the start of the function to the click on the menu entry; the
    result is [clicked_menu_option]. *)
Definition enter_name_dialog (self : Bot) (new_name : string) : M W bool :=
  do _ <- print_with "Submitting name change to:" new_name;
  do _ <- sleep 2;
  do _ <- print "Looking for name edit option in menu...";
  click_menu_option self.

Definition submit_name_change (self : Bot) (new_name : string) : M W bool :=
  try_except
    (do clicked_menu_option <- enter_name_dialog self new_name;
     do r <- (if clicked_menu_option then fill_name self new_name else ret None);
     match r with
     | Some b => ret b
     | None =>
         do _ <- (if clicked_menu_option then ret tt
                  else print "Menu option not found or couldn't fill input");
         do _ <- sleep 2;
         ret true
     end)
    (fun _ =>
       do _ <- print "Error submitting name change";
       do _ <- print "You may need to manually complete the form";
       ret false).

(** *** [submit_address_change] (lines 1286-1405) *)

Definition address_menu_selectors : list string :=
  [ ":has-text('Address')";
    "[role='menuitem']:has-text('Address')";
    "div:has-text('Address'):has([role='menuitem'])";
    "div:has-text('address'):has([role='button'])";
    "[data-value='address']";
    "[data-item-value='address']";
    "button:has-text('Address')";
    "div[role='button']:has-text('Address')";
    "a:has-text('Address')" ].

Definition address_input_selectors : list string :=
  [ "input[placeholder*='address' i]";
    "input[placeholder*='location' i]";
    "input[placeholder*='Address' i]";
    "input[aria-label*='address' i]";
    "textarea[placeholder*='address' i]";
    "input[type='text']" ].

Definition address_submit_selectors : list string :=
  [ "button:has-text('Submit')";
    "button:has-text('Send')";
    "button[type='submit']";
    "button:has-text('done')";
    "[aria-label='Submit']";
    "[aria-label='Send']" ].

(** The shape shared by the three loops of this function: the first
    match of each selector is used when it exists and is visible. *)
Fixpoint first_visible_of (sels : list string) (use : Locator -> M W unit) : M W bool :=
  match sels with
  | [] => ret false
  | selector :: rest =>
      let target := first (locator selector) in
      do done <- guarded
                   (do c <- ask (QCount target);
                    if (0 <? c)%nat then
                      do is_visible <- ask (QIsVisible target);
                      if is_visible then do _ <- use target; ret true
                      else ret false
                    else ret false);
      if done then ret true else first_visible_of rest use
  end.

Definition click_address_option (self : Bot) : M W bool :=
  first_visible_of address_menu_selectors
    (fun option =>
       do _ <- act (LocClick option);
       do _ <- click_pause self;
       do _ <- sleep 2;
       print "Clicked address option").

Definition fill_address_directly (new_address : string) : M W bool :=
  first_visible_of address_input_selectors
    (fun address_input =>
       do _ <- act (LocClick address_input);
       do _ <- act (LocClear address_input);
       do _ <- act (LocFill address_input new_address);
       print_with "Filled in address:" new_address).

Definition click_address_submit (self : Bot) : M W bool :=
  first_visible_of address_submit_selectors
    (fun submit_button =>
       do _ <- act (LocClick submit_button);
       do _ <- click_pause self;
       do _ <- sleep 2;
       print "Submitted successfully!").

(** Step 1: the menu entry, else the address input itself; the result is
    [clicked_menu_option]. *)
Definition find_address_input (self : Bot) (new_address : string) : M W bool :=
  do _ <- print_with "Submitting address change to:" new_address;
  do _ <- sleep 2;
  do _ <- print "Looking for address edit option...";
  do clicked_menu_option <- click_address_option self;
  if clicked_menu_option then ret true
  else
    do _ <- print "Menu option not found, trying to find address input directly...";
    fill_address_directly new_address.

(** From the warning about a missing input to the end of the function. *)
Definition finish_address_change (self : Bot) (clicked_menu_option : bool) : M W bool :=
  do _ <- (if clicked_menu_option then ret tt
           else
             do _ <- print "Could not find address input automatically";
             print "You may need to manually select 'Address' and enter the value");
  do _ <- sleep 1;
  do submitted <- click_address_submit self;
  do _ <- (if submitted then ret tt
           else
             do _ <- print "Could not find submit button automatically";
             do _ <- print "Please manually click Submit/Send";
             sleep 5);
  do _ <- sleep 2;
  ret true.

Definition submit_address_change (self : Bot) (new_address : string) : M W bool :=
  try_except
    (do clicked_menu_option <- find_address_input self new_address;
     finish_address_change self clicked_menu_option)
    (fun _ =>
       do _ <- print "Error submitting address change";
       do _ <- print "You may need to manually complete the form";
       ret false).

(** *** [suggest_general_edit] (lines 1407-1431) *)

Definition suggest_general_edit (self : Bot) (edit_details : gmap string string)
  : M W bool :=
  try_except
    (do _ <- match edit_details !! "name" with
             | Some new_name => do _ <- submit_name_change self new_name; ret tt
             | None => ret tt
             end;
     do _ <- match edit_details !! "address" with
             | Some new_address =>
                 do _ <- sleep 1;
                 do _ <- submit_address_change self new_address;
                 ret tt
             | None => ret tt
             end;
     ret true)
    (fun _ => do _ <- print "Error in general edit"; ret false).

(** *** [main_async] (lines 1434-1529) *)

Record Args := mkArgs {
  arg_search : string;
  arg_name : option string;
  arg_address : option string;
  arg_headless : bool;
  arg_wait : Z;
  arg_signin_time : Z;
  arg_new_session : bool;
  arg_auto_click : bool;
  arg_log_clicks : bool;
  arg_click_delay : Q;
  arg_panel_wait : option Z;
  arg_post_ok : option bool
}.

(** [if name:] for an optional string. *)
Definition given (o : option string) : option string :=
  match o with
  | Some v => if Text.nonempty v then Some v else None
  | None => None
  end.

Definition choose_user_data_dir (a : Args) : M W string :=
  if arg_new_session a then
    do now <- ask QTime;
    do _ <- print "New session - will sign in fresh";
    ret ("./browser_data_" ++ pretty now)%string
  else
    do there <- ask (QPathExists "./browser_data");
    do _ <- print (if there then "Using persistent session - sign-in will be remembered"
                   else "First run - you'll need to sign in once");
    ret "./browser_data".

Definition configure (a : Args) (user_data_dir : string) : Bot :=
  let bot := new_bot (arg_headless a) (Some user_data_dir) in
  {| headless := headless bot;
     user_data_dir := Bot.user_data_dir bot;
     auto_click := arg_auto_click a;
     capture_clicks := arg_log_clicks a;
     click_delay := if Qle_bool 0 (arg_click_delay a) then arg_click_delay a else 0;
     panel_wait_seconds := match arg_panel_wait a with
                           | Some p => Z.max 0 p
                           | None => panel_wait_seconds bot
                           end;
     post_ok_click := match arg_post_ok a with
                      | Some b => b
                      | None => post_ok_click bot
                      end;
     place_name_selectors := place_name_selectors bot;
     submit_selectors := submit_selectors bot |}.

(** ["=" * 60] *)
Definition rule : string := "============================================================".

(** From the sign-in check to the end of the [try] block. *)
Definition run_edits (a : Args) (bot : Bot) : M W unit :=
  do proceed <-
    (if (0 <? arg_signin_time a)%Z then
       do _ <- check_and_wait_for_signin (arg_signin_time a); ret true
     else
       do _ <- print "Checking if signed in...";
       do signed_in <- check_if_signed_in;
       if signed_in then ret true
       else
         do _ <- prints ["Not signed in! Use --signin-wait 60 to sign in";
                         "Run:";
                         "  python google_maps_edit_bot.py --search 'Location' --name 'Name' --signin-wait 60";
                         "This will give you time to sign in once, then save your session."];
         ret false);
  if negb proceed then ret tt
  else
    do located <- search_location (arg_search a) (arg_wait a);
    if negb located then print "Failed to find location"
    else
      do _ <- open_suggest_edit bot;
      do _ <- match given (arg_name a) with
              | Some name => do _ <- submit_name_change bot name; ret tt
              | None => ret tt
              end;
      do _ <- match given (arg_address a) with
              | Some address =>
                  do _ <- (match given (arg_name a) with
                           | Some _ => sleep 2
                           | None => ret tt
                           end);
                  do _ <- submit_address_change bot address;
                  ret tt
              | None => ret tt
              end;
      do _ <- prints [rule;
                      "Edit submission completed!";
                      "Please note:";
                      "- Edits are subject to Google's review process";
                      "- May require sign-in for some locations";
                      "- Some changes may take time to appear";
                      rule;
                      "EDIT SUBMISSION COMPLETE!";
                      rule;
                      "The browser will stay open for 30 seconds.";
                      "You can verify the edit was submitted.";
                      rule;
                      "(Your sign-in is saved for next time!)"];
      sleep 30.

(** The result is Python's [None] on every path. *)
Definition main_async (a : Args) : M W unit :=
  do _ <- putenv "GMAPS_SEARCH_QUERY" (arg_search a);
  fun s =>
    match (do _ <- prints ["Starting Google Maps Edit Bot..."; rule];
           choose_user_data_dir a) s with
    | (Raise _, s') => print "Error" s'          (* [bot] is still [None] *)
    | (Ok dir, s') =>
        let bot := configure a dir in
        try_finally
          (try_except
             (do _ <- _init_browser bot;
              do _ <- act (Goto "https://www.google.com/maps");
              do _ <- sleep 2;
              run_edits a bot)
             (fun _ => print "Error"))
          close s'
    end.

End WithBrowser.

End Bot.

(** ** A concrete browser: a scripted sequence of page states

    Used to run the engine on explicit pages. The page shown changes only
    when time passes ([asyncio.sleep]): each sleep moves to the next
    scripted page, and the last one stays. *)

Module Scripted.
Import Dom Js Session Bot.

Record Match := mkMatch {
  m_visible : bool;
  m_enabled : bool;
  m_text : string;
  m_box : option Rect
}.

Record Page := mkPage {
  pg_main : Frame;
  pg_frames : list (Frame * option Doc);     (* [None]: evaluate raises *)
  pg_located : list (string * list Match);   (* what each locator selector finds *)
  pg_failing : Action -> bool                (* the driver calls that raise *)
}.

Record Timeline := mkTimeline { now : Page; later : list Page }.

Fixpoint lookup_frame (fr : Frame) (l : list (Frame * option Doc)) : option Doc :=
  match l with
  | [] => None
  | (f, d) :: l' => if Nat.eqb f fr then d else lookup_frame fr l'
  end.

Fixpoint located (sel : string) (l : list (string * list Match)) : list Match :=
  match l with
  | [] => []
  | (s, ms) :: l' => if String.eqb s sel then ms else located sel l'
  end.

Definition found (p : Page) (l : Locator) : list Match :=
  let all := located (loc_selector l) (pg_located p) in
  match loc_nth l with
  | None => all
  | Some i => match List.nth_error all i with Some m => [m] | None => [] end
  end.

Definition on_first {A} (p : Page) (l : Locator) (f : Match -> A) : Outcome A :=
  match found p l with
  | m :: _ => Ok (f m)
  | [] => Raise DriverFault
  end.

Definition run_query (A : Type) (q : Query A) (w : Timeline) : Outcome A :=
  match q in Query T return Outcome T with
  | QCount l => Ok (length (found (now w) l))
  | QIsVisible l => Ok (match found (now w) l with m :: _ => m_visible m | [] => false end)
  | QIsEnabled l => on_first (now w) l m_enabled
  | QInnerText l => on_first (now w) l m_text
  | QAllInnerTexts l => Ok (map m_text (found (now w) l))
  | QBoundingBox l => on_first (now w) l m_box
  | QContent => Ok "<html></html>"
  | QContextPages => Ok 1%nat
  | QPathExists _ => Ok false
  | QTime => Ok 1700000000%Z
  end.

Definition run_action (a : Action) (w : Timeline) : Outcome unit * Timeline :=
  (if pg_failing (now w) a then Raise DriverFault else Ok tt, w).

Definition pass_time (seconds : Q) (w : Timeline) : Timeline :=
  match later w with
  | [] => w
  | p :: ps => mkTimeline p ps
  end.

#[export] Instance scripted_browser : Browser Timeline := {|
  page_frames w := map fst (pg_frames (now w));
  main_frame w := pg_main (now w);
  frame_doc w fr := lookup_frame fr (pg_frames (now w));
  window_top w fr := Some (pg_main (now w));
  window_parent w fr := Some (pg_main (now w));
  query := run_query;
  perform := run_action;
  elapse := pass_time
|}.

Definition still (p : Page) : Timeline := mkTimeline p [].

Definition start (w : Timeline) : State Timeline := mkState w ∅ [] false false.

Definition no_failure (a : Action) : bool := false.

(** Building small documents. *)
Definition box (x y w h : Z) : Rect :=
  mkRect (inject_Z x) (inject_Z y) (inject_Z w) (inject_Z h).

Definition el (tag : string) (attrs : list (string * string)) (text : string)
    (r : Rect) (kids : list Node) : Node :=
  mkNode (mkElement tag attrs text text "" r) kids.

Definition body (kids : list Node) : Doc :=
  el "html" [] "" (box 0 0 1920 1080) [el "body" [] "" (box 0 0 1920 1080) kids].

Definition one_frame (d : Doc) : Page :=
  mkPage 0%nat [(0%nat, Some d)] [] no_failure.

End Scripted.

(** ** The notions the theorems are stated with

    Where a definition restates a sentence of the specification, the
    sentence is quoted above it; the theorems compare these with the
    code. *)

Module Notions.
Import Dom Js Session Bot.

(** The matches of a candidate, in document order. *)
Definition matches_of (scope : list Entry) (s : Selector) : list Entry :=
  List.filter (matches s) scope.

Definition visible_matches (scope : list Entry) (s : Selector) : list Entry :=
  List.filter visible (matches_of scope s).

(** "The match from the lowest-index candidate that has a visible match;
    within one candidate's matches, the first visible match in document
    order." *)
Definition lowest_visible_match (scope : list Entry) (sels : list Selector)
  : option Entry :=
  head (flat_map (visible_matches scope) sels).

Definition cascade_returns_lowest_visible (sels : list Selector) (d : Doc) : Prop :=
  forall e, lowest_visible_match (all_elements d) sels = Some e ->
            place_name_script sels d = Ok (Some (captured_hit e)).

(** Candidates in priority order, each with its matches in document order. *)
Definition cascade_order (scope : list Entry) (sels : list Selector) : list Entry :=
  flat_map (matches_of scope) sels.

Definition submit_matches (scope : list Entry) (s : Selector) : list Entry :=
  List.filter is_submit_like (matches_of scope s).

(** What the submit query reports for the element it settles on. *)
Definition submit_hit (en : Entry) : ButtonHit :=
  if is_exact_submit en then exact_hit en else ancestor_hit en.

(** "Preferring an element whose trimmed, lower-cased text is exactly
    'submit'": whenever some candidate matches such an element, it is an
    exact-text element that is returned. *)
Definition exact_text_preferred (sels : list Selector) (d : Doc) : Prop :=
  (exists s e, In s sels /\ In e (matches_of (all_elements d) s) /\
               is_exact_submit e = true) ->
  exists e, is_exact_submit e = true /\
            submit_script sels d = Ok (Some (exact_hit e)).

Section OverBrowser.
Context {W : Type} `{Browser W}.

(** What a document yields for a query: a document that cannot be
    evaluated, or whose script throws, yields nothing. *)
Definition yields {X} (js : Doc -> Outcome (option X)) (w : W) (fr : Frame)
  : option X :=
  match frame_doc w fr with
  | Some d => match js d with Ok r => r | Raise _ => None end
  | None => None
  end.

(** "Runs the query against the top-level document first; if it yields
    a falsy result, iterates every attached sub-document (excluding the
    top-level one) in registration order and returns the first
    non-empty result", else [(null, null)]. *)
Definition first_nonempty {X} (js : Doc -> Outcome (option X)) (w : W)
  : option X * option Frame :=
  match yields js w (main_frame w) with
  | Some r => (Some r, Some (main_frame w))
  | None =>
      match List.find
              (fun f => negb (Nat.eqb f (main_frame w)) &&
                        match yields js w f with Some _ => true | None => false end)
              (page_frames w) with
      | Some f => (yields js w f, Some f)
      | None => (None, None)
      end
  end.

(** A reachable document: the main frame or a frame of [page.frames],
    in which scripts can be evaluated. *)
Definition reachable (w : W) (f : Frame) : Prop :=
  (f = main_frame w \/ In f (page_frames w)) /\ frame_doc w f <> None.

End OverBrowser.

(** A write of [v] to the flag of some frame. *)
Definition writes (v : bool) (ev : Event) : Prop := exists f, ev = EvFlag f v.

(** "Clearing it only after the action plus its settle delay completes":
    whenever a delay starts, the flag of frame [f] is still true. *)
Definition flag_held_during_delays (t : list Event) (f : Frame) : Prop :=
  forall pre seconds post,
    t = pre ++ EvSleep seconds :: post -> flags_of pre !! f = Some true.

(** The first pointer click among some events, if any. *)
Fixpoint first_click (evs : list Event) : option (Q * Q) :=
  match evs with
  | [] => None
  | EvAct (MouseClick x y) :: _ => Some (x, y)
  | _ :: rest => first_click rest
  end.

Definition at_item (item : MenuItem) : Q * Q := (mi_x item, mi_y item).

(** The choice of the menu entry as the code makes it, pass by pass. *)
Definition menu_choice (business_name : string) (items : list MenuItem)
  : option MenuItem :=
  match List.find (fun i => shown i && names_business business_name i) items with
  | Some item => Some item
  | None =>
      match List.find (fun i => shown i && meaningful i) items with
      | Some item => Some item
      | None => List.find shown items
      end
  end.

(** [os.environ.get('GMAPS_SEARCH_QUERY', '').upper()] *)
Definition business_name {W} (s : State W) : string :=
  Text.upper (match environ s !! "GMAPS_SEARCH_QUERY" with Some v => v | None => "" end).

(** "Preferring one whose visible text contains the target business name
    (case-insensitive containment), else the first entry with more than
    one visible character, else the first visible entry of any kind." *)
Definition contains_hint (hint : string) (item : MenuItem) : bool :=
  Text.contains (Text.upper hint) (Text.upper (mi_text item)).

Definition stated_menu_choice (hint : string) (items : list MenuItem)
  : option MenuItem :=
  match List.find (fun i => shown i && contains_hint hint i) items with
  | Some item => Some item
  | None =>
      match List.find (fun i => shown i && (1 <? Text.len (mi_text i))%nat) items with
      | Some item => Some item
      | None => List.find shown items
      end
  end.

Definition menu_choice_as_stated {W} `{Browser W} (self : Bot) (hint : string)
    (items : list MenuItem) (s : State W) : Prop :=
  exists evs,
    trace (snd (choose_menu_entry self (Text.upper hint) items s)) = trace s ++ evs /\
    first_click evs = option_map at_item (stated_menu_choice hint items).

(** A computation that only appends to the trace, and one whose first
    pointer click is at [p]. *)
Definition appends {W A} (m : M W A) : Prop :=
  forall s, exists evs, trace (snd (m s)) = trace s ++ evs.

Definition first_click_is {W A} (p : Q * Q) (m : M W A) : Prop :=
  forall s, exists evs, trace (snd (m s)) = trace s ++ evs /\ first_click evs = Some p.

(** A computation that returns normally, with a result satisfying [P]. *)
Definition returns {W A} (P : A -> Prop) (m : M W A) : Prop :=
  forall s, exists a s', m s = (Ok a, s') /\ P a.

(** The events a computation adds to the trace of [s]. *)
Definition added {W A} (m : M W A) (s : State W) : list Event :=
  skipn (length (trace s)) (trace (snd (m s))).

Definition is_second (ev : Event) : bool :=
  match ev with EvSleep d => Qeq_bool d 1 | _ => false end.

(** "Poll (default up to 3 attempts, 1s apart)": no more one-second
    waits than [panel_wait_seconds]. *)
Definition polls_within_setting {W} `{Browser W} (self : Bot) (s : State W) : Prop :=
  (Z.of_nat (length (List.filter is_second
                       (added (wait_for_panel (seq 0 (panel_attempts self))) s)))
   <= panel_wait_seconds self)%Z.

(** What [open_suggest_edit] says and does after its debug dump. *)
Definition give_up_narration : list Event :=
  [ EvPrint "Could not find 'Suggest an edit' button automatically.";
    EvPrint "The location info panel may not have loaded yet.";
    EvPrint "Please manually click 'Suggest an edit' in the browser.";
    EvPrint "Waiting 45 seconds...";
    EvSleep 45 ].

(** "The boolean returned by [submit_name_change] is propagated to the
    caller-visible result": a request for a name edit alone reports what
    the name edit reported. *)
Definition name_outcome_propagated {W} `{Browser W} (self : Bot) (new_name : string)
    (s : State W) : Prop :=
  fst (suggest_general_edit self {[ "name" := new_name ]} s)
    = fst (submit_name_change self new_name s).

(** What filling one fallback input adds to the trace when nothing raises. *)
Definition fill_events (self : Bot) (new_name : string) (idx : nat) (inp : Editable)
  : list Event :=
  [EvPrintWith "Trying fallback input" (pretty idx);
   EvAct (MouseClick (ed_x inp) (ed_y inp))] ++
  (if positive (click_delay self) then [EvSleep (click_delay self)] else []) ++
  [EvSleep (1 # 2); EvAct (KeyPress "Control+a"); EvSleep (3 # 10);
   EvAct (KeyType new_name); EvSleep 1;
   EvPrintWith "Filled fallback input:" new_name].

End Notions.

(** ** Pages used as explicit inputs *)

Module Examples.
Import Dom Js Session Bot Scripted.

(** Two inputs carry the captured class, the first of them collapsed to
    zero size; a third input only matches the last candidate. *)
Definition stale_input : Node :=
  el "input" [("class", "VfPpkd-fmcmS-wGMbrd"); ("placeholder", "stale copy")] ""
     (box 0 0 0 0) [].
Definition live_input : Node :=
  el "input" [("class", "VfPpkd-fmcmS-wGMbrd"); ("placeholder", "New name")] ""
     (box 100 100 200 40) [].
Definition other_input : Node :=
  el "input" [("placeholder", "Other place name")] "" (box 100 300 200 40) [].

Definition hidden_first_page : Doc := body [stale_input; live_input; other_input].

(** The entry of the [i]-th child of [<body>] in [body kids]. *)
Definition body_child (kids : list Node) (n : Node) : Entry :=
  (n, [el "body" [] "" (box 0 0 1920 1080) kids; body kids]).

Definition live_entry : Entry := body_child [stale_input; live_input; other_input] live_input.

(** A "Send feedback" control precedes the "Submit" button; both labels
    are spans with the captured [jsname]. *)
Definition send_label : Node :=
  el "span" [("jsname", "V67aGc")] "Send feedback" (box 20 15 80 20) [].
Definition send_control : Node :=
  el "div" [("role", "button")] "Send feedback" (box 10 10 100 30) [send_label].
Definition submit_label : Node :=
  el "span" [("jsname", "V67aGc")] " Submit " (box 20 65 80 20) [].
Definition submit_control : Node :=
  el "button" [] "Submit" (box 10 60 100 30) [submit_label].

Definition send_before_submit_page : Doc := body [send_control; submit_control].

Definition send_entry : Entry :=
  (send_label, [send_control;
                el "body" [] "" (box 0 0 1920 1080) [send_control; submit_control];
                send_before_submit_page]).
Definition submit_entry : Entry :=
  (submit_label, [submit_control;
                  el "body" [] "" (box 0 0 1920 1080) [send_control; submit_control];
                  send_before_submit_page]).

(** A "Submit" label that ends in a no-break space, in a button. *)
Definition nbsp_label : Node :=
  el "span" [("jsname", "V67aGc")] ("Submit" ++ Text.chr 160) (box 20 65 80 20) [].
Definition nbsp_control : Node := el "button" [] "Submit" (box 10 60 100 30) [nbsp_label].
Definition nbsp_submit_page : Doc := body [nbsp_control].
Definition nbsp_entry : Entry :=
  (nbsp_label, [nbsp_control; el "body" [] "" (box 0 0 1920 1080) [nbsp_control];
                nbsp_submit_page]).

(** Only the "Submit" button, its label matched by the second candidate. *)
Definition plain_label : Node :=
  el "span" [("class", "VfPpkd-vQzf8d")] "Submit" (box 20 65 80 20) [].
Definition plain_submit_page : Doc := body [el "button" [] "Submit" (box 10 60 100 30) [plain_label]].
Definition plain_entry : Entry :=
  (plain_label, [el "button" [] "Submit" (box 10 60 100 30) [plain_label];
                 el "body" [] "" (box 0 0 1920 1080)
                    [el "button" [] "Submit" (box 10 60 100 30) [plain_label]];
                 plain_submit_page]).

(** A page with a same-page sub-frame that shows its own place-name
    input, and a detached frame in which nothing can be evaluated. *)
Definition main_doc : Doc :=
  body [el "input" [("id", "i7"); ("placeholder", "main")] "" (box 10 10 300 40) []].
Definition child_doc : Doc :=
  body [el "input" [("id", "i7"); ("placeholder", "child")] "" (box 10 10 300 40) []].
Definition framed_page : Page :=
  mkPage 0%nat [(0%nat, Some main_doc); (1%nat, Some child_doc); (2%nat, None)]
    [] no_failure.
Definition framed_session : State Timeline := start (still framed_page).

(** The same page when the driver rejects every pointer click. *)
Definition is_mouse_click (a : Action) : bool :=
  match a with MouseClick _ _ => true | _ => false end.
Definition unclickable_page : Page :=
  mkPage 0%nat [(0%nat, Some main_doc); (1%nat, Some child_doc); (2%nat, None)]
    [] is_mouse_click.

(** Menu entries as the listing script reports them. *)
Definition entry (i : nat) (text : string) (y : Z) : MenuItem :=
  mkMenuItem i text true 200 (inject_Z y) "".

Definition website_first : list MenuItem :=
  [entry 0 "https://coffee.example/west" 100; entry 1 "Hours" 140].

Definition hint_last : list MenuItem :=
  [entry 0 "×" 100; entry 1 "Hours" 140; entry 2 "Coffee Shop West" 180].

(** A close icon and one entry, neither with the business name. *)
Definition icon_first : list MenuItem :=
  [entry 0 "×" 100; entry 1 "Hours" 140].

(** The menu of [hint_last] on a page, for a run that was started with
    the search query "Coffee Shop". *)
Definition icon_menu : Doc :=
  body [el "button" [] "×" (box 100 80 200 40) [];
        el "div" [("role", "menuitem")] " Hours " (box 100 120 200 40) [];
        el "div" [("role", "menuitem")] "Coffee Shop West" (box 100 160 200 40) []].

Definition icon_menu_page : Page :=
  mkPage 0%nat [(0%nat, Some icon_menu)]
    [(loc_selector all_clickables,
      [mkMatch true true " Hours " None; mkMatch true true "Coffee Shop West" None])]
    no_failure.

Definition icon_menu_session : State Timeline :=
  set_environ "GMAPS_SEARCH_QUERY" "Coffee Shop" (start (still icon_menu_page)).

Definition blank_session : State Timeline := start (still (one_frame (body []))).

(** The bot as [main_async] configures it for [--panel-wait 0]. *)
Definition impatient_bot : Bot :=
  configure (mkArgs "Test Cafe" (Some "New Name") None false 5 0 false false false
               (1 # 2) (Some 0%Z) None) "./browser_data".

(** A page on which nothing can be found and the keyboard is rejected. *)
Definition is_key_press (a : Action) : bool :=
  match a with KeyPress _ => true | _ => false end.
Definition dead_page : Page :=
  mkPage 0%nat [(0%nat, Some (body []))] [] is_key_press.
Definition dead_session : State Timeline := start (still dead_page).

(** The info panel shows up two seconds after the poll has started. *)
Definition panel_page : Page :=
  mkPage 0%nat [(0%nat, Some (body []))]
    [(loc_selector panel_locator, [mkMatch true true "Test Cafe" None])] no_failure.
Definition late_panel_session : State Timeline :=
  start (mkTimeline dead_page [dead_page; panel_page]).

(** An edit menu with one entry, and no form behind it: no input ever
    shows up after the click. *)
Definition menu_only_page : Page :=
  one_frame (body [el "button" [] "Edit name or other details" (box 20 200 300 40) []]).
Definition menu_only_session : State Timeline := start (still menu_only_page).

(** The same menu with a form that has one text area and nothing that
    looks like a submit control. *)
Definition note_area : Node := el "textarea" [] "" (box 20 300 300 80) [].
Definition no_submit_page : Page :=
  one_frame (body [el "button" [] "Edit name or other details" (box 20 200 300 40) [];
                   note_area]).
Definition no_submit_session : State Timeline := start (still no_submit_page).
Definition note_editable : Editable := mkEditable (20 + 300 / 2) (300 + 80 / 2) "" "" "TEXTAREA".

Definition name_args : Args :=
  mkArgs "Test Cafe" (Some "New Name") None false 5 0 false false false (1 # 2) None None.

(** Pages for a whole run: the account icon is there, so the sign-in
    check passes; the search box is not found and the query is typed. *)
Definition account_icon : list (string * list Match) :=
  [("[aria-label*='Account' i]", [mkMatch true true "" None])].

Definition run_without_form : State Timeline :=
  start (still (mkPage 0%nat (pg_frames menu_only_page) account_icon no_failure)).

Definition working_form : Doc :=
  body [el "button" [] "Edit name or other details" (box 20 200 300 40) [];
        el "input" [("id", "i7")] "" (box 20 300 300 40) [];
        el "button" [] "Submit" (box 20 400 100 40)
          [el "span" [("jsname", "V67aGc")] "Submit" (box 30 410 80 20) []]].

Definition run_with_form : State Timeline :=
  start (still (mkPage 0%nat [(0%nat, Some working_form)] account_icon no_failure)).

(** The collapsed input alone, followed by the input of the last
    candidate. *)
Definition stale_then_other_page : Doc := body [stale_input; other_input].
Definition other_after_stale : Entry := body_child [stale_input; other_input] other_input.

(** A "Cancel" label with the captured [jsname] before the "Submit" label. *)
Definition cancel_label : Node :=
  el "span" [("jsname", "V67aGc")] "Cancel" (box 5 5 60 20) [].
Definition cancel_then_submit_page : Doc := body [cancel_label; plain_label].

Definition send_control_entry : Entry :=
  (send_control, [el "body" [] "" (box 0 0 1920 1080) [send_control; submit_control];
                  send_before_submit_page]).

End Examples.


(** ** The manual-click observer of [_enable_click_logging] (lines 352-390) *)

Module Observer.
Import Dom.

(** [window.__botClicking] as a condition: [undefined] is falsy. *)
Definition truthy (flag : option bool) : bool :=
  match flag with Some true => true | _ => false end.

(** The click listener of the init script. [info] is the outcome of
    describing the target (an error there is swallowed by the listener's
    [try/catch]); [pyOnClick] tells whether the binding is on the window. *)
Definition click_listener {Info} (isTrusted : bool) (botClicking : option bool)
    (info : Outcome Info) (pyOnClick : bool) : option Info :=
  if negb isTrusted || truthy botClicking then None
  else
    match info with
    | Ok i => if pyOnClick then Some i else None
    | Raise _ => None
    end.

End Observer.

(** ** Relations between the session before and after a computation *)

Module Relations.
Import Dom Js Session Bot.

(** [m] takes every session to one related to it by [R], whether it
    returns or raises. *)
Definition steps {W A} (R : State W -> State W -> Prop) (m : M W A) : Prop :=
  forall s, R s (snd (m s)).

Definition same_environ {W} (s s' : State W) : Prop := environ s' = environ s.

Definition same_handles {W} (s s' : State W) : Prop :=
  playwright s' = playwright s /\ context s' = context s.

Definition is_flag (ev : Event) : bool :=
  match ev with EvFlag _ _ => true | _ => false end.

Definition flag_free (evs : list Event) : bool := forallb (fun ev => negb (is_flag ev)) evs.

(** The trace has grown, and by no write of the suppression flag. *)
Definition no_flag_written {W} (s s' : State W) : Prop :=
  exists evs, trace s' = trace s ++ evs /\ flag_free evs = true.

(** A relation that no driver call, no narration and no pause can
    break. *)
Record bystander {W} (R : State W -> State W -> Prop) : Prop := mkBystander {
  by_refl : forall s, R s s;
  by_trans : forall s1 s2 s3, R s1 s2 -> R s2 s3 -> R s1 s3;
  by_world : forall s w, R s (set_world w s);
  by_quiet : forall s evs, flag_free evs = true -> R s (add_trace evs s)
}.
Arguments by_refl {W R} _ _.
Arguments by_trans {W R} _ _ _ _ _ _.
Arguments by_world {W R} _ _ _.
Arguments by_quiet {W R} _ _ _ _.

(** One that writes of the flag do not break either, and one that the
    handles of the bot do not break. *)
Definition admits_flags {W} (R : State W -> State W -> Prop) : Prop :=
  forall s evs, R s (add_trace evs s).

Definition admits_context {W} (R : State W -> State W -> Prop) : Prop :=
  forall s, R s (set_context true s).

Definition admits_playwright {W} (R : State W -> State W -> Prop) : Prop :=
  forall s, R s (set_playwright true s).

Definition same_playwright {W} (s s' : State W) : Prop := playwright s' = playwright s.

(** The browser after [k] one-second sleeps. *)
Definition after_seconds {W} `{Browser W} (k : nat) (w : W) : W :=
  Nat.iter k (elapse 1) w.

(** What the place-name poll adds to the trace while it finds nothing,
    for the attempts [a, a + 1, ..., a + k - 1]. *)
Definition still_looking (a k : nat) : list Event :=
  flat_map
    (fun attempt_no =>
       EvSleep 1 ::
       if (attempt_no <? 14)%nat
       then [EvPrintWith "Still looking... attempt" (pretty (attempt_no + 1)%nat)]
       else [])
    (seq a k).

(** The session after [k] attempts of the poll that found nothing and
    the sleep of the next one. *)
Definition at_attempt {W} `{Browser W} (k : nat) (s : State W) : State W :=
  mkState (after_seconds (S k) (world s)) (environ s)
    (trace s ++ still_looking 0 k ++ [EvSleep 1]) (playwright s) (context s).

(** The browser after [k] pauses of [d] seconds, and the session of a
    poll that has paused [k] times. *)
Definition after_pauses {W} `{Browser W} (d : Q) (k : nat) (w : W) : W :=
  Nat.iter k (elapse d) w.

Definition paused {W} `{Browser W} (d : Q) (k : nat) (s : State W) : State W :=
  mkState (after_pauses d k (world s)) (environ s)
    (trace s ++ repeat (EvSleep d) k) (playwright s) (context s).

(** [await target.count() > 0 and await target.is_visible()], with a
    driver error counted as no. *)
Definition usable {W} `{Browser W} (w : W) (target : Locator) : bool :=
  match query nat (QCount target) w with
  | Ok c =>
      (0 <? c)%nat &&
      match query bool (QIsVisible target) w with Ok v => v | Raise _ => false end
  | Raise _ => false
  end.

End Relations.

(** ** The command line ([main], lines 1532-1631)

    [argparse] itself is not modelled: a [CommandLine] holds what it took
    from [sys.argv], the value of each option that was given, already
    converted, and for each [store_true] switch whether it was given.
    The defaults are computed from the environment when the parser is
    built. [int] and [float] are Python's conversions of a string;
    [None] stands for their [ValueError]. *)

Module Cli.
Import Dom Js Session Bot.

Record CommandLine := mkCommandLine {
  cl_search : option string;
  cl_name : option string;
  cl_address : option string;
  cl_headless : bool;
  cl_wait : option Z;
  cl_signin_wait : option Z;
  cl_new_session : bool;
  cl_auto_click : bool;
  cl_log_clicks : bool;
  cl_click_delay : option Q;
  cl_panel_wait : option Z;
  cl_post_ok : bool
}.

(** The namespace that [parser.parse_args()] returns. *)
Record Namespace := mkNamespace {
  ns_search : option string;
  ns_name : option string;
  ns_address : option string;
  ns_headless : bool;
  ns_wait : Z;
  ns_signin_wait : Z;
  ns_new_session : bool;
  ns_auto_click : bool;
  ns_log_clicks : bool;
  ns_click_delay : Q;
  ns_panel_wait : Z;
  ns_post_ok : bool
}.

(** [os.getenv(name, default)] *)
Definition getenv_or (env : gmap string string) (name default : string) : string :=
  match env !! name with Some v => v | None => default end.

(** [os.getenv(name, '').lower() in ('true', '1', 'yes')] *)
Definition env_switch (env : gmap string string) (name : string) : bool :=
  let v := Text.lower (getenv_or env name "") in
  existsb (String.eqb v) ["true"; "1"; "yes"].

(** An option with a default: the value given, else the default. *)
Definition or_default {A} (given : option A) (default : A) : A :=
  match given with Some v => v | None => default end.

(** An option whose default is [os.getenv(name)]. *)
Definition or_env (given : option string) (env : gmap string string) (name : string)
  : option string :=
  match given with Some v => Some v | None => env !! name end.

(** [not args.search] for a string or [None]. *)
Definition falsy (o : option string) : bool :=
  match o with Some v => negb (Text.nonempty v) | None => true end.

Section Builtins.
Variable int : string -> option Z.
Variable float : string -> option Q.

(** The parser with its defaults, then [parse_args]. A default that
    cannot be converted raises while the parser is built, whatever the
    command line holds. *)
Definition parse_args (env : gmap string string) (cl : CommandLine) : option Namespace :=
  match int (getenv_or env "GMAPS_WAIT" "5") with
  | None => None
  | Some wait =>
      match int (getenv_or env "GMAPS_SIGNIN_WAIT" "0") with
      | None => None
      | Some signin_wait =>
          match float (getenv_or env "GMAPS_CLICK_DELAY" "0.5") with
          | None => None
          | Some click_delay =>
              match int (getenv_or env "GMAPS_PANEL_WAIT" "3") with
              | None => None
              | Some panel_wait =>
                  Some {| ns_search := or_env (cl_search cl) env "GMAPS_SEARCH";
                          ns_name := or_env (cl_name cl) env "GMAPS_NAME";
                          ns_address := or_env (cl_address cl) env "GMAPS_ADDRESS";
                          ns_headless := cl_headless cl || env_switch env "GMAPS_HEADLESS";
                          ns_wait := or_default (cl_wait cl) wait;
                          ns_signin_wait := or_default (cl_signin_wait cl) signin_wait;
                          ns_new_session :=
                            cl_new_session cl || env_switch env "GMAPS_NEW_SESSION";
                          ns_auto_click := cl_auto_click cl || env_switch env "GMAPS_AUTO_CLICK";
                          ns_log_clicks := cl_log_clicks cl || env_switch env "GMAPS_LOG_CLICKS";
                          ns_click_delay := or_default (cl_click_delay cl) click_delay;
                          ns_panel_wait := or_default (cl_panel_wait cl) panel_wait;
                          ns_post_ok := cl_post_ok cl || env_switch env "GMAPS_POST_OK" |}
              end
          end
      end
  end.

(** The keyword arguments of the call of [main_async]. *)
Definition to_args (ns : Namespace) : Args :=
  {| arg_search := or_default (ns_search ns) "";
     arg_name := ns_name ns;
     arg_address := ns_address ns;
     arg_headless := ns_headless ns;
     arg_wait := ns_wait ns;
     arg_signin_time := ns_signin_wait ns;
     arg_new_session := ns_new_session ns;
     arg_auto_click := ns_auto_click ns;
     arg_log_clicks := ns_log_clicks ns;
     arg_click_delay := ns_click_delay ns;
     arg_panel_wait := Some (ns_panel_wait ns);
     arg_post_ok := Some (ns_post_ok ns) |}.

Context {W : Type} `{Browser W}.

(** [parser.print_help()] *)
Definition print_help : M W unit := print "(the help text of the parser)".

(** [main()]; [None]: a [ValueError] left the function before anything
    was printed. Interrupts from the keyboard are not modelled. *)
Definition main (cl : CommandLine) (s : State W) : option (Outcome unit * State W) :=
  match parse_args (environ s) cl with
  | None => None
  | Some args =>
      Some ((if falsy (ns_search args) then
               bind (print "Error: --search is required (set GMAPS_SEARCH env var or use --search)")
                 (fun _ => print_help)
             else if falsy (ns_name args) && falsy (ns_address args) then
               bind (print "Error: At least one of --name or --address is required (set GMAPS_NAME/GMAPS_ADDRESS env vars or use --name/--address)")
                 (fun _ => print_help)
             else main_async (to_args args)) s)
  end.

End Builtins.

End Cli.

(** ** A browser that always shows the same page and accepts every call *)

Module Steady.
Import Dom Js Session Bot Scripted Examples.

(** The page of [no_submit_page]: an edit menu with one entry, a text
    area, and nothing that looks like a submit control. *)
Definition shown : Page := no_submit_page.

#[export] Instance steady_browser : Browser unit := {|
  page_frames _ := map fst (pg_frames shown);
  main_frame _ := pg_main shown;
  frame_doc _ fr := lookup_frame fr (pg_frames shown);
  window_top _ fr := Some (pg_main shown);
  window_parent _ fr := Some (pg_main shown);
  query A q _ := run_query A q (still shown);
  perform a _ := (Ok tt, tt);
  elapse _ _ := tt
|}.

Definition start : State unit := mkState tt ∅ [] false false.

End Steady.

(** ** More pages and sessions used as explicit inputs *)

Module Cases.
Import Dom Js Session Bot Scripted Examples Cli.

Definition plain_bot : Bot := new_bot false None.

(** The only submit control is a button known by its [aria-label]: the
    three captured selectors find nothing. *)
Definition aria_submit_page : Doc :=
  body [el "button" [("aria-label", "Submit")] "Submit" (box 10 60 100 30) []].

Definition aria_submit_session : State Timeline := start (still (one_frame aria_submit_page)).

(** The only submit control is a plain button whose text ends in a
    no-break space: no candidate selector of the fallback query matches
    it. *)
Definition nbsp_button : Node :=
  el "button" [] ("Submit" ++ Text.chr 160) (box 10 60 100 30) [].
Definition nbsp_button_page : Doc := body [nbsp_button].

(** A field that no candidate selector matches, under a label. *)
Definition name_label : Node := el "label" [] "Place name" (box 0 0 100 20) [].
Definition name_field : Node := el "input" [("type", "text")] "" (box 0 30 300 40) [].
Definition name_group : Node := el "div" [] "" (box 0 0 400 100) [name_label; name_field].
Definition label_page : Doc := body [name_group].

Definition name_field_entry : Entry :=
  (name_field, [name_group; el "body" [] "" (box 0 0 1920 1080) [name_group]; label_page]).

(** The edit form shows up two seconds after the menu entry was clicked. *)
Definition i7_input : Node :=
  el "input" [("id", "i7"); ("placeholder", "main")] "" (box 10 10 300 40) [].

Definition late_form : Timeline :=
  mkTimeline (one_frame (body [])) [one_frame (body []); one_frame (body [i7_input])].

Definition late_form_session : State Timeline := start late_form.

(** The label of the submit button of [working_form]. *)
Definition working_submit_label : Node :=
  el "span" [("jsname", "V67aGc")] "Submit" (box 30 410 80 20) [].
Definition working_submit_button : Node :=
  el "button" [] "Submit" (box 20 400 100 40) [working_submit_label].
Definition working_submit_label_entry : Entry :=
  (working_submit_label,
   [working_submit_button;
    el "body" [] "" (box 0 0 1920 1080)
      [el "button" [] "Edit name or other details" (box 20 200 300 40) [];
       el "input" [("id", "i7")] "" (box 20 300 300 40) [];
       working_submit_button];
    working_form]).

(** A run with [--click-delay 0]. *)
Definition quick_args : Args :=
  mkArgs "Test Cafe" (Some "New Name") None false 5 0 false false false 0 None None.

(** The address entry of the edit menu is known by its [data-value];
    the driver rejects the click on it. *)
Definition address_entry_page : Page :=
  mkPage 0%nat [(0%nat, Some (body []))]
    [("[data-value='address']", [mkMatch true true "Address" None])]
    (fun a => match a with LocClick _ => true | _ => false end).

Definition address_entry_session : State Timeline := start (still address_entry_page).

(** A confirmation dialog that shows up one second after the submit. *)
Definition ok_dialog : Doc :=
  body [el "div" [("role", "dialog")] "" (box 100 100 400 200)
          [el "button" [] "OK" (box 300 250 80 30) []]].

Definition late_dialog : Timeline :=
  mkTimeline (one_frame (body [])) [one_frame (body []); one_frame ok_dialog].

Definition late_dialog_session : State Timeline := start late_dialog.

Definition fresh_args : Args :=
  mkArgs "Test Cafe" (Some "New Name") None false 5 0 true false false (1 # 2) None None.

(** A command line with a search text and a name, and nothing else. *)
Definition short_command_line : CommandLine :=
  mkCommandLine (Some "Test Cafe") (Some "New Name") None false None None
    false false false None None false.

Definition always_five (text : string) : option Z := Some 5%Z.
Definition always_half (text : string) : option Q := Some (1 # 2).

Definition short_namespace : Namespace :=
  mkNamespace (Some "Test Cafe") (Some "New Name") None false 5 5
    false false false (1 # 2) 5 false.

End Cases.
(** ** The text model on examples *)

Section TextOnExamples.
Import Bot.

Example icon_is_one_character : Text.len "×" = 1%nat.
Proof. reflexivity. Qed.

Example no_break_space_is_trimmed :
  Text.trim (Text.chr 160 ++ "Submit" ++ Text.chr 160) = "Submit" /\
  Text.strip ("Hours" ++ Text.chr 8239 ++ Text.chr 10) = "Hours".
Proof. split; vm_compute; reflexivity. Qed.

Example upper_case_beyond_ascii :
  Text.upper "café" = "CAFÉ" /\ Text.upper "straße" = "STRASSE".
Proof. split; vm_compute; reflexivity. Qed.

Example lower_case_beyond_ascii :
  Text.lower "CAFÉ" = "café" /\ Text.lower "ΟΔΟΣ" = "οδος".
Proof. split; vm_compute; reflexivity. Qed.

Example text_clean_keeps_letters :
  text_clean ("  Café" ++ Text.chr 10 ++ "Zoë ×" ++ Text.chr 8203 ++ " ") = "CAFÉZOË ×".
Proof. vm_compute. reflexivity. Qed.

End TextOnExamples.

(** ** Theorems: the in-page cascades *)

Section CascadeFacts.
Import Dom Js Notions.

Lemma exact_is_submit_like en :
  is_exact_submit en = true -> is_submit_like en = true.
Proof.
  unfold is_exact_submit, is_submit_like.
  intros Hx. apply andb_true_iff in Hx as [Hv Ht].
  apply String.eqb_eq in Ht. rewrite Hv, Ht. reflexivity.
Qed.

Lemma scan_buttons_first nodes :
  scan_buttons nodes = option_map submit_hit (head (List.filter is_submit_like nodes)).
Proof.
  induction nodes as [|btn rest IH]; simpl; [reflexivity|].
  unfold submit_hit at 1.
  destruct (is_exact_submit btn) eqn:Hx.
  - rewrite (exact_is_submit_like _ Hx). simpl.
    unfold submit_hit. now rewrite Hx.
  - destruct (is_submit_like btn) eqn:Hl; simpl.
    + unfold submit_hit. now rewrite Hx.
    + exact IH.
Qed.

(** The submit loop settles on the first submit-like element in cascade
    order, as long as the candidates tried so far are valid selectors. *)
Lemma submit_loop_first scope pre post e :
  forallb sel_valid pre = true ->
  head (List.filter is_submit_like (cascade_order scope pre)) = Some e ->
  submit_script_loop scope (pre ++ post) = Ok (Some (submit_hit e)).
Proof.
  induction pre as [|s pre IH]; simpl; intros Hv Hh; [discriminate|].
  apply andb_true_iff in Hv as [Hs Hv].
  unfold querySelectorAll. rewrite Hs.
  rewrite scan_buttons_first.
  unfold cascade_order in Hh. simpl in Hh.
  rewrite List.filter_app in Hh.
  fold (matches_of scope s).
  destruct (List.filter is_submit_like (matches_of scope s)) as [|b bs] eqn:Hm.
  - simpl in *. apply IH; assumption.
  - simpl in *. congruence.
Qed.

Lemma filter_flat_map_nil {A B} (p : B -> bool) (f : A -> list B) (l : list A) :
  (forall a, In a l -> List.filter p (f a) = []) ->
  List.filter p (flat_map f l) = [].
Proof.
  induction l as [|a l IH]; simpl; intros Hl; [reflexivity|].
  rewrite List.filter_app, Hl by now left.
  apply IH. intros; apply Hl; now right.
Qed.

(** The place-name loop tries each candidate through its first match. *)
Lemma captured_loop_first scope pre s post e :
  forallb sel_valid pre = true ->
  sel_valid s = true ->
  (forall s' e', In s' pre -> head (matches_of scope s') = Some e' -> visible e' = false) ->
  head (matches_of scope s) = Some e ->
  visible e = true ->
  by_captured_selectors scope (pre ++ s :: post) = Ok (Some (captured_hit e)).
Proof.
  induction pre as [|s0 pre IH]; simpl; intros Hv Hs Hpre Hh He.
  - unfold querySelector. rewrite Hs. fold (matches_of scope s).
    rewrite Hh, He. reflexivity.
  - apply andb_true_iff in Hv as [Hs0 Hv].
    unfold querySelector. rewrite Hs0. fold (matches_of scope s0).
    destruct (head (matches_of scope s0)) as [e0|] eqn:H0.
    + rewrite (Hpre s0 e0) by (auto; now left).
      apply IH; auto. intros s' e' Hin. apply Hpre. now right.
    + apply IH; auto. intros s' e' Hin. apply Hpre. now right.
Qed.

Lemma split_at {A} (l : list A) i x :
  l !! i = Some x -> l = firstn i l ++ x :: skipn (S i) l.
Proof. intros Hl. symmetry. exact (take_drop_middle l i x Hl). Qed.

Lemma in_firstn_lookup {A} (l : list A) i x :
  In x (firstn i l) -> exists j, (j < i)%nat /\ l !! j = Some x.
Proof.
  intros Hin. apply list_elem_of_In, list_elem_of_lookup in Hin as [j Hj].
  exists j. pose proof (lookup_lt_Some _ _ _ Hj) as Hlt.
  rewrite length_take in Hlt. split; [lia|].
  rewrite lookup_take_lt in Hj by lia. exact Hj.
Qed.

Lemma firstn_valid (sels : list Selector) i :
  (forall j s', (j < i)%nat -> sels !! j = Some s' -> sel_valid s' = true) ->
  forallb sel_valid (firstn i sels) = true.
Proof.
  intros Hv. apply forallb_forall. intros s' Hin.
  destruct (in_firstn_lookup _ _ _ Hin) as (j & Hj & Hl). eauto.
Qed.

End CascadeFacts.

Section Cascades.
Import Dom Js Notions Examples.

Lemma no_visible_match_hides_first scope s e :
  visible_matches scope s = [] ->
  head (matches_of scope s) = Some e ->
  visible e = false.
Proof.
  unfold visible_matches. intros Hnone Hhead.
  destruct (matches_of scope s) as [|e0 rest]; [discriminate|].
  injection Hhead as ->. simpl in Hnone.
  destruct (visible e); [discriminate|reflexivity].
Qed.

(** C1 (as amended). Place-name cascade: when the lowest-index candidate
    that has a visible match has a visible first match in document order,
    that first match is the result. Submit cascade: the result comes from
    the lowest-index candidate that has a visible match with submit-like
    text (it contains "submit" or "send" once trimmed and lower-cased), and
    is the first such match in document order. Both hold when the
    candidates up to the winning one are valid selectors. *)
Theorem cascade_priority :
  (forall (sels : list Selector) (d : Doc) (i : nat) (s : Selector) (e : Entry),
      sels !! i = Some s ->
      (forall j s', (j <= i)%nat -> sels !! j = Some s' -> sel_valid s' = true) ->
      (forall j s', (j < i)%nat -> sels !! j = Some s' ->
                    visible_matches (all_elements d) s' = []) ->
      head (matches_of (all_elements d) s) = Some e ->
      visible e = true ->
      place_name_script sels d = Ok (Some (captured_hit e)))
  /\
  (forall (sels : list Selector) (d : Doc) (i : nat) (s : Selector) (e : Entry),
      sels !! i = Some s ->
      (forall j s', (j <= i)%nat -> sels !! j = Some s' -> sel_valid s' = true) ->
      (forall j s', (j < i)%nat -> sels !! j = Some s' ->
                    submit_matches (all_elements d) s' = []) ->
      head (submit_matches (all_elements d) s) = Some e ->
      submit_script sels d = Ok (Some (submit_hit e))).
Proof.
  split; intros sels d i s e Hi Hvalid Hbefore Hhead.
  - intros Hvis. unfold place_name_script.
    rewrite (split_at _ _ _ Hi).
    erewrite captured_loop_first; eauto.
    + apply firstn_valid. intros j s' Hj. apply Hvalid. lia.
    + intros s' e' Hin Hfirst.
      destruct (in_firstn_lookup _ _ _ Hin) as (j & Hj & Hl).
      eapply no_visible_match_hides_first; eauto.
  - unfold submit_script.
    rewrite (split_at _ _ _ Hi).
    change (firstn i sels ++ s :: skipn (S i) sels)
      with (firstn i sels ++ [s] ++ skipn (S i) sels).
    rewrite app_assoc.
    apply submit_loop_first.
    + rewrite forallb_app. rewrite firstn_valid.
      * simpl. rewrite (Hvalid i s); [reflexivity | lia | exact Hi].
      * intros j s' Hj. apply Hvalid. lia.
    + unfold cascade_order. rewrite flat_map_app, List.filter_app.
      rewrite filter_flat_map_nil.
      * simpl. rewrite app_nil_r. exact Hhead.
      * intros s' Hin. destruct (in_firstn_lookup _ _ _ Hin) as (j & Hj & Hl).
        exact (Hbefore j s' Hj Hl).
Qed.

Lemma cascade_priority_witness :
  place_name_script Js.place_name_selectors stale_then_other_page
    = Ok (Some (captured_hit other_after_stale)) /\
  submit_script Js.submit_selectors plain_submit_page
    = Ok (Some (submit_hit plain_entry)).
Proof.
  split.
  - apply (proj1 cascade_priority Js.place_name_selectors stale_then_other_page 6%nat
             (sel1 (by_attr (Some "input") (AttrContainsI "placeholder" "place name")))
             other_after_stale).
    + reflexivity.
    + intros j s' Hj Hl.
      do 7 (destruct j as [|j]; [vm_compute in Hl; injection Hl as <-; reflexivity|]).
      lia.
    + intros j s' Hj Hl.
      do 6 (destruct j as [|j]; [vm_compute in Hl; injection Hl as <-; reflexivity|]).
      lia.
    + reflexivity.
    + reflexivity.
  - apply (proj2 cascade_priority Js.submit_selectors plain_submit_page 1%nat
             (sel1 (by_class (Some "span") ["VfPpkd-vQzf8d"])) plain_entry).
    + reflexivity.
    + intros j s' Hj Hl.
      do 2 (destruct j as [|j]; [vm_compute in Hl; injection Hl as <-; reflexivity|]).
      lia.
    + intros j s' Hj Hl.
      destruct j as [|j]; [vm_compute in Hl; injection Hl as <-; reflexivity|lia].
    + reflexivity.
Defined.

(** C1 (as stated) fails on the place-name cascade: the candidate
    [input.VfPpkd-fmcmS-wGMbrd] has a visible match, but its first match
    in document order has no area, and the result is the match of the
    later candidate [input[placeholder*="place name" i]]. *)
Lemma cascade_passes_over_hidden_first_match :
  ~ cascade_returns_lowest_visible Js.place_name_selectors hidden_first_page.
Proof.
  intros Hclaim.
  specialize (Hclaim live_entry eq_refl).
  vm_compute in Hclaim. discriminate Hclaim.
Qed.

(** In the submit cascade a visible match counts only with submit-like
    text: the "Cancel" label matched by the first candidate is passed
    over for the "Submit" label matched by the second. *)
Lemma submit_cascade_skips_other_text :
  head (visible_matches (all_elements cancel_then_submit_page)
          (sel1 (by_attr (Some "span") (AttrEquals "jsname" "V67aGc")))) <> None /\
  exists hit,
    submit_script Js.submit_selectors cancel_then_submit_page = Ok (Some hit) /\
    bh_text hit = "submit" /\
    bh_className hit = "VfPpkd-vQzf8d".
Proof. split; [discriminate|]. eexists. repeat split; reflexivity. Qed.

End Cascades.

Section SubmitControl.
Import Dom Js Notions Examples.

(** C5 (as amended). As long as the candidates tried are valid
    selectors, the submit query settles on the first visible element
    with submit-like text in cascade order (candidates in priority
    order, each in document order), whether its text is exactly
    "submit" or only contains "submit" or "send". An exact-text element
    is reported at its own centre; any other one at the centre of the
    nearest element, itself included, that matches
    [button, [role="button"], div[role], div], and at its own centre
    when there is none. *)
Theorem submit_resolution (sels pre post : list Selector) (d : Doc) (e : Entry) :
  sels = pre ++ post ->
  forallb sel_valid pre = true ->
  head (List.filter is_submit_like (cascade_order (all_elements d) pre)) = Some e ->
  exists hit,
    submit_script sels d = Ok (Some hit) /\
    bh_text hit = button_text e /\
    (is_exact_submit e = true ->
       bh_clickedVia hit = Some "exact-match" /\
       bh_x hit = center_x (rect (elem (fst e))) /\
       bh_y hit = center_y (rect (elem (fst e)))) /\
    (is_exact_submit e = false ->
       bh_clickedVia hit = Some "ancestor" /\
       (forall c, closest clickable_sel e = Some c ->
                  bh_x hit = center_x (rect (elem (fst c))) /\
                  bh_y hit = center_y (rect (elem (fst c)))) /\
       (closest clickable_sel e = None ->
          bh_x hit = center_x (rect (elem (fst e))) /\
          bh_y hit = center_y (rect (elem (fst e))))).
Proof.
  intros -> Hvalid Hfirst.
  exists (submit_hit e). split.
  - unfold submit_script. now apply submit_loop_first.
  - unfold submit_hit. destruct (is_exact_submit e) eqn:Hx.
    + repeat split; try reflexivity; intros; discriminate.
    + split; [reflexivity|]. split; [intros; discriminate|].
      intros _. split; [reflexivity|].
      unfold ancestor_hit, click_rect; simpl.
      split.
      * intros c ->. split; reflexivity.
      * intros ->. split; reflexivity.
Qed.

(** With the candidates of [__init__], of which the first three are
    valid selectors: a "Send feedback" label before the "Submit" label
    is reported through the control around it, and a "Submit" label
    that ends in a no-break space is an exact match. *)
Lemma submit_resolution_witness :
  (exists hit,
      submit_script Js.submit_selectors send_before_submit_page = Ok (Some hit) /\
      bh_clickedVia hit = Some "ancestor" /\
      bh_x hit = center_x (rect (elem send_control))) /\
  (exists hit,
      submit_script Js.submit_selectors nbsp_submit_page = Ok (Some hit) /\
      bh_clickedVia hit = Some "exact-match" /\
      bh_x hit = center_x (rect (elem nbsp_label))).
Proof.
  split.
  - destruct (submit_resolution Js.submit_selectors
                (firstn 3 Js.submit_selectors) (skipn 3 Js.submit_selectors)
                send_before_submit_page send_entry eq_refl eq_refl eq_refl)
      as (hit & Hrun & _ & _ & Hanc).
    exists hit. split; [exact Hrun|].
    destruct (Hanc eq_refl) as (Hvia & Hup & _).
    split; [exact Hvia|].
    exact (proj1 (Hup send_control_entry eq_refl)).
  - destruct (submit_resolution Js.submit_selectors
                (firstn 3 Js.submit_selectors) (skipn 3 Js.submit_selectors)
                nbsp_submit_page nbsp_entry eq_refl eq_refl eq_refl)
      as (hit & Hrun & _ & Hexact & _).
    exists hit. split; [exact Hrun|].
    destruct (Hexact eq_refl) as (Hvia & Hx & _).
    split; [exact Hvia|exact Hx].
Defined.

(** C5 (as stated) fails: with a "Send feedback" label before the
    "Submit" label, both matched by the first candidate, the query
    returns the control around "Send feedback". *)
Lemma exact_text_not_preferred :
  ~ exact_text_preferred Js.submit_selectors send_before_submit_page.
Proof.
  intros Hclaim.
  destruct Hclaim as (e & _ & Hrun).
  - exists (sel1 (by_attr (Some "span") (AttrEquals "jsname" "V67aGc"))), submit_entry.
    split; [now left|]. split; [|reflexivity].
    apply filter_In. split; [|reflexivity].
    vm_compute. tauto.
  - apply (f_equal (fun o => match o with
                             | Ok (Some h) => bh_clickedVia h
                             | _ => None
                             end)) in Hrun.
    vm_compute in Hrun. discriminate Hrun.
Qed.

End SubmitControl.

(** ** Theorems: the frame evaluator and the click dispatcher *)

Create HintDb growth.
Create HintDb total.

Section OverAnyBrowser.
Import Dom Js Session Bot Notions Relations.
Context {W : Type} `{Browser W}.
Local Open Scope bot_scope.

Lemma bind_ok {A B} (m : M W A) (k : A -> M W B) s a s' :
  m s = (Ok a, s') -> bind m k s = k a s'.
Proof. unfold bind. now intros ->. Qed.

Lemma bind_raise {A B} (m : M W A) (k : A -> M W B) s e s' :
  m s = (Raise e, s') -> bind m k s = (Raise e, s').
Proof. unfold bind. now intros ->. Qed.

Lemma evaluate_or_none {X} (js : Doc -> Outcome (option X)) fr s :
  try_except (evaluate fr js) (fun _ => ret None) s = (Ok (yields js (world s) fr), s).
Proof.
  unfold try_except, evaluate, yields, ret.
  destruct (frame_doc (world s) fr) as [d|]; [|reflexivity].
  destruct (js d) as [r|e]; reflexivity.
Qed.

Lemma child_frames_first {X} (js : Doc -> Outcome (option X)) main frs s :
  evaluate_in_child_frames js main frs s =
    (Ok match List.find
                (fun f => negb (Nat.eqb f main) &&
                          match yields js (world s) f with Some _ => true | None => false end)
                frs with
        | Some f => (yields js (world s) f, Some f)
        | None => (None, None)
        end, s).
Proof.
  induction frs as [|f frs IH]; simpl; [reflexivity|].
  destruct (Nat.eqb f main) eqn:Hm; simpl; [exact IH|].
  erewrite bind_ok by apply evaluate_or_none.
  destruct (yields js (world s) f) as [r|] eqn:Hy; simpl; [|exact IH].
  now rewrite Hy.
Qed.

Lemma evaluate_in_all_frames_first {X} (js : Doc -> Outcome (option X)) s :
  _evaluate_in_all_frames js s = (Ok (first_nonempty js (world s)), s).
Proof.
  unfold _evaluate_in_all_frames, first_nonempty.
  unfold the_main_frame at 1. unfold bind at 1.
  unfold page_evaluate.
  erewrite bind_ok by apply (evaluate_or_none js (main_frame (world s)) s).
  destruct (yields js (world s) (main_frame (world s))) as [r|]; [reflexivity|].
  unfold frames. unfold bind. apply child_frames_first.
Qed.

(** C4. The frame evaluator returns the main frame's result whenever the
    top-level document yields one, whatever the sub-documents yield; a
    frame whose evaluation throws counts as yielding nothing and the
    iteration goes on; when no frame yields a result the answer is
    [(None, None)]. It never raises and leaves the session as it was. *)
Theorem frame_evaluator_contract {X} (js : Doc -> Outcome (option X)) (s : State W) :
  _evaluate_in_all_frames js s = (Ok (first_nonempty js (world s)), s) /\
  (forall r, yields js (world s) (main_frame (world s)) = Some r ->
             _evaluate_in_all_frames js s
               = (Ok (Some r, Some (main_frame (world s))), s)) /\
  (forall f rest,
      (frame_doc (world s) f = None \/
       exists d e, frame_doc (world s) f = Some d /\ js d = Raise e) ->
      evaluate_in_child_frames js (main_frame (world s)) (f :: rest) s
        = evaluate_in_child_frames js (main_frame (world s)) rest s) /\
  (yields js (world s) (main_frame (world s)) = None ->
   (forall f, In f (page_frames (world s)) -> yields js (world s) f = None) ->
   _evaluate_in_all_frames js s = (Ok (None, None), s)).
Proof.
  repeat split.
  - apply evaluate_in_all_frames_first.
  - intros r Hr. rewrite evaluate_in_all_frames_first.
    unfold first_nonempty. now rewrite Hr.
  - intros f rest Hthrow. rewrite !child_frames_first. simpl.
    assert (Hy : yields js (world s) f = None).
    { unfold yields. destruct Hthrow as [-> | (d & e & -> & ->)]; reflexivity. }
    rewrite Hy, andb_false_r. reflexivity.
  - intros Hmain Hnone. rewrite evaluate_in_all_frames_first.
    unfold first_nonempty. rewrite Hmain.
    match goal with
    | |- context [List.find ?p ?l] => destruct (List.find p l) as [f|] eqn:Hf
    end; [|reflexivity].
    apply find_some in Hf as [Hin Hf]. rewrite (Hnone f Hin) in Hf.
    now rewrite andb_false_r in Hf.
Qed.

(** *** The suppression flag *)

Lemma flags_of_app t evs :
  flags_of (t ++ evs) = fold_left flag_step evs (flags_of t).
Proof. unfold flags_of. apply fold_left_app. Qed.

Lemma writes_keep v evs (m : gmap Frame bool) f :
  Forall (writes v) evs -> m !! f = Some v ->
  fold_left flag_step evs m !! f = Some v.
Proof.
  intros Hall. revert m. induction Hall as [|ev evs [g ->] _ IH]; intros m Hm.
  - exact Hm.
  - simpl. apply IH. destruct (decide (g = f)) as [->|Hne].
    + apply lookup_insert_eq.
    + rewrite lookup_insert_ne by exact Hne. exact Hm.
Qed.

Lemma writes_reach v evs (m : gmap Frame bool) f :
  Forall (writes v) evs -> In (EvFlag f v) evs ->
  fold_left flag_step evs m !! f = Some v.
Proof.
  intros Hall. revert m. induction Hall as [|ev evs Hev Hall IH]; intros m Hin.
  - contradiction.
  - simpl. destruct Hin as [-> | Hin].
    + simpl. apply (writes_keep v); [exact Hall|]. apply lookup_insert_eq.
    + apply IH. exact Hin.
Qed.

Lemma flag_writes_all w fr v : Forall (writes v) (flag_writes w fr v).
Proof.
  unfold flag_writes. constructor; [now exists fr|].
  apply Forall_app. split.
  - destruct (window_top w fr); [|constructor]. constructor; [eexists; reflexivity|constructor].
  - destruct (window_parent w fr); [|constructor]. constructor; [eexists; reflexivity|constructor].
Qed.

(** One guarded evaluation of the flag script: it never raises, it only
    appends writes of [v], and it writes the frame's own flag whenever
    the frame can be evaluated. *)
Lemma flag_in_frame fr v s :
  exists evs,
    try_except (evaluate_flag_js fr v) (fun _ => ret tt) s = (Ok tt, add_trace evs s) /\
    Forall (writes v) evs /\
    (frame_doc (world s) fr <> None -> In (EvFlag fr v) evs).
Proof.
  unfold try_except, evaluate_flag_js, emit, ret.
  destruct (frame_doc (world s) fr) as [d|] eqn:Hd.
  - exists (flag_writes (world s) fr v). split; [reflexivity|].
    split; [apply flag_writes_all|]. intros _. now left.
  - exists []. split.
    + unfold add_trace. rewrite app_nil_r. now destruct s.
    + split; [constructor|]. intros Hne. now elim Hne.
Qed.

Lemma add_trace_add_trace evs1 evs2 (s : State W) :
  add_trace evs2 (add_trace evs1 s) = add_trace (evs1 ++ evs2) s.
Proof. unfold add_trace; simpl. now rewrite app_assoc. Qed.

Lemma set_flag_in_frames_spec v frs s :
  exists evs,
    set_flag_in_frames v frs s = (Ok tt, add_trace evs s) /\
    Forall (writes v) evs /\
    (forall f, In f frs -> frame_doc (world s) f <> None -> In (EvFlag f v) evs).
Proof.
  revert s. induction frs as [|fr frs IH]; intros s; simpl.
  - exists []. split; [|split; [constructor|intros f []]].
    unfold ret, add_trace. rewrite app_nil_r. now destruct s.
  - destruct (flag_in_frame fr v s) as (evs1 & Hrun1 & Hall1 & Hown).
    destruct (IH (add_trace evs1 s)) as (evs2 & Hrun2 & Hall2 & Hrest).
    exists (evs1 ++ evs2). split; [|split].
    + erewrite bind_ok by exact Hrun1. rewrite Hrun2.
      now rewrite add_trace_add_trace.
    + apply Forall_app. now split.
    + intros f [<- | Hin] Hdoc; apply in_or_app.
      * left. now apply Hown.
      * right. now apply Hrest.
Qed.

(** The flag setter never raises; it leaves the browser as it is and
    writes [value] in every reachable frame, and nothing but [value]. *)
Lemma set_bot_clicking_spec value s :
  exists evs,
    _set_bot_clicking_for_all_frames value s = (Ok tt, add_trace evs s) /\
    Forall (writes value) evs /\
    (forall f, reachable (world s) f -> In (EvFlag f value) evs).
Proof.
  unfold _set_bot_clicking_for_all_frames.
  unfold the_main_frame at 1. unfold bind at 1.
  destruct (flag_in_frame (main_frame (world s)) value s) as (evs1 & Hrun1 & Hall1 & Hown).
  destruct (set_flag_in_frames_spec value (page_frames (world s)) (add_trace evs1 s))
    as (evs2 & Hrun2 & Hall2 & Hrest).
  exists (evs1 ++ evs2). split; [|split].
  - erewrite bind_ok by exact Hrun1.
    unfold frames. unfold bind. simpl. simpl in Hrun2. rewrite Hrun2.
    now rewrite add_trace_add_trace.
  - apply Forall_app. now split.
  - intros f [[-> | Hin] Hdoc]; apply in_or_app.
    + left. now apply Hown.
    + right. now apply Hrest.
Qed.

Lemma flags_after_set value t evs f :
  Forall (writes value) evs -> In (EvFlag f value) evs ->
  flags_of (t ++ evs) !! f = Some value.
Proof. intros. rewrite flags_of_app. now apply (writes_reach value). Qed.

(** The guarded click, step by step: the flag writes, the click in the
    same browser state, the flag clears in the state the click left. *)
Lemma guarded_click_steps x y s :
  exists up down,
    guarded_click x y s =
      (fst (perform (MouseClick x y) (world s)),
       add_trace (up ++ [EvAct (MouseClick x y)] ++ down)
         (set_world (snd (perform (MouseClick x y) (world s))) s)) /\
    Forall (writes true) up /\
    (forall f, reachable (world s) f -> In (EvFlag f true) up) /\
    Forall (writes false) down /\
    (forall f, reachable (snd (perform (MouseClick x y) (world s))) f ->
               In (EvFlag f false) down).
Proof.
  destruct (set_bot_clicking_spec true s) as (up & Hup & Hall_up & Hreach_up).
  destruct (perform (MouseClick x y) (world s)) as [r w1] eqn:Hclick.
  set (s1 := add_trace [EvAct (MouseClick x y)] (set_world w1 (add_trace up s))).
  destruct (set_bot_clicking_spec false s1) as (down & Hdown & Hall_down & Hreach_down).
  exists up, down. split; [|repeat split; auto].
  unfold guarded_click, try_finally.
  erewrite bind_ok by exact Hup.
  unfold act. simpl. rewrite Hclick. fold s1. rewrite Hdown.
  unfold s1, add_trace, set_world; simpl.
  rewrite <- !app_assoc. now destruct r.
Qed.

Lemma click_pause_steps self (s : State W) :
  try_except (click_pause self) (fun _ => ret tt) s =
    (Ok tt,
     if positive (click_delay self)
     then add_trace [EvSleep (click_delay self)]
            (set_world (elapse (click_delay self) (world s)) s)
     else s).
Proof.
  unfold try_except, click_pause.
  destruct (positive (click_delay self)); reflexivity.
Qed.

Lemma flags_of_sleep t seconds : flags_of (t ++ [EvSleep seconds]) = flags_of t.
Proof. now rewrite flags_of_app. Qed.

(** C2. Every call of [_click_xy_in_frame] writes the flag true in every
    reachable frame before the pointer click is dispatched, and false in
    every frame reachable afterwards, whether the click returns or
    raises: the clearing step always runs, the click's own error is the
    only one that can come out, and setting the flag never raises. *)
Theorem click_flag_discipline (self : Bot) (frame : Frame) (x y : Q) (s : State W) :
  let click := perform (MouseClick x y) (world s) in
  let run := _click_xy_in_frame self frame x y s in
  (exists up down,
      trace (snd run) =
        trace s ++ up ++ [EvAct (MouseClick x y)] ++ down ++
        match fst click with
        | Ok _ => if positive (click_delay self) then [EvSleep (click_delay self)] else []
        | Raise _ => []
        end /\
      Forall (writes true) up /\ Forall (writes false) down /\
      (forall f, reachable (world s) f -> flags_of (trace s ++ up) !! f = Some true)) /\
  (forall f, reachable (snd click) f -> flags_of (trace (snd run)) !! f = Some false) /\
  fst run = fst click /\
  (forall value s0, fst (_set_bot_clicking_for_all_frames value s0) = Ok tt).
Proof.
  intros click run.
  destruct (guarded_click_steps x y s) as (up & down & Hrun & Hup & Hreach_up & Hdown & Hreach_down).
  fold click in Hrun, Hreach_down.
  assert (Htrace : trace (snd run) =
            trace s ++ up ++ [EvAct (MouseClick x y)] ++ down ++
            match fst click with
            | Ok _ => if positive (click_delay self) then [EvSleep (click_delay self)] else []
            | Raise _ => []
            end /\ fst run = fst click).
  { unfold run, _click_xy_in_frame.
    destruct (fst click) as [[]|e] eqn:Hr.
    - erewrite bind_ok by exact Hrun. rewrite click_pause_steps.
      destruct (positive (click_delay self)); simpl;
        rewrite <- ?app_assoc; simpl; rewrite ?app_nil_r; auto.
    - erewrite bind_raise by exact Hrun. simpl.
      rewrite <- ?app_assoc; simpl; rewrite ?app_nil_r; auto. }
  destruct Htrace as [Htrace Hres].
  split; [|split; [|split]].
  - exists up, down. split; [exact Htrace|]. split; [exact Hup|]. split; [exact Hdown|].
    intros f Hf. apply (flags_after_set true); auto.
  - intros f Hf. rewrite Htrace.
    replace (trace s ++ up ++ [EvAct (MouseClick x y)] ++ down ++
             match fst click with
             | Ok _ => if positive (click_delay self) then [EvSleep (click_delay self)] else []
             | Raise _ => []
             end)
      with (((trace s ++ up ++ [EvAct (MouseClick x y)]) ++ down) ++
             match fst click with
             | Ok _ => if positive (click_delay self) then [EvSleep (click_delay self)] else []
             | Raise _ => []
             end)
      by (rewrite <- !app_assoc; reflexivity).
    assert (Hclear : flags_of ((trace s ++ up ++ [EvAct (MouseClick x y)]) ++ down) !! f
                     = Some false)
      by (apply (flags_after_set false); auto).
    destruct (fst click); [destruct (positive (click_delay self))|];
      rewrite ?flags_of_sleep, ?app_nil_r; exact Hclear.
  - exact Hres.
  - intros value s0. destruct (set_bot_clicking_spec value s0) as (evs & -> & _). reflexivity.
Qed.

(** C3 (as amended). The flag is cleared as soon as the click returns:
    when the click succeeds and the inter-action delay is positive, the
    delay is the last step of [_click_xy_in_frame], it follows the click,
    and when it starts the flag is already false in every reachable
    frame. *)
Theorem flag_cleared_before_delay (self : Bot) (frame : Frame) (x y : Q)
    (s : State W) (w1 : W) :
  perform (MouseClick x y) (world s) = (Ok tt, w1) ->
  positive (click_delay self) = true ->
  exists before s',
    _click_xy_in_frame self frame x y s = (Ok tt, s') /\
    trace s' = trace s ++ before ++ [EvSleep (click_delay self)] /\
    In (EvAct (MouseClick x y)) before /\
    (forall f, reachable w1 f -> flags_of (trace s ++ before) !! f = Some false).
Proof.
  intros Hclick Hpos.
  destruct (guarded_click_steps x y s) as (up & down & Hrun & Hup & Hreach_up & Hdown & Hreach_down).
  rewrite Hclick in Hrun, Hreach_down. simpl in Hrun, Hreach_down.
  exists (up ++ [EvAct (MouseClick x y)] ++ down). eexists.
  split; [|split; [|split]].
  - unfold _click_xy_in_frame. erewrite bind_ok by exact Hrun.
    rewrite click_pause_steps, Hpos. reflexivity.
  - simpl. now rewrite <- !app_assoc.
  - apply in_or_app. right. now left.
  - intros f Hf.
    replace (trace s ++ up ++ [EvAct (MouseClick x y)] ++ down)
      with ((trace s ++ up ++ [EvAct (MouseClick x y)]) ++ down)
      by (rewrite <- !app_assoc; reflexivity).
    apply (flags_after_set false); auto.
Qed.

(** *** The trace only grows *)

Lemma appends_ret {A} (a : A) : appends (W:=W) (ret a).
Proof. intros s. exists []. simpl. now rewrite app_nil_r. Qed.

Lemma appends_raise {A} e : appends (W:=W) (A:=A) (raise e).
Proof. intros s. exists []. simpl. now rewrite app_nil_r. Qed.

Lemma appends_bind {A B} (m : M W A) (k : A -> M W B) :
  appends m -> (forall a, appends (k a)) -> appends (bind m k).
Proof.
  intros Hm Hk s. unfold bind. destruct (Hm s) as [evs1 H1].
  destruct (m s) as [[a|e] s1]; simpl in *.
  - destruct (Hk a s1) as [evs2 H2]. exists (evs1 ++ evs2).
    now rewrite H2, H1, app_assoc.
  - now exists evs1.
Qed.

Lemma appends_try_except {A} (m : M W A) (h : Exn -> M W A) :
  appends m -> (forall e, appends (h e)) -> appends (try_except m h).
Proof.
  intros Hm Hh s. unfold try_except. destruct (Hm s) as [evs1 H1].
  destruct (m s) as [[a|e] s1]; simpl in *.
  - now exists evs1.
  - destruct (Hh e s1) as [evs2 H2]. exists (evs1 ++ evs2).
    now rewrite H2, H1, app_assoc.
Qed.

Lemma appends_emit evs : appends (emit (W:=W) evs).
Proof. intros s. now exists evs. Qed.

Lemma appends_print text : appends (print (W:=W) text).
Proof. apply appends_emit. Qed.

Lemma appends_print_with text detail : appends (print_with (W:=W) text detail).
Proof. apply appends_emit. Qed.

Lemma appends_sleep seconds : appends (sleep seconds).
Proof. intros s. now exists [EvSleep seconds]. Qed.

Lemma appends_act a : appends (act a).
Proof.
  intros s. exists [EvAct a]. unfold act.
  now destruct (perform a (world s)).
Qed.

Lemma appends_ask {A} (q : Query A) : appends (ask q).
Proof. intros s. exists []. simpl. now rewrite app_nil_r. Qed.

Lemma appends_if {A} (b : bool) (m1 m2 : M W A) :
  appends m1 -> appends m2 -> appends (if b then m1 else m2).
Proof. now destruct b. Qed.

Lemma appends_click_pause self : appends (click_pause self).
Proof. unfold click_pause. apply appends_if; [apply appends_sleep | apply appends_ret]. Qed.

Lemma appends_guarded (m : M W bool) : appends m -> appends (guarded m).
Proof. intros Hm. apply appends_try_except; [exact Hm | intros; apply appends_ret]. Qed.

Lemma appends_attempt (m : M W unit) : appends m -> appends (attempt m).
Proof. intros Hm. apply appends_try_except; [exact Hm | intros; apply appends_ret]. Qed.

#[local] Hint Resolve appends_ret appends_raise appends_emit appends_print
  appends_print_with appends_sleep appends_act appends_ask appends_click_pause : growth.
#[local] Hint Extern 2 (appends (bind _ _)) =>
  apply appends_bind; [| intros ?] : growth.
#[local] Hint Extern 2 (appends (try_except _ _)) =>
  apply appends_try_except; [| intros ?] : growth.
#[local] Hint Extern 2 (appends (guarded _)) => apply appends_guarded : growth.
#[local] Hint Extern 2 (appends (attempt _)) => apply appends_attempt : growth.
#[local] Hint Extern 3 (appends (if ?b then _ else _)) => destruct b : growth.
#[local] Hint Extern 3 (appends (match ?o with Some _ => _ | None => _ end)) =>
  destruct o : growth.

Ltac grows := auto 30 with growth.

Lemma appends_click_item self item msg : appends (click_item self item msg).
Proof. unfold click_item. grows. Qed.

#[local] Hint Resolve appends_click_item : growth.

Lemma appends_click_business_name self bn items :
  appends (click_business_name self bn items).
Proof. induction items as [|item rest IH]; simpl; grows. Qed.

Lemma appends_click_meaningful self items : appends (click_meaningful self items).
Proof. induction items as [|item rest IH]; simpl; grows. Qed.

Lemma appends_click_first_shown self items : appends (click_first_shown self items).
Proof. unfold click_first_shown. grows. Qed.

#[local] Hint Resolve appends_click_business_name appends_click_meaningful
  appends_click_first_shown : growth.

(** *** Choosing the menu entry *)

Lemma first_click_app evs1 evs2 p :
  first_click evs1 = Some p -> first_click (evs1 ++ evs2) = Some p.
Proof.
  induction evs1 as [|ev evs1 IH]; simpl; [discriminate|].
  destruct ev as [| | |a|]; auto. destruct a; auto.
Qed.

Lemma first_click_is_act x y : first_click_is (W:=W) (x, y) (act (MouseClick x y)).
Proof.
  intros s. exists [EvAct (MouseClick x y)]. split; [|reflexivity].
  unfold act. now destruct (perform (MouseClick x y) (world s)).
Qed.

Lemma first_click_is_bind {A B} p (m : M W A) (k : A -> M W B) :
  first_click_is p m -> (forall a, appends (k a)) -> first_click_is p (bind m k).
Proof.
  intros Hm Hk s. unfold bind. destruct (Hm s) as (evs1 & H1 & Hc).
  destruct (m s) as [[a|e] s1]; simpl in *.
  - destruct (Hk a s1) as [evs2 H2]. exists (evs1 ++ evs2).
    rewrite H2, H1, app_assoc. split; [reflexivity|]. now apply first_click_app.
  - now exists evs1.
Qed.

Lemma first_click_is_try {A} p (m : M W A) (h : Exn -> M W A) :
  first_click_is p m -> (forall e, appends (h e)) -> first_click_is p (try_except m h).
Proof.
  intros Hm Hh s. unfold try_except. destruct (Hm s) as (evs1 & H1 & Hc).
  destruct (m s) as [[a|e] s1]; simpl in *.
  - now exists evs1.
  - destruct (Hh e s1) as [evs2 H2]. exists (evs1 ++ evs2).
    rewrite H2, H1, app_assoc. split; [reflexivity|]. now apply first_click_app.
Qed.

Lemma first_click_is_after_print {B} p text detail (k : unit -> M W B) :
  first_click_is p (k tt) -> first_click_is p (bind (print_with text detail) k).
Proof.
  intros Hk s. unfold bind, print_with, emit.
  destruct (Hk (add_trace [EvPrintWith text detail] s)) as (evs & Ht & Hc).
  exists (EvPrintWith text detail :: evs). split; [|exact Hc].
  rewrite Ht. simpl. now rewrite <- app_assoc.
Qed.

Lemma first_click_is_click_item self item msg :
  first_click_is (at_item item) (click_item self item msg).
Proof.
  unfold click_item. apply first_click_is_bind; [apply first_click_is_act|].
  intros; grows.
Qed.

Lemma click_business_name_none self bn items s :
  List.find (fun i => shown i && names_business bn i) items = None ->
  click_business_name self bn items s = (Ok false, s).
Proof.
  induction items as [|item rest IH]; simpl; [reflexivity|].
  destruct (shown item && names_business bn item); [discriminate|exact IH].
Qed.

Lemma click_business_name_some self bn items item :
  List.find (fun i => shown i && names_business bn i) items = Some item ->
  first_click_is (at_item item) (click_business_name self bn items).
Proof.
  induction items as [|it rest IH]; simpl; [discriminate|].
  destruct (shown it && names_business bn it).
  - intros [= ->]. apply first_click_is_after_print.
    apply first_click_is_bind.
    + apply first_click_is_try.
      * apply first_click_is_bind; [apply first_click_is_click_item|]. intros; grows.
      * intros; grows.
    + intros [|]; [grows|apply appends_click_business_name].
  - exact IH.
Qed.

Lemma click_meaningful_none self items s :
  List.find (fun i => shown i && meaningful i) items = None ->
  click_meaningful self items s = (Ok false, s).
Proof.
  induction items as [|item rest IH]; simpl; [reflexivity|].
  destruct (shown item && meaningful item); [discriminate|exact IH].
Qed.

Lemma click_meaningful_some self items item :
  List.find (fun i => shown i && meaningful i) items = Some item ->
  first_click_is (at_item item) (click_meaningful self items).
Proof.
  induction items as [|it rest IH]; simpl; [discriminate|].
  destruct (shown it && meaningful it).
  - intros [= ->]. apply first_click_is_after_print.
    apply first_click_is_bind.
    + apply first_click_is_try.
      * apply first_click_is_bind; [apply first_click_is_click_item|]. intros; grows.
      * intros; grows.
    + intros [|]; [grows|apply appends_click_meaningful].
  - exact IH.
Qed.

Lemma first_click_app_none evs1 evs2 :
  first_click evs1 = None -> first_click (evs1 ++ evs2) = first_click evs2.
Proof.
  induction evs1 as [|ev evs1 IH]; simpl; [reflexivity|].
  destruct ev as [| | |a|]; auto. destruct a; auto; discriminate.
Qed.

Lemma first_click_before_print evs text :
  first_click (evs ++ [EvPrint text]) = first_click evs.
Proof.
  destruct (first_click evs) as [p|] eqn:Hc.
  - now apply first_click_app.
  - now rewrite first_click_app_none.
Qed.

Lemma choose_menu_entry_first_click self business_name items s :
  exists evs,
    trace (snd (choose_menu_entry self business_name items s)) = trace s ++ evs /\
    first_click evs = option_map at_item (menu_choice business_name items).
Proof.
  unfold choose_menu_entry, menu_choice.
  destruct (List.find (fun i => shown i && names_business business_name i) items)
    as [item|] eqn:H1.
  { apply (first_click_is_bind (at_item item)).
    - now apply click_business_name_some.
    - intros clicked. grows. }
  erewrite bind_ok by (now apply click_business_name_none).
  destruct (List.find (fun i => shown i && meaningful i) items) as [item|] eqn:H2.
  { apply (first_click_is_bind (at_item item)).
    - now apply click_meaningful_some.
    - intros clicked. grows. }
  erewrite bind_ok by (now apply click_meaningful_none).
  unfold click_first_shown.
  destruct (List.find shown items) as [item|] eqn:H3.
  - apply (first_click_is_after_print (at_item item)).
    apply first_click_is_try; [|intros; grows].
    apply first_click_is_bind; [apply first_click_is_click_item|]. intros; grows.
  - exists []. simpl. now rewrite app_nil_r.
Qed.

(** The listing of the clickables only prints. *)
Lemma describe_elements_prints l idxs s :
  exists evs,
    describe_elements l idxs s = (Ok tt, add_trace evs s) /\ first_click evs = None.
Proof.
  revert s. induction idxs as [|idx rest IH]; intros s; simpl.
  - exists []. split; [|reflexivity]. unfold ret, add_trace. simpl.
    rewrite app_nil_r. now destruct s.
  - assert (Hone : exists detail,
               attempt
                 (try_except
                    (do is_visible <- ask (QIsVisible (nth l idx));
                     if is_visible then
                       do text <- ask (QInnerText (nth l idx));
                       print_with ("Element " ++ pretty idx)
                         (if Text.nonempty text then Text.prefix 40 (Text.strip text)
                          else "(no text)")
                     else print_with ("Element " ++ pretty idx) "(not visible)")
                    (fun _ => print_with ("Element " ++ pretty idx) "(could not get text)")) s
               = (Ok tt, add_trace [EvPrintWith ("Element " ++ pretty idx) detail] s)).
    { unfold attempt, try_except, bind, ask, print_with, emit.
      destruct (query bool (QIsVisible (nth l idx)) (world s)) as [[|]|e];
        [|eexists; reflexivity|eexists; reflexivity].
      destruct (query string (QInnerText (nth l idx)) (world s)) as [text|e];
        eexists; reflexivity. }
    destruct Hone as [detail Hone].
    erewrite bind_ok by exact Hone.
    destruct (IH (add_trace [EvPrintWith ("Element " ++ pretty idx) detail] s))
      as (evs & Hrun & Hc).
    exists (EvPrintWith ("Element " ++ pretty idx) detail :: evs).
    split; [|exact Hc]. rewrite Hrun. now rewrite add_trace_add_trace.
Qed.

Lemma menu_script_ok d :
  menu_script d = Ok (imap menu_item (firstn 10 (matches_of (all_elements d) menu_sel))).
Proof.
  unfold menu_script, querySelectorAll.
  change (sel_valid menu_sel) with true. reflexivity.
Qed.

(** C6 (as amended). The first pointer click of the menu stage goes to
    the entry chosen in three passes over the listed entries: the first
    visible entry whose cleaned, upper-cased text contains the business
    name, wherever it stands in the list; absent that, the first visible
    entry with more than one character of text that does not contain
    "http"; absent that, the first visible entry with any text; and
    there is no click when no entry is shown. In [submit_name_change]
    the entries are those the listing script reports for the main
    document and the business name is the upper-cased value of
    [GMAPS_SEARCH_QUERY] in the environment, the empty string when it is
    not set; when the clickables cannot be counted or the script cannot
    be evaluated, the stage ends without a pointer click. *)
Theorem menu_entry_choice (self : Bot) (s : State W) :
  (forall hint items,
      exists evs,
        trace (snd (choose_menu_entry self hint items s)) = trace s ++ evs /\
        first_click evs = option_map at_item (menu_choice hint items)) /\
  (forall count d,
      query nat (QCount all_clickables) (world s) = Ok count ->
      frame_doc (world s) (main_frame (world s)) = Some d ->
      exists items evs,
        menu_script d = Ok items /\
        trace (snd (click_menu_via_js self s)) = trace s ++ evs /\
        first_click evs = option_map at_item (menu_choice (business_name s) items)) /\
  ((exists e, query nat (QCount all_clickables) (world s) = Raise e) \/
   frame_doc (world s) (main_frame (world s)) = None ->
   exists evs,
     trace (snd (click_menu_via_js self s)) = trace s ++ evs /\
     first_click evs = None).
Proof.
  split; [|split].
  - intros hint items. apply choose_menu_entry_first_click.
  - intros count d Hcount Hdoc.
    destruct (describe_elements_prints all_clickables (seq 0 (Nat.min count 10)) s)
      as (evs0 & Hlist & Hc0).
    destruct (choose_menu_entry_first_click self (business_name s)
                (imap menu_item (firstn 10 (matches_of (all_elements d) menu_sel)))
                (add_trace evs0 s)) as (evs1 & Ht1 & Hc1).
    eexists. exists (evs0 ++ evs1 ++
                     match fst (choose_menu_entry self (business_name s)
                                  (imap menu_item
                                     (firstn 10 (matches_of (all_elements d) menu_sel)))
                                  (add_trace evs0 s)) with
                     | Ok _ => []
                     | Raise _ => [EvPrint "Error trying to click elements"]
                     end).
    split; [apply menu_script_ok|]. split.
    + unfold click_menu_via_js, try_except.
      unfold bind at 1. unfold ask at 1. rewrite Hcount.
      unfold bind at 1. rewrite Hlist.
      unfold bind at 1. unfold page_evaluate, evaluate. simpl world.
      rewrite Hdoc, menu_script_ok.
      unfold bind at 1. unfold getenv at 1. simpl environ.
      fold (business_name s).
      destruct (choose_menu_entry self (business_name s)
                  (imap menu_item (firstn 10 (matches_of (all_elements d) menu_sel)))
                  (add_trace evs0 s)) as [[b|e] s2]; simpl in *.
      * rewrite Ht1, app_nil_r. now rewrite app_assoc.
      * rewrite Ht1. now rewrite <- !app_assoc.
    + rewrite first_click_app_none by exact Hc0.
      destruct (fst (choose_menu_entry self (business_name s)
                       (imap menu_item (firstn 10 (matches_of (all_elements d) menu_sel)))
                       (add_trace evs0 s))).
      * now rewrite app_nil_r.
      * now rewrite first_click_before_print.
  - intros [[e Hcount] | Hdoc].
    + exists [EvPrint "Error trying to click elements"]. split; [|reflexivity].
      unfold click_menu_via_js, try_except.
      unfold bind at 1. unfold ask at 1. rewrite Hcount. reflexivity.
    + destruct (query nat (QCount all_clickables) (world s)) as [count|e] eqn:Hcount.
      * destruct (describe_elements_prints all_clickables (seq 0 (Nat.min count 10)) s)
          as (evs0 & Hlist & Hc0).
        exists (evs0 ++ [EvPrint "Error trying to click elements"]).
        split; [|now rewrite first_click_before_print].
        unfold click_menu_via_js, try_except.
        unfold bind at 1. unfold ask at 1. rewrite Hcount.
        unfold bind at 1. rewrite Hlist.
        unfold bind at 1. unfold page_evaluate, evaluate. simpl world.
        rewrite Hdoc. simpl. now rewrite app_assoc.
      * exists [EvPrint "Error trying to click elements"]. split; [|reflexivity].
        unfold click_menu_via_js, try_except.
        unfold bind at 1. unfold ask at 1. rewrite Hcount. reflexivity.
Qed.

(** *** Computations that cannot raise *)

Lemma returns_weaken {A} (P Q : A -> Prop) (m : M W A) :
  returns P m -> (forall a, P a -> Q a) -> returns Q m.
Proof. intros Hm HPQ s. destruct (Hm s) as (a & s' & Hr & Ha). eauto. Qed.

Lemma returns_ret {A} (P : A -> Prop) (a : A) : P a -> returns (W:=W) P (ret a).
Proof. intros Ha s. now exists a, s. Qed.

Lemma returns_bind {A B} (Q : A -> Prop) (P : B -> Prop) (m : M W A) (k : A -> M W B) :
  returns Q m -> (forall a, Q a -> returns P (k a)) -> returns P (bind m k).
Proof.
  intros Hm Hk s. destruct (Hm s) as (a & s1 & Hr & Ha).
  destruct (Hk a Ha s1) as (b & s2 & Hr2 & Hb).
  exists b, s2. split; [|exact Hb]. unfold bind. now rewrite Hr.
Qed.

Lemma returns_then {A B} (P : B -> Prop) (m : M W A) (k : A -> M W B) :
  returns (fun _ => True) m -> (forall a, returns P (k a)) -> returns P (bind m k).
Proof. intros Hm Hk. apply (returns_bind (fun _ => True)); auto. Qed.

Lemma returns_try_except {A} (P : A -> Prop) (m : M W A) (h : Exn -> M W A) :
  (forall s a s', m s = (Ok a, s') -> P a) ->
  (forall e, returns P (h e)) -> returns P (try_except m h).
Proof.
  intros Hm Hh s. unfold try_except.
  destruct (m s) as [[a|e] s1] eqn:Hr.
  - exists a, s1. split; [reflexivity|]. eapply Hm; eauto.
  - apply Hh.
Qed.

Lemma returns_guarded (m : M W bool) : returns (fun _ => True) (guarded m).
Proof. apply returns_try_except; [auto|]. intros e. now apply returns_ret. Qed.

Lemma returns_attempt (m : M W unit) : returns (fun _ => True) (attempt m).
Proof. apply returns_try_except; [auto|]. intros e. now apply returns_ret. Qed.

Lemma returns_emit evs : returns (W:=W) (fun _ => True) (emit evs).
Proof. intros s. now exists tt, (add_trace evs s). Qed.

Lemma returns_print text : returns (W:=W) (fun _ => True) (print text).
Proof. apply returns_emit. Qed.

Lemma returns_print_with text detail : returns (W:=W) (fun _ => True) (print_with text detail).
Proof. apply returns_emit. Qed.

Lemma returns_sleep seconds : returns (fun _ => True) (sleep seconds).
Proof. intros s. eexists tt, _. split; [reflexivity|exact I]. Qed.

Lemma returns_click_pause self : returns (fun _ => True) (click_pause self).
Proof.
  unfold click_pause. destruct (positive (click_delay self));
    [apply returns_sleep | now apply returns_ret].
Qed.

Lemma try_except_ok {A} (m : M W A) (h : Exn -> M W A) s a s' :
  m s = (Ok a, s') -> try_except m h s = (Ok a, s').
Proof. unfold try_except. now intros ->. Qed.

Lemma try_except_raise {A} (m : M W A) (h : Exn -> M W A) s e s' :
  m s = (Raise e, s') -> try_except m h s = h e s'.
Proof. unfold try_except. now intros ->. Qed.

#[local] Hint Resolve returns_guarded returns_attempt returns_print returns_print_with
  returns_sleep returns_click_pause : total.
#[local] Hint Extern 1 (returns _ (ret _)) => apply returns_ret; try exact I : total.
#[local] Hint Extern 2 (returns _ (bind _ _)) =>
  apply returns_then; [| intros ?] : total.
#[local] Hint Extern 3 (returns _ (if ?b then _ else _)) => destruct b : total.

Ltac total := auto 30 with total.

(** *** [open_suggest_edit] *)

Lemma panel_is_up_cases attempt_no s :
  panel_is_up attempt_no s = (Ok false, s) \/
  panel_is_up attempt_no s =
    (Ok true, add_trace [EvPrintWith "Location panel loaded, attempt"
                           (pretty (attempt_no + 1)%nat)] s).
Proof.
  unfold panel_is_up, guarded, try_except, bind, ask, ret, print_with, emit.
  destruct (query nat (QCount panel_locator) (world s)) as [c|e]; [|now left].
  destruct (0 <? c)%nat; [|now left].
  destruct (query bool (QIsVisible panel_locator) (world s)) as [[|]|e]; auto.
Qed.

Lemma wait_for_panel_steps a n s :
  exists k loaded s',
    wait_for_panel (seq a n) s = (Ok loaded, s') /\
    (k <= n)%nat /\
    (loaded = false -> k = n /\ trace s' = trace s ++ repeat (EvSleep 1) k) /\
    (loaded = true ->
       (k < n)%nat /\
       trace s' = trace s ++ repeat (EvSleep 1) k ++
                  [EvPrintWith "Location panel loaded, attempt" (pretty (a + k + 1)%nat)]).
Proof.
  revert a s. induction n as [|n IH]; intros a s; simpl.
  - exists 0%nat, false, s. split; [reflexivity|]. split; [lia|].
    split; [|discriminate]. intros _. split; [reflexivity|]. simpl. now rewrite app_nil_r.
  - destruct (panel_is_up_cases a s) as [Hup | Hup].
    + erewrite bind_ok by exact Hup.
      destruct (IH (S a) (add_trace [EvSleep 1]
                        (set_world (elapse 1 (world s)) s)))
        as (k & loaded & s' & Hrun & Hk & Hno & Hyes).
      exists (S k), loaded, s'. split; [|split; [lia|split]].
      * unfold bind at 1. unfold sleep at 1. exact Hrun.
      * intros Hl. destruct (Hno Hl) as [-> Ht]. split; [reflexivity|].
        rewrite Ht. simpl. now rewrite <- app_assoc.
      * intros Hl. destruct (Hyes Hl) as [Hlt Ht]. split; [lia|].
        rewrite Ht. simpl. rewrite <- app_assoc. simpl.
        replace (S (a + k + 1))%nat with (a + S k + 1)%nat by lia.
        reflexivity.
    + erewrite bind_ok by exact Hup.
      exists 0%nat, true, (add_trace [EvPrintWith "Location panel loaded, attempt"
                                        (pretty (a + 1)%nat)] s).
      split; [reflexivity|]. split; [lia|]. split; [discriminate|].
      intros _. split; [lia|]. simpl. now rewrite Nat.add_0_r.
Qed.

Lemma panel_attempts_value self :
  panel_attempts self = Z.to_nat (Z.max 1 (panel_wait_seconds self)).
Proof.
  unfold panel_attempts.
  destruct (Z.max 0 (panel_wait_seconds self) =? 0)%Z eqn:Hz.
  - apply Z.eqb_eq in Hz. f_equal. lia.
  - apply Z.eqb_neq in Hz. f_equal. lia.
Qed.

(** One probe of the poll: the panel counts as loaded when its locator
    has a match and the first match is visible; a driver error counts
    as not loaded. *)
Lemma panel_is_up_usable attempt_no s :
  panel_is_up attempt_no s =
    if usable (world s) panel_locator
    then (Ok true, add_trace [EvPrintWith "Location panel loaded, attempt"
                                (pretty (attempt_no + 1)%nat)] s)
    else (Ok false, s).
Proof.
  unfold panel_is_up, guarded, try_except, bind, ask, ret, print_with, emit, usable.
  destruct (query nat (QCount panel_locator) (world s)) as [c|e]; [|reflexivity].
  destruct (0 <? c)%nat; [|reflexivity].
  destruct (query bool (QIsVisible panel_locator) (world s)) as [[|]|e]; reflexivity.
Qed.

Lemma after_pauses_next d k (w : W) :
  after_pauses d k (elapse d w) = after_pauses d (S k) w.
Proof. unfold after_pauses. now rewrite Nat.iter_succ_r. Qed.

Lemma wait_for_panel_skips k a n (s : State W) :
  (forall j, (j < k)%nat -> usable (after_pauses 1 j (world s)) panel_locator = false) ->
  wait_for_panel (seq a (k + n)) s = wait_for_panel (seq (a + k) n) (paused 1 k s).
Proof.
  revert a s. induction k as [|k IH]; intros a s Hnone.
  - unfold paused. cbn [Nat.add after_pauses Nat.iter repeat].
    rewrite Nat.add_0_r, app_nil_r. now destruct s.
  - cbn [Nat.add seq wait_for_panel].
    pose proof (Hnone 0%nat ltac:(lia)) as H0.
    change (after_pauses 1 0 (world s)) with (world s) in H0.
    unfold bind at 1. rewrite panel_is_up_usable, H0.
    unfold bind at 1. unfold sleep at 1.
    rewrite IH.
    + replace (S a + k)%nat with (a + S k)%nat by lia.
      f_equal. unfold paused, add_trace, set_world. cbn [world environ trace playwright context].
      rewrite after_pauses_next. cbn [repeat]. now rewrite <- app_assoc.
    + intros j Hj. cbn [world add_trace set_world].
      rewrite after_pauses_next. apply Hnone. lia.
Qed.

Lemma give_up_steps s :
  exists dump s',
    give_up_and_wait s = (Ok true, s') /\
    trace s' = trace s ++ EvAct (Screenshot "debug_maps.png" true) :: dump
                 ++ give_up_narration /\
    (forall w' html,
        perform (Screenshot "debug_maps.png" true) (world s) = (Ok tt, w') ->
        query string QContent w' = Ok html ->
        In (EvAct (WriteFile "debug_html.html" html)) dump).
Proof.
  unfold give_up_and_wait, save_debug_files, attempt, try_except, bind, act, ask,
    print, emit, sleep, ret, give_up_narration.
  simpl.
  destruct (perform (Screenshot "debug_maps.png" true) (world s)) as [[[]|e1] w1] eqn:E1;
    simpl.
  - destruct (query string QContent w1) as [html|e2] eqn:E2; simpl.
    + destruct (perform (WriteFile "debug_html.html" html) w1) as [[[]|e3] w2] eqn:E3;
        simpl.
      * eexists [EvAct (WriteFile "debug_html.html" html); _; _; _], _.
        split; [reflexivity|]. split; [simpl; now rewrite <- !app_assoc|].
        intros w' html' [= <-] Hq. rewrite E2 in Hq. injection Hq as <-. now left.
      * eexists [EvAct (WriteFile "debug_html.html" html)], _.
        split; [reflexivity|]. split; [simpl; now rewrite <- !app_assoc|].
        intros w' html' [= <-] Hq. rewrite E2 in Hq. injection Hq as <-. now left.
    + eexists [], _. split; [reflexivity|]. split; [simpl; now rewrite <- !app_assoc|].
      intros w' html' [= <-] Hq. rewrite E2 in Hq. discriminate.
  - eexists [], _. split; [reflexivity|]. split; [simpl; now rewrite <- !app_assoc|].
    intros w' html' [=].
Qed.

Lemma returns_try_body {A} (P : A -> Prop) (m : M W A) (h : Exn -> M W A) :
  returns P m -> returns P (try_except m h).
Proof.
  intros Hm s. destruct (Hm s) as (a & s' & Hr & Ha).
  exists a, s'. split; [|exact Ha]. now apply try_except_ok.
Qed.

Lemma returns_wait_for_panel attempts : returns (fun _ => True) (wait_for_panel attempts).
Proof. induction attempts as [|a rest IH]; simpl; unfold panel_is_up; total. Qed.

Lemma returns_click_by_selectors self sels :
  returns (fun _ => True) (click_by_selectors self sels).
Proof. induction sels as [|sel rest IH]; simpl; total. Qed.

#[local] Hint Resolve returns_wait_for_panel returns_click_by_selectors : total.

Lemma returns_discover self : returns (fun _ => True) (discover_suggest_edit self).
Proof.
  unfold discover_suggest_edit, click_in_panel, keyboard_navigation, page_text_scan.
  total.
Qed.

Lemma returns_await_panel self : returns (fun _ => True) (await_panel self).
Proof. unfold await_panel. total. Qed.

Lemma returns_give_up : returns (eq true) give_up_and_wait.
Proof.
  intros s. destruct (give_up_steps s) as (dump & s' & Hrun & _).
  now exists true, s'.
Qed.

Lemma open_suggest_edit_true self : returns (eq true) (open_suggest_edit self).
Proof.
  unfold open_suggest_edit. apply returns_try_body.
  apply returns_then; [apply returns_await_panel|]. intros _.
  apply returns_then; [apply returns_discover|]. intros [|].
  - now apply returns_ret.
  - apply returns_give_up.
Qed.

(** C7 (as amended). The panel poll makes at most
    [max(1, panel_wait_seconds)] attempts, one second apart: one attempt
    is made even when the setting is 0. An attempt succeeds when the
    panel locator has a match and its first match is visible; a driver
    error counts as a failed attempt. The poll ends with the first
    attempt that succeeds, which it reports under its number, and a
    one-second sleep follows every failed attempt. When the poll runs
    out, a warning is printed and the function goes on. When every
    discovery method ends without success, the screenshot
    [debug_maps.png] is requested and, if the driver takes it and hands
    over the page source, the source is written to [debug_html.html];
    then the function waits 45 seconds and returns [True]. On every
    path it returns [True]. *)
Theorem suggest_edit_degrades (self : Bot) (s : State W) :
  fst (open_suggest_edit self s) = Ok true /\
  (forall k,
      (k < Z.to_nat (Z.max 1 (panel_wait_seconds self)))%nat ->
      (forall j, (j < k)%nat ->
                 usable (after_pauses 1 j (world s)) panel_locator = false) ->
      usable (after_pauses 1 k (world s)) panel_locator = true ->
      wait_for_panel (seq 0 (panel_attempts self)) s =
        (Ok true,
         add_trace [EvPrintWith "Location panel loaded, attempt" (pretty (k + 1)%nat)]
           (paused 1 k s))) /\
  ((forall j, (j < Z.to_nat (Z.max 1 (panel_wait_seconds self)))%nat ->
              usable (after_pauses 1 j (world s)) panel_locator = false) ->
   wait_for_panel (seq 0 (panel_attempts self)) s =
     (Ok false, paused 1 (Z.to_nat (Z.max 1 (panel_wait_seconds self))) s)) /\
  (exists k loaded s1,
      wait_for_panel (seq 0 (panel_attempts self)) s = (Ok loaded, s1) /\
      (k <= Z.to_nat (Z.max 1 (panel_wait_seconds self)))%nat /\
      (loaded = false ->
         k = Z.to_nat (Z.max 1 (panel_wait_seconds self)) /\
         trace s1 = trace s ++ repeat (EvSleep 1) k) /\
      (loaded = true ->
         (k < Z.to_nat (Z.max 1 (panel_wait_seconds self)))%nat /\
         trace s1 = trace s ++ repeat (EvSleep 1) k ++
                    [EvPrintWith "Location panel loaded, attempt" (pretty (k + 1)%nat)])) /\
  (forall s1,
      wait_for_panel (seq 0 (panel_attempts self))
        (add_trace [EvPrint "Waiting for location info panel to load..."] s)
        = (Ok false, s1) ->
      exists s2,
        await_panel self s = (Ok tt, s2) /\
        In (EvPrint "Location panel may not have loaded yet, continuing anyway...")
           (trace s2)) /\
  (forall s1 s2,
      await_panel self s = (Ok tt, s1) ->
      discover_suggest_edit self s1 = (Ok false, s2) ->
      exists dump s3,
        open_suggest_edit self s = (Ok true, s3) /\
        trace s3 = trace s2 ++ EvAct (Screenshot "debug_maps.png" true) :: dump
                     ++ give_up_narration /\
        (forall w' html,
            perform (Screenshot "debug_maps.png" true) (world s2) = (Ok tt, w') ->
            query string QContent w' = Ok html ->
            In (EvAct (WriteFile "debug_html.html" html)) dump)).
Proof.
  split; [|split; [|split; [|split; [|split]]]].
  - destruct (open_suggest_edit_true self s) as (a & s' & -> & <-). reflexivity.
  - intros k Hk Hnone Hup.
    rewrite panel_attempts_value.
    replace (Z.to_nat (Z.max 1 (panel_wait_seconds self)))
      with (k + S (Z.to_nat (Z.max 1 (panel_wait_seconds self)) - S k))%nat by lia.
    rewrite wait_for_panel_skips by exact Hnone.
    cbn [seq wait_for_panel]. unfold bind at 1.
    rewrite panel_is_up_usable. unfold paused at 1. cbn [world]. rewrite Hup.
    reflexivity.
  - intros Hnone. rewrite panel_attempts_value.
    rewrite <- (Nat.add_0_r (Z.to_nat (Z.max 1 (panel_wait_seconds self)))) at 1.
    rewrite wait_for_panel_skips by exact Hnone. reflexivity.
  - destruct (wait_for_panel_steps 0 (panel_attempts self) s)
      as (k & loaded & s1 & Hrun & Hk & Hno & Hyes).
    rewrite panel_attempts_value in Hk, Hno, Hyes.
    exists k, loaded, s1. split; [exact Hrun|]. split; [exact Hk|].
    split; [exact Hno|exact Hyes].
  - intros s1 Hpoll. unfold await_panel.
    unfold bind at 1. unfold print at 1. unfold emit at 1.
    erewrite bind_ok by exact Hpoll.
    unfold bind at 1. unfold print at 1. unfold emit at 1.
    destruct (returns_click_pause self
                (add_trace [EvPrint "Location panel may not have loaded yet, continuing anyway..."] s1))
      as ([] & s2 & Hpause & _).
    erewrite bind_ok by exact Hpause.
    eexists. split; [reflexivity|].
    destruct (appends_click_pause self
                (add_trace [EvPrint "Location panel may not have loaded yet, continuing anyway..."] s1))
      as [evs Hevs].
    rewrite Hpause in Hevs. simpl in Hevs. simpl. rewrite Hevs.
    apply in_or_app. left. apply in_or_app. left. apply in_or_app. right. now left.
  - intros s1 s2 Hawait Hdisc.
    destruct (give_up_steps s2) as (dump & s3 & Hrun & Ht & Hdump).
    exists dump, s3. split; [|split; [exact Ht|exact Hdump]].
    unfold open_suggest_edit. apply try_except_ok.
    erewrite bind_ok by exact Hawait.
    erewrite bind_ok by exact Hdisc. exact Hrun.
Qed.

(** *** The mandatory input of the two edit paths *)

Lemma appends_first_visible_of sels use :
  (forall l, appends (use l)) -> appends (first_visible_of sels use).
Proof. intros Huse. induction sels as [|sel rest IH]; simpl; grows. Qed.

Lemma returns_first_visible_of sels use :
  returns (fun _ => True) (first_visible_of sels use).
Proof. induction sels as [|sel rest IH]; simpl; total. Qed.

Lemma appends_click_address_submit self : appends (click_address_submit self).
Proof. unfold click_address_submit. apply appends_first_visible_of. intros l. grows. Qed.

Lemma returns_find_address_input self new_address :
  returns (fun _ => True) (find_address_input self new_address).
Proof.
  unfold find_address_input, click_address_option, fill_address_directly.
  pose proof returns_first_visible_of. total.
Qed.

Lemma finish_address_change_true self (clicked : bool) :
  returns (eq true) (finish_address_change self clicked).
Proof.
  unfold finish_address_change, click_address_submit.
  pose proof returns_first_visible_of.
  apply returns_then; [total|]. intros _.
  apply returns_then; [total|]. intros _.
  apply returns_then; [total|]. intros submitted.
  apply returns_then; [total|]. intros _.
  apply returns_then; [total|]. intros _.
  now apply returns_ret.
Qed.

Lemma in_trace_bind {A B} (m : M W A) (k : A -> M W B) ev s :
  returns (fun _ => True) m ->
  (forall s0, In ev (trace (snd (m s0)))) ->
  (forall a, appends (k a)) ->
  In ev (trace (snd (bind m k s))).
Proof.
  intros Hm Hin Hk. destruct (Hm s) as (a & s1 & Hr & _).
  specialize (Hin s). unfold bind. rewrite Hr in *. simpl in Hin.
  destruct (Hk a s1) as [evs He]. rewrite He. apply in_or_app. now left.
Qed.

Lemma finish_address_change_warns self s1 :
  exists s',
    finish_address_change self false s1 = (Ok true, s') /\
    In (EvPrint "Could not find address input automatically") (trace s').
Proof.
  destruct (finish_address_change_true self false s1) as (b & s' & Hrun & <-).
  exists s'. split; [exact Hrun|].
  replace s' with (snd (finish_address_change self false s1)) by now rewrite Hrun.
  unfold finish_address_change. apply in_trace_bind.
  - total.
  - intros s0. simpl. apply in_or_app. left. apply in_or_app. right. now left.
  - intros _. pose proof (appends_click_address_submit self). grows.
Qed.

Lemma submit_address_change_true self new_address :
  returns (eq true) (submit_address_change self new_address).
Proof.
  unfold submit_address_change. apply returns_try_body.
  apply returns_then; [apply returns_find_address_input|].
  intros clicked. apply finish_address_change_true.
Qed.

(** C8. The name path does what the claim says: when the menu entry was
    clicked, the place-name poll ran out and the scan found no editable
    element at all, [submit_name_change] requests the screenshot
    [debug_no_inputs.png] and returns [False]. The address path does
    not: when neither the menu entry nor an address input is found,
    [submit_address_change] prints that the value has to be entered by
    hand, goes on to the submit step and returns [True], where its
    docstring promises [False] for an edit that did not succeed; no
    driver error reaches its only [return False], so that the result is
    [True] whatever the page. *)
Theorem mandatory_input_missing (self : Bot) (new_name new_address : string)
    (s : State W) :
  (forall s1 s2 s3,
      enter_name_dialog self new_name s = (Ok true, s1) ->
      look_for_place_name self new_name s1 = (Ok None, s2) ->
      scan_editables s2 = (Ok [], s3) ->
      exists s' tail,
        submit_name_change self new_name s = (Ok false, s') /\
        trace s' = trace s3 ++
                   [EvPrint "No input fields found at all";
                    EvPrint "The edit form may not have loaded or may be in an iframe";
                    EvAct (Screenshot "debug_no_inputs.png" false)] ++ tail) /\
  fst (submit_address_change self new_address s) = Ok true /\
  (forall s1,
      find_address_input self new_address s = (Ok false, s1) ->
      exists s',
        submit_address_change self new_address s = (Ok true, s') /\
        In (EvPrint "Could not find address input automatically") (trace s')).
Proof.
  split; [|split].
  - intros s1 s2 s3 Hmenu Hpoll Hscan.
    destruct (perform (Screenshot "debug_no_inputs.png" false) (world s3))
      as [[[]|e] w'] eqn:Hshot.
    + assert (Hfb : exists s', fallback_any_input self new_name s2 = (Ok (Some false), s') /\
                      trace s' = trace s3 ++
                        [EvPrint "No input fields found at all";
                         EvPrint "The edit form may not have loaded or may be in an iframe";
                         EvAct (Screenshot "debug_no_inputs.png" false)] ++
                        [EvPrint "Screenshot saved: debug_no_inputs.png"]).
      { unfold fallback_any_input. erewrite bind_ok by exact Hscan.
        unfold bind, print, emit, act, ret. simpl. rewrite Hshot.
        eexists. split; [reflexivity|]. simpl. now rewrite <- !app_assoc. }
      destruct Hfb as (s' & Hfb & Ht).
      exists s', [EvPrint "Screenshot saved: debug_no_inputs.png"].
      split; [|exact Ht].
      unfold submit_name_change. apply try_except_ok.
      erewrite bind_ok by exact Hmenu.
      erewrite bind_ok
        by (unfold fill_name; erewrite bind_ok by exact Hpoll; exact Hfb).
      reflexivity.
    + assert (Hfb : exists s', fallback_any_input self new_name s2 = (Raise e, s') /\
                      trace s' = trace s3 ++
                        [EvPrint "No input fields found at all";
                         EvPrint "The edit form may not have loaded or may be in an iframe";
                         EvAct (Screenshot "debug_no_inputs.png" false)]).
      { unfold fallback_any_input. erewrite bind_ok by exact Hscan.
        unfold bind, print, emit, act, ret. simpl. rewrite Hshot.
        eexists. split; [reflexivity|]. simpl. now rewrite <- !app_assoc. }
      destruct Hfb as (s' & Hfb & Ht).
      eexists _, [EvPrint "Error submitting name change";
                  EvPrint "You may need to manually complete the form"].
      split.
      * unfold submit_name_change.
        erewrite try_except_raise; [reflexivity|].
        erewrite bind_ok by exact Hmenu.
        erewrite bind_raise
          by (unfold fill_name; erewrite bind_ok by exact Hpoll; exact Hfb).
        reflexivity.
      * simpl. rewrite Ht. now rewrite <- !app_assoc.
  - destruct (submit_address_change_true self new_address s) as (b & s' & -> & <-).
    reflexivity.
  - intros s1 Hfind.
    destruct (finish_address_change_warns self s1) as (s' & Hrest & Hin).
    exists s'. split; [|exact Hin].
    unfold submit_address_change. apply try_except_ok.
    erewrite bind_ok by exact Hfind. exact Hrest.
Qed.

(** *** The result of a run *)

Lemma returns_close : returns (W:=W) (fun _ => True) close.
Proof. unfold close. total. Qed.

Lemma returns_submit_name_change self new_name :
  returns (fun _ => True) (submit_name_change self new_name).
Proof.
  unfold submit_name_change. apply returns_try_except; [auto|].
  intros e. total.
Qed.

(** C9 (as amended). Each of [submit_name_change] and
    [submit_address_change] always hands a boolean to its immediate
    caller, without raising; the top-level flow awaits them for their
    effects and narration and has no result of its own: [main_async]
    returns [None] on every path, without raising, so its result is the
    same whatever the edits reported. *)
Theorem run_result_is_none (a : Args) (s : State W) :
  fst (main_async a s) = Ok tt /\
  (forall (b : Args) (s2 : State W), fst (main_async a s) = fst (main_async b s2)) /\
  (forall self new_name s0, exists b s', submit_name_change self new_name s0 = (Ok b, s')) /\
  (forall self new_address s0,
      exists b s', submit_address_change self new_address s0 = (Ok b, s')).
Proof.
  assert (Hnone : forall (b : Args) (s2 : State W), fst (main_async b s2) = Ok tt).
  { intros b s2. unfold main_async. unfold bind at 1. unfold putenv at 1.
    match goal with
    | |- context [match ?m ?s0 with _ => _ end] => destruct (m s0) as [[dir|e] s'] eqn:Hdir
    end.
    - unfold try_finally.
      match goal with
      | |- context [try_except ?m ?h s'] => destruct (try_except m h s') as [r s1] eqn:Hbody
      end.
      assert (Hr : r = Ok tt).
      { unfold try_except in Hbody.
        match type of Hbody with
        | context [match ?m ?s0 with _ => _ end] => destruct (m s0) as [[[]|e] s0']
        end; [now inversion Hbody|].
        unfold print, emit in Hbody. now inversion Hbody. }
      destruct (returns_close s1) as ([] & s2' & -> & _). now rewrite Hr.
    - reflexivity. }
  split; [apply Hnone|]. split; [intros b s2; now rewrite !Hnone|]. split.
  - intros self new_name s0.
    destruct (returns_submit_name_change self new_name s0) as (b & s' & Hrun & _). eauto.
  - intros self new_address s0.
    destruct (submit_address_change_true self new_address s0) as (b & s' & Hrun & _). eauto.
Qed.

(** What [suggest_general_edit] returns. *)
Lemma suggest_general_edit_true self edit_details :
  returns (eq true) (suggest_general_edit self edit_details).
Proof.
  unfold suggest_general_edit. apply returns_try_body.
  apply returns_then.
  - destruct (edit_details !! "name"); [|now apply returns_ret].
    apply returns_then; [apply returns_submit_name_change|]. intros; now apply returns_ret.
  - intros _. apply returns_then; [|intros; now apply returns_ret].
    destruct (edit_details !! "address"); [|now apply returns_ret].
    apply returns_then; [total|]. intros _.
    apply returns_then; [|intros; now apply returns_ret].
    eapply returns_weaken; [apply submit_address_change_true|auto].
Qed.

(** *** The fallback input and its submit button *)

Lemma fill_fallback_input_trace self new_name idx inp s s1 :
  fill_fallback_input self new_name idx inp s = (Ok tt, s1) ->
  trace s1 = trace s ++ fill_events self new_name idx inp.
Proof.
  unfold fill_fallback_input, fill_events, click_pause, bind, print_with, emit, act,
    sleep, ret. simpl.
  destruct (perform (MouseClick (ed_x inp) (ed_y inp)) (world s)) as [[[]|e1] w1];
    simpl; [|discriminate].
  destruct (positive (click_delay self)); simpl.
  - match goal with
    | |- context [perform (KeyPress "Control+a") ?w] =>
        destruct (perform (KeyPress "Control+a") w) as [[[]|e2] w2]
    end; simpl; [|discriminate].
    match goal with
    | |- context [perform (KeyType new_name) ?w] =>
        destruct (perform (KeyType new_name) w) as [[[]|e3] w3]
    end; simpl; [|discriminate].
    intros [= <-]. simpl. now rewrite <- !app_assoc.
  - match goal with
    | |- context [perform (KeyPress "Control+a") ?w] =>
        destruct (perform (KeyPress "Control+a") w) as [[[]|e2] w2]
    end; simpl; [|discriminate].
    match goal with
    | |- context [perform (KeyType new_name) ?w] =>
        destruct (perform (KeyType new_name) w) as [[[]|e3] w3]
    end; simpl; [|discriminate].
    intros [= <-]. simpl. now rewrite <- !app_assoc.
Qed.

(** C10. In the fallback path, when the submit search returns null the
    subscript [submit_button['x']] raises; the handler of the loop body
    catches it, prints its message and the loop goes on with the next
    editable element. Nothing on that path prints "Submit button not
    found": that branch needs a submit button that is not null. *)
Theorem null_submit_is_swallowed (self : Bot) (new_name : string) (idx : nat)
    (inp : Editable) (rest : list (nat * Editable)) (s s1 : State W) :
  fill_fallback_input self new_name idx inp s = (Ok tt, s1) ->
  fst (fallback_submit_search s1) = Ok None ->
  click_fallback_submit self None s1 = (Raise TypeError, s1) /\
  try_fallback_input self new_name idx inp s =
    (Ok None, add_trace [EvPrintWith "Failed to fill input" (pretty idx)] s1) /\
  try_fallback_inputs self new_name ((idx, inp) :: rest) s =
    try_fallback_inputs self new_name rest
      (add_trace [EvPrintWith "Failed to fill input" (pretty idx)] s1) /\
  trace (snd (try_fallback_input self new_name idx inp s)) =
    trace s ++ fill_events self new_name idx inp
      ++ [EvPrintWith "Failed to fill input" (pretty idx)] /\
  ~ In (EvPrint "Submit button not found")
       (fill_events self new_name idx inp
          ++ [EvPrintWith "Failed to fill input" (pretty idx)]) /\
  (forall submit_button s0,
      In (EvPrint "Submit button not found")
         (added (click_fallback_submit self submit_button) s0) ->
      submit_button <> None).
Proof.
  intros Hfill Hsearch.
  assert (Hsearch' : fallback_submit_search s1 = (Ok None, s1)).
  { revert Hsearch. unfold fallback_submit_search, page_evaluate, evaluate.
    destruct (frame_doc (world s1) (main_frame (world s1))) as [d|]; simpl.
    - now intros ->.
    - discriminate. }
  assert (Hraise : click_fallback_submit self None s1 = (Raise TypeError, s1))
    by reflexivity.
  assert (Htry : try_fallback_input self new_name idx inp s =
                 (Ok None, add_trace [EvPrintWith "Failed to fill input" (pretty idx)] s1)).
  { unfold try_fallback_input, try_except.
    erewrite bind_ok by exact Hfill.
    erewrite bind_ok by exact Hsearch'.
    erewrite bind_raise by exact Hraise. reflexivity. }
  split; [exact Hraise|]. split; [exact Htry|]. split; [|split; [|split]].
  - simpl. erewrite bind_ok by exact Htry. reflexivity.
  - rewrite Htry. simpl. rewrite (fill_fallback_input_trace _ _ _ _ _ _ Hfill).
    now rewrite <- app_assoc.
  - unfold fill_events. intros Hin.
    repeat (apply in_app_or in Hin as [Hin|Hin]);
      try (destruct (positive (click_delay self)));
      simpl in Hin; intuition discriminate.
  - intros submit_button s0 Hin ->.
    unfold added in Hin.
    change (click_fallback_submit self None s0) with (@Raise bool TypeError, s0) in Hin.
    simpl in Hin. rewrite skipn_all in Hin. exact Hin.
Qed.

End OverAnyBrowser.

(** ** The primitives on explicit pages *)

Section PrimitivesOnPages.
Import Dom Js Session Bot Scripted Notions Examples.

Lemma frame_evaluator_contract_witness :
  exists hit,
    _evaluate_in_all_frames (place_name_script Js.place_name_selectors) framed_session
      = (Ok (Some hit, Some 0%nat), framed_session) /\
    ih_placeholder hit = "main".
Proof.
  eexists. split.
  - exact (proj1 (proj2 (frame_evaluator_contract
                           (place_name_script Js.place_name_selectors) framed_session))
             _ eq_refl).
  - reflexivity.
Defined.

Lemma framed_page_reachable : reachable (world framed_session) 1%nat.
Proof. split; [right; simpl; tauto | discriminate]. Qed.

Lemma click_flag_discipline_witness :
  flags_of (trace (snd (_click_xy_in_frame (new_bot false None) 1%nat 160 30
                          (start (still unclickable_page))))) !! 1%nat = Some false /\
  fst (_click_xy_in_frame (new_bot false None) 1%nat 160 30
         (start (still unclickable_page))) = Raise DriverFault.
Proof.
  pose proof (click_flag_discipline (new_bot false None) 1%nat 160 30
                (start (still unclickable_page))) as (_ & Hclear & Hres & _).
  split.
  - apply Hclear. split; [right; simpl; tauto | discriminate].
  - exact Hres.
Defined.

Lemma flag_cleared_before_delay_witness :
  exists before s',
    _click_xy_in_frame (new_bot false None) 1%nat 160 30 framed_session = (Ok tt, s') /\
    trace s' = before ++ [EvSleep (1 # 2)] /\
    flags_of before !! 1%nat = Some false.
Proof.
  assert (Hclick : perform (MouseClick 160 30) (world framed_session)
                   = (Ok tt, still framed_page)) by reflexivity.
  destruct (flag_cleared_before_delay (new_bot false None) 1%nat 160 30
              framed_session (still framed_page) Hclick eq_refl)
    as (before & s' & Hrun & Htrace & _ & Hclear).
  exists before, s'. split; [exact Hrun|]. split; [exact Htrace|].
  exact (Hclear 1%nat framed_page_reachable).
Defined.

(** C3 (as stated) fails: with the default delay of half a second, the
    flag of the main frame is already false when the delay starts. *)
Lemma flag_not_held_during_delay :
  ~ flag_held_during_delays
      (trace (snd (_click_xy_in_frame (new_bot false None) 0%nat 160 30 framed_session)))
      0%nat.
Proof.
  intros Hheld.
  specialize (Hheld
    (removelast (trace (snd (_click_xy_in_frame (new_bot false None) 0%nat 160 30
                               framed_session))))
    (1 # 2) [] eq_refl).
  vm_compute in Hheld. discriminate Hheld.
Qed.

End PrimitivesOnPages.

Section MenuOnPages.
Import Dom Js Session Bot Scripted Notions Examples.

(** A run for the query "Coffee Shop" on a menu that lists a close
    icon, "Hours" and "Coffee Shop West": the click goes to the centre
    of the third entry. With the icon and "Hours" alone the click goes
    to "Hours", the icon being one character long. *)
Lemma menu_entry_choice_hint_last :
  (exists evs,
      trace (snd (click_menu_via_js (new_bot false None) icon_menu_session)) = evs /\
      first_click evs = Some (center_x (box 100 160 200 40), center_y (box 100 160 200 40))) /\
  (exists evs,
      trace (snd (choose_menu_entry (new_bot false None) (Text.upper "Coffee Shop")
                    icon_first blank_session)) = evs /\
      first_click evs = Some (at_item (entry 1 "Hours" 140))).
Proof.
  split.
  - assert (Hcount : query nat (QCount all_clickables) (world icon_menu_session) = Ok 2%nat)
      by (vm_compute; reflexivity).
    destruct (proj1 (proj2 (menu_entry_choice (new_bot false None) icon_menu_session))
                2%nat icon_menu Hcount eq_refl) as (items & evs & Hitems & Ht & Hc).
    exists evs. split; [exact Ht|].
    injection Hitems as <-. rewrite Hc. vm_compute. reflexivity.
  - destruct (proj1 (menu_entry_choice (new_bot false None) blank_session)
                (Text.upper "Coffee Shop") icon_first) as (evs & Ht & Hc).
    exists evs. split; [exact Ht|]. rewrite Hc. vm_compute. reflexivity.
Defined.

(** C6 (as stated) fails: a visible entry whose text is a link is not
    the one clicked although it is the first with more than one
    character; the click goes to "Hours". *)
Lemma link_entry_passed_over :
  ~ menu_choice_as_stated (new_bot false None) "Coffee Shop" website_first blank_session.
Proof.
  intros (evs & Ht & Hc).
  vm_compute in Ht. subst evs.
  vm_compute in Hc. discriminate Hc.
Qed.

End MenuOnPages.

Section SuggestEditOnPages.
Import Dom Js Session Bot Scripted Notions Examples.

(** On a page where nothing is found and the keyboard is rejected, the
    default bot saves both debug files, waits and reports success. On a
    page whose panel shows up after two seconds, the poll of the default
    bot sleeps twice and finds the panel at its third and last attempt. *)
Lemma suggest_edit_degrades_witness :
  (exists dump s3,
      open_suggest_edit (new_bot false None) dead_session = (Ok true, s3) /\
      In (EvAct (Screenshot "debug_maps.png" true)) (trace s3) /\
      In (EvAct (WriteFile "debug_html.html" "<html></html>")) dump /\
      In (EvSleep 45) (trace s3)) /\
  (exists s1,
      wait_for_panel (seq 0 (panel_attempts (new_bot false None))) late_panel_session
        = (Ok true, s1) /\
      trace s1 = [EvSleep 1; EvSleep 1;
                  EvPrintWith "Location panel loaded, attempt" "3"]).
Proof.
  split.
  - pose proof (suggest_edit_degrades (new_bot false None) dead_session)
      as (_ & _ & _ & _ & _ & Hfail).
    set (s1 := snd (await_panel (new_bot false None) dead_session)).
    set (s2 := snd (discover_suggest_edit (new_bot false None) s1)).
    assert (Hawait : await_panel (new_bot false None) dead_session = (Ok tt, s1))
      by (vm_compute; reflexivity).
    assert (Hdisc : discover_suggest_edit (new_bot false None) s1 = (Ok false, s2))
      by (vm_compute; reflexivity).
    destruct (Hfail s1 s2 Hawait Hdisc) as (dump & s3 & Hrun & Ht & Hdump).
    exists dump, s3. split; [exact Hrun|].
    split; [rewrite Ht; apply in_or_app; right; now left|].
    split.
    { apply (Hdump (world s2)); vm_compute; reflexivity. }
    rewrite Ht. apply in_or_app. right. right. apply in_or_app. right.
    unfold give_up_narration. simpl. tauto.
  - pose proof (suggest_edit_degrades (new_bot false None) late_panel_session)
      as (_ & Hfound & _).
    eexists. split.
    + apply (Hfound 2%nat).
      * vm_compute. lia.
      * intros j Hj.
        destruct j as [|[|j]]; [vm_compute; reflexivity|vm_compute; reflexivity|lia].
      * vm_compute. reflexivity.
    + vm_compute. reflexivity.
Defined.

(** C7 (as stated) fails for [--panel-wait 0]: the poll still makes one
    attempt and waits one second after it. *)
Lemma one_attempt_at_zero : ~ polls_within_setting impatient_bot dead_session.
Proof. unfold polls_within_setting. vm_compute. intros Hle. now apply Hle. Qed.

End SuggestEditOnPages.

Section EditsOnPages.
Import Dom Js Session Bot Scripted Notions Examples.

(** The menu entry is clicked, no form follows: the name edit fails with
    a screenshot. On an empty page the address edit finds neither the
    menu entry nor an input; it clicks and fills nothing, and reports
    success. *)
Lemma mandatory_input_missing_witness :
  (exists s',
      submit_name_change (new_bot false None) "New Name" menu_only_session = (Ok false, s') /\
      In (EvAct (Screenshot "debug_no_inputs.png" false)) (trace s')) /\
  (exists s1 s',
      find_address_input (new_bot false None) "1 Main St" blank_session = (Ok false, s1) /\
      submit_address_change (new_bot false None) "1 Main St" blank_session = (Ok true, s') /\
      trace s' =
        [EvPrintWith "Submitting address change to:" "1 Main St";
         EvSleep 2;
         EvPrint "Looking for address edit option...";
         EvPrint "Menu option not found, trying to find address input directly...";
         EvPrint "Could not find address input automatically";
         EvPrint "You may need to manually select 'Address' and enter the value";
         EvSleep 1;
         EvPrint "Could not find submit button automatically";
         EvPrint "Please manually click Submit/Send";
         EvSleep 5;
         EvSleep 2]).
Proof.
  split.
  - pose proof (mandatory_input_missing (new_bot false None) "New Name" "1 Main St"
                  menu_only_session) as (Hname & _ & _).
    set (s1 := snd (enter_name_dialog (new_bot false None) "New Name" menu_only_session)).
    set (s2 := snd (look_for_place_name (new_bot false None) "New Name" s1)).
    set (s3 := snd (scan_editables s2)).
    assert (H1 : enter_name_dialog (new_bot false None) "New Name" menu_only_session
                 = (Ok true, s1)) by (vm_compute; reflexivity).
    assert (H2 : look_for_place_name (new_bot false None) "New Name" s1 = (Ok None, s2))
      by (vm_compute; reflexivity).
    assert (H3 : scan_editables s2 = (Ok [], s3)) by (vm_compute; reflexivity).
    destruct (Hname s1 s2 s3 H1 H2 H3) as (s' & tail & Hrun & Ht).
    exists s'. split; [exact Hrun|].
    rewrite Ht. apply in_or_app. right. apply in_or_app. left. simpl. tauto.
  - pose proof (mandatory_input_missing (new_bot false None) "New Name" "1 Main St"
                  blank_session) as (_ & _ & Haddress).
    set (s1 := snd (find_address_input (new_bot false None) "1 Main St" blank_session)).
    assert (H1 : find_address_input (new_bot false None) "1 Main St" blank_session
                 = (Ok false, s1)) by (vm_compute; reflexivity).
    destruct (Haddress s1 H1) as (s' & Hrun & _).
    exists s1, s'. split; [exact H1|]. split; [exact Hrun|].
    change s' with (snd (Ok true, s')). rewrite <- Hrun.
    vm_compute. reflexivity.
Defined.

(** Two runs for the same request, one on a page whose form never shows
    and one on a page where the edit goes through: the narration differs,
    the result does not. *)
Lemma run_result_is_none_witness :
  fst (main_async name_args run_without_form) = Ok tt /\
  In (EvPrint "No input fields found at all") (trace (snd (main_async name_args run_without_form))) /\
  fst (main_async name_args run_with_form) = Ok tt /\
  In (EvPrint "Submitted successfully!") (trace (snd (main_async name_args run_with_form))).
Proof.
  split; [exact (proj1 (run_result_is_none name_args run_without_form))|].
  split; [vm_compute; tauto|].
  split; [exact (proj1 (run_result_is_none name_args run_with_form))|].
  vm_compute; tauto.
Defined.

(** C9 (as stated) fails: the name edit reports [False] and
    [suggest_general_edit] reports [True]. *)
Lemma name_outcome_not_propagated :
  ~ name_outcome_propagated (new_bot false None) "New Name" menu_only_session.
Proof. unfold name_outcome_propagated. vm_compute. discriminate. Qed.

(** A form with a text area and no submit control: the search is null,
    the handler prints its message and the loop is over. *)
Lemma null_submit_is_swallowed_witness :
  try_fallback_inputs (new_bot false None) "New Name" [(0%nat, note_editable)]
    no_submit_session
  = (Ok None,
     add_trace [EvPrintWith "Failed to fill input" "0"]
       (snd (fill_fallback_input (new_bot false None) "New Name" 0 note_editable
               no_submit_session))).
Proof.
  set (s1 := snd (fill_fallback_input (new_bot false None) "New Name" 0 note_editable
                    no_submit_session)).
  assert (Hfill : fill_fallback_input (new_bot false None) "New Name" 0 note_editable
                    no_submit_session = (Ok tt, s1)) by (vm_compute; reflexivity).
  assert (Hnull : fst (fallback_submit_search s1) = Ok None) by (vm_compute; reflexivity).
  destruct (null_submit_is_swallowed (new_bot false None) "New Name" 0 note_editable []
              no_submit_session s1 Hfill Hnull) as (_ & _ & Hloop & _).
  rewrite Hloop. reflexivity.
Defined.

End EditsOnPages.

(** ** Further properties of the in-page queries *)

Section QueryFacts.
Import Dom Js Notions.

Lemma find_head_filter {A} (p : A -> bool) (l : list A) :
  List.find p l = head (List.filter p l).
Proof.
  induction l as [|a l IH]; simpl; [reflexivity|].
  destruct (p a); [reflexivity|exact IH].
Qed.

Lemma submit_loop_stops scope pre s post :
  forallb sel_valid pre = true ->
  (forall s', In s' pre -> submit_matches scope s' = []) ->
  sel_valid s = false ->
  submit_script_loop scope (pre ++ s :: post) = Raise SyntaxError.
Proof.
  induction pre as [|s0 pre IH]; simpl; intros Hv Hnone Hs.
  - unfold querySelectorAll. now rewrite Hs.
  - apply andb_true_iff in Hv as [Hs0 Hv].
    unfold querySelectorAll. rewrite Hs0.
    rewrite scan_buttons_first.
    fold (matches_of scope s0). fold (submit_matches scope s0).
    rewrite (Hnone s0) by now left. simpl.
    apply IH; auto.
Qed.

(** X1. The submit query has no guard around [querySelectorAll]: it
    raises [SyntaxError] at the first candidate that is not a valid CSS
    selector, unless an earlier candidate has a visible submit-like match.
    With the candidates of [__init__], whose fourth entry is
    [span:has-text("Submit")], the query raises whenever the three
    captured selectors find no visible submit-like element, so the six
    later candidates never contribute a result. *)
Theorem submit_query_stops_at_invalid_selector :
  (forall (pre post : list Selector) (s : Selector) (d : Doc),
      forallb sel_valid pre = true ->
      (forall s', In s' pre -> submit_matches (all_elements d) s' = []) ->
      sel_valid s = false ->
      submit_script (pre ++ s :: post) d = Raise SyntaxError) /\
  (forall d : Doc,
      (forall s', In s' (firstn 3 Js.submit_selectors) ->
                  submit_matches (all_elements d) s' = []) ->
      submit_script Js.submit_selectors d = Raise SyntaxError).
Proof.
  split.
  - intros pre post s d. apply submit_loop_stops.
  - intros d Hnone.
    change Js.submit_selectors
      with (firstn 3 Js.submit_selectors ++
            sel1 (has_text "span" "Submit") :: skipn 4 Js.submit_selectors).
    apply submit_loop_stops; [reflexivity|exact Hnone|reflexivity].
Qed.

Lemma fallback_by_selectors_first scope sels :
  fallback_by_selectors scope sels =
    option_map (own_hit true)
      (head (List.filter is_submit_like
               (cascade_order scope (List.filter sel_valid sels)))).
Proof.
  induction sels as [|s sels IH]; simpl; [reflexivity|].
  unfold querySelectorAll. destruct (sel_valid s) eqn:Hs; [|exact IH].
  unfold cascade_order. simpl. rewrite List.filter_app.
  rewrite find_head_filter. fold (matches_of scope s).
  destruct (List.filter is_submit_like (matches_of scope s)) as [|b bs]; simpl.
  - exact IH.
  - reflexivity.
Qed.

(** X2. The submit query of the fallback path guards each candidate with
    [try/catch]: a candidate that is not a valid selector is skipped, so
    the query never raises. Its result is the first visible submit-like
    element in cascade order over the valid candidates, reported at its
    own centre; absent that, the first visible button, role-button, div
    or span whose trimmed, lower-cased text is exactly "submit" or
    "send"; else null. *)
Theorem fallback_submit_query_result (d : Doc) :
  fallback_submit_script d =
    Ok match head (List.filter is_submit_like
                     (cascade_order (all_elements d)
                        (List.filter sel_valid fallback_submit_selectors))) with
       | Some e => Some (own_hit true e)
       | None =>
           option_map (own_hit false)
             (head (List.filter is_exact_submit_or_send
                      (matches_of (all_elements d) generic_clickable_sel)))
       end.
Proof.
  unfold fallback_submit_script. rewrite fallback_by_selectors_first.
  destruct (head (List.filter is_submit_like
                    (cascade_order (all_elements d)
                       (List.filter sel_valid fallback_submit_selectors)))) as [e|];
    simpl; [reflexivity|].
  unfold querySelectorAll.
  change (sel_valid generic_clickable_sel) with true. cbv iota.
  now rewrite find_head_filter.
Qed.

Lemma captured_loop_origin scope sels hit :
  by_captured_selectors scope sels = Ok (Some hit) ->
  exists s en,
    In s sels /\ head (matches_of scope s) = Some en /\
    visible en = true /\ hit = captured_hit en.
Proof.
  induction sels as [|s sels IH]; simpl; [discriminate|].
  unfold querySelector. destruct (sel_valid s); [|discriminate].
  fold (matches_of scope s).
  destruct (head (matches_of scope s)) as [en|] eqn:Hh.
  - destruct (visible en) eqn:Hv.
    + intros [= <-]. exists s, en. auto.
    + intros Hr. destruct (IH Hr) as (s' & en' & Hin & Hrest). exists s', en'. auto.
  - intros Hr. destruct (IH Hr) as (s' & en' & Hin & Hrest). exists s', en'. auto.
Qed.

Lemma label_loop_origin labels hit :
  by_label_proximity labels = Some hit ->
  exists lab container input,
    In lab labels /\
    closest container_sel lab = Some container /\
    head (List.filter (matches editable_sel) (descendants container)) = Some input /\
    visible input = true /\ hit = label_hit input.
Proof.
  induction labels as [|lab labels IH]; simpl; [discriminate|].
  assert (Hnext : by_label_proximity labels = Some hit ->
                  exists lab0 container input,
                    (lab = lab0 \/ In lab0 labels) /\
                    closest container_sel lab0 = Some container /\
                    head (List.filter (matches editable_sel) (descendants container))
                      = Some input /\
                    visible input = true /\ hit = label_hit input).
  { intros Hr. destruct (IH Hr) as (l0 & c0 & i0 & Hin & Hrest).
    exists l0, c0, i0. auto. }
  destruct (closest container_sel lab) as [container|] eqn:Hc; [|exact Hnext].
  destruct (head (List.filter (matches editable_sel) (descendants container)))
    as [input|] eqn:Hi; [|exact Hnext].
  destruct (visible input) eqn:Hv; [|exact Hnext].
  intros [= <-]. exists lab, container, input. auto.
Qed.

(** X3. Whatever the place-name query returns is the centre of a visible
    element: either the first match of one of the candidates, reported
    as found by "captured-selectors", or, when no candidate gave a
    result, the first input, textarea or contenteditable element inside
    the nearest div, form or section around a span or label whose text
    contains "place name", reported as found by "label-proximity". No
    result is ever reported as found by "material-design". *)
Theorem place_name_hit_origin (sels : list Selector) (d : Doc) (hit : InputHit) :
  place_name_script sels d = Ok (Some hit) ->
  ((exists s en,
       In s sels /\ head (matches_of (all_elements d) s) = Some en /\
       visible en = true /\ hit = captured_hit en) \/
   (by_captured_selectors (all_elements d) sels = Ok None /\
    exists lab container input,
      In lab (all_elements d) /\ matches label_sel lab = true /\
      is_place_name_label lab = true /\
      closest container_sel lab = Some container /\
      head (List.filter (matches editable_sel) (descendants container)) = Some input /\
      visible input = true /\ hit = label_hit input)) /\
  String.eqb (ih_foundBy hit) "material-design" = false.
Proof.
  unfold place_name_script.
  destruct (by_captured_selectors (all_elements d) sels) as [[h|]|e] eqn:Hc;
    [| |discriminate].
  - intros [= <-]. destruct (captured_loop_origin _ _ _ Hc) as (s & en & Hin & Hh & Hv & ->).
    split; [|reflexivity]. left. exists s, en. auto.
  - intros [= Hl]. destruct (label_loop_origin _ _ Hl) as (lab & c & i & Hin & Hcl & Hh & Hv & ->).
    split; [|reflexivity]. right. split; [reflexivity|].
    apply filter_In in Hin as [Hin Hpl]. apply filter_In in Hin as [Hin Hm].
    exists lab, c, i. auto 10.
Qed.

(** A plain button labelled "Submit" with a no-break space behind it is
    found by the exact-text pass. *)
Lemma fallback_submit_query_result_witness :
  exists hit,
    fallback_submit_script Cases.nbsp_button_page = Ok (Some hit) /\
    bh_text hit = "submit" /\ bh_jsname hit = None /\
    bh_x hit = center_x (Scripted.box 10 60 100 30).
Proof.
  rewrite (fallback_submit_query_result Cases.nbsp_button_page).
  eexists. split; [vm_compute; reflexivity|]. vm_compute. auto.
Defined.

Lemma take_length n s : (String.length (Text.take n s) <= n)%nat.
Proof.
  unfold Text.take. revert s. induction n as [|n IH]; intros s.
  - destruct s; simpl; lia.
  - destruct s as [|c s]; simpl; [lia|]. specialize (IH s). lia.
Qed.

(** X4. The scan for any editable element never raises. It reports
    exactly the visible input, textarea and contenteditable elements of
    the document that do not look like the search box (the class
    contains neither "searchboxinput" nor "omnibox" and the lower-cased
    placeholder does not contain "search"), each at its own centre, and
    the value and the placeholder it reports are cut to 50 characters. *)
Theorem editable_scan_sound (d : Doc) :
  exists found,
    editable_script d = Ok (map editable_of found) /\
    (forall en,
       In en found <->
       In en (all_elements d) /\ matches editable_sel en = true /\
       visible en = true /\ is_search_box (elem (fst en)) = false) /\
    (forall item, In item (map editable_of found) ->
       (String.length (ed_value item) <= 50)%nat /\
       (String.length (ed_placeholder item) <= 50)%nat).
Proof.
  eexists. split; [|split].
  - unfold editable_script, querySelectorAll.
    change (sel_valid editable_sel) with true. cbv iota. reflexivity.
  - intros en. rewrite !filter_In, andb_true_iff, negb_true_iff. tauto.
  - intros item Hin. apply in_map_iff in Hin as (en & <- & _).
    split; apply take_length.
Qed.

(** X5. The menu listing never raises and reports at most ten entries:
    the first ten elements, in document order, that match
    [role=menuitem], [role=button], [div[data-value]] or [button],
    visible or not, each under its position as index. An element that
    is not among the first ten is never listed. *)
Theorem menu_listing_bounds (d : Doc) :
  exists items,
    menu_script d = Ok items /\
    (length items <= 10)%nat /\
    length items = Nat.min 10 (length (matches_of (all_elements d) menu_sel)) /\
    (forall i item, items !! i = Some item ->
       (i < 10)%nat /\
       exists en, matches_of (all_elements d) menu_sel !! i = Some en /\
                  item = menu_item i en /\ mi_index item = i).
Proof.
  eexists. split; [|split; [|split]].
  - unfold menu_script, querySelectorAll.
    change (sel_valid menu_sel) with true. cbv iota. reflexivity.
  - rewrite length_imap, length_take. lia.
  - rewrite length_imap, length_take. fold (matches_of (all_elements d) menu_sel). lia.
  - intros i item Hi. rewrite list_lookup_imap in Hi.
    fold (matches_of (all_elements d) menu_sel) in Hi.
    destruct (firstn 10 (matches_of (all_elements d) menu_sel) !! i) as [en|] eqn:Hen;
      [|discriminate].
    injection Hi as <-.
    pose proof (lookup_lt_Some _ _ _ Hen) as Hlt. rewrite length_take in Hlt.
    split; [lia|]. exists en. split; [|split; reflexivity].
    rewrite lookup_take_lt in Hen by lia. exact Hen.
Qed.

Lemma Node_forall_ind (P : Node -> Prop) :
  (forall e ks, Forall P ks -> P (mkNode e ks)) -> forall n, P n.
Proof.
  intros HP. fix IH 1. intros [e ks]. apply HP.
  induction ks as [|k ks IHks]; constructor; [apply IH|exact IHks].
Qed.

Lemma walk_unfold anc e ks :
  walk anc (mkNode e ks) =
    (mkNode e ks, anc) :: flat_map (walk (mkNode e ks :: anc)) ks.
Proof.
  reflexivity.
Qed.

(** The descendants of an element of a subtree are elements of it. *)
Lemma descendants_in_walk n :
  forall anc en x, In en (walk anc n) -> In x (descendants en) -> In x (walk anc n).
Proof.
  induction n as [e ks IH] using Node_forall_ind.
  intros anc en x Hen Hx. rewrite walk_unfold in *.
  destruct Hen as [<- | Hen].
  - right. exact Hx.
  - right. apply in_flat_map in Hen as (k & Hk & Hen).
    apply in_flat_map. exists k. split; [exact Hk|].
    rewrite List.Forall_forall in IH. now apply (IH k Hk _ en).
Qed.

Lemma ok_by_dialog_text_sound scope sels :
  forallb sel_valid sels = true ->
  exists r, ok_by_dialog_text scope sels = Ok r /\
            forall p, r = Some p ->
              exists en, In en scope /\ has_ok_label en = true /\ p = center_of en /\
                         exists s, In s sels /\ matches s en = true.
Proof.
  induction sels as [|s sels IH]; simpl; intros Hv.
  - exists None. split; [reflexivity|discriminate].
  - apply andb_true_iff in Hv as [Hs Hv].
    unfold querySelectorAll. rewrite Hs.
    destruct (List.find has_ok_label (List.filter (matches s) scope)) as [en|] eqn:Hf.
    + exists (Some (center_of en)). split; [reflexivity|].
      intros p [= <-]. apply find_some in Hf as [Hin Hl].
      apply filter_In in Hin as [Hin Hm]. exists en.
      repeat split; auto. exists s. auto.
    + destruct (IH Hv) as (r & Hr & Hp). exists r. split; [exact Hr|].
      intros p Hrp. destruct (Hp p Hrp) as (en & Hin & Hl & Hc & s' & Hs' & Hm).
      exists en. repeat split; auto. exists s'. auto.
Qed.

Lemma ok_by_selectors_sound scope sels p :
  ok_by_selectors scope sels = Some p ->
  exists en, In en scope /\ visible en = true /\ p = center_of en /\
             exists s, In s sels /\ sel_valid s = true /\ matches s en = true.
Proof.
  induction sels as [|s sels IH]; simpl; [discriminate|].
  assert (Hrest : ok_by_selectors scope sels = Some p ->
                  exists en, In en scope /\ visible en = true /\ p = center_of en /\
                    exists s', (s = s' \/ In s' sels) /\ sel_valid s' = true /\
                               matches s' en = true).
  { intros Hp. destruct (IH Hp) as (en & Hin & Hv & Hc & s' & Hs' & Hm).
    exists en. repeat split; auto. exists s'. auto. }
  destruct (querySelectorAll scope s) as [els|e] eqn:Hq; [|exact Hrest].
  destruct (List.find visible els) as [en|] eqn:Hf; [|exact Hrest].
  intros [= <-]. apply find_some in Hf as [Hin Hv].
  unfold querySelectorAll in Hq. destruct (sel_valid s) eqn:Hs; [|discriminate].
  injection Hq as <-. apply filter_In in Hin as [Hin Hm]. exists en.
  repeat split; auto. exists s. auto.
Qed.

Lemma ok_in_dialogs_sound dialogs p :
  ok_in_dialogs dialogs = Some p ->
  exists dlg en, In dlg dialogs /\ In en (descendants dlg) /\
                 matches dialog_button en = true /\
                 labelled_button en = true /\ p = center_of en.
Proof.
  induction dialogs as [|dlg dialogs IH]; simpl; [discriminate|].
  destruct (List.find labelled_button
              (List.filter (matches dialog_button) (descendants dlg))) as [en|] eqn:Hf.
  - intros [= <-]. apply find_some in Hf as [Hin Hl].
    apply filter_In in Hin as [Hin Hm]. exists dlg, en. auto 6.
  - intros Hr. destruct (IH Hr) as (dlg' & en & Hin & Hrest). exists dlg', en. auto.
Qed.

(** X6. The confirmation query never raises, although eight of its
    generic candidates are not valid selectors, and the point it returns
    is always the centre of a visible element of the document: an
    element with one of the labels "ok", "done", "got it", "close" in
    its text that matches a dialog candidate; or an element that
    matches a valid generic candidate; or a button or role-button with
    some text below a dialog of the document. *)
Theorem ok_query_hits_visible (d : Doc) :
  exists r,
    ok_script d = Ok r /\
    forall p, r = Some p ->
      exists en,
        In en (all_elements d) /\ visible en = true /\ p = center_of en /\
        ((has_ok_label en = true /\
          exists s, In s dialogSelectors /\ matches s en = true) \/
         (exists s, In s okSelectors /\ sel_valid s = true /\ matches s en = true) \/
         (labelled_button en = true /\ matches dialog_button en = true /\
          exists dlg, In dlg (all_elements d) /\ matches any_dialog dlg = true /\
                      In en (descendants dlg))).
Proof.
  unfold ok_script.
  destruct (ok_by_dialog_text_sound (all_elements d) dialogSelectors eq_refl)
    as (r1 & -> & H1).
  destruct r1 as [p1|].
  - exists (Some p1). split; [reflexivity|].
    intros p [= <-]. destruct (H1 p1 eq_refl) as (en & Hin & Hl & -> & Hs).
    exists en. split; [exact Hin|]. split; [|split; [reflexivity|left; auto]].
    unfold has_ok_label in Hl. now apply andb_true_iff in Hl as [Hv _].
  - destruct (ok_by_selectors (all_elements d) okSelectors) as [p2|] eqn:H2.
    + exists (Some p2). split; [reflexivity|].
      intros p [= <-].
      destruct (ok_by_selectors_sound _ _ _ H2) as (en & Hin & Hv & -> & Hs).
      exists en. auto 6.
    + eexists. split; [reflexivity|].
      intros p Hp.
      destruct (ok_in_dialogs_sound _ _ Hp) as (dlg & en & Hdlg & Hin & Hm & Hl & ->).
      apply filter_In in Hdlg as [Hdlg Hdm].
      exists en. split; [|split; [|split; [reflexivity|]]].
      * unfold all_elements in *. now apply (descendants_in_walk d [] dlg).
      * unfold labelled_button in Hl. now apply andb_true_iff in Hl as [Hv _].
      * right. right. split; [exact Hl|]. split; [exact Hm|]. exists dlg. auto.
Qed.

End QueryFacts.

(** ** Further properties of the engine, over any browser *)

Create HintDb session.

Section SessionFacts.
Import Dom Js Session Bot Notions Relations Observer.
Context {W : Type} `{Browser W}.
Local Open Scope bot_scope.

(** *** What every step of the engine leaves alone *)

Section Steps.
Variable R : State W -> State W -> Prop.
Hypothesis HR : bystander R.

Lemma steps_ret {A} (a : A) : steps R (ret a).
Proof using All. intros s. apply (by_refl HR). Qed.

Lemma steps_raise {A} e : steps R (raise (A:=A) e).
Proof using All. intros s. apply (by_refl HR). Qed.

Lemma steps_bind {A B} (m : M W A) (k : A -> M W B) :
  steps R m -> (forall a, steps R (k a)) -> steps R (bind m k).
Proof using All.
  intros Hm Hk s. unfold bind. specialize (Hm s).
  destruct (m s) as [[a|e] s1]; simpl in *; [|exact Hm].
  eapply (by_trans HR); [exact Hm|apply Hk].
Qed.

Lemma steps_try_except {A} (m : M W A) (h : Exn -> M W A) :
  steps R m -> (forall e, steps R (h e)) -> steps R (try_except m h).
Proof using All.
  intros Hm Hh s. unfold try_except. specialize (Hm s).
  destruct (m s) as [[a|e] s1]; simpl in *; [exact Hm|].
  eapply (by_trans HR); [exact Hm|apply Hh].
Qed.

Lemma steps_try_finally {A} (m : M W A) (f : M W unit) :
  steps R m -> steps R f -> steps R (try_finally m f).
Proof using All.
  intros Hm Hf s. unfold try_finally. specialize (Hm s).
  destruct (m s) as [r s1]; simpl in *. specialize (Hf s1).
  destruct (f s1) as [[[]|e] s2]; simpl in *; eapply (by_trans HR); eauto.
Qed.

Lemma steps_print text : steps R (print text).
Proof using All. intros s. now apply (by_quiet HR). Qed.

Lemma steps_print_with text detail : steps R (print_with text detail).
Proof using All. intros s. now apply (by_quiet HR). Qed.

Lemma steps_prints texts : steps R (prints texts).
Proof using All.
  intros s. apply (by_quiet HR). unfold flag_free.
  apply forallb_forall. intros ev Hin. apply in_map_iff in Hin as (t & <- & _). reflexivity.
Qed.

Lemma steps_sleep seconds : steps R (sleep seconds).
Proof using All.
  intros s. unfold sleep. simpl.
  eapply (by_trans HR); [apply (by_world HR)|now apply (by_quiet HR)].
Qed.

Lemma steps_act a : steps R (act a).
Proof using All.
  intros s. unfold act. destruct (perform a (world s)) as [r w']. simpl.
  eapply (by_trans HR); [apply (by_world HR)|now apply (by_quiet HR)].
Qed.

Lemma steps_ask {A} (q : Query A) : steps R (ask q).
Proof using All. intros s. apply (by_refl HR). Qed.

Lemma steps_evaluate {A} fr (js : Doc -> Outcome A) : steps R (evaluate fr js).
Proof using All.
  intros s. unfold evaluate. destruct (frame_doc (world s) fr); apply (by_refl HR).
Qed.

Lemma steps_page_evaluate {A} (js : Doc -> Outcome A) : steps R (page_evaluate js).
Proof using All. intros s. unfold page_evaluate. apply steps_evaluate. Qed.

Lemma steps_frames : steps R frames.
Proof using All. intros s. apply (by_refl HR). Qed.

Lemma steps_the_main_frame : steps R the_main_frame.
Proof using All. intros s. apply (by_refl HR). Qed.

Lemma steps_getenv name default : steps R (getenv name default).
Proof using All. intros s. apply (by_refl HR). Qed.

Lemma steps_subscript {X A} (d : option X) (key : X -> A) : steps R (subscript d key).
Proof using All. destruct d; [apply steps_ret|apply steps_raise]. Qed.

Lemma steps_click_pause self : steps R (click_pause self).
Proof using All.
  unfold click_pause. destruct (positive (click_delay self));
    [apply steps_sleep|apply steps_ret].
Qed.

Lemma steps_guarded (m : M W bool) : steps R m -> steps R (guarded m).
Proof using All. intros Hm. apply steps_try_except; [exact Hm|intros; apply steps_ret]. Qed.

Lemma steps_attempt (m : M W unit) : steps R m -> steps R (attempt m).
Proof using All. intros Hm. apply steps_try_except; [exact Hm|intros; apply steps_ret]. Qed.

Lemma steps_frame_or_main fr : steps R (frame_or_main fr).
Proof using All. destruct fr; [apply steps_ret|apply steps_the_main_frame]. Qed.

#[local] Hint Resolve steps_ret steps_raise steps_print steps_print_with steps_prints
  steps_sleep steps_act steps_ask steps_evaluate steps_page_evaluate steps_frames
  steps_the_main_frame steps_getenv steps_subscript steps_click_pause
  steps_frame_or_main : session.
#[local] Hint Extern 2 (steps _ (bind _ _)) => apply steps_bind; [| intros ?] : session.
#[local] Hint Extern 2 (steps _ (try_except _ _)) =>
  apply steps_try_except; [| intros ?] : session.
#[local] Hint Extern 2 (steps _ (try_finally _ _)) => apply steps_try_finally : session.
#[local] Hint Extern 2 (steps _ (guarded _)) => apply steps_guarded : session.
#[local] Hint Extern 2 (steps _ (attempt _)) => apply steps_attempt : session.
#[local] Hint Extern 3 (steps _ (if ?b then _ else _)) => destruct b : session.
#[local] Hint Extern 3 (steps _ (match ?o with Some _ => _ | None => _ end)) =>
  destruct o : session.
#[local] Hint Extern 3 (steps _ (match ?l with [] => _ | _ :: _ => _ end)) =>
  destruct l : session.

Ltac sess := cbv zeta; auto 40 with session.

Lemma steps_evaluate_in_child_frames {X} (js : Doc -> Outcome (option X)) main frs :
  steps R (evaluate_in_child_frames js main frs).
Proof using All. induction frs as [|fr frs IH]; simpl; sess. Qed.

Lemma steps_evaluate_in_all_frames {X} (js : Doc -> Outcome (option X)) :
  steps R (_evaluate_in_all_frames js).
Proof using All.
  unfold _evaluate_in_all_frames. pose proof (steps_evaluate_in_child_frames js). sess.
Qed.

Lemma steps_check_and_wait_for_signin timeout : steps R (check_and_wait_for_signin timeout).
Proof using All. unfold check_and_wait_for_signin. sess. Qed.

Lemma steps_check_if_signed_in : steps R check_if_signed_in.
Proof using All. unfold check_if_signed_in. sess. Qed.

Lemma steps_find_search_box box sels : steps R (find_search_box box sels).
Proof using All. revert box. induction sels as [|sel rest IH]; intros box; simpl; sess. Qed.

Lemma steps_search_location q wait : steps R (search_location q wait).
Proof using All. unfold search_location. pose proof steps_find_search_box. sess. Qed.

Lemma steps_wait_for_panel attempts : steps R (wait_for_panel attempts).
Proof using All.
  induction attempts as [|a rest IH]; simpl; unfold panel_is_up; sess.
Qed.

Lemma steps_click_first_usable self all_matches idxs :
  steps R (click_first_usable self all_matches idxs).
Proof using All. induction idxs as [|idx rest IH]; simpl; sess. Qed.

Lemma steps_click_by_selectors self sels : steps R (click_by_selectors self sels).
Proof using All.
  pose proof (steps_click_first_usable self).
  induction sels as [|sel rest IH]; simpl; sess.
Qed.

Lemma steps_press_tabs n : steps R (press_tabs n).
Proof using All. induction n as [|n IH]; simpl; sess. Qed.

Lemma steps_click_by_text self texts : steps R (click_by_text self texts).
Proof using All. induction texts as [|text rest IH]; simpl; sess. Qed.

Lemma steps_open_suggest_edit self : steps R (open_suggest_edit self).
Proof using All.
  pose proof steps_wait_for_panel. pose proof (steps_click_by_selectors self).
  pose proof steps_press_tabs. pose proof (steps_click_by_text self).
  unfold open_suggest_edit, await_panel, discover_suggest_edit, give_up_and_wait,
    save_debug_files, click_in_panel, keyboard_navigation, page_text_scan.
  sess.
Qed.

Lemma steps_describe_elements all_clickables idxs :
  steps R (describe_elements all_clickables idxs).
Proof using All. induction idxs as [|idx rest IH]; simpl; sess. Qed.

Lemma steps_click_item self item msg : steps R (click_item self item msg).
Proof using All. unfold click_item. sess. Qed.

Lemma steps_click_business_name self bn items : steps R (click_business_name self bn items).
Proof using All.
  pose proof (steps_click_item self).
  induction items as [|item rest IH]; simpl; sess.
Qed.

Lemma steps_click_meaningful self items : steps R (click_meaningful self items).
Proof using All.
  pose proof (steps_click_item self).
  induction items as [|item rest IH]; simpl; sess.
Qed.

Lemma steps_choose_menu_entry self bn items : steps R (choose_menu_entry self bn items).
Proof using All.
  pose proof (steps_click_item self). pose proof (steps_click_business_name self).
  pose proof (steps_click_meaningful self).
  unfold choose_menu_entry, click_first_shown. sess.
Qed.

Lemma steps_click_first_visible_option self options idxs :
  steps R (click_first_visible_option self options idxs).
Proof using All. induction idxs as [|idx rest IH]; simpl; sess. Qed.

Lemma steps_click_menu_by_selectors self sels : steps R (click_menu_by_selectors self sels).
Proof using All.
  pose proof (steps_click_first_visible_option self).
  induction sels as [|sel rest IH]; simpl; sess.
Qed.

Lemma steps_click_menu_option self : steps R (click_menu_option self).
Proof using All.
  pose proof steps_describe_elements. pose proof (steps_choose_menu_entry self).
  pose proof (steps_click_menu_by_selectors self).
  unfold click_menu_option, click_menu_via_js. sess.
Qed.

Lemma steps_enter_name_dialog self new_name : steps R (enter_name_dialog self new_name).
Proof using All. pose proof (steps_click_menu_option self). unfold enter_name_dialog. sess. Qed.

Lemma steps_try_fallback_inputs self new_name inputs :
  steps R (try_fallback_inputs self new_name inputs).
Proof using All.
  induction inputs as [|[idx inp] rest IH]; simpl; [sess|].
  unfold try_fallback_input, fill_fallback_input, fallback_submit_search,
    click_fallback_submit.
  sess.
Qed.

Lemma steps_describe_inputs inputs : steps R (describe_inputs inputs).
Proof using All. induction inputs as [|[idx inp] rest IH]; simpl; sess. Qed.

Lemma steps_fallback_any_input self new_name : steps R (fallback_any_input self new_name).
Proof using All.
  pose proof (steps_try_fallback_inputs self new_name). pose proof steps_describe_inputs.
  unfold fallback_any_input, scan_editables. sess.
Qed.

Lemma steps_first_visible_of sels use :
  (forall l, steps R (use l)) -> steps R (first_visible_of sels use).
Proof using All. intros Huse. induction sels as [|sel rest IH]; simpl; sess. Qed.

Lemma steps_submit_address_change self new_address :
  steps R (submit_address_change self new_address).
Proof using All.
  unfold submit_address_change, find_address_input, finish_address_change,
    click_address_option, fill_address_directly, click_address_submit.
  assert (Hfv : forall sels use, (forall l, steps R (use l)) ->
                                 steps R (first_visible_of sels use))
    by apply steps_first_visible_of.
  apply steps_try_except; [|intros; sess].
  apply steps_bind.
  - apply steps_bind; [sess|]. intros _. apply steps_bind; [sess|]. intros _.
    apply steps_bind; [sess|]. intros _.
    apply steps_bind; [apply Hfv; intros; sess|]. intros [|]; [sess|].
    apply steps_bind; [sess|]. intros _. apply Hfv. intros; sess.
  - intros clicked. apply steps_bind; [sess|]. intros _.
    apply steps_bind; [sess|]. intros _.
    apply steps_bind; [apply Hfv; intros; sess|]. intros submitted. sess.
Qed.

Lemma steps_close : steps R close.
Proof using All.
  unfold close. apply steps_bind; [sess|]. intros _.
  apply steps_bind.
  - apply steps_attempt. intros s. destruct (context s); [apply steps_act|apply (by_refl HR)].
  - intros _. apply steps_attempt. intros s.
    destruct (playwright s); [apply steps_act|apply (by_refl HR)].
Qed.

Lemma steps_choose_user_data_dir a : steps R (choose_user_data_dir a).
Proof using All. unfold choose_user_data_dir. sess. Qed.

(** [_init_browser] once the handle of the context is set. *)
Lemma steps_prepare_page self :
  steps R
    (do pages <- ask QContextPages;
     do _ <- (if (0 <? pages)%nat then ret tt else act NewPage);
     do _ <- act (AddInitScript "stealth");
     if capture_clicks self then _enable_click_logging else ret tt).
Proof using All. unfold _enable_click_logging. sess. Qed.

(** With the writes of the flag. *)

Hypothesis HF : admits_flags R.

Lemma steps_set_bot_clicking value : steps R (_set_bot_clicking_for_all_frames value).
Proof using All.
  intros s. destruct (set_bot_clicking_spec value s) as (evs & -> & _). apply HF.
Qed.

Lemma steps_click_xy_in_frame self frame x y : steps R (_click_xy_in_frame self frame x y).
Proof using All.
  pose proof steps_set_bot_clicking.
  unfold _click_xy_in_frame, guarded_click. sess.
Qed.

Lemma steps_poll_ok_button self n : steps R (poll_ok_button self n).
Proof using All.
  pose proof (steps_click_xy_in_frame self).
  pose proof (steps_evaluate_in_all_frames ok_script).
  induction n as [|n IH]; simpl; [sess|].
  apply steps_bind; [sess|]. intros [[b|] fr]; cbn [fst snd]; sess.
Qed.

Lemma steps_click_submit self : steps R (click_submit self).
Proof using All.
  pose proof (steps_click_xy_in_frame self). pose proof (steps_poll_ok_button self).
  pose proof (steps_evaluate_in_all_frames (submit_script (submit_selectors self))).
  unfold click_submit.
  apply steps_bind; [sess|]. intros _. apply steps_bind; [sess|]. intros _.
  apply steps_bind; [sess|]. intros [[b|] fr]; cbn [fst snd]; sess.
Qed.

Lemma steps_fill_place_name self new_name hit owner :
  steps R (fill_place_name self new_name hit owner).
Proof using All.
  pose proof (steps_click_xy_in_frame self). pose proof (steps_click_submit self).
  unfold fill_place_name. sess.
Qed.

Lemma steps_poll_place_name self new_name attempts :
  steps R (poll_place_name self new_name attempts).
Proof using All.
  pose proof (steps_fill_place_name self new_name).
  pose proof (steps_evaluate_in_all_frames (place_name_script (place_name_selectors self))).
  induction attempts as [|a rest IH]; simpl; [sess|].
  apply steps_bind; [sess|]. intros _.
  apply steps_bind; [sess|]. intros [[b|] fr]; cbn [fst snd]; sess.
Qed.

Lemma steps_submit_name_change self new_name : steps R (submit_name_change self new_name).
Proof using All.
  pose proof (steps_enter_name_dialog self new_name).
  pose proof (steps_poll_place_name self new_name).
  pose proof (steps_fallback_any_input self new_name).
  unfold submit_name_change, fill_name, look_for_place_name. sess.
Qed.

Lemma steps_suggest_general_edit self edit_details :
  steps R (suggest_general_edit self edit_details).
Proof using All.
  pose proof (steps_submit_name_change self).
  pose proof (steps_submit_address_change self).
  unfold suggest_general_edit. sess.
Qed.

Lemma steps_run_edits a bot : steps R (run_edits a bot).
Proof using All.
  pose proof (steps_submit_name_change bot).
  pose proof (steps_submit_address_change bot).
  pose proof (steps_open_suggest_edit bot).
  pose proof steps_search_location. pose proof steps_check_if_signed_in.
  pose proof steps_check_and_wait_for_signin.
  unfold run_edits. sess.
Qed.

(** [main_async] once the browser is there. *)
Lemma steps_visit_and_edit a bot :
  steps R
    (do _ <- act (Goto "https://www.google.com/maps");
     do _ <- sleep 2;
     run_edits a bot).
Proof using All. pose proof (steps_run_edits a bot). sess. Qed.

(** With the handles of the bot. *)

Hypothesis HC : admits_context R.

(** [_init_browser] once the driver has been started. *)
Lemma steps_launch self :
  steps R
    (do _ <- act (MakeDirs (user_data_dir self));
     do _ <- try_except
               (act (LaunchContext (user_data_dir self) (headless self) (Some "chrome")))
               (fun _ =>
                  do _ <- print "Using Playwright Chromium...";
                  act (LaunchContext (user_data_dir self) (headless self) None));
     do _ <- set_handle_context true;
     do pages <- ask QContextPages;
     do _ <- (if (0 <? pages)%nat then ret tt else act NewPage);
     do _ <- act (AddInitScript "stealth");
     if capture_clicks self then _enable_click_logging else ret tt).
Proof using All.
  assert (Hc : steps R (set_handle_context true)) by (intros s0; apply HC).
  unfold _enable_click_logging. sess.
Qed.

Hypothesis HP : admits_playwright R.

Lemma steps_init_browser self : steps R (_init_browser self).
Proof using All.
  intros s. unfold _init_browser. destruct (playwright s); [apply (by_refl HR)|].
  revert s. apply steps_bind; [sess|]. intros _.
  apply steps_bind; [intros s0; apply HP|]. intros _.
  apply steps_launch.
Qed.

End Steps.

Lemma flag_free_app evs1 evs2 :
  flag_free (evs1 ++ evs2) = flag_free evs1 && flag_free evs2.
Proof. apply forallb_app. Qed.

Lemma flags_of_flag_free t evs : flag_free evs = true -> flags_of (t ++ evs) = flags_of t.
Proof.
  rewrite flags_of_app. generalize (flags_of t).
  induction evs as [|ev evs IH]; intros m; simpl; [reflexivity|].
  intros Hf. apply andb_true_iff in Hf as [Hev Hf].
  destruct ev; try discriminate; simpl; now apply IH.
Qed.

Lemma no_flag_written_bystander : bystander (no_flag_written (W:=W)).
Proof.
  split.
  - intros s. exists []. now rewrite app_nil_r.
  - intros s1 s2 s3 (evs1 & H1 & F1) (evs2 & H2 & F2). exists (evs1 ++ evs2).
    rewrite H2, H1, app_assoc, flag_free_app, F1, F2. auto.
  - intros s w. exists []. simpl. now rewrite app_nil_r.
  - intros s evs Hf. now exists evs.
Qed.

Lemma same_environ_bystander : bystander (same_environ (W:=W)).
Proof.
  split; unfold same_environ; simpl; try reflexivity; congruence.
Qed.

Lemma same_handles_bystander : bystander (same_handles (W:=W)).
Proof.
  split; unfold same_handles; simpl; auto.
  intros s1 s2 s3 [H1 H1'] [H2 H2']. split; congruence.
Qed.

Lemma same_playwright_bystander : bystander (same_playwright (W:=W)).
Proof.
  split; unfold same_playwright; simpl; auto.
  intros s1 s2 s3 H1 H2. congruence.
Qed.

(** *** The observer and the clicks of the bot *)

(** X7. No click dispatched by [_click_xy_in_frame] is reported by the
    manual-click observer of a reachable frame: when the click is
    dispatched the flag of that frame is true, so the listener returns
    before it describes the target, whether or not the event is trusted
    and whether or not the binding is there. *)
Theorem guarded_click_is_not_reported (self : Bot) (frame : Frame) (x y : Q)
    (s : State W) :
  exists up rest,
    trace (snd (_click_xy_in_frame self frame x y s)) =
      trace s ++ up ++ EvAct (MouseClick x y) :: rest /\
    Forall (writes true) up /\
    forall f, reachable (world s) f ->
      forall (Info : Type) (isTrusted : bool) (info : Outcome Info) (pyOnClick : bool),
        click_listener isTrusted (flags_of (trace s ++ up) !! f) info pyOnClick = None.
Proof.
  destruct (guarded_click_steps x y s)
    as (up & down & Hrun & Hup & Hreach_up & Hdown & Hreach_down).
  destruct (appends_bind (guarded_click x y)
              (fun _ => try_except (click_pause self) (fun _ => ret tt))) with (s := s)
    as [evs Hevs].
  { intros s0. destruct (guarded_click_steps x y s0) as (u & d & -> & _).
    simpl. eexists. reflexivity. }
  { intros _. apply appends_try_except; [apply appends_click_pause|].
    intros; apply appends_ret. }
  assert (Hpre : exists rest, evs = up ++ EvAct (MouseClick x y) :: rest).
  { unfold bind in Hevs. rewrite Hrun in Hevs.
    destruct (fst (perform (MouseClick x y) (world s))) as [[]|e].
    - destruct (appends_try_except (click_pause self) (fun _ => ret tt)
                  (appends_click_pause self) (fun _ => appends_ret tt)
                  (add_trace (up ++ [EvAct (MouseClick x y)] ++ down)
                     (set_world (snd (perform (MouseClick x y) (world s))) s)))
        as [tail Htail].
      rewrite Htail in Hevs. simpl in Hevs. rewrite <- !app_assoc in Hevs.
      apply app_inv_head in Hevs. exists (down ++ tail). now rewrite <- Hevs.
    - simpl in Hevs. apply app_inv_head in Hevs. exists down. now rewrite <- Hevs. }
  destruct Hpre as [rest ->].
  exists up, rest. split; [exact Hevs|]. split; [exact Hup|].
  intros f Hf Info isTrusted info pyOnClick.
  rewrite (flags_after_set true (trace s) up f Hup (Hreach_up f Hf)).
  unfold click_listener. simpl. now rewrite orb_true_r.
Qed.

(** X8. Outside [_click_xy_in_frame] the bot clicks without the
    suppression flag: [open_suggest_edit], the menu stage of the name
    edit, the fallback inputs and [submit_address_change] never write
    it. When such a stage dispatches a click, the flag of each frame is
    what it was when the stage began, so an observer in a frame whose
    flag was not true then reports the click of the bot as a manual
    one. *)
Theorem raw_clicks_are_reported (self : Bot) (text : string) (s : State W)
    (pre post : list Event) (a : Action) (f : Frame) :
  (trace (snd (open_suggest_edit self s)) = trace s ++ pre ++ EvAct a :: post \/
   trace (snd (click_menu_option self s)) = trace s ++ pre ++ EvAct a :: post \/
   trace (snd (fallback_any_input self text s)) = trace s ++ pre ++ EvAct a :: post \/
   trace (snd (submit_address_change self text s)) = trace s ++ pre ++ EvAct a :: post) ->
  flags_of (trace s ++ pre) = flags_of (trace s) /\
  (flags_of (trace s) !! f <> Some true ->
   forall (Info : Type) (info : Info),
     click_listener true (flags_of (trace s ++ pre) !! f) (Ok info) true = Some info).
Proof.
  intros Hrun.
  assert (Hstage : exists evs, trace s ++ pre ++ EvAct a :: post = trace s ++ evs /\
                               flag_free evs = true).
  { destruct Hrun as [Hrun | [Hrun | [Hrun | Hrun]]]; rewrite <- Hrun.
    - apply (steps_open_suggest_edit _ no_flag_written_bystander self s).
    - apply (steps_click_menu_option _ no_flag_written_bystander self s).
    - apply (steps_fallback_any_input _ no_flag_written_bystander self text s).
    - apply (steps_submit_address_change _ no_flag_written_bystander self text s). }
  destruct Hstage as (evs & Hevs & Hf).
  apply app_inv_head in Hevs. subst evs.
  rewrite flag_free_app in Hf. apply andb_true_iff in Hf as [Hfree _].
  rewrite (flags_of_flag_free _ _ Hfree). split; [reflexivity|].
  intros Hflag Info info. unfold click_listener. simpl.
  destruct (flags_of (trace s) !! f) as [[|]|]; [now elim Hflag|reflexivity|reflexivity].
Qed.

(** *** The name edit: paths that end in success *)

(** X9. When no menu entry could be clicked, [submit_name_change] does
    not look for the place-name field at all: it prints one warning,
    waits two seconds and returns [True], having typed nothing. *)
Theorem name_edit_without_menu_entry (self : Bot) (new_name : string)
    (s s1 : State W) :
  enter_name_dialog self new_name s = (Ok false, s1) ->
  exists s',
    submit_name_change self new_name s = (Ok true, s') /\
    trace s' = trace s1 ++
      [EvPrint "Menu option not found or couldn't fill input"; EvSleep 2] /\
    world s' = elapse 2 (world s1).
Proof.
  intros Hmenu. eexists. split; [|split].
  - unfold submit_name_change. apply try_except_ok.
    erewrite bind_ok by exact Hmenu. reflexivity.
  - simpl. now rewrite <- app_assoc.
  - reflexivity.
Qed.

(** X10. When the submit query gives no result in any frame two seconds
    after the name was typed, [click_submit] presses Enter instead, and
    returns [True] whether the key press is accepted or raises; no
    pointer click is dispatched. *)
Theorem submit_falls_back_to_enter (self : Bot) (s : State W) :
  fst (first_nonempty (submit_script (submit_selectors self)) (elapse 2 (world s)))
    = None ->
  exists s',
    click_submit self s = (Ok true, s') /\
    trace s' = trace s ++
      [EvPrint "Looking for submit button..."; EvSleep 2; EvAct (KeyPress "Enter")] ++
      match fst (perform (KeyPress "Enter") (elapse 2 (world s))) with
      | Ok _ => [EvSleep 2; EvPrint "Pressed Enter as submit fallback"]
      | Raise _ => [EvPrint "Submit button not found"]
      end.
Proof.
  intros Hnone. unfold click_submit.
  unfold bind at 1. unfold print at 1. unfold emit at 1.
  unfold bind at 1. unfold sleep at 1.
  erewrite bind_ok by apply evaluate_in_all_frames_first.
  cbn [world add_trace set_world].
  destruct (first_nonempty (submit_script (submit_selectors self)) (elapse 2 (world s)))
    as [r fr].
  simpl in Hnone. subst r. cbn [fst snd].
  unfold guarded, try_except, bind, act, sleep, print, emit, ret. simpl.
  destruct (perform (KeyPress "Enter") (elapse 2 (world s))) as [[[]|e] w1]; simpl;
    eexists; (split; [reflexivity|]); simpl; now rewrite <- !app_assoc.
Qed.

Lemma click_xy_outcome self frame x y (s : State W) :
  exists s',
    _click_xy_in_frame self frame x y s = (fst (perform (MouseClick x y) (world s)), s').
Proof.
  destruct (guarded_click_steps x y s) as (up & down & Hrun & _).
  unfold _click_xy_in_frame.
  destruct (fst (perform (MouseClick x y) (world s))) as [[]|e].
  - erewrite bind_ok by exact Hrun. rewrite click_pause_steps. eauto.
  - erewrite bind_raise by exact Hrun. eauto.
Qed.

(** X11. Once the submit query has found a control, the result of
    [click_submit] is decided by the click on it alone: when the driver
    accepts the click the function returns [True], whatever happens
    while it looks for a confirmation dialog afterwards; when the driver
    rejects the click, its error leaves [click_submit]. *)
Theorem submit_click_decides_result (self : Bot) (s : State W) (hit : ButtonHit)
    (fr : option Frame) :
  first_nonempty (submit_script (submit_selectors self)) (elapse 2 (world s))
    = (Some hit, fr) ->
  fst (click_submit self s) =
    match fst (perform (MouseClick (bh_x hit) (bh_y hit)) (elapse 2 (world s))) with
    | Ok _ => Ok true
    | Raise e => Raise e
    end.
Proof.
  intros Hhit. unfold click_submit.
  unfold bind at 1. unfold print at 1. unfold emit at 1.
  unfold bind at 1. unfold sleep at 1.
  erewrite bind_ok by apply evaluate_in_all_frames_first.
  cbn [world add_trace set_world].
  destruct (first_nonempty (submit_script (submit_selectors self)) (elapse 2 (world s)))
    as [r f0].
  injection Hhit as -> ->. cbn [fst snd].
  unfold bind at 1. unfold print_with at 1. unfold emit at 1.
  match goal with
  | |- context [bind (frame_or_main fr) ?k ?st] =>
      assert (Hfr : exists f1, frame_or_main fr st = (Ok f1, st))
        by (destruct fr; eexists; reflexivity);
      destruct Hfr as [f1 Hfr]; erewrite (bind_ok (frame_or_main fr) k st) by exact Hfr;
      destruct (click_xy_outcome self f1 (bh_x hit) (bh_y hit) st) as [s1 Hclick];
      cbn [world add_trace set_world] in Hclick
  end.
  destruct (fst (perform (MouseClick (bh_x hit) (bh_y hit)) (elapse 2 (world s))))
    as [[]|e].
  - erewrite bind_ok by exact Hclick.
    assert (Hrest : returns (eq true)
                      (do _ <- click_pause self;
                       do _ <- (if post_ok_click self then attempt (poll_ok_button self 6)
                                else ret tt);
                       do _ <- print "Submitted successfully!";
                       ret true)).
    { apply returns_then; [apply returns_click_pause|]. intros _.
      apply returns_then.
      { destruct (post_ok_click self); [apply returns_attempt|now apply returns_ret]. }
      intros _. apply returns_then; [apply returns_print|]. intros _.
      now apply returns_ret. }
    destruct (Hrest s1) as (b & s2 & -> & <-). reflexivity.
  - erewrite bind_raise by exact Hclick. reflexivity.
Qed.

(** X12. In the fallback path the message after the click on a submit
    control that was found depends on the click delay, not on the
    search: with a positive delay the function waits and prints
    "Submitted successfully!"; with a delay of zero it prints "Submit
    button not found" although the control was found and clicked. It
    returns [True] either way. *)
Theorem fallback_submit_narration (self : Bot) (b : ButtonHit) (s : State W) (w1 : W) :
  perform (MouseClick (bh_x b) (bh_y b)) (world s) = (Ok tt, w1) ->
  exists s',
    click_fallback_submit self (Some b) s = (Ok true, s') /\
    trace s' = trace s ++
      [EvPrintWith "Found submit button:" (bh_text b);
       EvAct (MouseClick (bh_x b) (bh_y b))] ++
      (if positive (click_delay self)
       then [EvSleep (click_delay self); EvSleep 2; EvPrint "Submitted successfully!"]
       else [EvPrint "Submit button not found"]).
Proof.
  intros Hclick.
  unfold click_fallback_submit, subscript, bind, print_with, print, emit, act, sleep, ret.
  cbn [world add_trace set_world]. rewrite Hclick.
  destruct (positive (click_delay self)); eexists; (split; [reflexivity|]);
    cbn [trace add_trace set_world]; rewrite <- !app_assoc; reflexivity.
Qed.

(** *** The sign-in checks *)

(** X13. [check_and_wait_for_signin] returns [True] on every path. It
    looks for a "Sign in" element two seconds after the call: when there
    is one it waits the whole [timeout], without looking again, and
    resumes; when there is none it returns at once; when the driver
    cannot count, it assumes the user is signed in. *)
Theorem signin_wait_reports_success (timeout : Z) (s : State W) :
  let sign_in := QCount (first (locator "text='Sign in'")) in
  let w2 := elapse 2 (world s) in
  exists s',
    check_and_wait_for_signin timeout s = (Ok true, s') /\
    (forall c, query nat sign_in w2 = Ok c -> (0 < c)%nat ->
       world s' = elapse (inject_Z timeout) w2 /\
       exists narration,
         trace s' = trace s ++ EvSleep 2 :: narration ++
                    [EvSleep (inject_Z timeout); EvPrint "Resuming..."]) /\
    (query nat sign_in w2 = Ok 0%nat ->
       world s' = w2 /\
       trace s' = trace s ++ [EvSleep 2; EvPrint "Already signed in!"]) /\
    (forall e, query nat sign_in w2 = Raise e ->
       world s' = w2 /\
       trace s' = trace s ++ [EvSleep 2; EvPrint "Could not check sign-in status";
                              EvPrint "Assuming signed in, continuing..."]).
Proof.
  intros sign_in w2.
  unfold check_and_wait_for_signin, try_except, bind, sleep, ask, print, print_with,
    prints, emit, ret.
  cbn [world add_trace set_world fst snd].
  fold sign_in. fold w2.
  destruct (query nat sign_in w2) as [c|e] eqn:Hq.
  - destruct (0 <? c)%nat eqn:Hc.
    + eexists. split; [reflexivity|]. split; [|split].
      * intros c' [= <-] _. split; [reflexivity|].
        exists [EvPrint "Not signed in to Google";
                EvPrintWith "Waiting for you to sign in, seconds:" (pretty timeout);
                EvPrint "Steps to sign in:";
                EvPrint "1. Look for 'Sign in' button (top right)";
                EvPrint "2. Click it and complete sign-in";
                EvPrint "3. Wait for Google Maps to load";
                EvPrintWith "You have, seconds:" (pretty timeout)].
        cbn [trace add_trace set_world map]. rewrite <- !app_assoc. reflexivity.
      * intros [= ->]. discriminate.
      * discriminate.
    + apply Nat.ltb_ge in Hc.
      eexists. split; [reflexivity|]. split; [|split].
      * intros c' [= <-] Hpos. lia.
      * intros _. split; [reflexivity|]. cbn. now rewrite <- app_assoc.
      * discriminate.
  - eexists. split; [reflexivity|]. split; [|split].
    + discriminate.
    + discriminate.
    + intros e' _. split; [reflexivity|]. cbn. now rewrite <- !app_assoc.
Qed.

(** X14. [check_if_signed_in] never raises. Two seconds after the call
    it counts the "Sign in" elements and the elements whose aria-label
    contains "Account"; it returns [True] exactly when the driver counts
    no "Sign in" element and at least one account element, and [False]
    in every other case, a driver error included. *)
Theorem signed_in_check (s : State W) :
  let w2 := elapse 2 (world s) in
  exists b s',
    check_if_signed_in s = (Ok b, s') /\ world s' = w2 /\
    (b = true <->
       query nat (QCount (first (locator "text='Sign in'"))) w2 = Ok 0%nat /\
       exists p, query nat (QCount (first (locator "[aria-label*='Account' i]"))) w2 = Ok p /\
                 (0 < p)%nat).
Proof.
  intros w2.
  unfold check_if_signed_in, try_except, bind, sleep, ask, print, emit, ret.
  cbn [world add_trace set_world fst snd]. fold w2.
  destruct (query nat (QCount (first (locator "text='Sign in'"))) w2) as [c|e].
  - destruct (query nat (QCount (first (locator "[aria-label*='Account' i]"))) w2) as [p|e].
    + eexists _, _. split; [reflexivity|]. split; [reflexivity|].
      rewrite andb_true_iff, Nat.eqb_eq, Nat.ltb_lt. split.
      * intros [-> Hp]. split; [reflexivity|]. now exists p.
      * intros [[= ->] (p' & [= <-] & Hp)]. auto.
    + eexists _, _. split; [reflexivity|]. split; [reflexivity|].
      split; [discriminate|]. intros [_ (p & Hp & _)]. discriminate.
  - eexists _, _. split; [reflexivity|]. split; [reflexivity|].
    split; [discriminate|]. intros [Hc _]. discriminate.
Qed.

(** *** [search_location] *)

Lemma find_search_box_none sels box (s : State W) :
  (forall sel, In sel sels ->
     query nat (QCount (first (locator sel))) (world s) = Ok 0%nat) ->
  find_search_box box sels s =
    (Ok match sels with
        | [] => box
        | _ :: _ => Some (first (locator (List.last sels "")))
        end, s).
Proof.
  revert box. induction sels as [|sel rest IH]; intros box Hq; [reflexivity|].
  cbn [find_search_box]. unfold guarded, try_except, bind at 1. unfold bind at 1.
  unfold ask at 1. rewrite (Hq sel) by now left. cbn [Nat.ltb Nat.leb ret].
  rewrite IH by (intros; apply Hq; now right).
  destruct rest; reflexivity.
Qed.

(** X15. [search_location] never raises. When none of its five
    selectors finds an element, the text is typed at the keyboard focus
    and Enter is pressed; the result is [True] exactly when the driver
    accepts both, and then the function has waited [wait_time + 2]
    seconds without checking that a place was found. *)
Theorem search_types_query_when_no_box (query_text : string) (wait_time : Z)
    (s : State W) :
  (exists b s', search_location query_text wait_time s = (Ok b, s')) /\
  ((forall sel, In sel search_selectors ->
      query nat (QCount (first (locator sel))) (world s) = Ok 0%nat) ->
   let typed := perform (KeyType query_text) (world s) in
   let entered := perform (KeyPress "Enter") (snd typed) in
   exists b s' tail,
    search_location query_text wait_time s = (Ok b, s') /\
    trace s' = trace s ++
      [EvPrintWith "Searching for:" query_text;
       EvPrint "Could not find search box. Trying direct input method...";
       EvAct (KeyType query_text)] ++ tail /\
    (b = true <-> fst typed = Ok tt /\ fst entered = Ok tt) /\
    (b = true ->
       tail = [EvAct (KeyPress "Enter"); EvSleep (inject_Z (wait_time + 2));
               EvPrint "Location found!"] /\
       world s' = elapse (inject_Z (wait_time + 2)) (snd entered))).
Proof.
  split.
  { destruct (returns_try_except (fun _ : bool => True)
                (do _ <- print_with "Searching for:" query_text;
                 do search_box <- find_search_box None search_selectors;
                 do missing <- match search_box with
                               | None => ret true
                               | Some box => do c <- ask (QCount box); ret (c =? 0)%nat
                               end;
                 do _ <- match search_box, missing with
                         | Some box, false =>
                             do _ <- act (LocFill box query_text);
                             act (LocPress box "Enter")
                         | _, _ =>
                             do _ <- print "Could not find search box. Trying direct input method...";
                             do _ <- act (KeyType query_text);
                             act (KeyPress "Enter")
                         end;
                 do _ <- sleep (inject_Z (wait_time + 2));
                 do _ <- print "Location found!";
                 ret true)
                (fun _ =>
                   do _ <- print "Error searching location";
                   do _ <- print "Tip: Try running without --headless to see what's happening";
                   ret false)) with (s := s) as (b & s' & Hrun & _).
    - auto.
    - intros e. apply returns_then; [apply returns_print|]. intros _.
      apply returns_then; [apply returns_print|]. intros _. now apply returns_ret.
    - exists b, s'. exact Hrun. }
  intros Hnone typed entered.
  unfold search_location, try_except.
  unfold bind at 1. unfold print_with at 1. unfold emit at 1.
  erewrite bind_ok
    by (apply find_search_box_none; intros sel Hin; cbn [world add_trace]; now apply Hnone).
  cbn [List.last search_selectors].
  unfold bind at 1. unfold bind at 1. unfold ask at 1. cbn [world add_trace].
  rewrite (Hnone "input.maps-sprite-searchbox-input") by (simpl; tauto).
  cbn [ret Nat.eqb].
  unfold bind, act, sleep, print, emit, ret. cbn [world add_trace set_world fst snd].
  fold typed.
  destruct typed as [[[]|e1] w1] eqn:Ht; cbn [fst snd].
  - cbn [world add_trace set_world fst snd] in *. fold entered.
    destruct entered as [[[]|e2] w2] eqn:He; cbn [fst snd].
    + eexists _, _, _. split; [reflexivity|]. split; [|split].
      * cbn [trace add_trace set_world]. rewrite <- !app_assoc. reflexivity.
      * tauto.
      * intros _. split; reflexivity.
    + eexists _, _, _. split; [reflexivity|]. split; [|split].
      * cbn [trace add_trace set_world]. rewrite <- !app_assoc. reflexivity.
      * split; [discriminate|]. intros [_ Hb]. discriminate.
      * discriminate.
  - eexists _, _, _. split; [reflexivity|]. split; [|split].
    + cbn [trace add_trace set_world]. rewrite <- !app_assoc. reflexivity.
    + split; [discriminate|]. intros [Hb _]. discriminate.
    + discriminate.
Qed.

(** *** The handles of the bot and the end of a run *)

Lemma bind_ok_inv {A B} (m : M W A) (k : A -> M W B) s b s' :
  bind m k s = (Ok b, s') -> exists a s1, m s = (Ok a, s1) /\ k a s1 = (Ok b, s').
Proof.
  unfold bind. destruct (m s) as [[a|e] s1]; [|discriminate]. intros Hk. eauto.
Qed.

Lemma same_handles_flags : admits_flags (same_handles (W:=W)).
Proof. intros s evs. split; reflexivity. Qed.

Lemma same_environ_flags : admits_flags (same_environ (W:=W)).
Proof. intros s evs. reflexivity. Qed.

Lemma same_playwright_flags : admits_flags (same_playwright (W:=W)).
Proof. intros s evs. reflexivity. Qed.

(** What [_init_browser] does to the handles of a bot whose driver has
    not been started. *)
Lemma init_browser_handles self (s : State W) :
  playwright s = false ->
  let run := _init_browser self s in
  (fst (perform StartPlaywright (world s)) = Ok tt -> playwright (snd run) = true) /\
  (fst (perform StartPlaywright (world s)) <> Ok tt ->
     fst run <> Ok tt /\ playwright (snd run) = false /\ context (snd run) = context s) /\
  (fst run = Ok tt -> playwright (snd run) = true /\ context (snd run) = true) /\
  (context s = false -> context (snd run) = true -> playwright (snd run) = true).
Proof.
  intros Hp run.
  set (launch :=
         do _ <- act (MakeDirs (user_data_dir self));
         do _ <- try_except
                   (act (LaunchContext (user_data_dir self) (headless self) (Some "chrome")))
                   (fun _ =>
                      do _ <- print "Using Playwright Chromium...";
                      act (LaunchContext (user_data_dir self) (headless self) None));
         do _ <- set_handle_context true;
         do pages <- ask QContextPages;
         do _ <- (if (0 <? pages)%nat then ret tt else act NewPage);
         do _ <- act (AddInitScript "stealth");
         if capture_clicks self then _enable_click_logging else ret tt).
  assert (Hrun : run =
            match perform StartPlaywright (world s) with
            | (Ok _, w1) =>
                launch (set_playwright true
                          (add_trace [EvAct StartPlaywright] (set_world w1 s)))
            | (Raise e, w1) =>
                (Raise e, add_trace [EvAct StartPlaywright] (set_world w1 s))
            end).
  { unfold run, _init_browser. rewrite Hp. unfold bind at 1. unfold act at 1.
    destruct (perform StartPlaywright (world s)) as [[[]|e] w1]; reflexivity. }
  clearbody run. subst run.
  destruct (perform StartPlaywright (world s)) as [[[]|e] w1]; cbn [fst snd].
  - set (s2 := set_playwright true (add_trace [EvAct StartPlaywright] (set_world w1 s))).
    assert (Hkept : playwright (snd (launch s2)) = true).
    { exact (steps_launch _ same_playwright_bystander same_playwright_flags
               (fun s0 => eq_refl) self s2). }
    split; [intros _; exact Hkept|]. split; [intros Hne; now elim Hne|].
    split; [|intros _ _; exact Hkept].
    intros Hok. split; [exact Hkept|].
    destruct (launch s2) as [r s'] eqn:Hrun.
    cbn [fst snd] in *. subst r. unfold launch in Hrun.
    apply bind_ok_inv in Hrun as ([] & s3 & _ & Hrun).
    apply bind_ok_inv in Hrun as ([] & s4 & _ & Hrun).
    apply bind_ok_inv in Hrun as ([] & s5 & Hset & Hrun).
    unfold set_handle_context in Hset. injection Hset as <-.
    pose proof (steps_prepare_page _ same_handles_bystander self (set_context true s4))
      as [_ Hc].
    rewrite Hrun in Hc. exact Hc.
  - split; [discriminate|]. split; [|split; [discriminate|]].
    + intros _. split; [discriminate|]. split; [exact Hp|reflexivity].
    + cbn [context add_trace set_world]. congruence.
Qed.

(** X16. [_init_browser] starts the browser at most once. The handle of
    the driver is set as soon as the driver has started, before the
    browser is launched; a call that finds it set does nothing and
    returns normally. So after a normal return both handles are set and
    a second call changes nothing, and after a launch that raised
    (Chrome and the bundled Chromium both failing, say) a second call
    does not try again although there is no browser context. *)
Theorem init_browser_runs_once (self : Bot) (s : State W) :
  let run := _init_browser self s in
  (playwright (snd run) = true ->
   forall other, _init_browser other (snd run) = (Ok tt, snd run)) /\
  (fst run = Ok tt -> playwright (snd run) = true) /\
  (playwright s = false ->
   (fst run = Ok tt -> context (snd run) = true) /\
   (fst (perform StartPlaywright (world s)) = Ok tt -> playwright (snd run) = true) /\
   (context s = false -> context (snd run) = true -> playwright (snd run) = true)).
Proof.
  intros run. split; [|split].
  - intros Hset other. unfold _init_browser at 1. now rewrite Hset.
  - destruct (playwright s) eqn:Hp.
    + intros _. unfold run, _init_browser. now rewrite Hp.
    + intros Hok.
      exact (proj1 (proj1 (proj2 (proj2 (init_browser_handles self s Hp))) Hok)).
  - intros Hp. destruct (init_browser_handles self s Hp) as (Hstart & Hfail & Hok & Hord).
    fold run in Hstart, Hfail, Hok, Hord.
    split; [intros Hr; now apply Hok|]. split; [exact Hstart|exact Hord].
Qed.

Lemma close_steps (s : State W) :
  exists s',
    close s = (Ok tt, s') /\
    environ s' = environ s /\ playwright s' = playwright s /\ context s' = context s /\
    trace s' = trace s ++ (if context s then [EvAct CloseContext] else [])
                       ++ (if playwright s then [EvAct StopPlaywright] else []).
Proof.
  unfold close, attempt, try_except, bind, act, ret.
  destruct (context s) eqn:Hc.
  - destruct (perform CloseContext (world s)) as [[[]|e] w1]; cbn [playwright add_trace set_world];
      destruct (playwright s) eqn:Hp;
      try (match goal with
           | |- context [perform StopPlaywright ?w] =>
               destruct (perform StopPlaywright w) as [[[]|e2] w2]
           end);
      eexists; (split; [reflexivity|]); cbn; rewrite ?app_nil_r, <- ?app_assoc; auto.
  - destruct (playwright s) eqn:Hp;
      try (match goal with
           | |- context [perform StopPlaywright ?w] =>
               destruct (perform StopPlaywright w) as [[[]|e2] w2]
           end);
      eexists; (split; [reflexivity|]); cbn; rewrite ?app_nil_r; auto.
Qed.

(** X17. A run of [main_async] that starts without a browser always
    ends by closing what it opened: the last driver calls of the run are
    the closing of the context, if its handle was set, and the stopping
    of the driver, if it had started, whatever happened in between (a
    failed sign-in check, a failed search, an error). The handle of the
    context is never set without that of the driver. The one change to
    the environment is the variable [GMAPS_SEARCH_QUERY], left set to
    the search text. *)
Theorem run_leaves_session_closed (a : Args) (s : State W) :
  playwright s = false -> context s = false ->
  let s' := snd (main_async a s) in
  environ s' = <["GMAPS_SEARCH_QUERY" := arg_search a]> (environ s) /\
  (context s' = true -> playwright s' = true) /\
  exists before,
    trace s' = before ++ (if context s' then [EvAct CloseContext] else [])
                      ++ (if playwright s' then [EvAct StopPlaywright] else []).
Proof.
  intros Hp Hc s'. subst s'.
  set (s0 := set_environ "GMAPS_SEARCH_QUERY" (arg_search a) s).
  assert (Hrun : main_async a s =
            match (do _ <- prints ["Starting Google Maps Edit Bot..."; rule];
                   choose_user_data_dir a) s0 with
            | (Raise _, s1) => print "Error" s1
            | (Ok dir, s1) =>
                try_finally
                  (try_except
                     (do _ <- _init_browser (configure a dir);
                      do _ <- act (Goto "https://www.google.com/maps");
                      do _ <- sleep 2;
                      run_edits a (configure a dir))
                     (fun _ => print "Error"))
                  close s1
            end) by reflexivity.
  rewrite Hrun. clear Hrun.
  assert (Hpre_env : environ (snd ((do _ <- prints ["Starting Google Maps Edit Bot..."; rule];
                                    choose_user_data_dir a) s0)) = environ s0).
  { apply (steps_bind _ same_environ_bystander).
    - apply (steps_prints _ same_environ_bystander).
    - intros _. apply (steps_choose_user_data_dir _ same_environ_bystander). }
  assert (Hpre_h : same_handles s0 (snd ((do _ <- prints ["Starting Google Maps Edit Bot..."; rule];
                                          choose_user_data_dir a) s0))).
  { apply (steps_bind _ same_handles_bystander).
    - apply (steps_prints _ same_handles_bystander).
    - intros _. apply (steps_choose_user_data_dir _ same_handles_bystander). }
  destruct ((do _ <- prints ["Starting Google Maps Edit Bot..."; rule];
             choose_user_data_dir a) s0) as [[dir|e] s1].
  - cbn [snd] in Hpre_env, Hpre_h. destruct Hpre_h as [Hp1 Hc1].
    change (playwright s0) with (playwright s) in Hp1.
    change (context s0) with (context s) in Hc1.
    rewrite Hp in Hp1. rewrite Hc in Hc1.
    set (bot := configure a dir).
    unfold try_finally.
    set (body := try_except
                   (do _ <- _init_browser bot;
                    do _ <- act (Goto "https://www.google.com/maps");
                    do _ <- sleep 2;
                    run_edits a bot)
                   (fun _ => print "Error")).
    assert (Hbody_env : environ (snd (body s1)) = environ s1).
    { apply (steps_try_except _ same_environ_bystander).
      - apply (steps_bind _ same_environ_bystander).
        + apply (steps_init_browser _ same_environ_bystander same_environ_flags);
            intros s2; reflexivity.
        + intros _. apply (steps_visit_and_edit _ same_environ_bystander same_environ_flags).
      - intros e. apply (steps_print _ same_environ_bystander). }
    assert (Hbody_h : context (snd (body s1)) = true -> playwright (snd (body s1)) = true).
    { destruct (init_browser_handles bot s1 Hp1) as (_ & _ & _ & Hord).
      specialize (Hord Hc1). cbv zeta in Hord.
      destruct (_init_browser bot s1) as [ri si] eqn:Hi. cbn [snd] in Hord.
      assert (Hsame : same_handles si (snd (body s1))).
      { unfold body, try_except. unfold bind at 1. rewrite Hi.
        destruct ri as [[]|e].
        - pose proof (steps_visit_and_edit _ same_handles_bystander same_handles_flags
                        a bot si) as Hrest.
          destruct ((do _ <- act (Goto "https://www.google.com/maps");
                     do _ <- sleep 2; run_edits a bot) si) as [[[]|e] s2];
            cbn [snd] in *; exact Hrest.
        - split; reflexivity. }
      destruct Hsame as [Hp2 Hc2]. rewrite Hp2, Hc2. exact Hord. }
    destruct (body s1) as [r s2]. cbn [snd] in Hbody_env, Hbody_h.
    destruct (close_steps s2) as (s3 & -> & He3 & Hp3 & Hc3 & Ht3).
    cbv beta iota. cbn [snd]. rewrite He3, Hbody_env, Hpre_env, Hp3, Hc3.
    split; [reflexivity|]. split; [exact Hbody_h|]. now exists (trace s2).
  - cbn [snd] in Hpre_env, Hpre_h. destruct Hpre_h as [Hp1 Hc1].
    change (playwright s0) with (playwright s) in Hp1.
    change (context s0) with (context s) in Hc1.
    cbn [snd print emit add_trace environ playwright context trace].
    rewrite Hpre_env, Hp1, Hc1, Hp, Hc. split; [reflexivity|].
    split; [discriminate|]. eexists. now rewrite app_nil_r.
Qed.

(** *** The settings of a run *)

(** X18. However [main_async] is called, the bot it configures has a
    click delay that is not negative and a panel wait that is not
    negative, so the panel poll of [open_suggest_edit] makes at least
    one attempt and exactly [max(1, panel_wait)] when the panel never
    shows; without [panel_wait] the wait is the 3 seconds of the
    constructor. *)
Theorem configured_bounds (a : Args) (dir : string) :
  let bot := configure a dir in
  (0 <= click_delay bot)%Q /\
  (0 <= panel_wait_seconds bot)%Z /\
  (1 <= panel_attempts bot)%nat /\
  panel_attempts bot =
    Z.to_nat (Z.max 1 (match arg_panel_wait a with Some p => p | None => 3 end)).
Proof.
  intros bot. split; [|split; [|split]].
  - unfold bot, configure. cbn [click_delay].
    destruct (Qle_bool 0 (arg_click_delay a)) eqn:Hd.
    + now apply Qle_bool_iff.
    + apply Qle_refl.
  - unfold bot, configure. cbn [panel_wait_seconds].
    destruct (arg_panel_wait a); [lia|]. cbn. lia.
  - rewrite panel_attempts_value. lia.
  - rewrite panel_attempts_value. unfold bot, configure. cbn [panel_wait_seconds].
    destruct (arg_panel_wait a); [f_equal; lia|reflexivity].
Qed.

(** X19. The profile directory of a run: without [new_session] it is
    always [./browser_data]; with it, it is [./browser_data_] followed
    by the time in whole seconds, which is never the persistent
    directory, is the same for two runs started in the same second and
    differs for runs started in different seconds. *)
Theorem profile_dir_choice (a : Args) (s1 s2 : State W) (d1 d2 : string)
    (s1' s2' : State W) :
  choose_user_data_dir a s1 = (Ok d1, s1') ->
  choose_user_data_dir a s2 = (Ok d2, s2') ->
  (arg_new_session a = false -> d1 = "./browser_data") /\
  (arg_new_session a = true ->
     d1 <> "./browser_data" /\
     exists t1 t2,
       query Z QTime (world s1) = Ok t1 /\ query Z QTime (world s2) = Ok t2 /\
       d1 = ("./browser_data_" ++ pretty t1)%string /\
       (d1 = d2 <-> t1 = t2)).
Proof.
  unfold choose_user_data_dir. destruct (arg_new_session a).
  - unfold bind, ask, print, emit, ret.
    destruct (query Z QTime (world s1)) as [t1|e1]; [|discriminate].
    destruct (query Z QTime (world s2)) as [t2|e2]; [|discriminate].
    intros [= <- _] [= <- _]. split; [discriminate|]. intros _. split.
    + discriminate.
    + exists t1, t2. repeat split; auto.
      * intros Heq. apply (f_equal (String.substring 15 (String.length (pretty t1)))) in Heq as Heq1.
        assert (Hinj : pretty t1 = pretty t2).
        { revert Heq. generalize (pretty t1) (pretty t2). intros p1 p2 Heq.
          now injection Heq. }
        now apply (inj pretty) in Hinj.
      * now intros ->.
  - unfold bind, ask, print, emit, ret.
    destruct (query bool (QPathExists "./browser_data") (world s1)); [|discriminate].
    intros [= <- _] _. split; [reflexivity|discriminate].
Qed.

(** X20. [suggest_general_edit] returns [True] for every request,
    whatever the edits it runs return: a request without the keys
    "name" and "address" does nothing at all, and a request for a name
    alone leaves the session as [submit_name_change] leaves it, its
    result dropped. *)
Theorem general_edit_reports_success (self : Bot) (edit_details : gmap string string)
    (s : State W) :
  fst (suggest_general_edit self edit_details s) = Ok true /\
  (edit_details !! "name" = None -> edit_details !! "address" = None ->
   suggest_general_edit self edit_details s = (Ok true, s)) /\
  (forall new_name,
     edit_details !! "name" = Some new_name -> edit_details !! "address" = None ->
     snd (suggest_general_edit self edit_details s)
       = snd (submit_name_change self new_name s)).
Proof.
  split; [|split].
  - destruct (suggest_general_edit_true self edit_details s) as (b & s' & -> & <-).
    reflexivity.
  - intros Hn Ha. unfold suggest_general_edit, try_except, bind, ret.
    now rewrite Hn, Ha.
  - intros new_name Hn Ha.
    destruct (returns_submit_name_change self new_name s) as (b & s' & Hrun & _).
    unfold suggest_general_edit, try_except, bind, ret.
    rewrite Hn, Ha, Hrun. reflexivity.
Qed.

(** *** The place-name poll *)

Lemma after_seconds_next k (w : W) :
  after_seconds k (elapse 1 w) = after_seconds (S k) w.
Proof. unfold after_seconds. now rewrite Nat.iter_succ_r. Qed.

Lemma poll_place_name_skips self new_name k a n (s : State W) :
  (forall j, (j < k)%nat ->
     fst (first_nonempty (place_name_script (place_name_selectors self))
            (after_seconds (S j) (world s))) = None) ->
  poll_place_name self new_name (seq a (k + n)) s =
    poll_place_name self new_name (seq (a + k) n)
      (mkState (after_seconds k (world s)) (environ s)
         (trace s ++ still_looking a k) (playwright s) (context s)).
Proof.
  revert a s. induction k as [|k IH]; intros a s Hnone.
  - rewrite Nat.add_0_r. cbn [Nat.add after_seconds Nat.iter still_looking seq flat_map].
    rewrite app_nil_r. now destruct s.
  - cbn [Nat.add seq poll_place_name].
    unfold bind at 1. unfold sleep at 1.
    erewrite bind_ok by apply evaluate_in_all_frames_first.
    cbn [world add_trace set_world].
    pose proof (Hnone 0%nat ltac:(lia)) as H0.
    change (after_seconds 1 (world s)) with (elapse 1 (world s)) in H0.
    destruct (first_nonempty (place_name_script (place_name_selectors self))
                (elapse 1 (world s))) as [r fr].
    cbn [fst] in H0. subst r. cbn [fst].
    assert (Hstep :
      (do _ <- (if (a <? 14)%nat
                then print_with "Still looking... attempt" (pretty (a + 1)%nat)
                else ret tt);
       poll_place_name self new_name (seq (S a) (k + n)))
        (add_trace [EvSleep 1] (set_world (elapse 1 (world s)) s))
      = poll_place_name self new_name (seq (S a) (k + n))
          (mkState (elapse 1 (world s)) (environ s)
             (trace s ++ EvSleep 1 ::
                if (a <? 14)%nat
                then [EvPrintWith "Still looking... attempt" (pretty (a + 1)%nat)]
                else [])
             (playwright s) (context s))).
    { unfold bind, print_with, emit, ret, add_trace, set_world.
      destruct (a <? 14)%nat; cbn [world environ trace playwright context];
        rewrite <- ?app_assoc; reflexivity. }
    rewrite Hstep. rewrite IH.
    + cbn [world environ trace playwright context].
      rewrite after_seconds_next. replace (S a + k)%nat with (a + S k)%nat by lia.
      f_equal. f_equal. rewrite <- app_assoc. f_equal.
    + intros j Hj. cbn [world]. rewrite after_seconds_next. apply Hnone. lia.
Qed.

(** X21. The place-name poll looks once a second, at most 20 times, and
    stops at the first look that finds the field in some frame: when
    the field shows up at the [k+1]-th look, the name is filled in right
    then, after exactly [k+1] one-second waits, and what the fill
    returns is what the poll returns. When none of the 20 looks finds
    it, the poll ends without a result after 20 seconds, having printed
    "Still looking" for the first 14 only. *)
Theorem place_name_poll_stops_at_first_hit (self : Bot) (new_name : string)
    (s : State W) :
  let js := place_name_script (place_name_selectors self) in
  (forall k hit fr,
      (k < 20)%nat ->
      (forall j, (j < k)%nat -> fst (first_nonempty js (after_seconds (S j) (world s))) = None) ->
      first_nonempty js (after_seconds (S k) (world s)) = (Some hit, fr) ->
      poll_place_name self new_name (seq 0 20) s =
        (do b <- fill_place_name self new_name hit fr; ret (Some b)) (at_attempt k s)) /\
  ((forall j, (j < 20)%nat -> fst (first_nonempty js (after_seconds (S j) (world s))) = None) ->
   poll_place_name self new_name (seq 0 20) s =
     (Ok None, mkState (after_seconds 20 (world s)) (environ s)
                 (trace s ++ still_looking 0 20) (playwright s) (context s))).
Proof.
  intros js. split.
  - intros k hit fr Hk Hnone Hhit.
    replace 20%nat with (k + S (19 - k))%nat at 1 by lia.
    rewrite (poll_place_name_skips self new_name k 0 (S (19 - k)) s Hnone).
    cbn [Nat.add seq poll_place_name].
    unfold bind at 1. unfold sleep at 1.
    erewrite bind_ok by apply evaluate_in_all_frames_first.
    cbn [world add_trace set_world].
    change (elapse 1 (after_seconds k (world s))) with (after_seconds (S k) (world s)).
    fold js. rewrite Hhit. cbn [fst snd].
    unfold at_attempt, add_trace, set_world. cbn [world environ trace playwright context].
    now rewrite <- app_assoc.
  - intros Hnone.
    pose proof (poll_place_name_skips self new_name 20 0 0 s Hnone) as Hs.
    change (20 + 0)%nat with 20%nat in Hs. exact Hs.
Qed.

(** *** The confirmation poll *)

Lemma poll_ok_button_skips self k n (s : State W) :
  (forall j, (j < k)%nat ->
     fst (first_nonempty ok_script (after_pauses (1 # 2) j (world s))) = None) ->
  poll_ok_button self (k + n) s = poll_ok_button self n (paused (1 # 2) k s).
Proof.
  revert s. induction k as [|k IH]; intros s Hnone.
  - unfold paused. cbn [Nat.add after_pauses Nat.iter repeat].
    rewrite app_nil_r. now destruct s.
  - cbn [Nat.add poll_ok_button].
    erewrite bind_ok by apply evaluate_in_all_frames_first.
    pose proof (Hnone 0%nat ltac:(lia)) as H0.
    change (after_pauses (1 # 2) 0 (world s)) with (world s) in H0.
    destruct (first_nonempty ok_script (world s)) as [r fr].
    cbn [fst] in H0. subst r. cbn [fst].
    unfold bind at 1. unfold sleep at 1.
    rewrite IH.
    + unfold paused, add_trace, set_world. cbn [world environ trace playwright context].
      rewrite after_pauses_next. f_equal. f_equal.
      rewrite <- app_assoc. reflexivity.
    + intros j Hj. cbn [world add_trace set_world].
      rewrite after_pauses_next. apply Hnone. lia.
Qed.

(** X22. After a submit click the bot looks for a confirmation button
    at most six times, half a second apart, starting at once. The first
    look that finds one in some frame ends the poll: the button is
    clicked through [_click_xy_in_frame] in the frame that holds it, or
    in the main frame, after exactly as many half-second pauses as there
    were looks without a result. When none of the six looks finds one,
    the poll ends after six pauses without a click. *)
Theorem confirmation_poll_stops_at_first_hit (self : Bot) (s : State W) :
  (forall k p fr,
      (k < 6)%nat ->
      (forall j, (j < k)%nat ->
         fst (first_nonempty ok_script (after_pauses (1 # 2) j (world s))) = None) ->
      first_nonempty ok_script (after_pauses (1 # 2) k (world s)) = (Some p, fr) ->
      poll_ok_button self 6 s =
        (do f <- frame_or_main fr;
         do _ <- _click_xy_in_frame self f (pt_x p) (pt_y p);
         click_pause self) (paused (1 # 2) k s)) /\
  ((forall j, (j < 6)%nat ->
      fst (first_nonempty ok_script (after_pauses (1 # 2) j (world s))) = None) ->
   poll_ok_button self 6 s = (Ok tt, paused (1 # 2) 6 s)).
Proof.
  split.
  - intros k p fr Hk Hnone Hhit.
    replace 6%nat with (k + S (5 - k))%nat at 1 by lia.
    rewrite (poll_ok_button_skips self k (S (5 - k)) s Hnone).
    cbn [poll_ok_button].
    erewrite bind_ok by apply evaluate_in_all_frames_first.
    change (world (paused (1 # 2) k s)) with (after_pauses (1 # 2) k (world s)).
    destruct (first_nonempty ok_script (after_pauses (1 # 2) k (world s))) as [r f0].
    injection Hhit as -> ->. reflexivity.
  - intros Hnone.
    pose proof (poll_ok_button_skips self 6 0 s Hnone) as Hs.
    change (6 + 0)%nat with 6%nat in Hs. exact Hs.
Qed.

(** *** The selector cascades of the address edit *)

Lemma first_visible_step sel (use : Locator -> M W unit) (s : State W) :
  guarded
    (do c <- ask (QCount (first (locator sel)));
     if (0 <? c)%nat then
       do is_visible <- ask (QIsVisible (first (locator sel)));
       if is_visible then do _ <- use (first (locator sel)); ret true
       else ret false
     else ret false) s =
  if usable (world s) (first (locator sel)) then
    match use (first (locator sel)) s with
    | (Ok _, s') => (Ok true, s')
    | (Raise _, s') => (Ok false, s')
    end
  else (Ok false, s).
Proof.
  unfold guarded, try_except, usable. unfold bind at 1. unfold ask at 1.
  destruct (query nat (QCount (first (locator sel))) (world s)) as [c|e]; [|reflexivity].
  destruct (0 <? c)%nat; [|reflexivity]. cbn [andb].
  unfold bind at 1. unfold ask at 1.
  destruct (query bool (QIsVisible (first (locator sel))) (world s)) as [[|]|e];
    [|reflexivity|reflexivity].
  unfold bind. destruct (use (first (locator sel)) s) as [[[]|e] s']; reflexivity.
Qed.

(** X23. The three selector loops of [submit_address_change] (menu
    entry, address input, submit button) act on the first match of the
    first selector, in list order, whose first match exists and is
    visible; a selector the driver cannot count or inspect is passed
    over. When the action on that element raises, the loop does not
    stop: it goes on with the selectors that follow, in the session the
    failed action left. When no selector qualifies, nothing is done and
    the loop reports that it found nothing. *)
Theorem address_cascade_first_usable (use : Locator -> M W unit) (s : State W) :
  (forall pre sel post,
      (forall x, In x pre -> usable (world s) (first (locator x)) = false) ->
      usable (world s) (first (locator sel)) = true ->
      first_visible_of (pre ++ sel :: post) use s =
        match use (first (locator sel)) s with
        | (Ok _, s') => (Ok true, s')
        | (Raise _, s') => first_visible_of post use s'
        end) /\
  (forall sels,
      (forall x, In x sels -> usable (world s) (first (locator x)) = false) ->
      first_visible_of sels use s = (Ok false, s)).
Proof.
  assert (Hnone : forall sels rest,
            (forall x, In x sels -> usable (world s) (first (locator x)) = false) ->
            first_visible_of (sels ++ rest) use s = first_visible_of rest use s).
  { induction sels as [|x sels IH]; intros rest Hun; [reflexivity|].
    cbn [app first_visible_of].
    erewrite bind_ok
      by (rewrite first_visible_step, (Hun x) by (now left); reflexivity).
    apply IH. intros y Hy. apply Hun. now right. }
  split.
  - intros pre sel post Hpre Hsel. rewrite (Hnone pre _ Hpre).
    cbn [first_visible_of]. unfold bind at 1.
    rewrite first_visible_step, Hsel.
    destruct (use (first (locator sel)) s) as [[[]|e] s']; reflexivity.
  - intros sels Hun. rewrite <- (app_nil_r sels). rewrite (Hnone sels [] Hun).
    reflexivity.
Qed.

(** *** Discovery by keyboard *)

Section KeyboardAccepted.
Hypothesis keys_accepted : forall (w : W) (key : string), fst (perform (KeyPress key) w) = Ok tt.

Lemma returns_key key : returns (fun _ => True) (act (KeyPress key)).
Proof using All.
  intros s. unfold act. pose proof (keys_accepted (world s) key) as Hk.
  destruct (perform (KeyPress key) (world s)) as [r w']. cbn [fst] in Hk. subst r.
  eexists tt, _. split; [reflexivity|exact I].
Qed.

Lemma returns_press_tabs n : returns (fun _ => True) (press_tabs n).
Proof using All.
  induction n as [|n IH]; cbn [press_tabs].
  - now apply returns_ret.
  - apply returns_then; [apply returns_key|]. intros _.
    apply returns_then; [apply returns_sleep|]. intros _. exact IH.
Qed.

Lemma keyboard_navigation_true self : returns (eq true) (keyboard_navigation self).
Proof using All.
  unfold keyboard_navigation. apply returns_then; [apply returns_print|]. intros _.
  apply returns_try_body.
  apply returns_then; [apply returns_press_tabs|]. intros _.
  apply returns_then; [apply returns_key|]. intros _.
  apply returns_then; [apply returns_click_pause|]. intros _.
  apply returns_then; [apply returns_print|]. intros _.
  now apply returns_ret.
Qed.

Lemma discover_true self : returns (eq true) (discover_suggest_edit self).
Proof using All.
  unfold discover_suggest_edit.
  apply returns_then; [apply returns_click_by_selectors|]. intros found1.
  apply returns_then.
  { destruct found1; [now apply returns_ret|].
    unfold click_in_panel. apply returns_then; [apply returns_print|].
    intros _. apply returns_guarded. }
  intros found2.
  apply (returns_bind (eq true)).
  { destruct found2; [now apply returns_ret|apply keyboard_navigation_true]. }
  intros found3 <-. now apply returns_ret.
Qed.

End KeyboardAccepted.

(** X24. With a driver that accepts every key press, the discovery of
    the "Suggest an edit" control cannot fail: when neither the
    selectors nor the click inside the panel worked, five Tabs and Enter
    are sent and counted as a success without any check of the page, so
    the scan of the page text, the debug screenshot and the 45-second
    wait for the user are never reached. *)
Theorem keyboard_navigation_masks_failure :
  (forall (w : W) (key : string), fst (perform (KeyPress key) w) = Ok tt) ->
  forall (self : Bot) (s : State W),
    fst (discover_suggest_edit self s) = Ok true /\
    open_suggest_edit self s =
      (do _ <- await_panel self; discover_suggest_edit self) s.
Proof.
  intros Hkeys self s. split.
  - destruct (discover_true Hkeys self s) as (b & s' & -> & <-). reflexivity.
  - destruct (returns_await_panel self s) as ([] & s1 & Hawait & _).
    destruct (discover_true Hkeys self s1) as (b & s2 & Hd & <-).
    assert (Hbody : (do _ <- await_panel self;
                     do found <- discover_suggest_edit self;
                     if found then ret true else give_up_and_wait) s = (Ok true, s2)).
    { erewrite bind_ok by exact Hawait. erewrite bind_ok by exact Hd. reflexivity. }
    assert (Hshort : (do _ <- await_panel self; discover_suggest_edit self) s
                     = (Ok true, s2)).
    { erewrite bind_ok by exact Hawait. exact Hd. }
    unfold open_suggest_edit, try_except. now rewrite Hbody, Hshort.
Qed.

(** *** The fallback inputs when no page shows a submit control *)

Section NoSubmitControl.
Hypothesis no_submit :
  forall (w : W) (d : Doc),
    frame_doc w (main_frame w) = Some d -> fallback_submit_script d = Ok None.

Lemma try_fallback_input_none self new_name idx inp :
  returns (eq None) (try_fallback_input self new_name idx inp).
Proof using All.
  intros s. unfold try_fallback_input, try_except.
  destruct (fill_fallback_input self new_name idx inp s) as [[[]|e] s1] eqn:Hfill.
  - erewrite bind_ok by exact Hfill.
    unfold fallback_submit_search, page_evaluate, evaluate. unfold bind at 1.
    destruct (frame_doc (world s1) (main_frame (world s1))) as [d|] eqn:Hd.
    + rewrite (no_submit _ _ Hd).
      change (click_fallback_submit self None s1) with (@Raise bool TypeError, s1).
      cbv beta iota. unfold bind, print_with, emit, ret. eauto.
    + unfold bind, print_with, emit, ret. eauto.
  - erewrite bind_raise by exact Hfill.
    unfold bind, print_with, emit, ret. eauto.
Qed.

Lemma try_fallback_inputs_none self new_name inputs :
  returns (eq None) (try_fallback_inputs self new_name inputs).
Proof using All.
  induction inputs as [|[idx inp] rest IH]; cbn [try_fallback_inputs].
  - now apply returns_ret.
  - apply (returns_bind (eq None)); [apply try_fallback_input_none|].
    intros r <-. exact IH.
Qed.

End NoSubmitControl.

(** X25. When no page shows anything the fallback query takes for a
    submit control, the loop over the editable elements never returns:
    each turn ends in the handler, and the loop goes on to type the new
    name into the next element. [submit_name_change] then falls through
    to its last lines and returns [True], although nothing was
    submitted. *)
Theorem fallback_without_submit_reports_success :
  (forall (w : W) (d : Doc),
      frame_doc w (main_frame w) = Some d -> fallback_submit_script d = Ok None) ->
  forall (self : Bot) (new_name : string),
    (forall inputs s, fst (try_fallback_inputs self new_name inputs s) = Ok None) /\
    (forall s s1 s2 s3 editable_elements,
        enter_name_dialog self new_name s = (Ok true, s1) ->
        look_for_place_name self new_name s1 = (Ok None, s2) ->
        scan_editables s2 = (Ok editable_elements, s3) ->
        editable_elements <> [] ->
        fst (submit_name_change self new_name s) = Ok true).
Proof.
  intros Hnone self new_name. split.
  - intros inputs s.
    destruct (try_fallback_inputs_none Hnone self new_name inputs s) as (r & s' & -> & <-).
    reflexivity.
  - intros s s1 s2 s3 editable_elements Hmenu Hpoll Hscan Hne.
    unfold submit_name_change, try_except.
    erewrite bind_ok by exact Hmenu.
    assert (Hfill : exists s4, fill_name self new_name s1 = (Ok None, s4)).
    { unfold fill_name. erewrite bind_ok by exact Hpoll.
      unfold fallback_any_input. erewrite bind_ok by exact Hscan.
      destruct editable_elements as [|e0 rest]; [now elim Hne|].
      unfold bind at 1. unfold print_with at 1. unfold emit at 1.
      match goal with
      | |- context [bind (describe_inputs ?l) ?k ?st] =>
          destruct (describe_inputs l st) as [[[]|e] s5] eqn:Hdesc
      end.
      - erewrite bind_ok by exact Hdesc.
        destruct (try_fallback_inputs_none Hnone self new_name (enumerate (e0 :: rest)) s5)
          as (r & s' & Hrun & <-).
        exists s'. exact Hrun.
      - exfalso. revert Hdesc. generalize (enumerate (e0 :: rest)).
        match goal with |- forall l, describe_inputs l ?st = _ -> _ => generalize st end.
        intros st l. revert st. induction l as [|[i x] l IHl]; intros st; cbn [describe_inputs].
        + discriminate.
        + unfold bind at 1. unfold print_with at 1. unfold emit at 1. apply IHl. }
    destruct Hfill as [s4 Hfill].
    erewrite bind_ok by exact Hfill. reflexivity.
Qed.

End SessionFacts.

(** ** The command line *)

Section CommandLineFacts.
Import Dom Js Session Bot Notions Cli.
Variable int : string -> option Z.
Variable float : string -> option Q.

(** X26. Whatever the command line and the environment, the call of
    [main_async] made by [main] passes a [panel_wait] and a [post_ok]
    that are not [None], so both settings of the constructor are always
    overwritten: the confirmation click after a submit, on by default in
    the constructor, is on only if [--post-ok] was given or
    [GMAPS_POST_OK] is "true", "1" or "yes" in any letter case; a switch
    set through the environment cannot be turned off on the command
    line. *)
Theorem command_line_overrides_post_ok (env : gmap string string) (cl : CommandLine)
    (ns : Namespace) (dir : string) :
  parse_args int float env cl = Some ns ->
  let bot := configure (to_args ns) dir in
  post_ok_click bot = (cl_post_ok cl || env_switch env "GMAPS_POST_OK") /\
  post_ok_click (new_bot (ns_headless ns) (Some dir)) = true /\
  (cl_post_ok cl = false -> env !! "GMAPS_POST_OK" = None -> post_ok_click bot = false) /\
  (env_switch env "GMAPS_POST_OK" = true -> post_ok_click bot = true) /\
  (exists panel_wait,
      int (getenv_or env "GMAPS_PANEL_WAIT" "3") = Some panel_wait /\
      panel_wait_seconds bot = Z.max 0 (or_default (cl_panel_wait cl) panel_wait)).
Proof.
  unfold parse_args.
  destruct (int (getenv_or env "GMAPS_WAIT" "5")) as [wait|]; [|discriminate].
  destruct (int (getenv_or env "GMAPS_SIGNIN_WAIT" "0")) as [signin|]; [|discriminate].
  destruct (float (getenv_or env "GMAPS_CLICK_DELAY" "0.5")) as [delay|]; [|discriminate].
  destruct (int (getenv_or env "GMAPS_PANEL_WAIT" "3")) as [panel|]; [|discriminate].
  intros [= <-]. cbn.
  split; [reflexivity|]. split; [reflexivity|]. split; [|split].
  - intros -> Henv. unfold env_switch, getenv_or. now rewrite Henv.
  - intros ->. apply orb_true_r.
  - exists panel. split; reflexivity.
Qed.

Context {W : Type} `{Browser W}.

(** X27. [main] starts a run only when there is a search text and a new
    name or a new address, each taken from the command line or else from
    the environment: without them it prints one error and the help text
    and touches neither the browser nor the environment. A numeric
    default in the environment that cannot be converted ends [main] with
    an error before anything is printed, even when the option is given
    on the command line. *)
Theorem main_checks_its_arguments (cl : CommandLine) (s : State W) :
  (forall run,
      main int float cl s = Some run ->
      exists ns,
        parse_args int float (environ s) cl = Some ns /\
        ((falsy (ns_search ns) = true \/
          (falsy (ns_name ns) = true /\ falsy (ns_address ns) = true)) ->
         exists message,
           run = (Ok tt, add_trace [EvPrint message; EvPrint "(the help text of the parser)"] s)) /\
        (falsy (ns_search ns) = false ->
         (falsy (ns_name ns) = false \/ falsy (ns_address ns) = false) ->
         run = main_async (to_args ns) s /\
         Text.nonempty (arg_search (to_args ns)) = true /\
         (given (arg_name (to_args ns)) <> None \/ given (arg_address (to_args ns)) <> None))) /\
  (forall name, In name ["GMAPS_WAIT"; "GMAPS_SIGNIN_WAIT"; "GMAPS_PANEL_WAIT"] ->
     forall v, environ s !! name = Some v -> int v = None -> main int float cl s = None).
Proof.
  split.
  - intros run. unfold main.
    destruct (parse_args int float (environ s) cl) as [ns|]; [|discriminate].
    intros [= <-]. exists ns. split; [reflexivity|]. split.
    + intros [Hs | [Hn Ha]].
      * rewrite Hs. eexists. unfold bind, print_help, print, emit.
        cbv beta iota. rewrite add_trace_add_trace. reflexivity.
      * destruct (falsy (ns_search ns)).
        -- eexists. unfold bind, print_help, print, emit.
           cbv beta iota. rewrite add_trace_add_trace. reflexivity.
        -- rewrite Hn, Ha. cbn [andb]. eexists. unfold bind, print_help, print, emit.
           cbv beta iota. rewrite add_trace_add_trace. reflexivity.
    + intros Hs Hna. rewrite Hs.
      assert (Hboth : falsy (ns_name ns) && falsy (ns_address ns) = false).
      { destruct Hna as [-> | ->]; [reflexivity|apply andb_false_r]. }
      rewrite Hboth. split; [reflexivity|]. split.
      * unfold to_args, falsy in *. cbn. destruct (ns_search ns) as [v|]; [|discriminate].
        cbn. now apply negb_false_iff in Hs.
      * unfold to_args, falsy, given in *. cbn.
        destruct Hna as [Hn | Ha]; [left|right].
        -- destruct (ns_name ns) as [v|]; [|discriminate].
           apply negb_false_iff in Hn. now rewrite Hn.
        -- destruct (ns_address ns) as [v|]; [|discriminate].
           apply negb_false_iff in Ha. now rewrite Ha.
  - intros name Hin v Henv Hint. unfold main, parse_args, getenv_or.
    destruct Hin as [<- | [<- | [<- | []]]]; rewrite Henv;
      repeat match goal with
             | |- context [match int ?x with _ => _ end] => destruct (int x) eqn:?
             | |- context [match float ?x with _ => _ end] => destruct (float x) eqn:?
             end;
      try reflexivity; congruence.
Qed.

End CommandLineFacts.

(** ** The further properties on explicit pages *)

Section FurtherRunsOnPages.
Import Dom Js Session Bot Scripted Notions Examples Relations Observer Cli Cases.

Lemma submit_query_stops_at_invalid_selector_witness :
  submit_script Js.submit_selectors aria_submit_page = Raise SyntaxError.
Proof.
  apply (proj2 submit_query_stops_at_invalid_selector).
  intros s' [<- | [<- | [<- | []]]]; vm_compute; reflexivity.
Defined.

Lemma place_name_hit_origin_witness :
  place_name_script Js.place_name_selectors label_page
    = Ok (Some (label_hit name_field_entry)) /\
  String.eqb (ih_foundBy (label_hit name_field_entry)) "material-design" = false.
Proof.
  assert (Hrun : place_name_script Js.place_name_selectors label_page
                 = Ok (Some (label_hit name_field_entry)))
    by (vm_compute; reflexivity).
  split; [exact Hrun|].
  exact (proj2 (place_name_hit_origin _ _ _ Hrun)).
Defined.

Lemma guarded_click_is_not_reported_witness :
  exists up rest,
    trace (snd (_click_xy_in_frame plain_bot 0%nat 10 10 framed_session)) =
      trace framed_session ++ up ++ EvAct (MouseClick 10 10) :: rest /\
    click_listener true (flags_of (trace framed_session ++ up) !! 1%nat) (Ok tt) true = None.
Proof.
  destruct (guarded_click_is_not_reported plain_bot 0%nat 10 10 framed_session)
    as (up & rest & Ht & _ & Hf).
  exists up, rest. split; [exact Ht|]. apply Hf. apply framed_page_reachable.
Defined.

Lemma raw_clicks_are_reported_witness :
  click_listener true
    (flags_of (trace menu_only_session ++
               [EvPrintWith "Trying, clicking via JavaScript:" "Edit name or other details"])
       !! 0%nat) (Ok tt) true = Some tt.
Proof.
  refine (proj2 (raw_clicks_are_reported plain_bot "New Name" menu_only_session
                   [EvPrintWith "Trying, clicking via JavaScript:" "Edit name or other details"]
                   [EvSleep (1 # 2); EvSleep 2; EvPrint "Clicked via coordinates"]
                   (MouseClick (340 # 2) (440 # 2)) 0%nat _) _ unit tt).
  - right. left. vm_compute. reflexivity.
  - vm_compute. discriminate.
Defined.

Lemma name_edit_without_menu_entry_witness :
  exists s',
    submit_name_change plain_bot "New Name" blank_session = (Ok true, s') /\
    trace s' = trace (snd (enter_name_dialog plain_bot "New Name" blank_session)) ++
      [EvPrint "Menu option not found or couldn't fill input"; EvSleep 2].
Proof.
  destruct (name_edit_without_menu_entry plain_bot "New Name" blank_session
              (snd (enter_name_dialog plain_bot "New Name" blank_session)))
    as (s' & Hrun & Ht & _).
  { vm_compute. reflexivity. }
  exists s'. split; [exact Hrun|exact Ht].
Defined.

Lemma submit_falls_back_to_enter_witness :
  exists s',
    click_submit plain_bot aria_submit_session = (Ok true, s') /\
    trace s' = [EvPrint "Looking for submit button..."; EvSleep 2;
                EvAct (KeyPress "Enter"); EvSleep 2;
                EvPrint "Pressed Enter as submit fallback"].
Proof.
  destruct (submit_falls_back_to_enter plain_bot aria_submit_session) as (s' & Hrun & Ht).
  { vm_compute. reflexivity. }
  exists s'. split; [exact Hrun|]. rewrite Ht. reflexivity.
Defined.

Lemma submit_click_decides_result_witness :
  fst (click_submit plain_bot run_with_form) = Ok true.
Proof.
  refine (submit_click_decides_result plain_bot run_with_form
            (exact_hit (working_submit_label_entry)) (Some 0%nat) _).
  vm_compute. reflexivity.
Defined.

Lemma fallback_submit_narration_witness :
  exists s',
    click_fallback_submit (configure quick_args "./browser_data")
      (Some (exact_hit working_submit_label_entry)) run_with_form = (Ok true, s') /\
    In (EvPrint "Submit button not found") (trace s').
Proof.
  destruct (fallback_submit_narration (configure quick_args "./browser_data")
              (exact_hit working_submit_label_entry) run_with_form (world run_with_form))
    as (s' & Hrun & Ht).
  { reflexivity. }
  exists s'. split; [exact Hrun|]. rewrite Ht. simpl. tauto.
Defined.

Lemma search_types_query_when_no_box_witness :
  exists s',
    search_location "Test Cafe" 5 blank_session = (Ok true, s') /\
    In (EvAct (KeyType "Test Cafe")) (trace s').
Proof.
  destruct (proj2 (search_types_query_when_no_box "Test Cafe" 5 blank_session))
    as (b & s' & tail & Hrun & Ht & Hb & _).
  { intros sel Hin. reflexivity. }
  assert (Htrue : b = true) by (apply Hb; split; reflexivity).
  subst b. exists s'. split; [exact Hrun|].
  rewrite Ht. apply in_or_app. right. apply in_or_app. left. simpl. tauto.
Defined.

Lemma run_leaves_session_closed_witness :
  exists before,
    trace (snd (main_async name_args blank_session)) =
      before ++ [EvAct CloseContext; EvAct StopPlaywright].
Proof.
  destruct (run_leaves_session_closed name_args blank_session eq_refl eq_refl)
    as (_ & _ & before & Ht).
  exists before. rewrite Ht. reflexivity.
Defined.

Lemma profile_dir_choice_witness :
  fst (choose_user_data_dir fresh_args blank_session) = Ok "./browser_data_1700000000" /\
  "./browser_data_1700000000" <> "./browser_data".
Proof.
  assert (Hrun : choose_user_data_dir fresh_args blank_session =
                 (Ok "./browser_data_1700000000",
                  snd (choose_user_data_dir fresh_args blank_session)))
    by (vm_compute; reflexivity).
  split; [now rewrite Hrun|].
  exact (proj1 (proj2 (profile_dir_choice _ _ _ _ _ _ _ Hrun Hrun) eq_refl)).
Defined.

Lemma place_name_poll_stops_at_first_hit_witness :
  poll_place_name plain_bot "New Name" (seq 0 20) late_form_session =
    (bind (fill_place_name plain_bot "New Name"
             (captured_hit (body_child [i7_input] i7_input)) (Some 0%nat))
       (fun b => ret (Some b)))
      (at_attempt 1 late_form_session).
Proof.
  apply (proj1 (place_name_poll_stops_at_first_hit plain_bot "New Name" late_form_session)
           1%nat).
  - lia.
  - intros j Hj. assert (j = 0%nat) as -> by lia. vm_compute. reflexivity.
  - vm_compute. reflexivity.
Defined.

Lemma confirmation_poll_stops_at_first_hit_witness :
  poll_ok_button plain_bot 6 late_dialog_session =
    (bind (frame_or_main (Some 0%nat))
       (fun f => bind (_click_xy_in_frame plain_bot f (680 # 2) (530 # 2))
                   (fun _ => click_pause plain_bot)))
      (paused (1 # 2) 2 late_dialog_session).
Proof.
  apply (proj1 (confirmation_poll_stops_at_first_hit plain_bot late_dialog_session)
           2%nat (mkPoint (680 # 2) (530 # 2)) (Some 0%nat)).
  - lia.
  - intros j Hj. assert (j = 0%nat \/ j = 1%nat) as [-> | ->] by lia;
      vm_compute; reflexivity.
  - vm_compute. reflexivity.
Defined.

Lemma address_cascade_first_usable_witness :
  exists s',
    click_address_option plain_bot address_entry_session = (Ok false, s') /\
    trace s' = [EvAct (LocClick (first (locator "[data-value='address']")))].
Proof.
  pose proof (proj1 (address_cascade_first_usable
                       (fun option =>
                          bind (act (LocClick option))
                            (fun _ => bind (click_pause plain_bot)
                               (fun _ => bind (sleep 2)
                                  (fun _ => print "Clicked address option"))))
                       address_entry_session)
                (firstn 4 address_menu_selectors) "[data-value='address']"
                (skipn 5 address_menu_selectors)) as Hstep.
  eexists. split.
  - unfold click_address_option.
    change address_menu_selectors
      with (firstn 4 address_menu_selectors ++ "[data-value='address']" ::
            skipn 5 address_menu_selectors).
    rewrite Hstep.
    + vm_compute. reflexivity.
    + intros x [<- | [<- | [<- | [<- | []]]]]; vm_compute; reflexivity.
    + vm_compute. reflexivity.
  - vm_compute. reflexivity.
Defined.

Lemma command_line_overrides_post_ok_witness :
  post_ok_click (configure (to_args short_namespace) "./browser_data") = false /\
  post_ok_click (new_bot false (Some "./browser_data")) = true.
Proof.
  destruct (command_line_overrides_post_ok always_five always_half ∅ short_command_line
              short_namespace "./browser_data")
    as (_ & Hdefault & Hoff & _).
  { vm_compute. reflexivity. }
  split; [|exact Hdefault].
  apply Hoff; reflexivity.
Defined.

End FurtherRunsOnPages.

(** ** The further properties on a browser that never changes *)

Section OnASteadyPage.
Import Dom Js Session Bot Scripted Notions Examples Relations Cases Steady.

Lemma keyboard_navigation_masks_failure_witness :
  fst (discover_suggest_edit plain_bot Steady.start) = Ok true.
Proof.
  apply (keyboard_navigation_masks_failure (W:=unit)).
  intros w key. reflexivity.
Defined.

Lemma fallback_without_submit_reports_success_witness :
  fst (submit_name_change plain_bot "New Name" Steady.start) = Ok true.
Proof.
  set (s1 := snd (enter_name_dialog plain_bot "New Name" Steady.start)).
  set (s2 := snd (look_for_place_name plain_bot "New Name" s1)).
  set (s3 := snd (scan_editables s2)).
  refine (proj2 (fallback_without_submit_reports_success (W:=unit) _ plain_bot "New Name")
            Steady.start s1 s2 s3 [note_editable] _ _ _ _).
  - intros [] d Hd. vm_compute in Hd. injection Hd as <-. vm_compute. reflexivity.
  - vm_compute. reflexivity.
  - vm_compute. reflexivity.
  - vm_compute. reflexivity.
  - discriminate.
Defined.

End OnASteadyPage.
